(** * The task/process core of the osdev-arm kernel, embedded in Rocq

    The development follows the C sources: spinlocks (kernel/nano/spinlock.c),
    the scheduler and the mailbox (the two translation units of
    unnamed/part_003) and the process lifecycle (kernel/process/process.c).

    C objects live in maps keyed by their address; a pointer is the key.
    An address that was never written reads as the zero-initialised object,
    as static storage does.  A function of the kernel is a computation in the
    monad [M]: it runs on a CPU, threads the kernel state, and ends by
    returning, by a panic, by busy-waiting on a spinlock or by a context
    switch to the scheduler; the last two carry the rest of the function. *)

From stdpp Require Import gmap list strings.
From Stdlib Require Import ZArith Lia.
From Stdlib.Strings Require Import Byte.

Local Open Scope Z_scope.

(** ** C integers *)

(** [int] is 32 bits wide; arithmetic that leaves the range wraps around. *)
Definition INT_MIN : Z := - 2 ^ 31.
Definition INT_MAX : Z := 2 ^ 31 - 1.

Definition wrap_int (z : Z) : Z := (z + 2 ^ 31) mod 2 ^ 32 - 2 ^ 31.

Definition int_range (z : Z) : Prop := INT_MIN <= z <= INT_MAX.

(** The value of a C comparison: 1 when it holds, 0 otherwise. *)
Definition c_bool (b : bool) : Z := if b then 1 else 0.

(** A C condition is taken when its value is not zero. *)
Definition c_true (z : Z) : bool := negb (z =? 0).

#[export] Instance byte_eq_decision : EqDecision Byte.byte := Byte.byte_eq_dec.

(** ** Addresses *)

Abbreviation cpu_id := nat (only parsing).
Abbreviation tid := nat (only parsing).
Abbreviation proc_ref := nat (only parsing).
Abbreviation vm_ref := nat (only parsing).
Abbreviation mbox_ref := nat (only parsing).
Abbreviation page_ref := nat (only parsing).
Abbreviation file_ref := nat (only parsing).
Abbreviation inode_ref := nat (only parsing).

(** ** What the sources use and do not define

    Constants of headers that are not part of the sources (errno.h,
    sys/wait.h, limits.h, the memory layout, the task header), and the
    virtual-memory subsystem, which process.c only calls. *)
Class Extern := {
  ENOMEM : Z;
  EINVAL : Z;
  ECHILD : Z;
  EAGAIN : Z;
  ETIMEDOUT : Z;
  WNOHANG : Z;
  WUNTRACED : Z;
  NCALLERPCS : nat;
  TASK_FLAGS_RESCHEDULE : Z;
  TASK_MAX_PRIORITIES : nat;
  K_MAILBOX_TYPE : Z;
  NZERO : Z;
  OPEN_MAX : nat;
  VIRT_USTACK_TOP : Z;
  USTACK_SIZE : Z;
  PSR_M_USR : Z;
  PSR_F : Z;
  PT_LOAD : Z;
  VM_READ : Z;
  VM_WRITE : Z;
  VM_EXEC : Z;
  (** the state of the virtual-memory subsystem and its entry points *)
  VmState : Type;
  vm_space_create : VmState -> option vm_ref * VmState;
  vm_space_destroy : option vm_ref -> VmState -> VmState;
  vm_space_clone : option vm_ref -> VmState -> option vm_ref * VmState;
  vm_space_alloc : option vm_ref -> Z -> Z -> Z -> VmState -> Z * VmState;
  vm_space_copy_out :
    option vm_ref -> Z -> list Byte.byte -> Z -> VmState -> Z * VmState;
}.

(** kernel/include/kernel/vm.h *)
Definition VM_USER : Z := Z.shiftl 1 4.

(** ** Data *)

(** struct SpinLock: the lock word, the CPU holding it, the debug name and
    the saved caller PCs. *)
Record SpinLock := mkSpinLock {
  locked : Z;
  lock_cpu : option cpu_id;
  lock_name : string;
  pcs : list Z;
}.

(** SPIN_INITIALIZER(name), with the name left empty. *)
Definition SPIN_INITIALIZER : SpinLock :=
  {| locked := 0; lock_cpu := None; lock_name := EmptyString; pcs := [] |}.

#[export] Instance SpinLock_inhabited : Inhabited SpinLock :=
  populate SPIN_INITIALIZER.

Inductive TaskState :=
| TASK_STATE_NONE
| TASK_STATE_SUSPENDED
| TASK_STATE_READY
| TASK_STATE_RUNNING
| TASK_STATE_SLEEPING
| TASK_STATE_DESTROYED.

#[export] Instance TaskState_eq_dec : EqDecision TaskState.
Proof. solve_decision. Defined.

(** The sleep timer of a task: the field the scheduler writes. *)
Record KTimer := mkKTimer {
  remain : Z;
}.

(** struct Task, the fields the scheduler reads and writes. *)
Record Task := mkTask {
  flags : Z;
  priority : Z;
  state : TaskState;
  sleep_result : Z;
  sleep_timer : KTimer;
  task_cpu : option cpu_id;
  task_process : option proc_ref;
  task_kstack : option page_ref;
}.

#[export] Instance Task_inhabited : Inhabited Task :=
  populate {| flags := 0; priority := 0; state := TASK_STATE_NONE;
              sleep_result := 0;
              sleep_timer := {| remain := 0 |};
              task_cpu := None; task_process := None; task_kstack := None |}.

(** struct Cpu.  [irq_enabled] is the interrupt mask of the processor status
    register and [fp_chain] the return addresses found along the frame
    pointer chain of the code running on the CPU. *)
Record Cpu := mkCpu {
  cpu_task : option tid;
  isr_nesting : Z;
  irq_save_count : Z;
  irq_flags : Z;
  irq_enabled : bool;
  fp_chain : list Z;
}.

#[export] Instance Cpu_inhabited : Inhabited Cpu :=
  populate {| cpu_task := None; isr_nesting := 0; irq_save_count := 0;
              irq_flags := 0; irq_enabled := false; fp_chain := [] |}.

(** struct TrapFrame: the registers process.c names, and the others. *)
Record TrapFrame := mkTrapFrame {
  r0 : Z;
  r1 : Z;
  r2 : Z;
  tf_sp : Z;
  psr : Z;
  pc : Z;
  tf_other : list Z;
}.

#[export] Instance TrapFrame_inhabited : Inhabited TrapFrame :=
  populate {| r0 := 0; r1 := 0; r2 := 0; tf_sp := 0; psr := 0; pc := 0;
              tf_other := [] |}.

(** struct ProcessThread around its embedded task: the thread and its task
    have the same address. *)
Record ProcessThread := mkProcessThread {
  thread_process : option proc_ref;
  pid : Z;
  kstack : option page_ref;
  tf : TrapFrame;
}.

#[export] Instance ProcessThread_inhabited : Inhabited ProcessThread :=
  populate {| thread_process := None; pid := 0; kstack := None;
              tf := inhabitant |}.

(** struct Process.  [children] is the list headed by the process, in link
    order.  The wait channel is embedded: its address follows from the
    address of the process. *)
Record Process := mkProcess {
  thread : option tid;
  vm : option vm_ref;
  parent : option proc_ref;
  children : list proc_ref;
  zombie : Z;
  exit_code : Z;
  files : list (option file_ref);
  cwd : option inode_ref;
  ruid : Z;
  euid : Z;
  rgid : Z;
  egid : Z;
  cmask : Z;
}.

#[export] Instance Process_inhabited : Inhabited Process :=
  populate {| thread := None; vm := None; parent := None; children := [];
              zombie := 0; exit_code := 0; files := []; cwd := None;
              ruid := 0; euid := 0; rgid := 0; egid := 0; cmask := 0 |}.

(** struct KMailBox.  The ring is [buf]; the cursors are byte offsets from
    [buf_start], which is offset 0.  The lock and the two wait lists are
    embedded: their addresses follow from the address of the mailbox. *)
Record KMailBox := mkKMailBox {
  buf : list Byte.byte;
  buf_end : Z;
  read_ptr : Z;
  write_ptr : Z;
  msg_size : Z;
  capacity : Z;
  size : Z;
  mbox_type : Z;
}.

#[export] Instance KMailBox_inhabited : Inhabited KMailBox :=
  populate {| buf := []; buf_end := 0; read_ptr := 0; write_ptr := 0;
              msg_size := 0; capacity := 0; size := 0; mbox_type := 0 |}.

(** An ELF image as process_load_binary reads it: the header fields it
    uses, the program headers found at [phoff], and the bytes of the image.
    The layout of the headers is that of the ELF standard. *)
Record Elf32_Phdr := mkElf32_Phdr {
  p_type : Z;
  p_offset : Z;
  p_vaddr : Z;
  p_filesz : Z;
  p_memsz : Z;
}.

Record Elf32_Ehdr := mkElf32_Ehdr {
  ident : list Byte.byte;
  entry : Z;
  phdrs : list Elf32_Phdr;
  image : list Byte.byte;
}.

(** Assignments to one field of a structure. *)
Definition set_locked (v : Z) (x : SpinLock) : SpinLock :=
  mkSpinLock v (lock_cpu x) (lock_name x) (pcs x).
Definition set_lock_cpu (v : option cpu_id) (x : SpinLock) : SpinLock :=
  mkSpinLock (locked x) v (lock_name x) (pcs x).
Definition set_lock_name (v : string) (x : SpinLock) : SpinLock :=
  mkSpinLock (locked x) (lock_cpu x) v (pcs x).
Definition set_pcs (v : list Z) (x : SpinLock) : SpinLock :=
  mkSpinLock (locked x) (lock_cpu x) (lock_name x) v.

Definition set_flags (v : Z) (x : Task) : Task :=
  mkTask v (priority x) (state x) (sleep_result x) (sleep_timer x)
    (task_cpu x) (task_process x) (task_kstack x).
Definition set_priority (v : Z) (x : Task) : Task :=
  mkTask (flags x) v (state x) (sleep_result x) (sleep_timer x) (task_cpu
    x) (task_process x) (task_kstack x).
Definition set_state (v : TaskState) (x : Task) : Task :=
  mkTask (flags x) (priority x) v (sleep_result x) (sleep_timer x)
    (task_cpu x) (task_process x) (task_kstack x).
Definition set_sleep_result (v : Z) (x : Task) : Task :=
  mkTask (flags x) (priority x) (state x) v (sleep_timer x) (task_cpu x)
    (task_process x) (task_kstack x).
Definition set_sleep_timer (v : KTimer) (x : Task) : Task :=
  mkTask (flags x) (priority x) (state x) (sleep_result x) v (task_cpu x)
    (task_process x) (task_kstack x).
Definition set_task_cpu (v : option cpu_id) (x : Task) : Task :=
  mkTask (flags x) (priority x) (state x) (sleep_result x) (sleep_timer x)
    v (task_process x) (task_kstack x).
Definition set_task_process (v : option proc_ref) (x : Task) : Task :=
  mkTask (flags x) (priority x) (state x) (sleep_result x) (sleep_timer x)
    (task_cpu x) v (task_kstack x).
Definition set_task_kstack (v : option page_ref) (x : Task) : Task :=
  mkTask (flags x) (priority x) (state x) (sleep_result x) (sleep_timer x)
    (task_cpu x) (task_process x) v.

Definition set_cpu_task (v : option tid) (x : Cpu) : Cpu :=
  mkCpu v (isr_nesting x) (irq_save_count x) (irq_flags x) (irq_enabled x)
    (fp_chain x).
Definition set_isr_nesting (v : Z) (x : Cpu) : Cpu :=
  mkCpu (cpu_task x) v (irq_save_count x) (irq_flags x) (irq_enabled x)
    (fp_chain x).
Definition set_irq_save_count (v : Z) (x : Cpu) : Cpu :=
  mkCpu (cpu_task x) (isr_nesting x) v (irq_flags x) (irq_enabled x)
    (fp_chain x).
Definition set_irq_flags (v : Z) (x : Cpu) : Cpu :=
  mkCpu (cpu_task x) (isr_nesting x) (irq_save_count x) v (irq_enabled x)
    (fp_chain x).
Definition set_irq_enabled (v : bool) (x : Cpu) : Cpu :=
  mkCpu (cpu_task x) (isr_nesting x) (irq_save_count x) (irq_flags x) v
    (fp_chain x).
Definition set_fp_chain (v : list Z) (x : Cpu) : Cpu :=
  mkCpu (cpu_task x) (isr_nesting x) (irq_save_count x) (irq_flags x)
    (irq_enabled x) v.

Definition set_r0 (v : Z) (x : TrapFrame) : TrapFrame :=
  mkTrapFrame v (r1 x) (r2 x) (tf_sp x) (psr x) (pc x) (tf_other x).
Definition set_r1 (v : Z) (x : TrapFrame) : TrapFrame :=
  mkTrapFrame (r0 x) v (r2 x) (tf_sp x) (psr x) (pc x) (tf_other x).
Definition set_r2 (v : Z) (x : TrapFrame) : TrapFrame :=
  mkTrapFrame (r0 x) (r1 x) v (tf_sp x) (psr x) (pc x) (tf_other x).
Definition set_tf_sp (v : Z) (x : TrapFrame) : TrapFrame :=
  mkTrapFrame (r0 x) (r1 x) (r2 x) v (psr x) (pc x) (tf_other x).
Definition set_psr (v : Z) (x : TrapFrame) : TrapFrame :=
  mkTrapFrame (r0 x) (r1 x) (r2 x) (tf_sp x) v (pc x) (tf_other x).
Definition set_pc (v : Z) (x : TrapFrame) : TrapFrame :=
  mkTrapFrame (r0 x) (r1 x) (r2 x) (tf_sp x) (psr x) v (tf_other x).
Definition set_tf_other (v : list Z) (x : TrapFrame) : TrapFrame :=
  mkTrapFrame (r0 x) (r1 x) (r2 x) (tf_sp x) (psr x) (pc x) v.

Definition set_thread_process (v : option proc_ref) (x : ProcessThread) : ProcessThread :=
  mkProcessThread v (pid x) (kstack x) (tf x).
Definition set_pid (v : Z) (x : ProcessThread) : ProcessThread :=
  mkProcessThread (thread_process x) v (kstack x) (tf x).
Definition set_kstack (v : option page_ref) (x : ProcessThread) : ProcessThread :=
  mkProcessThread (thread_process x) (pid x) v (tf x).
Definition set_tf (v : TrapFrame) (x : ProcessThread) : ProcessThread :=
  mkProcessThread (thread_process x) (pid x) (kstack x) v.

Definition set_thread (v : option tid) (x : Process) : Process :=
  mkProcess v (vm x) (parent x) (children x) (zombie x) (exit_code x)
    (files x) (cwd x) (ruid x) (euid x) (rgid x) (egid x) (cmask x).
Definition set_vm (v : option vm_ref) (x : Process) : Process :=
  mkProcess (thread x) v (parent x) (children x) (zombie x) (exit_code x)
    (files x) (cwd x) (ruid x) (euid x) (rgid x) (egid x) (cmask x).
Definition set_parent (v : option proc_ref) (x : Process) : Process :=
  mkProcess (thread x) (vm x) v (children x) (zombie x) (exit_code x)
    (files x) (cwd x) (ruid x) (euid x) (rgid x) (egid x) (cmask x).
Definition set_children (v : list proc_ref) (x : Process) : Process :=
  mkProcess (thread x) (vm x) (parent x) v (zombie x) (exit_code x) (files
    x) (cwd x) (ruid x) (euid x) (rgid x) (egid x) (cmask x).
Definition set_zombie (v : Z) (x : Process) : Process :=
  mkProcess (thread x) (vm x) (parent x) (children x) v (exit_code x)
    (files x) (cwd x) (ruid x) (euid x) (rgid x) (egid x) (cmask x).
Definition set_exit_code (v : Z) (x : Process) : Process :=
  mkProcess (thread x) (vm x) (parent x) (children x) (zombie x) v (files
    x) (cwd x) (ruid x) (euid x) (rgid x) (egid x) (cmask x).
Definition set_files (v : list (option file_ref)) (x : Process) : Process :=
  mkProcess (thread x) (vm x) (parent x) (children x) (zombie x)
    (exit_code x) v (cwd x) (ruid x) (euid x) (rgid x) (egid x) (cmask x).
Definition set_cwd (v : option inode_ref) (x : Process) : Process :=
  mkProcess (thread x) (vm x) (parent x) (children x) (zombie x)
    (exit_code x) (files x) v (ruid x) (euid x) (rgid x) (egid x) (cmask
    x).
Definition set_ruid (v : Z) (x : Process) : Process :=
  mkProcess (thread x) (vm x) (parent x) (children x) (zombie x)
    (exit_code x) (files x) (cwd x) v (euid x) (rgid x) (egid x) (cmask
    x).
Definition set_euid (v : Z) (x : Process) : Process :=
  mkProcess (thread x) (vm x) (parent x) (children x) (zombie x)
    (exit_code x) (files x) (cwd x) (ruid x) v (rgid x) (egid x) (cmask
    x).
Definition set_rgid (v : Z) (x : Process) : Process :=
  mkProcess (thread x) (vm x) (parent x) (children x) (zombie x)
    (exit_code x) (files x) (cwd x) (ruid x) (euid x) v (egid x) (cmask
    x).
Definition set_egid (v : Z) (x : Process) : Process :=
  mkProcess (thread x) (vm x) (parent x) (children x) (zombie x)
    (exit_code x) (files x) (cwd x) (ruid x) (euid x) (rgid x) v (cmask
    x).
Definition set_cmask (v : Z) (x : Process) : Process :=
  mkProcess (thread x) (vm x) (parent x) (children x) (zombie x)
    (exit_code x) (files x) (cwd x) (ruid x) (euid x) (rgid x) (egid x) v.

Definition set_buf (v : list Byte.byte) (x : KMailBox) : KMailBox :=
  mkKMailBox v (buf_end x) (read_ptr x) (write_ptr x) (msg_size x)
    (capacity x) (size x) (mbox_type x).
Definition set_buf_end (v : Z) (x : KMailBox) : KMailBox :=
  mkKMailBox (buf x) v (read_ptr x) (write_ptr x) (msg_size x) (capacity
    x) (size x) (mbox_type x).
Definition set_read_ptr (v : Z) (x : KMailBox) : KMailBox :=
  mkKMailBox (buf x) (buf_end x) v (write_ptr x) (msg_size x) (capacity x)
    (size x) (mbox_type x).
Definition set_write_ptr (v : Z) (x : KMailBox) : KMailBox :=
  mkKMailBox (buf x) (buf_end x) (read_ptr x) v (msg_size x) (capacity x)
    (size x) (mbox_type x).
Definition set_msg_size (v : Z) (x : KMailBox) : KMailBox :=
  mkKMailBox (buf x) (buf_end x) (read_ptr x) (write_ptr x) v (capacity x)
    (size x) (mbox_type x).
Definition set_capacity (v : Z) (x : KMailBox) : KMailBox :=
  mkKMailBox (buf x) (buf_end x) (read_ptr x) (write_ptr x) (msg_size x) v
    (size x) (mbox_type x).
Definition set_size (v : Z) (x : KMailBox) : KMailBox :=
  mkKMailBox (buf x) (buf_end x) (read_ptr x) (write_ptr x) (msg_size x)
    (capacity x) v (mbox_type x).
Definition set_mbox_type (v : Z) (x : KMailBox) : KMailBox :=
  mkKMailBox (buf x) (buf_end x) (read_ptr x) (write_ptr x) (msg_size x)
    (capacity x) (size x) v.

(** What the kernel asks of code outside the core, in call order. *)
Inductive Event :=
| EvPrintPc (pc : Z)
| EvFileClose (f : file_ref)
| EvFileDup (f : file_ref)
| EvInodePut (i : option inode_ref)
| EvInodeDup (i : option inode_ref)
| EvTimerStart (t : tid)
| EvTimerStop (t : tid)
| EvTimerDestroy (t : tid)
| EvVmLoad (p : proc_ref)
| EvVmLoadKernel
| EvWaitForInterrupt.

(** Addresses of spinlocks: the three static locks, the lock embedded in a
    mailbox, and any other lock. *)
Inductive LockRef :=
| SchedLock
| ProcessLock
| PidHashLock
| MailBoxLock (m : mbox_ref)
| LockAt (a : nat).

#[export] Instance LockRef_eq_dec : EqDecision LockRef.
Proof. solve_decision. Defined.

#[export] Instance LockRef_countable : Countable LockRef.
Proof.
  refine (inj_countable'
    (fun l => match l with
              | SchedLock => inl (inl 0%nat)
              | ProcessLock => inl (inl 1%nat)
              | PidHashLock => inl (inl 2%nat)
              | MailBoxLock m => inl (inr m)
              | LockAt a => inr a
              end)
    (fun x => match x with
              | inl (inl 0%nat) => SchedLock
              | inl (inl 1%nat) => ProcessLock
              | inl (inl _) => PidHashLock
              | inl (inr m) => MailBoxLock m
              | inr a => LockAt a
              end) _).
  intros []; reflexivity.
Defined.

(** Addresses of the heads of task lists: the wait queue embedded in a
    process, the two lists embedded in a mailbox, and any other list. *)
Inductive ListRef :=
| WaitQueue (p : proc_ref)
| Receivers (m : mbox_ref)
| Senders (m : mbox_ref)
| ListAt (a : nat).

#[export] Instance ListRef_eq_dec : EqDecision ListRef.
Proof. solve_decision. Defined.

#[export] Instance ListRef_countable : Countable ListRef.
Proof.
  refine (inj_countable'
    (fun l => match l with
              | WaitQueue p => inl (inl p)
              | Receivers m => inl (inr m)
              | Senders m => inr (inl m)
              | ListAt a => inr (inr a)
              end)
    (fun x => match x with
              | inl (inl p) => WaitQueue p
              | inl (inr m) => Receivers m
              | inr (inl m) => Senders m
              | inr (inr a) => ListAt a
              end) _).
  intros []; reflexivity.
Defined.

Section Kernel.

Context `{Extern}.

(** ** The kernel state *)

Record Kernel := mkKernel {
  cpus : gmap cpu_id Cpu;
  locks : gmap LockRef SpinLock;
  trace : list Event;
  (** scheduler: every task, the run queues by priority, the wait lists *)
  tasks : gmap tid Task;
  sched_queue : list (list tid);
  lists : gmap ListRef (list tid);
  (** mailboxes *)
  mailboxes : gmap mbox_ref KMailBox;
  (** processes *)
  procs : gmap proc_ref Process;
  threads : gmap tid ProcessThread;
  next_pid : Z;
  pid_hash : list tid;
  init_process : option proc_ref;
  (** free objects of the two caches, free pages, page reference counts *)
  process_cache : list proc_ref;
  thread_cache : list tid;
  free_pages : list page_ref;
  page_refs : gmap page_ref Z;
  (** the virtual-memory subsystem *)
  vmstate : VmState;
  (** user memory, as [int] cells by address *)
  umem : gmap Z Z;
}.

Definition set_cpus (f : gmap cpu_id Cpu -> gmap cpu_id Cpu)
    (s : Kernel) : Kernel :=
  mkKernel (f (cpus s)) (locks s) (trace s) (tasks s) (sched_queue s)
    (lists s) (mailboxes s) (procs s) (threads s) (next_pid s) (pid_hash
    s) (init_process s) (process_cache s) (thread_cache s) (free_pages s)
    (page_refs s) (vmstate s) (umem s).

Definition set_locks (f : gmap LockRef SpinLock -> gmap LockRef SpinLock)
    (s : Kernel) : Kernel :=
  mkKernel (cpus s) (f (locks s)) (trace s) (tasks s) (sched_queue s)
    (lists s) (mailboxes s) (procs s) (threads s) (next_pid s) (pid_hash
    s) (init_process s) (process_cache s) (thread_cache s) (free_pages s)
    (page_refs s) (vmstate s) (umem s).

Definition set_trace (f : list Event -> list Event) (s : Kernel) : Kernel :=
  mkKernel (cpus s) (locks s) (f (trace s)) (tasks s) (sched_queue s)
    (lists s) (mailboxes s) (procs s) (threads s) (next_pid s) (pid_hash
    s) (init_process s) (process_cache s) (thread_cache s) (free_pages s)
    (page_refs s) (vmstate s) (umem s).

Definition set_tasks (f : gmap tid Task -> gmap tid Task)
    (s : Kernel) : Kernel :=
  mkKernel (cpus s) (locks s) (trace s) (f (tasks s)) (sched_queue s)
    (lists s) (mailboxes s) (procs s) (threads s) (next_pid s) (pid_hash
    s) (init_process s) (process_cache s) (thread_cache s) (free_pages s)
    (page_refs s) (vmstate s) (umem s).

Definition set_sched_queue (f : list (list tid) -> list (list tid))
    (s : Kernel) : Kernel :=
  mkKernel (cpus s) (locks s) (trace s) (tasks s) (f (sched_queue s))
    (lists s) (mailboxes s) (procs s) (threads s) (next_pid s) (pid_hash
    s) (init_process s) (process_cache s) (thread_cache s) (free_pages s)
    (page_refs s) (vmstate s) (umem s).

Definition set_lists (f : gmap ListRef (list tid) -> gmap ListRef (list tid))
    (s : Kernel) : Kernel :=
  mkKernel (cpus s) (locks s) (trace s) (tasks s) (sched_queue s) (f
    (lists s)) (mailboxes s) (procs s) (threads s) (next_pid s) (pid_hash
    s) (init_process s) (process_cache s) (thread_cache s) (free_pages s)
    (page_refs s) (vmstate s) (umem s).

Definition set_mailboxes (f : gmap mbox_ref KMailBox -> gmap mbox_ref KMailBox)
    (s : Kernel) : Kernel :=
  mkKernel (cpus s) (locks s) (trace s) (tasks s) (sched_queue s) (lists
    s) (f (mailboxes s)) (procs s) (threads s) (next_pid s) (pid_hash s)
    (init_process s) (process_cache s) (thread_cache s) (free_pages s)
    (page_refs s) (vmstate s) (umem s).

Definition set_procs (f : gmap proc_ref Process -> gmap proc_ref Process)
    (s : Kernel) : Kernel :=
  mkKernel (cpus s) (locks s) (trace s) (tasks s) (sched_queue s) (lists
    s) (mailboxes s) (f (procs s)) (threads s) (next_pid s) (pid_hash s)
    (init_process s) (process_cache s) (thread_cache s) (free_pages s)
    (page_refs s) (vmstate s) (umem s).

Definition set_threads (f : gmap tid ProcessThread -> gmap tid ProcessThread)
    (s : Kernel) : Kernel :=
  mkKernel (cpus s) (locks s) (trace s) (tasks s) (sched_queue s) (lists
    s) (mailboxes s) (procs s) (f (threads s)) (next_pid s) (pid_hash s)
    (init_process s) (process_cache s) (thread_cache s) (free_pages s)
    (page_refs s) (vmstate s) (umem s).

Definition set_next_pid (f : Z -> Z) (s : Kernel) : Kernel :=
  mkKernel (cpus s) (locks s) (trace s) (tasks s) (sched_queue s) (lists
    s) (mailboxes s) (procs s) (threads s) (f (next_pid s)) (pid_hash s)
    (init_process s) (process_cache s) (thread_cache s) (free_pages s)
    (page_refs s) (vmstate s) (umem s).

Definition set_pid_hash (f : list tid -> list tid) (s : Kernel) : Kernel :=
  mkKernel (cpus s) (locks s) (trace s) (tasks s) (sched_queue s) (lists
    s) (mailboxes s) (procs s) (threads s) (next_pid s) (f (pid_hash s))
    (init_process s) (process_cache s) (thread_cache s) (free_pages s)
    (page_refs s) (vmstate s) (umem s).

Definition set_init_process (f : option proc_ref -> option proc_ref)
    (s : Kernel) : Kernel :=
  mkKernel (cpus s) (locks s) (trace s) (tasks s) (sched_queue s) (lists
    s) (mailboxes s) (procs s) (threads s) (next_pid s) (pid_hash s) (f
    (init_process s)) (process_cache s) (thread_cache s) (free_pages s)
    (page_refs s) (vmstate s) (umem s).

Definition set_process_cache (f : list proc_ref -> list proc_ref)
    (s : Kernel) : Kernel :=
  mkKernel (cpus s) (locks s) (trace s) (tasks s) (sched_queue s) (lists
    s) (mailboxes s) (procs s) (threads s) (next_pid s) (pid_hash s)
    (init_process s) (f (process_cache s)) (thread_cache s) (free_pages s)
    (page_refs s) (vmstate s) (umem s).

Definition set_thread_cache (f : list tid -> list tid)
    (s : Kernel) : Kernel :=
  mkKernel (cpus s) (locks s) (trace s) (tasks s) (sched_queue s) (lists
    s) (mailboxes s) (procs s) (threads s) (next_pid s) (pid_hash s)
    (init_process s) (process_cache s) (f (thread_cache s)) (free_pages s)
    (page_refs s) (vmstate s) (umem s).

Definition set_free_pages (f : list page_ref -> list page_ref)
    (s : Kernel) : Kernel :=
  mkKernel (cpus s) (locks s) (trace s) (tasks s) (sched_queue s) (lists
    s) (mailboxes s) (procs s) (threads s) (next_pid s) (pid_hash s)
    (init_process s) (process_cache s) (thread_cache s) (f (free_pages s))
    (page_refs s) (vmstate s) (umem s).

Definition set_page_refs (f : gmap page_ref Z -> gmap page_ref Z)
    (s : Kernel) : Kernel :=
  mkKernel (cpus s) (locks s) (trace s) (tasks s) (sched_queue s) (lists
    s) (mailboxes s) (procs s) (threads s) (next_pid s) (pid_hash s)
    (init_process s) (process_cache s) (thread_cache s) (free_pages s) (f
    (page_refs s)) (vmstate s) (umem s).

Definition set_vmstate (f : VmState -> VmState) (s : Kernel) : Kernel :=
  mkKernel (cpus s) (locks s) (trace s) (tasks s) (sched_queue s) (lists
    s) (mailboxes s) (procs s) (threads s) (next_pid s) (pid_hash s)
    (init_process s) (process_cache s) (thread_cache s) (free_pages s)
    (page_refs s) (f (vmstate s)) (umem s).

Definition set_umem (f : gmap Z Z -> gmap Z Z) (s : Kernel) : Kernel :=
  mkKernel (cpus s) (locks s) (trace s) (tasks s) (sched_queue s) (lists
    s) (mailboxes s) (procs s) (threads s) (next_pid s) (pid_hash s)
    (init_process s) (process_cache s) (thread_cache s) (free_pages s)
    (page_refs s) (vmstate s) (f (umem s)).

(** Reading and writing one object through its address. *)
Definition the_cpu (c : cpu_id) (s : Kernel) : Cpu := cpus s !!! c.
Definition the_lock (l : LockRef) (s : Kernel) : SpinLock := locks s !!! l.
Definition the_task (t : tid) (s : Kernel) : Task := tasks s !!! t.
Definition the_list (q : ListRef) (s : Kernel) : list tid := lists s !!! q.
Definition the_mailbox (m : mbox_ref) (s : Kernel) : KMailBox :=
  mailboxes s !!! m.
Definition the_proc (p : proc_ref) (s : Kernel) : Process := procs s !!! p.
Definition the_thread (t : tid) (s : Kernel) : ProcessThread :=
  threads s !!! t.

Definition upd_cpu (c : cpu_id) (f : Cpu -> Cpu) : Kernel -> Kernel :=
  set_cpus (fun m => <[c := f (m !!! c)]> m).
Definition upd_lock (l : LockRef) (f : SpinLock -> SpinLock)
    : Kernel -> Kernel :=
  set_locks (fun m => <[l := f (m !!! l)]> m).
Definition upd_task (t : tid) (f : Task -> Task) : Kernel -> Kernel :=
  set_tasks (fun m => <[t := f (m !!! t)]> m).
Definition upd_list (q : ListRef) (f : list tid -> list tid)
    : Kernel -> Kernel :=
  set_lists (fun m => <[q := f (m !!! q)]> m).
Definition upd_mailbox (m : mbox_ref) (f : KMailBox -> KMailBox)
    : Kernel -> Kernel :=
  set_mailboxes (fun mm => <[m := f (mm !!! m)]> mm).
Definition upd_proc (p : proc_ref) (f : Process -> Process)
    : Kernel -> Kernel :=
  set_procs (fun m => <[p := f (m !!! p)]> m).
Definition upd_thread (t : tid) (f : ProcessThread -> ProcessThread)
    : Kernel -> Kernel :=
  set_threads (fun m => <[t := f (m !!! t)]> m).

(** ** Computations *)

(** How a kernel function ends on the CPU that runs it.  [Spin l s k]: the
    CPU busy-waits in state [s] for lock [l]; [k] continues from a state in
    which it has observed the lock word to be 0.  [Switch s k]: the running
    task has switched to the scheduler context in state [s]; [k] continues
    when a scheduler loop switches back to the task, on the CPU that does. *)
Inductive Outcome (A : Type) : Type :=
| Return (a : A) (s : Kernel)
| Panic (msg : string) (s : Kernel)
| OutOfFuel (s : Kernel)
| Spin (l : LockRef) (s : Kernel) (k : Kernel -> Outcome A)
| Switch (s : Kernel) (k : cpu_id -> Kernel -> Outcome A).

Arguments Return {A} a s.
Arguments Panic {A} msg s.
Arguments OutOfFuel {A} s.
Arguments Spin {A} l s k.
Arguments Switch {A} s k.

Definition M (A : Type) : Type := cpu_id -> Kernel -> Outcome A.

Definition ret {A} (a : A) : M A := fun _ s => Return a s.

Fixpoint obind {A B} (o : Outcome A) (f : A -> M B) (me : cpu_id)
    : Outcome B :=
  match o with
  | Return a s => f a me s
  | Panic msg s => Panic msg s
  | OutOfFuel s => OutOfFuel s
  | Spin l s k => Spin l s (fun s' => obind (k s') f me)
  | Switch s k => Switch s (fun me' s' => obind (k me' s') f me')
  end.

Definition bind {A B} (m : M A) (f : A -> M B) : M B :=
  fun me s => obind (m me s) f me.

Notation "'let*' x ':=' m 'in' k" := (bind m (fun x => k))
  (at level 10, x name, m at level 100, k at level 200).
Notation "m ';;;' k" := (bind m (fun _ => k))
  (at level 100, k at level 200, right associativity).

Definition get : M Kernel := fun _ s => Return s s.
Definition modify (f : Kernel -> Kernel) : M unit :=
  fun _ s => Return tt (f s).
Definition my_cpu : M cpu_id := fun me s => Return me s.
Definition panic {A} (msg : string) : M A := fun _ s => Panic msg s.
Definition when (b : bool) (m : M unit) : M unit := if b then m else ret tt.
Definition assert (b : bool) (msg : string) : M unit :=
  if b then ret tt else panic msg.
Definition emit (e : Event) : M unit := modify (set_trace (fun t => t ++ [e])).

(** The state in which the function stopped, whichever way it ended. *)
Definition final {A} (o : Outcome A) : Kernel :=
  match o with
  | Return _ s | Panic _ s | OutOfFuel s | Spin _ s _ | Switch s _ => s
  end.

(** A dereference of NULL is a fault; the model shows it as a panic. *)
Definition null_dereference {A} : M A := panic "NULL dereference".

(** ** Interrupt masking (not in the sources) *)

(** Modelled from the spec: irq_save and irq_restore are called by
    spinlock.c and defined elsewhere.  "The CPU descriptor records a depth
    counter and the pre-disable interrupt flag.  Only the transition from 0
    to 1 records the flag; only 1 to 0 restores it." *)
Definition irq_save_cpu (c : Cpu) : Cpu :=
  {| cpu_task := cpu_task c;
     isr_nesting := isr_nesting c;
     irq_save_count := irq_save_count c + 1;
     irq_flags := if irq_save_count c =? 0 then c_bool (irq_enabled c)
                  else irq_flags c;
     irq_enabled := false;
     fp_chain := fp_chain c |}.

Definition irq_restore_cpu (c : Cpu) : Cpu :=
  {| cpu_task := cpu_task c;
     isr_nesting := isr_nesting c;
     irq_save_count := irq_save_count c - 1;
     irq_flags := irq_flags c;
     irq_enabled := if irq_save_count c - 1 =? 0 then c_true (irq_flags c)
                    else irq_enabled c;
     fp_chain := fp_chain c |}.

Definition irq_save : M unit := fun me s =>
  Return tt (upd_cpu me irq_save_cpu s).

Definition irq_restore : M unit := fun me s =>
  Return tt (upd_cpu me irq_restore_cpu s).

(** Modelled from the spec: cpu_irq_enable, called by the scheduler, unmasks
    interrupts on the calling CPU. *)
Definition irq_enable_cpu (c : Cpu) : Cpu :=
  {| cpu_task := cpu_task c;
     isr_nesting := isr_nesting c;
     irq_save_count := irq_save_count c;
     irq_flags := irq_flags c;
     irq_enabled := true;
     fp_chain := fp_chain c |}.

Definition cpu_irq_enable : M unit := fun me s =>
  Return tt (upd_cpu me irq_enable_cpu s).

(** ** kernel/nano/spinlock.c *)

(** spin_init *)
Definition spin_init (lock : LockRef) (name : string) : M unit :=
  modify (upd_lock lock (fun _ =>
    {| locked := 0; lock_cpu := None; lock_name := name;
       pcs := pcs (SPIN_INITIALIZER) |})).

(** The test of spin_holding: locked && cpu == my_cpu(). *)
Definition holding (l : SpinLock) (me : cpu_id) : bool :=
  c_true (locked l) && bool_decide (lock_cpu l = Some me).

(** spin_holding *)
Definition spin_holding (lock : LockRef) : M Z :=
  irq_save ;;;
  let* s := get in
  let* me := my_cpu in
  let r := c_bool (holding (the_lock lock s) me) in
  irq_restore ;;;
  ret r.

(** pcs[i], reading 0 where nothing was stored. *)
Definition pcs_at (l : SpinLock) (i : nat) : Z := default 0 (pcs l !! i).

(** spin_save_caller_pcs: follow the frame pointer chain for at most
    NCALLERPCS frames, then clear the remaining slots. *)
Fixpoint save_pcs_loop (n : nat) (fp : list Z) : list Z :=
  match n with
  | O => []
  | S n' =>
      match fp with
      | [] => replicate n 0
      | ra :: fp' => ra :: save_pcs_loop n' fp'
      end
  end.

Definition spin_save_caller_pcs (lock : LockRef) : M unit := fun me s =>
  Return tt
    (upd_lock lock (set_pcs (save_pcs_loop NCALLERPCS
                                    (fp_chain (the_cpu me s)))) s).

(** spin_print_caller_pcs: copy the NCALLERPCS slots, print them up to the
    first that is 0. *)
Fixpoint print_pcs_loop (ps : list Z) : list Event :=
  match ps with
  | [] => []
  | p :: ps' => if p =? 0 then [] else EvPrintPc p :: print_pcs_loop ps'
  end.

Definition spin_print_caller_pcs (lock : LockRef) : M unit := fun me s =>
  let copy := map (pcs_at (the_lock lock s)) (seq 0 NCALLERPCS) in
  Return tt (set_trace (fun t => t ++ print_pcs_loop copy) s).

(** The ldrex/strex loop of spin_lock: wait until the lock word reads 0 and
    store 1 in the same atomic step. *)
Definition spin_acquire (lock : LockRef) : M unit := fun me s =>
  let take := upd_lock lock (set_locked 1) in
  if locked (the_lock lock s) =? 0 then Return tt (take s)
  else Spin lock s (fun s' => Return tt (take s')).

(** spin_lock *)
Definition spin_lock (lock : LockRef) : M unit :=
  irq_save ;;;
  let* h := spin_holding lock in
  (if c_true h then
     spin_print_caller_pcs lock ;;;
     panic "CPU is already holding the lock"
   else ret tt) ;;;
  spin_acquire lock ;;;
  let* me := my_cpu in
  modify (upd_lock lock (set_lock_cpu (Some me))) ;;;
  spin_save_caller_pcs lock.

(** spin_unlock *)
Definition spin_unlock (lock : LockRef) : M unit :=
  let* h := spin_holding lock in
  (if negb (c_true h) then
     spin_print_caller_pcs lock ;;;
     panic "CPU cannot release the lock"
   else ret tt) ;;;
  modify (upd_lock lock (set_lock_cpu None)) ;;;
  modify (upd_lock lock (fun l => set_pcs (<[0%nat := 0]> (pcs l)) l)) ;;;
  modify (upd_lock lock (set_locked 0)) ;;;
  irq_restore.

(** ** Object caches and pages (not in the sources) *)

(** Modelled from the spec: kmem_alloc, kmem_free, page_alloc_one and
    page_free_one are called by the sources and defined elsewhere.  "get
    returns a free block", or null when there is none; "put returns the
    block to its owning slab".  A cache is the list of its free objects. *)
Definition kmem_alloc_process : M (option proc_ref) := fun _ s =>
  match process_cache s with
  | [] => Return None s
  | p :: rest => Return (Some p) (set_process_cache (fun _ => rest) s)
  end.

Definition kmem_free_process (p : proc_ref) : M unit :=
  modify (set_process_cache (fun l => p :: l)).

Definition kmem_alloc_thread : M (option tid) := fun _ s =>
  match thread_cache s with
  | [] => Return None s
  | t :: rest => Return (Some t) (set_thread_cache (fun _ => rest) s)
  end.

Definition kmem_free_thread (t : tid) : M unit :=
  modify (set_thread_cache (fun l => t :: l)).

Definition page_alloc_one : M (option page_ref) := fun _ s =>
  match free_pages s with
  | [] => Return None s
  | pg :: rest => Return (Some pg) (set_free_pages (fun _ => rest) s)
  end.

Definition page_free_one (pg : page_ref) : M unit :=
  modify (set_free_pages (fun l => pg :: l)).

(** page->ref_count; the count of a page that was never referenced is 0. *)
Definition ref_count (m : gmap page_ref Z) (pg : page_ref) : Z :=
  default 0 (m !! pg).

(** page->ref_count += d *)
Definition page_ref_count_add (pg : page_ref) (d : Z) : M unit :=
  modify (set_page_refs (fun m => <[pg := wrap_int (ref_count m pg + d)]> m)).

(** ** The scheduler (first translation unit of unnamed/part_003) *)

(** *** Intrusive lists of tasks

    A task has one link, so it is on one list at most.  list_add_back
    appends the link to the list of a given head; list_remove unlinks it from
    whichever list holds it, a run queue or a wait list. *)
Definition unlink (t : tid) (l : list tid) : list tid :=
  filter (fun x => x <> t) l.

Definition list_add_back (q : ListRef) (t : tid) : Kernel -> Kernel :=
  upd_list q (fun l => l ++ [t]).

Definition list_remove (t : tid) (s : Kernel) : Kernel :=
  set_lists (fmap (unlink t)) (set_sched_queue (map (unlink t)) s).

(** sched_queue[i]; an index outside the array reads as an empty list. *)
Definition runqueue (i : nat) (s : Kernel) : list tid :=
  default [] (sched_queue s !! i).

(** list_add_back(&sched_queue[p], &th->link).  An index outside the array
    is undefined in C: the model leaves the queues as they are. *)
Definition runqueue_add_back (p : Z) (t : tid) : Kernel -> Kernel :=
  set_sched_queue (fun qs =>
    if 0 <=? p then alter (fun l => l ++ [t]) (Z.to_nat p) qs else qs).

(** A kernel assertion that fails is a panic. *)
Definition assert_holding (lock : LockRef) : M unit :=
  let* h := spin_holding lock in
  assert (c_true h) "assertion failed: spin_holding".

(** sched_lock and sched_unlock come from a header that is not in the
    sources; unnamed/part_002 has them as the acquire and the release of the
    scheduler spinlock. *)
Definition sched_lock : M unit := spin_lock SchedLock.
Definition sched_unlock : M unit := spin_unlock SchedLock.

(** sched_init, without the creation of the object cache. *)
Definition sched_init : M unit :=
  modify (set_sched_queue (fun _ => replicate TASK_MAX_PRIORITIES [])).

(** sched_enqueue *)
Definition sched_enqueue (th : tid) : M unit :=
  assert_holding SchedLock ;;;
  modify (upd_task th (set_state TASK_STATE_READY)) ;;;
  let* s := get in
  modify (runqueue_add_back (priority (the_task th s)) th).

(** sched_dequeue: the head of the first run queue that is not empty. *)
Fixpoint sched_dequeue_loop (n i : nat) (s : Kernel) : option tid :=
  match n with
  | O => None
  | S n' =>
      match runqueue i s with
      | link :: _ => Some link
      | [] => sched_dequeue_loop n' (S i) s
      end
  end.

Definition sched_dequeue : M (option tid) :=
  assert_holding SchedLock ;;;
  let* s := get in
  match sched_dequeue_loop TASK_MAX_PRIORITIES 0 s with
  | Some link => modify (list_remove link) ;;; ret (Some link)
  | None => ret None
  end.

(** task_current *)
Definition task_current : M (option tid) :=
  irq_save ;;;
  let* s := get in
  let* me := my_cpu in
  let task := cpu_task (the_cpu me s) in
  irq_restore ;;;
  ret task.

(** sched_start runs for ever.  Its loop body is cut at the context switch
    into the task it dequeued: [sched_start_dispatch] is the body up to the
    switch and returns the task switched to, or nothing after an idle wait;
    [sched_start_return] is the body from the return of the switch. *)
Definition sched_start_dispatch : M (option tid) :=
  let* me := my_cpu in
  let* next := sched_dequeue in
  match next with
  | Some n =>
      let* s := get in
      assert (bool_decide (state (the_task n s) = TASK_STATE_READY))
        "assertion failed: next->state == TASK_STATE_READY" ;;;
      match task_process (the_task n s) with
      | Some p => emit (EvVmLoad p)
      | None => ret tt
      end ;;;
      modify (upd_task n (set_state TASK_STATE_RUNNING)) ;;;
      modify (upd_task n (set_task_cpu (Some me))) ;;;
      modify (upd_cpu me (set_cpu_task (Some n))) ;;;
      ret (Some n)
  | None =>
      sched_unlock ;;;
      cpu_irq_enable ;;;
      emit EvWaitForInterrupt ;;;
      sched_lock ;;;
      ret None
  end.

Definition sched_start_return (next : tid) : M unit :=
  let* me := my_cpu in
  modify (upd_cpu me (set_cpu_task None)) ;;;
  modify (upd_task next (set_task_cpu None)) ;;;
  let* s := get in
  match task_process (the_task next s) with
  | Some _ => emit EvVmLoadKernel
  | None => ret tt
  end ;;;
  if bool_decide (state (the_task next s) = TASK_STATE_DESTROYED) then
    modify (upd_task next (set_state TASK_STATE_NONE)) ;;;
    sched_unlock ;;;
    match task_kstack (the_task next s) with
    | Some kstack_page =>
        page_ref_count_add kstack_page (-1) ;;;
        page_free_one kstack_page
    | None => null_dereference
    end ;;;
    kmem_free_thread next ;;;
    sched_lock
  else ret tt.

(** sched_yield: the context switch to the scheduler of the CPU.  The
    interrupt flags of the CPU are kept in a local variable across the
    switch and stored into the CPU the task continues on. *)
Definition sched_yield : M unit :=
  assert_holding SchedLock ;;;
  fun me s =>
    let saved := irq_flags (the_cpu me s) in
    Switch s (fun me' s' => Return tt (upd_cpu me' (set_irq_flags saved) s')).

(** sched_isr_enter *)
Definition sched_isr_enter : M unit := fun me s =>
  Return tt
    (upd_cpu me (fun c => set_isr_nesting (wrap_int (isr_nesting c + 1)) c) s).

(** task_priority_cmp *)
Definition task_priority_cmp (t1 t2 : Task) : Z :=
  wrap_int (priority t2 - priority t1).

(** sched_isr_exit *)
Definition sched_isr_exit : M unit :=
  sched_lock ;;;
  let* me := my_cpu in
  let* s := get in
  (if isr_nesting (the_cpu me s) <=? 0 then panic "isr_nesting <= 0"
   else ret tt) ;;;
  let n := wrap_int (isr_nesting (the_cpu me s) - 1) in
  modify (upd_cpu me (set_isr_nesting n)) ;;;
  (if n =? 0 then
     match cpu_task (the_cpu me s) with
     | Some my_task =>
         if c_true (Z.land (flags (the_task my_task s)) TASK_FLAGS_RESCHEDULE)
         then
           modify (upd_task my_task (fun t =>
             set_flags (Z.land (flags t) (Z.lnot TASK_FLAGS_RESCHEDULE)) t)) ;;;
           sched_enqueue my_task ;;;
           sched_yield
         else ret tt
     | None => ret tt
     end
   else ret tt) ;;;
  sched_unlock.

(** sched_may_yield *)
Definition sched_may_yield (candidate : tid) : M unit :=
  assert_holding SchedLock ;;;
  let* me := my_cpu in
  let* s := get in
  match cpu_task (the_cpu me s) with
  | Some my_task =>
      if 0 <? task_priority_cmp (the_task candidate s) (the_task my_task s)
      then
        if 0 <? isr_nesting (the_cpu me s) then
          modify (upd_task my_task (fun t =>
            set_flags (Z.lor (flags t) TASK_FLAGS_RESCHEDULE) t))
        else
          sched_enqueue my_task ;;;
          sched_yield
      else ret tt
  | None => ret tt
  end.

(** sched_wakeup_all.  The loop runs until the list is empty, and a task
    that preempts the caller in sched_may_yield may add sleepers meanwhile:
    [fuel] bounds the number of iterations. *)
Fixpoint sched_wakeup_all_loop (fuel : nat) (task_list : ListRef)
    (result : Z) : M unit :=
  match fuel with
  | O => fun _ s => OutOfFuel s
  | S fuel' =>
      let* s := get in
      match the_list task_list s with
      | [] => ret tt
      | task :: _ =>
          modify (list_remove task) ;;;
          modify (upd_task task (set_sleep_result result)) ;;;
          sched_enqueue task ;;;
          sched_may_yield task ;;;
          sched_wakeup_all_loop fuel' task_list result
      end
  end.

Definition sched_wakeup_all (fuel : nat) (task_list : ListRef) (result : Z)
    : M unit :=
  let* h := spin_holding SchedLock in
  (if negb (c_true h) then panic "sched not locked" else ret tt) ;;;
  sched_wakeup_all_loop fuel task_list result.

(** sched_wakeup_one: the scan for the task of highest priority. *)
Fixpoint highest_loop (queue : list tid) (highest : option tid) (s : Kernel)
    : option tid :=
  match queue with
  | [] => highest
  | t :: queue' =>
      match highest with
      | None => highest_loop queue' (Some t) s
      | Some h =>
          if 0 <? task_priority_cmp (the_task t s) (the_task h s)
          then highest_loop queue' (Some t) s
          else highest_loop queue' (Some h) s
      end
  end.

Definition sched_wakeup_one (queue : ListRef) (result : Z) : M unit :=
  let* h := spin_holding SchedLock in
  (if negb (c_true h) then panic "sched not locked" else ret tt) ;;;
  let* s := get in
  match highest_loop (the_list queue s) None s with
  | Some highest =>
      modify (list_remove highest) ;;;
      modify (upd_task highest (set_sleep_result result)) ;;;
      sched_enqueue highest ;;;
      sched_may_yield highest
  | None => ret tt
  end.

(** sched_sleep.  ktimer_start and ktimer_stop are outside the sources and
    appear as events. *)
Definition sched_sleep (queue : option ListRef) (timeout : Z)
    (lock : option LockRef) : M Z :=
  let* my_task := task_current in
  match lock with
  | Some l => sched_lock ;;; spin_unlock l
  | None => ret tt
  end ;;;
  assert_holding SchedLock ;;;
  match my_task with
  | None => null_dereference
  | Some t =>
      (if negb (timeout =? 0) then
         modify (upd_task t (set_sleep_timer {| remain := timeout |})) ;;;
         emit (EvTimerStart t)
       else ret tt) ;;;
      modify (upd_task t (set_state TASK_STATE_SLEEPING)) ;;;
      match queue with
      | Some q => modify (list_add_back q t)
      | None => ret tt
      end ;;;
      sched_yield ;;;
      (if negb (timeout =? 0) then emit (EvTimerStop t) else ret tt) ;;;
      match lock with
      | Some l => sched_unlock ;;; spin_lock l
      | None => ret tt
      end ;;;
      let* s := get in
      ret (sleep_result (the_task t s))
  end.

(** task_cleanup *)
Definition task_cleanup (task : tid) : M unit :=
  emit (EvTimerDestroy task) ;;;
  modify (upd_task task (set_state TASK_STATE_DESTROYED)).

(** task_sleep_callback *)
Definition task_sleep_callback (task : tid) : M unit :=
  sched_lock ;;;
  let* s := get in
  (if bool_decide (state (the_task task s) = TASK_STATE_SLEEPING) then
     modify (upd_task task (set_sleep_result (- ETIMEDOUT))) ;;;
     modify (list_remove task) ;;;
     sched_enqueue task ;;;
     sched_may_yield task
   else ret tt) ;;;
  sched_unlock.

(** task_resume *)
Definition task_resume (task : tid) : M Z :=
  sched_lock ;;;
  let* s := get in
  if negb (bool_decide (state (the_task task s) = TASK_STATE_SUSPENDED)) then
    sched_unlock ;;;
    ret (- EINVAL)
  else
    sched_enqueue task ;;;
    sched_may_yield task ;;;
    sched_unlock ;;;
    ret 0.

(** task_yield *)
Definition task_yield : M unit :=
  let* current := task_current in
  match current with
  | None => panic "no current task"
  | Some c =>
      sched_lock ;;;
      sched_enqueue c ;;;
      sched_yield ;;;
      sched_unlock
  end.

(** task_exit *)
Definition task_exit : M unit :=
  let* task := task_current in
  match task with
  | None => panic "currnet task is NULL"
  | Some t =>
      sched_lock ;;;
      task_cleanup t ;;;
      sched_yield ;;;
      panic "should not return"
  end.

(** ** The mailbox (second translation unit of unnamed/part_003) *)

(** size_t is 32 bits wide and unsigned. *)
Definition wrap_size (z : Z) : Z := z mod 2 ^ 32.

(** ROUND_DOWN(x, n), a macro of a header that is not in the sources: the
    largest multiple of n that is not above x. *)
Definition ROUND_DOWN (x n : Z) : Z := x - x mod n.

(** memmove into the ring at a cursor, and out of it.  Bytes that would land
    outside the ring are dropped. *)
Definition ring_write (cursor : Z) (src : list Byte.byte) (n : Z)
    (ring : list Byte.byte) : list Byte.byte :=
  list_inserts (Z.to_nat cursor) (take (Z.to_nat n) src) ring.

Definition ring_read (cursor n : Z) (ring : list Byte.byte)
    : list Byte.byte :=
  take (Z.to_nat n) (drop (Z.to_nat cursor) ring).

(** _k_sched_wakeup_one of unnamed/part_002, around sched_wakeup_one. *)
Definition _k_sched_wakeup_one (queue : ListRef) (result : Z) : M unit :=
  sched_lock ;;;
  sched_wakeup_one queue result ;;;
  sched_unlock.

(** k_mailbox_ctor *)
Definition k_mailbox_ctor (mailbox : mbox_ref) : M unit :=
  spin_init (MailBoxLock mailbox) "k_mailbox" ;;;
  modify (upd_list (Receivers mailbox) (fun _ => [])) ;;;
  modify (upd_list (Senders mailbox) (fun _ => [])) ;;;
  modify (upd_mailbox mailbox (set_mbox_type K_MAILBOX_TYPE)).

(** k_mailbox_init_common.  [start] is the memory handed over as the ring. *)
Definition k_mailbox_init_common (mailbox : mbox_ref) (msg_sz : Z)
    (start : list Byte.byte) (buf_size : Z) : M unit :=
  modify (upd_mailbox mailbox (fun m =>
    {| buf := start;
       buf_end := ROUND_DOWN buf_size msg_sz;
       read_ptr := 0;
       write_ptr := 0;
       msg_size := msg_sz;
       capacity := buf_size / msg_sz;
       size := 0;
       mbox_type := mbox_type m |})).

(** k_mailbox_try_receive_locked.  The bytes copied to the caller's message
    buffer are returned next to the result; nothing is copied on -EAGAIN. *)
Definition k_mailbox_try_receive_locked (mailbox : mbox_ref)
    : M (Z * option (list Byte.byte)) :=
  assert_holding (MailBoxLock mailbox) ;;;
  let* s := get in
  let mb := the_mailbox mailbox s in
  if size mb =? 0 then ret (- EAGAIN, None)
  else
    let message := ring_read (read_ptr mb) (msg_size mb) (buf mb) in
    modify (upd_mailbox mailbox (fun m =>
      set_read_ptr (read_ptr m + msg_size m) m)) ;;;
    modify (upd_mailbox mailbox (fun m =>
      if buf_end m <=? read_ptr m then set_read_ptr 0 m else m)) ;;;
    modify (upd_mailbox mailbox (fun m =>
      set_size (wrap_size (size m - 1)) m)) ;;;
    (if size mb =? capacity mb
     then _k_sched_wakeup_one (Senders mailbox) 0
     else ret tt) ;;;
    ret (0, Some message).

(** k_mailbox_try_send_locked *)
Definition k_mailbox_try_send_locked (mailbox : mbox_ref)
    (message : list Byte.byte) : M Z :=
  assert_holding (MailBoxLock mailbox) ;;;
  let* s := get in
  let mb := the_mailbox mailbox s in
  if size mb =? capacity mb then ret (- EAGAIN)
  else
    modify (upd_mailbox mailbox (fun m =>
      set_buf (ring_write (write_ptr m) message (msg_size m) (buf m)) m)) ;;;
    modify (upd_mailbox mailbox (fun m =>
      set_write_ptr (write_ptr m + msg_size m) m)) ;;;
    modify (upd_mailbox mailbox (fun m =>
      if buf_end m <=? write_ptr m then set_write_ptr 0 m else m)) ;;;
    modify (upd_mailbox mailbox (fun m =>
      set_size (wrap_size (size m + 1)) m)) ;;;
    (if size mb =? 0
     then _k_sched_wakeup_one (Receivers mailbox) 0
     else ret tt) ;;;
    ret 0.

(** k_mailbox_try_receive and k_mailbox_try_send; NULL is [None]. *)
Definition k_mailbox_try_receive (mailbox : option mbox_ref)
    : M (Z * option (list Byte.byte)) :=
  let* s := get in
  match mailbox with
  | Some m =>
      if negb (mbox_type (the_mailbox m s) =? K_MAILBOX_TYPE)
      then panic "bad mailbox pointer"
      else
        spin_lock (MailBoxLock m) ;;;
        let* r := k_mailbox_try_receive_locked m in
        spin_unlock (MailBoxLock m) ;;;
        ret r
  | None => panic "bad mailbox pointer"
  end.

Definition k_mailbox_try_send (mailbox : option mbox_ref)
    (message : list Byte.byte) : M Z :=
  let* s := get in
  match mailbox with
  | Some m =>
      if negb (mbox_type (the_mailbox m s) =? K_MAILBOX_TYPE)
      then panic "bad mailbox pointer"
      else
        spin_lock (MailBoxLock m) ;;;
        let* r := k_mailbox_try_send_locked m message in
        spin_unlock (MailBoxLock m) ;;;
        ret r
  | None => panic "bad mailbox pointer"
  end.

(** ** kernel/process/process.c *)

(** Calls into the virtual-memory subsystem. *)
Definition vm_create : M (option vm_ref) := fun _ s =>
  let r := vm_space_create (vmstate s) in
  Return (fst r) (set_vmstate (fun _ => snd r) s).

Definition vm_destroy (v : option vm_ref) : M unit :=
  modify (set_vmstate (vm_space_destroy v)).

Definition vm_clone (v : option vm_ref) : M (option vm_ref) := fun _ s =>
  let r := vm_space_clone v (vmstate s) in
  Return (fst r) (set_vmstate (fun _ => snd r) s).

Definition vm_alloc (v : option vm_ref) (va n prot : Z) : M Z := fun _ s =>
  let r := vm_space_alloc v va n prot (vmstate s) in
  Return (fst r) (set_vmstate (fun _ => snd r) s).

Definition vm_copy_out (v : option vm_ref) (va : Z) (src : list Byte.byte)
    (n : Z) : M Z := fun _ s =>
  let r := vm_space_copy_out v va src n (vmstate s) in
  Return (fst r) (set_vmstate (fun _ => snd r) s).

(** Modelled from the spec: the task_create that process.c calls takes the
    task from its caller and is not in the sources.  "Initial state:
    Suspended"; the priority is the one given and no flag is set.  It is
    taken to succeed, with result 0. *)
Definition task_create (task : tid) (prio : Z) : M Z :=
  modify (upd_task task (set_flags 0)) ;;;
  modify (upd_task task (set_priority prio)) ;;;
  modify (upd_task task (set_state TASK_STATE_SUSPENDED)) ;;;
  ret 0.

(** process_current is not in the sources: the process of the thread that
    runs on the CPU, NULL when no task runs. *)
Definition process_current : M (option proc_ref) :=
  let* t := task_current in
  let* s := get in
  ret (match t with
       | Some t => thread_process (the_thread t s)
       | None => None
       end).

(** wchan_sleep and wchan_wakeup_all of kernel/core/wchan.c call
    kthread_sleep and kthread_wakeup_all, earlier names of sched_sleep and of
    sched_wakeup_all under the scheduler lock (unnamed/part_002); they pass
    no timeout and no result, which are 0 here. *)
Definition wchan_sleep (chan : proc_ref) (lock : LockRef) : M unit :=
  let* _ := sched_sleep (Some (WaitQueue chan)) 0 (Some lock) in
  ret tt.

Definition wchan_wakeup_all (fuel : nat) (chan : proc_ref) : M unit :=
  sched_lock ;;;
  sched_wakeup_all fuel (WaitQueue chan) 0 ;;;
  sched_unlock.

(** list_remove(&p->sibling_link): unlink the process from the list of
    children that holds it. *)
Definition sibling_remove (p : proc_ref) : Kernel -> Kernel :=
  set_procs (fmap (fun x => set_children (unlink p (children x)) x)).

(** process_alloc *)
Definition process_alloc : M (option proc_ref) :=
  let* process := kmem_alloc_process in
  match process with
  | None => ret None
  | Some process =>
  let* thread := kmem_alloc_thread in
  match thread with
  | None =>
      kmem_free_process process ;;;
      ret None
  | Some thread =>
  modify (upd_thread thread (set_thread_process (Some process))) ;;;
  modify (upd_proc process (set_thread (Some thread))) ;;;
  let* page := page_alloc_one in
  match page with
  | None =>
      kmem_free_thread thread ;;;
      kmem_free_process process ;;;
      ret None
  | Some page =>
  modify (upd_thread thread (set_kstack (Some page))) ;;;
  page_ref_count_add page 1 ;;;
  let* r := task_create thread NZERO in
  if c_true r then
    page_ref_count_add page (-1) ;;;
    page_free_one page ;;;
    kmem_free_thread thread ;;;
    kmem_free_process process ;;;
    ret None
  else
    modify (upd_proc process (set_parent None)) ;;;
    modify (upd_proc process (set_zombie 0)) ;;;
    spin_lock PidHashLock ;;;
    let* s := get in
    let new_pid := wrap_int (next_pid s + 1) in
    modify (set_next_pid (fun _ => new_pid)) ;;;
    modify (upd_thread thread (set_pid new_pid)) ;;;
    (if new_pid <? 0 then panic "pid overflow" else ret tt) ;;;
    modify (set_pid_hash (fun l => thread :: l)) ;;;
    spin_unlock PidHashLock ;;;
    modify (upd_proc process (set_files (replicate OPEN_MAX None))) ;;;
    ret (Some process)
  end end end.

(** process_setup_vm *)
Definition process_setup_vm (proc : proc_ref) : M Z :=
  let* v := vm_create in
  modify (upd_proc proc (set_vm v)) ;;;
  match v with
  | None => ret (- ENOMEM)
  | Some _ => ret 0
  end.

(** The first four bytes of an ELF image. *)
Definition ELFMAG : list Byte.byte := [Byte.x7f; Byte.x45; Byte.x4c; Byte.x46].

(** process_load_binary: the loop over the program headers.  [Some r] when
    the function returns r from inside the loop.  vm_space_alloc returns a
    pointer: (int) a is its value as a signed 32-bit integer, and the
    comparison with the address of the segment is one of 32-bit pointers. *)
Fixpoint load_segments (proc : proc_ref) (elf : Elf32_Ehdr)
    (phs : list Elf32_Phdr) : M (option Z) :=
  match phs with
  | [] => ret None
  | ph :: phs' =>
      if negb (p_type ph =? PT_LOAD) then load_segments proc elf phs'
      else if p_memsz ph <? p_filesz ph then ret (Some (- EINVAL))
      else
        let* s := get in
        let* a := vm_alloc (vm (the_proc proc s)) (p_vaddr ph) (p_memsz ph)
                    (Z.lor (Z.lor (Z.lor VM_READ VM_WRITE) VM_EXEC) VM_USER) in
        if wrap_int a <? 0 then ret (Some (wrap_int a))
        else if negb (wrap_size (p_vaddr ph) =? wrap_size a)
        then ret (Some (- EINVAL))
        else
          let* r := vm_copy_out (vm (the_proc proc s)) (p_vaddr ph)
                      (drop (Z.to_nat (p_offset ph)) (image elf))
                      (p_filesz ph) in
          if r <? 0 then ret (Some r)
          else load_segments proc elf phs'
  end.

(** process_load_binary *)
Definition process_load_binary (proc : proc_ref) (binary : Elf32_Ehdr)
    : M Z :=
  if negb (bool_decide (take 4 (ident binary) = ELFMAG)) then ret (- EINVAL)
  else
    let* r := load_segments proc binary (phdrs binary) in
    match r with
    | Some r => ret r
    | None =>
        let* s := get in
        let* a := vm_alloc (vm (the_proc proc s))
                    (VIRT_USTACK_TOP - USTACK_SIZE) USTACK_SIZE
                    (Z.lor (Z.lor VM_READ VM_WRITE) VM_USER) in
        let r := c_bool (wrap_int a <? 0) in
        if c_true r then ret r
        else
          match thread (the_proc proc s) with
          | None => null_dereference
          | Some th =>
              modify (upd_thread th (fun t => set_tf (set_r0 0 (tf t)) t)) ;;;
              modify (upd_thread th (fun t => set_tf (set_r1 0 (tf t)) t)) ;;;
              modify (upd_thread th (fun t => set_tf (set_r2 0 (tf t)) t)) ;;;
              modify (upd_thread th (fun t =>
                set_tf (set_tf_sp VIRT_USTACK_TOP (tf t)) t)) ;;;
              modify (upd_thread th (fun t =>
                set_tf (set_psr (Z.lor PSR_M_USR PSR_F) (tf t)) t)) ;;;
              modify (upd_thread th (fun t =>
                set_tf (set_pc (entry binary) (tf t)) t)) ;;;
              ret 0
          end
    end.

(** process_free *)
Definition process_free (process : proc_ref) : M unit :=
  kmem_free_process process.

(** process_create.  The second component of the result is what is stored
    through [pstore] when it is given. *)
Definition process_create (binary : Elf32_Ehdr) (pstore : bool)
    : M (Z * option proc_ref) :=
  let* proc := process_alloc in
  match proc with
  | None => ret (- ENOMEM, None)
  | Some proc =>
      let* v := process_setup_vm proc in
      let r := c_bool (v <? 0) in
      if c_true r then
        process_free proc ;;;
        ret (r, None)
      else
        let* r := process_load_binary proc binary in
        if r <? 0 then
          let* s := get in
          vm_destroy (vm (the_proc proc s)) ;;;
          process_free proc ;;;
          ret (r, None)
        else
          modify (upd_proc proc (set_euid 0)) ;;;
          modify (upd_proc proc (set_ruid 0)) ;;;
          modify (upd_proc proc (set_egid 0)) ;;;
          modify (upd_proc proc (set_rgid 0)) ;;;
          modify (upd_proc proc (set_cmask 0)) ;;;
          let* s := get in
          match thread (the_proc proc s) with
          | None => null_dereference
          | Some th =>
              let* _ := task_resume th in
              ret (0, if pstore then Some proc else None)
          end
  end.

(** pid_lookup *)
Definition pid_lookup (p : Z) : M (option proc_ref) :=
  spin_lock PidHashLock ;;;
  let* s := get in
  match filter (fun t => pid (the_thread t s) = p) (pid_hash s) with
  | t :: _ =>
      spin_unlock PidHashLock ;;;
      ret (thread_process (the_thread t s))
  | [] =>
      spin_unlock PidHashLock ;;;
      ret None
  end.

(** process_destroy: the loop that moves the children to the init process.
    It runs until the list of children is empty; [fuel] bounds it. *)
Fixpoint reparent_loop (fuel : nat) (current init : proc_ref)
    (has_zombies : Z) : M Z :=
  match fuel with
  | O => fun _ s => OutOfFuel s
  | S fuel' =>
      let* s := get in
      match children (the_proc current s) with
      | [] => ret has_zombies
      | child :: _ =>
          modify (sibling_remove child) ;;;
          modify (upd_proc child (set_parent (Some init))) ;;;
          modify (upd_proc init (fun p =>
            set_children (children p ++ [child]) p)) ;;;
          let* s := get in
          reparent_loop fuel' current init
            (if c_true (zombie (the_proc child s)) then 1 else has_zombies)
      end
  end.

Fixpoint close_files (fs : list (option file_ref)) : M unit :=
  match fs with
  | [] => ret tt
  | Some f :: fs' => emit (EvFileClose f) ;;; close_files fs'
  | None :: fs' => close_files fs'
  end.

(** files[fd] for fd below OPEN_MAX. *)
Definition open_files (p : Process) : list (option file_ref) :=
  map (fun fd => default None (files p !! fd)) (seq 0 OPEN_MAX).

(** process_destroy.  task_destroy(NULL) destroys the calling task, as
    task_exit of the scheduler does. *)
Definition process_destroy (fuel : nat) (status : Z) : M unit :=
  let* cur := process_current in
  match cur with
  | None => null_dereference
  | Some current =>
  spin_lock PidHashLock ;;;
  let* s := get in
  match thread (the_proc current s) with
  | None => null_dereference
  | Some th =>
  modify (set_pid_hash (unlink th)) ;;;
  spin_unlock PidHashLock ;;;
  vm_destroy (vm (the_proc current s)) ;;;
  close_files (open_files (the_proc current s)) ;;;
  emit (EvInodePut (cwd (the_proc current s))) ;;;
  match init_process s with
  | None => panic "assertion failed: init_process != NULL"
  | Some init =>
  spin_lock ProcessLock ;;;
  let* has_zombies := reparent_loop fuel current init 0 in
  (if c_true has_zombies then wchan_wakeup_all fuel init else ret tt) ;;;
  modify (upd_proc current (set_zombie 1)) ;;;
  modify (upd_proc current (set_exit_code status)) ;;;
  let* s := get in
  match parent (the_proc current s) with
  | Some p => wchan_wakeup_all fuel p
  | None => ret tt
  end ;;;
  spin_unlock ProcessLock ;;;
  task_exit
  end end end.

Fixpoint dup_files (fs : list (option file_ref)) : M unit :=
  match fs with
  | [] => ret tt
  | Some f :: fs' => emit (EvFileDup f) ;;; dup_files fs'
  | None :: fs' => dup_files fs'
  end.

(** process_copy.  file_dup and fs_inode_duplicate return the object they
    are given, with one more reference. *)
Definition process_copy : M Z :=
  let* cur := process_current in
  let* child := process_alloc in
  match child with
  | None => ret (- ENOMEM)
  | Some child =>
  match cur with
  | None => null_dereference
  | Some current =>
  let* s := get in
  let* v := vm_clone (vm (the_proc current s)) in
  modify (upd_proc child (set_vm v)) ;;;
  match v with
  | None =>
      process_free child ;;;
      ret (- ENOMEM)
  | Some _ =>
  modify (upd_proc child (set_parent (Some current))) ;;;
  let* s := get in
  match thread (the_proc child s), thread (the_proc current s) with
  | Some cth, Some pth =>
  modify (upd_thread cth (set_tf (tf (the_thread pth s)))) ;;;
  modify (upd_thread cth (fun t => set_tf (set_r0 0 (tf t)) t)) ;;;
  dup_files (open_files (the_proc current s)) ;;;
  modify (upd_proc child (set_files (open_files (the_proc current s)))) ;;;
  modify (upd_proc child (set_ruid (ruid (the_proc current s)))) ;;;
  modify (upd_proc child (set_euid (euid (the_proc current s)))) ;;;
  modify (upd_proc child (set_rgid (rgid (the_proc current s)))) ;;;
  modify (upd_proc child (set_egid (egid (the_proc current s)))) ;;;
  modify (upd_proc child (set_cmask (cmask (the_proc current s)))) ;;;
  emit (EvInodeDup (cwd (the_proc current s))) ;;;
  modify (upd_proc child (set_cwd (cwd (the_proc current s)))) ;;;
  spin_lock ProcessLock ;;;
  modify (upd_proc current (fun p =>
    set_children (children p ++ [child]) p)) ;;;
  spin_unlock ProcessLock ;;;
  let* _ := task_resume cth in
  let* s := get in
  ret (pid (the_thread cth s))
  | _, _ => null_dereference
  end end end end.

(** process_wait: one pass over the children.  [Reaped p found]: the zombie
    child p is taken; [Scanned found]: the pass ended without one;
    [ScanFault]: a child without a thread was dereferenced. *)
Inductive ScanResult :=
| Reaped (p : proc_ref) (found : Z)
| Scanned (found : Z)
| ScanFault.

Fixpoint scan_children (s : Kernel) (p_id : Z) (l : list proc_ref)
    (found : Z) : ScanResult :=
  match l with
  | [] => Scanned found
  | p :: l' =>
      if 0 <? p_id then
        match thread (the_proc p s) with
        | None => ScanFault
        | Some th =>
            if negb (pid (the_thread th s) =? p_id)
            then scan_children s p_id l' found
            else
              let found := pid (the_thread th s) in
              if c_true (zombie (the_proc p s)) then Reaped p found
              else scan_children s p_id l' found
        end
      else if p_id =? 0 then Scanned found
      else if p_id <? -1 then Scanned found
      else
        match thread (the_proc p s) with
        | None => ScanFault
        | Some th =>
            let found := pid (the_thread th s) in
            if c_true (zombie (the_proc p s)) then Reaped p found
            else scan_children s p_id l' found
        end
  end.

(** process_wait: the loop around the pass; [fuel] bounds the number of
    times the caller sleeps and tries again.  [stat_loc] is an address of
    user memory, or NULL. *)
Fixpoint process_wait_loop (fuel : nat) (current : proc_ref) (p_id : Z)
    (stat_loc : option Z) (options : Z) : M Z :=
  match fuel with
  | O => fun _ s => OutOfFuel s
  | S fuel' =>
      let* s := get in
      match scan_children s p_id (children (the_proc current s)) 0 with
      | ScanFault => null_dereference
      | Reaped p found =>
          modify (sibling_remove p) ;;;
          spin_unlock ProcessLock ;;;
          let* s := get in
          match stat_loc with
          | Some a =>
              modify (set_umem (insert a (exit_code (the_proc p s))))
          | None => ret tt
          end ;;;
          process_free p ;;;
          ret found
      | Scanned found =>
          if negb (c_true found) then
            spin_unlock ProcessLock ;;;
            ret (- ECHILD)
          else if c_true (Z.land options WNOHANG) then
            spin_unlock ProcessLock ;;;
            ret 0
          else
            wchan_sleep current ProcessLock ;;;
            process_wait_loop fuel' current p_id stat_loc options
      end
  end.

(** process_wait *)
Definition process_wait (fuel : nat) (p_id : Z) (stat_loc : option Z)
    (options : Z) : M Z :=
  let* cur := process_current in
  if c_true (Z.land options (Z.lnot (Z.lor WNOHANG WUNTRACED)))
  then ret (- EINVAL)
  else
    spin_lock ProcessLock ;;;
    match cur with
    | None => null_dereference
    | Some current => process_wait_loop fuel current p_id stat_loc options
    end.
(** ** States named in the properties *)

(** The state after spin_holding, after a spin_lock that takes the lock and
    after a spin_unlock that releases it. *)
Definition irq_blip (me : cpu_id) (s : Kernel) : Kernel :=
  upd_cpu me irq_restore_cpu (upd_cpu me irq_save_cpu s).

Definition lock_taken (lock : LockRef) (me : cpu_id) (s : Kernel) : Kernel :=
  upd_lock lock (set_pcs (save_pcs_loop NCALLERPCS (fp_chain (the_cpu me s))))
    (upd_lock lock (set_lock_cpu (Some me))
       (upd_lock lock (set_locked 1) s)).

Definition after_spin_lock (lock : LockRef) (me : cpu_id) (s : Kernel)
    : Kernel :=
  lock_taken lock me (irq_blip me (upd_cpu me irq_save_cpu s)).

Definition after_spin_unlock (lock : LockRef) (me : cpu_id) (s : Kernel)
    : Kernel :=
  upd_cpu me irq_restore_cpu
    (upd_lock lock (set_locked 0)
       (upd_lock lock (fun l => set_pcs (<[0%nat := 0]> (pcs l)) l)
          (upd_lock lock (set_lock_cpu None) (irq_blip me s)))).

(** What spin_print_caller_pcs prints: the saved PCs from slot 0 up to the
    first empty slot, NCALLERPCS of them at most. *)
Definition printed_pcs (l : SpinLock) (evs : list Event) : Prop :=
  exists n : nat,
    (n <= NCALLERPCS)%nat /\
    evs = map (fun i => EvPrintPc (pcs_at l i)) (seq 0 n) /\
    (forall i, (i < n)%nat -> pcs_at l i <> 0) /\
    (n = NCALLERPCS \/ pcs_at l n = 0).

(** The priority of a task indexes the array of run queues. *)
Definition valid_priority (s : Kernel) (t : tid) : Prop :=
  0 <= priority (the_task t s) < Z.of_nat (length (sched_queue s)) /\
  priority (the_task t s) <= INT_MAX.

(** The state after sched_enqueue. *)
Definition enqueued (th : tid) (me : cpu_id) (s : Kernel) : Kernel :=
  runqueue_add_back (priority (the_task th s)) th
    (upd_task th (set_state TASK_STATE_READY) (irq_blip me s)).


(** ** Claims of the specification that the code does not meet, as stated *)

(** sched_may_yield, as the specification has it: with the scheduler lock
    held and a task running, either the running task has a strictly lower
    priority than the candidate and the CPU is not in an ISR, and then the
    running task is put on its run queue and the CPU switches to the
    scheduler; or else the reschedule flag is set on the running task. *)
Definition may_yield_claim : Prop :=
  forall (candidate : tid) (me : cpu_id) (s : Kernel) (my_task : tid),
    holding (the_lock SchedLock s) me = true ->
    cpu_task (the_cpu me s) = Some my_task ->
    let o := sched_may_yield candidate me s in
    if (priority (the_task candidate s) <? priority (the_task my_task s))
       && (isr_nesting (the_cpu me s) =? 0)
    then
      exists s' k, o = Switch s' k /\
        my_task ∈ runqueue (Z.to_nat (priority (the_task my_task s))) s'
    else
      Z.land (flags (the_task my_task (final o))) TASK_FLAGS_RESCHEDULE <> 0.

(** ** How a call ends *)

(** The call returned, or its task was switched out at a point from which
    the call returns as soon as the task is switched back in. *)
Definition completes {A} (o : Outcome A) : Prop :=
  match o with
  | Return _ _ => True
  | Switch _ k => forall me' s', exists a s'', k me' s' = Return a s''
  | _ => False
  end.

(** The priority of a task is a value of the type of the field, so that the
    difference of two priorities does not overflow an int. *)
Definition prio_ok (s : Kernel) (t : tid) : Prop :=
  0 <= priority (the_task t s) <= INT_MAX.

(** The state after the wake-up of a task: unlinked, the result recorded,
    made ready at the back of its run queue. *)
Definition woken (task : tid) (result : Z) (me : cpu_id) (s : Kernel)
    : Kernel :=
  enqueued task me
    (upd_task task (set_sleep_result result) (list_remove task s)).

(** ** What a wake-up that does not preempt the caller leaves alone *)

(** [task] does not preempt [my_task]: its priority is not strictly higher. *)
Definition no_preempt (s : Kernel) (my_task task : tid) : Prop :=
  (0 <? task_priority_cmp (the_task task s) (the_task my_task s)) = false.

(** From [s] to [s'] only the scheduler worked, on the CPU [me]: processes,
    threads, user memory and caches are the same, the CPU runs the same
    task, priorities are the same and no wait list has grown. *)
Definition sched_frame (me : cpu_id) (s s' : Kernel) : Prop :=
  procs s' = procs s /\ threads s' = threads s /\ umem s' = umem s /\
  init_process s' = init_process s /\
  process_cache s' = process_cache s /\
  cpu_task (the_cpu me s') = cpu_task (the_cpu me s) /\
  (forall t, priority (the_task t s') = priority (the_task t s)) /\
  (forall q t, t ∈ the_list q s' -> t ∈ the_list q s) /\
  (forall q, (length (the_list q s') <= length (the_list q s))%nat).

(** ** What the exit of a process does to the other processes *)

(** From [s] to [s'] children of the process [c] were moved to another
    parent: no process changed its thread, zombie flag or exit code; a
    list of children holds what it held, or children of [c]; a process that
    is not a child of [c] stays where it was, with the parent it had. *)
Definition reparented (c : proc_ref) (s s' : Kernel) : Prop :=
  (forall x, thread (the_proc x s') = thread (the_proc x s) /\
             zombie (the_proc x s') = zombie (the_proc x s) /\
             exit_code (the_proc x s') = exit_code (the_proc x s)) /\
  (forall q x, x ∈ children (the_proc q s') ->
     x ∈ children (the_proc q s) \/ x ∈ children (the_proc c s)) /\
  (forall q x, x ∈ children (the_proc q s) ->
     x ∉ children (the_proc c s) -> x ∈ children (the_proc q s')) /\
  (forall x, x ∉ children (the_proc c s) ->
     parent (the_proc x s') = parent (the_proc x s)).

(** The state after one round of the loop of process_destroy that moves the
    children to the init process. *)
Definition reparent_step (child init : proc_ref) (s : Kernel) : Kernel :=
  upd_proc init (fun p => set_children (children p ++ [child]) p)
    (upd_proc child (set_parent (Some init)) (sibling_remove child s)).

(** As [sched_frame], but for the processes, which may have changed. *)
Definition task_frame (me : cpu_id) (s s' : Kernel) : Prop :=
  threads s' = threads s /\ init_process s' = init_process s /\
  cpu_task (the_cpu me s') = cpu_task (the_cpu me s) /\
  (forall t, priority (the_task t s') = priority (the_task t s)) /\
  (forall q t, t ∈ the_list q s' -> t ∈ the_list q s) /\
  (forall q, (length (the_list q s') <= length (the_list q s))%nat).

(** ** What process_alloc leaves behind *)

(** From [s] to [sa], process_alloc took the process [p] and the thread
    [th] from the caches on the CPU [me]: the two are linked, the thread has
    the next PID and its task is suspended with the priority NZERO; no other
    process, thread or task changed, and no lock but the one of the PID
    table was touched. *)
Definition allocated (p : proc_ref) (th : tid) (me : cpu_id)
    (s sa : Kernel) : Prop :=
  (forall x, x <> p -> the_proc x sa = the_proc x s) /\
  thread (the_proc p sa) = Some th /\
  (forall x, x <> th -> the_thread x sa = the_thread x s) /\
  thread_process (the_thread th sa) = Some p /\
  pid (the_thread th sa) = next_pid s + 1 /\
  (forall x, x <> th -> the_task x sa = the_task x s) /\
  state (the_task th sa) = TASK_STATE_SUSPENDED /\
  priority (the_task th sa) = NZERO /\
  (forall l, l <> PidHashLock -> the_lock l sa = the_lock l s) /\
  cpu_task (the_cpu me sa) = cpu_task (the_cpu me s) /\
  isr_nesting (the_cpu me sa) = isr_nesting (the_cpu me s) /\
  vmstate sa = vmstate s /\
  process_cache sa = tail (process_cache s) /\
  thread_cache sa = tail (thread_cache s) /\
  free_pages sa = tail (free_pages s).

(** ** Mailboxes *)

(** The ring of a mailbox is well formed: it has [capacity] slots of
    [msg_size] bytes inside the buffer, the read cursor is at the start of
    a slot and the write cursor is [size] slots further, around the ring. *)
Definition mailbox_ok (mb : KMailBox) : Prop :=
  0 < msg_size mb /\ 0 < capacity mb /\
  buf_end mb = capacity mb * msg_size mb /\
  buf_end mb <= Z.of_nat (length (buf mb)) /\
  0 <= size mb <= capacity mb /\
  exists r, 0 <= r < capacity mb /\
    read_ptr mb = r * msg_size mb /\
    write_ptr mb = ((r + size mb) mod capacity mb) * msg_size mb.

(** * More of the code *)

(** ** How a call that may be switched out ends *)

(** The call ends with the result [a] and [Q] holds where it stops: it
    returns [a] in a state that satisfies [Q]; or its task is switched out
    in such a state and, switched back in on a CPU and in a state that [R]
    accepts, it returns [a] in a state that [F] relates to the one it was
    resumed in. *)
Definition ends {A} (o : Outcome A) (a : A) (Q : Kernel -> Prop)
    (R : cpu_id -> Kernel -> Prop) (F : Kernel -> Kernel -> Prop) : Prop :=
  match o with
  | Return a' s => a' = a /\ Q s
  | Switch s k =>
      Q s /\
      forall me' s', R me' s' -> exists s'', k me' s' = Return a s'' /\ F s' s''
  | _ => False
  end.

(** ** The mailbox as a queue of messages *)

(** The mailbox after k_mailbox_try_send_locked stored a message. *)
Definition mb_sent (message : list Byte.byte) (mb : KMailBox) : KMailBox :=
  let m1 := set_buf (ring_write (write_ptr mb) message (msg_size mb) (buf mb))
              mb in
  let m2 := set_write_ptr (write_ptr m1 + msg_size m1) m1 in
  let m3 := if buf_end m2 <=? write_ptr m2 then set_write_ptr 0 m2 else m2 in
  set_size (wrap_size (size m3 + 1)) m3.

(** The mailbox after k_mailbox_try_receive_locked took a message. *)
Definition mb_received (mb : KMailBox) : KMailBox :=
  let m1 := set_read_ptr (read_ptr mb + msg_size mb) mb in
  let m2 := if buf_end m1 <=? read_ptr m1 then set_read_ptr 0 m1 else m1 in
  set_size (wrap_size (size m2 - 1)) m2.

(** The i-th message from the read cursor on, around the ring. *)
Definition slot_at (mb : KMailBox) (i : nat) : list Byte.byte :=
  ring_read ((read_ptr mb + Z.of_nat i * msg_size mb) mod buf_end mb)
    (msg_size mb) (buf mb).

(** The messages in the mailbox, oldest first. *)
Definition contents (mb : KMailBox) : list (list Byte.byte) :=
  map (slot_at mb) (seq 0 (Z.to_nat (size mb))).

(** ** The run queues *)

(** Every task on a run queue is on the queue of its priority. *)
Definition runqueues_ok (s : Kernel) : Prop :=
  forall i t, t ∈ runqueue i s -> priority (the_task t s) = Z.of_nat i.
End Kernel.

Arguments Return {_ A} a s.
Arguments Panic {_ A} msg s.
Arguments OutOfFuel {_ A} s.
Arguments Spin {_ A} l s k.
Arguments Switch {_ A} s k.

(** * A platform and states to run the kernel on *)

(** The constants of a usual ARM build, and a virtual-memory subsystem that
    can create as many address spaces as its state says, grants every region
    at the address asked for and copies without error. *)
Definition sample_platform : Extern := {|
  ENOMEM := 12;
  EINVAL := 22;
  ECHILD := 10;
  EAGAIN := 11;
  ETIMEDOUT := 116;
  WNOHANG := 1;
  WUNTRACED := 2;
  NCALLERPCS := 10;
  TASK_FLAGS_RESCHEDULE := 1;
  TASK_MAX_PRIORITIES := 40;
  K_MAILBOX_TYPE := 1296189510;
  NZERO := 20;
  OPEN_MAX := 4;
  VIRT_USTACK_TOP := 2147483648;
  USTACK_SIZE := 16384;
  PSR_M_USR := 16;
  PSR_F := 64;
  PT_LOAD := 1;
  VM_READ := 1;
  VM_WRITE := 2;
  VM_EXEC := 4;
  VmState := nat;
  vm_space_create := fun n =>
    match n with O => (None, O) | S k => (Some k, k) end;
  vm_space_destroy := fun _ n => S n;
  vm_space_clone := fun _ n =>
    match n with O => (None, O) | S k => (Some k, k) end;
  vm_space_alloc := fun _ va _ _ n => (va, n);
  vm_space_copy_out := fun _ _ _ _ n => (0, n);
|}.

(** The kernel after sched_init, with three free objects in each cache,
    three free pages and room for [nvm] address spaces. *)
Definition booted (nvm : nat) : @Kernel sample_platform :=
  @mkKernel sample_platform ∅ ∅ [] ∅ (replicate 40 []) ∅ ∅ ∅ ∅ 0 [] None
    [100; 101; 102]%nat [200; 201; 202]%nat [300; 301; 302]%nat ∅ nvm ∅.

(** A lock held by a CPU. *)
Definition held_by (c : cpu_id) : SpinLock :=
  {| locked := 1; lock_cpu := Some c; lock_name := "sched"; pcs := [] |}.

(** A task in a given state with a given priority. *)
Definition task_of (prio : Z) (st : TaskState) : Task :=
  {| flags := 0; priority := prio; state := st; sleep_result := 0;
     sleep_timer := {| remain := 0 |}; task_cpu := None;
     task_process := None; task_kstack := None |}.

(** CPU 0 runs a task and is not in an ISR. *)
Definition cpu_running (t : tid) (nesting : Z) : Cpu :=
  {| cpu_task := Some t; isr_nesting := nesting; irq_save_count := 1;
     irq_flags := 1; irq_enabled := false; fp_chain := [] |}.

(** CPU 0 holds the scheduler lock and runs task 1, of priority 2; task 2,
    of priority 5, is ready. *)
Definition two_tasks (nesting : Z) : @Kernel sample_platform :=
  set_cpus (fun _ => {[ 0%nat := cpu_running 1 nesting ]})
    (set_locks (fun _ => {[ SchedLock := held_by 0 ]})
       (set_tasks (fun _ => {[ 1%nat := task_of 2 TASK_STATE_RUNNING;
                               2%nat := task_of 5 TASK_STATE_READY ]})
          (booted 0))).

(** CPU 0 holds the scheduler lock and runs task 1, of priority 2.  Tasks 3,
    4 and 5, of priorities 5, 2 and 2, sleep in this order on the list at
    address 9. *)
Definition three_sleepers : @Kernel sample_platform :=
  set_cpus (fun _ => {[ 0%nat := cpu_running 1 0 ]})
    (set_locks (fun _ => {[ SchedLock := held_by 0 ]})
       (set_tasks (fun _ => {[ 1%nat := task_of 2 TASK_STATE_RUNNING;
                               3%nat := task_of 5 TASK_STATE_SLEEPING;
                               4%nat := task_of 2 TASK_STATE_SLEEPING;
                               5%nat := task_of 2 TASK_STATE_SLEEPING ]})
          (set_lists (fun _ => {[ ListAt 9 := [3; 4; 5]%nat ]})
             (booted 0)))).

(** A process with a thread, a parent and children, and nothing else. *)
Definition process_of (th : tid) (par : option proc_ref)
    (kids : list proc_ref) : Process :=
  {| thread := Some th; vm := None; parent := par; children := kids;
     zombie := 0; exit_code := 0; files := []; cwd := None;
     ruid := 0; euid := 0; rgid := 0; egid := 0; cmask := 0 |}.

(** The thread of a process, with its PID. *)
Definition thread_of (p : proc_ref) (id : Z) : ProcessThread :=
  {| thread_process := Some p; pid := id; kstack := None;
     tf := {| r0 := 7; r1 := 1; r2 := 2; tf_sp := 4096; psr := 16;
              pc := 32768; tf_other := [] |} |}.

(** The init process 100, of PID 1 and thread 200, and its child 101, of
    PID 2 and thread 201.  CPU 0 runs the thread [running]; every lock is
    free and nobody waits. *)
Definition family (running : tid) : @Kernel sample_platform :=
  set_cpus (fun _ => {[ 0%nat := cpu_running running 0 ]})
    (set_tasks (fun _ => {[ 200%nat := task_of 20 TASK_STATE_READY;
                            201%nat := task_of 20 TASK_STATE_READY ]})
       (set_threads (fun _ => {[ 200%nat := thread_of 100 1;
                                 201%nat := thread_of 101 2 ]})
          (set_procs (fun _ => {[ 100%nat := process_of 200 None [101%nat];
                                  101%nat := process_of 201 (Some 100%nat) [] ]})
             (set_init_process (fun _ => Some 100%nat)
                (set_next_pid (fun _ => 2)
                   (set_process_cache (fun _ => [102%nat])
                      (set_thread_cache (fun _ => [202%nat])
                         (booted 1)))))))).

(** An ELF image without segments. *)
Definition sample_elf : Elf32_Ehdr :=
  {| ident := [Byte.x7f; Byte.x45; Byte.x4c; Byte.x46; Byte.x01; Byte.x01];
     entry := 32768; phdrs := []; image := [] |}.

(** A task of priority 20 that belongs to a process and has a kernel stack
    page. *)
Definition process_task (st : TaskState) (c : option cpu_id) (p : proc_ref)
    (pg : page_ref) : Task :=
  {| flags := 0; priority := 20; state := st; sleep_result := 0;
     sleep_timer := {| remain := 0 |}; task_cpu := c;
     task_process := Some p; task_kstack := Some pg |}.

(** The init process 100, of PID 1 and thread 200, and its child 101, of
    PID 2 and thread 201.  CPU 0 runs the child; the parent is ready on the
    run queue 20.  The process 102, the thread 202 and three pages are free;
    every lock is free and nobody waits. *)
Definition household : @Kernel sample_platform :=
  set_cpus (fun _ => {[ 0%nat := cpu_running 201 0 ]})
    (set_tasks (fun _ =>
       {[ 200%nat := process_task TASK_STATE_READY None 100 310;
          201%nat := process_task TASK_STATE_RUNNING (Some 0%nat) 101 311 ]})
       (set_threads (fun _ => {[ 200%nat := thread_of 100 1;
                                 201%nat := thread_of 101 2 ]})
          (set_procs (fun _ =>
             {[ 100%nat := process_of 200 None [101%nat];
                101%nat := process_of 201 (Some 100%nat) [] ]})
             (set_init_process (fun _ => Some 100%nat)
                (set_next_pid (fun _ => 2)
                   (set_pid_hash (fun _ => [201; 200]%nat)
                      (set_process_cache (fun _ => [102%nat])
                         (set_thread_cache (fun _ => [202%nat])
                            (set_page_refs
                               (fun _ => {[ 310%nat := 1; 311%nat := 1 ]})
                               (set_sched_queue
                                  (fun q => <[20%nat := [200%nat]]> q)
                                  (booted 1))))))))))).

(** What follows in the household: the child exits with the status 42; the
    scheduler loop of CPU 0 reclaims its task; the scheduler switches to the
    parent, which releases the scheduler lock as every task that is switched
    in does; the parent forks. *)
Definition exited : @Kernel sample_platform :=
  final (process_destroy 5 42 0%nat household).

Definition reclaimed : @Kernel sample_platform :=
  final (sched_start_return 201%nat 0%nat exited).

Definition dispatched : @Kernel sample_platform :=
  final (sched_start_dispatch 0%nat reclaimed).

Definition resumed : @Kernel sample_platform :=
  final (sched_unlock 0%nat dispatched).

Definition forked : @Kernel sample_platform :=
  final (process_copy 0%nat resumed).

(** Every step of this history is a run of the code that ends as it should:
    the exit at the switch to the scheduler, the others by returning. *)
Definition household_history : Prop :=
  pid (the_thread 201%nat household) = 2 /\
  (exists k, process_destroy 5 42 0%nat household = Switch exited k) /\
  sched_start_return 201%nat 0%nat exited = Return tt reclaimed /\
  sched_start_dispatch 0%nat reclaimed = Return (Some 200%nat) dispatched /\
  sched_unlock 0%nat dispatched = Return tt resumed /\
  process_copy 0%nat resumed = Return 3 forked.

(** An empty mailbox, number 7, with a ring of two slots of four bytes. *)
Definition empty_box : KMailBox :=
  {| buf := replicate 8 Byte.x00; buf_end := 8; read_ptr := 0;
     write_ptr := 0; msg_size := 4; capacity := 2; size := 0;
     mbox_type := 1296189510 |}.

(** CPU 0 runs task 1; every lock is free and nobody waits. *)
Definition with_box (mb : KMailBox) : @Kernel sample_platform :=
  set_cpus (fun _ => {[ 0%nat := cpu_running 1 0 ]})
    (set_tasks (fun _ => {[ 1%nat := task_of 2 TASK_STATE_RUNNING ]})
       (set_mailboxes (fun _ => {[ 7%nat := mb ]}) (booted 0))).

Definition five_bytes : list Byte.byte :=
  [Byte.x01; Byte.x02; Byte.x03; Byte.x04; Byte.x05].

(** The sample mailbox with one message, and with two: it is full. *)
Definition one_message_box : KMailBox :=
  {| buf := [Byte.x0a; Byte.x0b; Byte.x0c; Byte.x0d;
             Byte.x00; Byte.x00; Byte.x00; Byte.x00];
     buf_end := 8; read_ptr := 0; write_ptr := 4; msg_size := 4;
     capacity := 2; size := 1; mbox_type := 1296189510 |}.

Definition full_box : KMailBox :=
  {| buf := [Byte.x0a; Byte.x0b; Byte.x0c; Byte.x0d;
             Byte.x01; Byte.x02; Byte.x03; Byte.x04];
     buf_end := 8; read_ptr := 4; write_ptr := 4; msg_size := 4;
     capacity := 2; size := 2; mbox_type := 1296189510 |}.

(** CPU 0 runs task 1 two calls deep: the chain of frame pointers gives two
    return addresses.  Every lock is free. *)
Definition two_frames : @Kernel sample_platform :=
  set_cpus (fun _ => {[ 0%nat :=
      {| cpu_task := Some 1%nat; isr_nesting := 0; irq_save_count := 0;
         irq_flags := 0; irq_enabled := true;
         fp_chain := [32768; 32800] |} ]})
    (set_tasks (fun _ => {[ 1%nat := task_of 2 TASK_STATE_RUNNING ]})
       (booted 0)).

(** As [two_tasks], with task 2 on the run queue of its priority, 5. *)
Definition one_ready : @Kernel sample_platform :=
  set_sched_queue (fun q => <[5%nat := [2%nat]]> q) (two_tasks 0).

(** CPU 0 is in an ISR that interrupted task 1, of priority 2, for which a
    reschedule is pending.  Every lock is free. *)
Definition in_isr_flagged : @Kernel sample_platform :=
  set_cpus (fun _ => {[ 0%nat :=
      {| cpu_task := Some 1%nat; isr_nesting := 1; irq_save_count := 0;
         irq_flags := 0; irq_enabled := false; fp_chain := [] |} ]})
    (set_tasks (fun _ => {[ 1%nat :=
        {| flags := 1; priority := 2; state := TASK_STATE_RUNNING;
           sleep_result := 0; sleep_timer := {| remain := 0 |};
           task_cpu := Some 0%nat; task_process := None;
           task_kstack := None |} ]})
       (booted 0)).

(** As [three_sleepers], with every lock free: the state a timer interrupt
    finds. *)
Definition sleepers_unlocked : @Kernel sample_platform :=
  set_locks (fun _ => ∅) three_sleepers.

(** CPU 0 runs task 1, of priority 2; task 6, of priority 3, has been
    created and not resumed yet.  Every lock is free. *)
Definition one_suspended : @Kernel sample_platform :=
  set_cpus (fun _ => {[ 0%nat := cpu_running 1 0 ]})
    (set_tasks (fun _ => {[ 1%nat := task_of 2 TASK_STATE_RUNNING;
                            6%nat := task_of 3 TASK_STATE_SUSPENDED ]})
       (booted 0)).

(** CPU 0 runs task 1 and holds the lock at address 4; task 8 already waits
    on the list at address 9.  The scheduler lock is free. *)
Definition about_to_sleep : @Kernel sample_platform :=
  set_cpus (fun _ => {[ 0%nat := cpu_running 1 0 ]})
    (set_locks (fun _ => {[ LockAt 4 := held_by 0 ]})
       (set_tasks (fun _ => {[ 1%nat := task_of 2 TASK_STATE_RUNNING;
                               8%nat := task_of 2 TASK_STATE_SLEEPING ]})
          (set_lists (fun _ => {[ ListAt 9 := [8%nat] ]}) (booted 0)))).

(** CPU 0 runs task 1, whose kernel stack is the page 310, referenced once.
    Every lock is free. *)
Definition with_stack : @Kernel sample_platform :=
  set_cpus (fun _ => {[ 0%nat := cpu_running 1 0 ]})
    (set_tasks (fun _ => {[ 1%nat :=
        {| flags := 0; priority := 2; state := TASK_STATE_RUNNING;
           sleep_result := 0; sleep_timer := {| remain := 0 |};
           task_cpu := Some 0%nat; task_process := None;
           task_kstack := Some 310%nat |} ]})
       (set_page_refs (fun _ => {[ 310%nat := 1 ]}) (booted 0))).

(** CPU 0 runs task 1, of priority 2; task 4, of the same priority, is
    ready on the run queue 2.  Every lock is free. *)
Definition two_equals : @Kernel sample_platform :=
  set_cpus (fun _ => {[ 0%nat := cpu_running 1 0 ]})
    (set_tasks (fun _ => {[ 1%nat := task_of 2 TASK_STATE_RUNNING;
                            4%nat := task_of 2 TASK_STATE_READY ]})
       (set_sched_queue (fun q => <[2%nat := [4%nat]]> q) (booted 0))).

(** As [family], run by the init process, whose child has exited with the
    status 3. *)
Definition family_zombie : @Kernel sample_platform :=
  upd_proc 101%nat (fun p => set_zombie 1 (set_exit_code 3 p))
    (family 200%nat).

(** The init process 100 with its child 101, which has the children 102,
    a zombie, and 103.  CPU 0 runs the thread 201 of the process 101; every
    lock is free and nobody waits. *)
Definition clan : @Kernel sample_platform :=
  set_cpus (fun _ => {[ 0%nat := cpu_running 201 0 ]})
    (set_tasks (fun _ => {[ 200%nat := task_of 20 TASK_STATE_READY;
                            201%nat := task_of 20 TASK_STATE_RUNNING;
                            202%nat := task_of 20 TASK_STATE_NONE;
                            203%nat := task_of 20 TASK_STATE_READY ]})
       (set_threads (fun _ => {[ 200%nat := thread_of 100 1;
                                 201%nat := thread_of 101 2;
                                 202%nat := thread_of 102 3;
                                 203%nat := thread_of 103 4 ]})
          (set_procs (fun _ =>
             {[ 100%nat := process_of 200 None [101%nat];
                101%nat := process_of 201 (Some 100%nat) [102%nat; 103%nat];
                102%nat := set_zombie 1
                             (process_of 202 (Some 101%nat) []);
                103%nat := process_of 203 (Some 101%nat) [] ]})
             (set_init_process (fun _ => Some 100%nat)
                (set_next_pid (fun _ => 4) (booted 1)))))).

(** The booted kernel with no free page left. *)
Definition no_pages : @Kernel sample_platform :=
  set_free_pages (fun _ => []) (booted 1).

(** A note segment, and a loadable segment of 8 bytes of the file for 16
    bytes of memory at the address 32768. *)
Definition note_segment : Elf32_Phdr :=
  {| p_type := 4; p_offset := 0; p_vaddr := 0; p_filesz := 0;
     p_memsz := 0 |}.

Definition text_segment : Elf32_Phdr :=
  {| p_type := 1; p_offset := 0; p_vaddr := 32768; p_filesz := 8;
     p_memsz := 16 |}.

(** An image with the two segments, and one whose loadable segment claims
    more bytes in the file than in memory. *)
Definition good_elf : Elf32_Ehdr :=
  {| ident := [Byte.x7f; Byte.x45; Byte.x4c; Byte.x46; Byte.x01; Byte.x01];
     entry := 32768; phdrs := [note_segment; text_segment];
     image := replicate 8 Byte.x00 |}.

Definition oversized_elf : Elf32_Ehdr :=
  {| ident := [Byte.x7f; Byte.x45; Byte.x4c; Byte.x46; Byte.x01; Byte.x01];
     entry := 32768;
     phdrs := [note_segment;
               {| p_type := 1; p_offset := 0; p_vaddr := 32768;
                  p_filesz := 32; p_memsz := 16 |};
               text_segment];
     image := replicate 8 Byte.x00 |}.
Section Properties.

Context `{Extern}.

(** * Properties *)

(** ** Reading a state after an update *)

Lemma c_true_c_bool (b : bool) : c_true (c_bool b) = b.
Proof. destruct b; reflexivity. Qed.

Lemma the_cpu_upd_cpu c f s : the_cpu c (upd_cpu c f s) = f (the_cpu c s).
Proof. apply lookup_total_insert_eq. Qed.

Lemma the_cpu_upd_cpu_ne c c' f s :
  c <> c' -> the_cpu c' (upd_cpu c f s) = the_cpu c' s.
Proof. intros Hne. by apply lookup_total_insert_ne. Qed.

Lemma the_lock_upd_lock l f s : the_lock l (upd_lock l f s) = f (the_lock l s).
Proof. apply lookup_total_insert_eq. Qed.

Lemma the_lock_upd_lock_ne l l' f s :
  l <> l' -> the_lock l' (upd_lock l f s) = the_lock l' s.
Proof. intros Hne. by apply lookup_total_insert_ne. Qed.

Lemma the_task_upd_task t f s : the_task t (upd_task t f s) = f (the_task t s).
Proof. apply lookup_total_insert_eq. Qed.

Lemma the_task_upd_task_ne t t' f s :
  t <> t' -> the_task t' (upd_task t f s) = the_task t' s.
Proof. intros Hne. by apply lookup_total_insert_ne. Qed.

Lemma the_list_upd_list q f s : the_list q (upd_list q f s) = f (the_list q s).
Proof. apply lookup_total_insert_eq. Qed.

Lemma the_list_upd_list_ne q q' f s :
  q <> q' -> the_list q' (upd_list q f s) = the_list q' s.
Proof. intros Hne. by apply lookup_total_insert_ne. Qed.

Lemma the_proc_upd_proc p f s : the_proc p (upd_proc p f s) = f (the_proc p s).
Proof. apply lookup_total_insert_eq. Qed.

Lemma the_proc_upd_proc_ne p p' f s :
  p <> p' -> the_proc p' (upd_proc p f s) = the_proc p' s.
Proof. intros Hne. by apply lookup_total_insert_ne. Qed.

Lemma the_thread_upd_thread t f s :
  the_thread t (upd_thread t f s) = f (the_thread t s).
Proof. apply lookup_total_insert_eq. Qed.

Lemma the_thread_upd_thread_ne t t' f s :
  t <> t' -> the_thread t' (upd_thread t f s) = the_thread t' s.
Proof. intros Hne. by apply lookup_total_insert_ne. Qed.

Lemma the_mailbox_upd_mailbox m f s :
  the_mailbox m (upd_mailbox m f s) = f (the_mailbox m s).
Proof. apply lookup_total_insert_eq. Qed.

Lemma the_mailbox_upd_mailbox_ne m m' f s :
  m <> m' -> the_mailbox m' (upd_mailbox m f s) = the_mailbox m' s.
Proof. intros Hne. by apply lookup_total_insert_ne. Qed.

Create Rewrite HintDb kst.
#[local] Hint Rewrite c_true_c_bool the_cpu_upd_cpu the_lock_upd_lock
  the_task_upd_task the_list_upd_list the_proc_upd_proc the_thread_upd_thread
  the_mailbox_upd_mailbox : kst.

(** An update of one part of the state leaves the other parts as they
    are; [kframe] drops such updates under a reading. *)
Ltac kpeel acc T s :=
  let E := fresh "E" in
  let ty := eval cbv beta in (forall s0 : Kernel, acc (T s0) = acc s0) in
  assert (E : ty) by (intros ?; exact eq_refl);
  rewrite (E s); clear E.

Ltac kframe :=
  repeat match goal with
    | |- context [the_cpu ?x (?T ?s)] =>
        let acc := constr:(fun s0 : Kernel => the_cpu x s0) in kpeel acc T s
    | |- context [the_lock ?x (?T ?s)] =>
        let acc := constr:(fun s0 : Kernel => the_lock x s0) in kpeel acc T s
    | |- context [the_task ?x (?T ?s)] =>
        let acc := constr:(fun s0 : Kernel => the_task x s0) in kpeel acc T s
    | |- context [the_list ?x (?T ?s)] =>
        let acc := constr:(fun s0 : Kernel => the_list x s0) in kpeel acc T s
    | |- context [the_proc ?x (?T ?s)] =>
        let acc := constr:(fun s0 : Kernel => the_proc x s0) in kpeel acc T s
    | |- context [the_thread ?x (?T ?s)] =>
        let acc := constr:(fun s0 : Kernel => the_thread x s0) in kpeel acc T s
    | |- context [the_mailbox ?x (?T ?s)] =>
        let acc := constr:(fun s0 : Kernel => the_mailbox x s0) in kpeel acc T s
    | |- context [runqueue ?x (?T ?s)] =>
        let acc := constr:(fun s0 : Kernel => runqueue x s0) in kpeel acc T s
    | |- context [trace (?T ?s)] =>
        let acc := constr:(fun s0 : Kernel => trace s0) in kpeel acc T s
    | |- context [sched_queue (?T ?s)] =>
        let acc := constr:(fun s0 : Kernel => sched_queue s0) in kpeel acc T s
    | |- context [lists (?T ?s)] =>
        let acc := constr:(fun s0 : Kernel => lists s0) in kpeel acc T s
    | |- context [tasks (?T ?s)] =>
        let acc := constr:(fun s0 : Kernel => tasks s0) in kpeel acc T s
    | |- context [procs (?T ?s)] =>
        let acc := constr:(fun s0 : Kernel => procs s0) in kpeel acc T s
    | |- context [threads (?T ?s)] =>
        let acc := constr:(fun s0 : Kernel => threads s0) in kpeel acc T s
    | |- context [next_pid (?T ?s)] =>
        let acc := constr:(fun s0 : Kernel => next_pid s0) in kpeel acc T s
    | |- context [pid_hash (?T ?s)] =>
        let acc := constr:(fun s0 : Kernel => pid_hash s0) in kpeel acc T s
    | |- context [init_process (?T ?s)] =>
        let acc := constr:(fun s0 : Kernel => init_process s0) in kpeel acc T s
    | |- context [process_cache (?T ?s)] =>
        let acc := constr:(fun s0 : Kernel => process_cache s0) in kpeel acc T s
    | |- context [thread_cache (?T ?s)] =>
        let acc := constr:(fun s0 : Kernel => thread_cache s0) in kpeel acc T s
    | |- context [free_pages (?T ?s)] =>
        let acc := constr:(fun s0 : Kernel => free_pages s0) in kpeel acc T s
    | |- context [page_refs (?T ?s)] =>
        let acc := constr:(fun s0 : Kernel => page_refs s0) in kpeel acc T s
    | |- context [vmstate (?T ?s)] =>
        let acc := constr:(fun s0 : Kernel => vmstate s0) in kpeel acc T s
    | |- context [umem (?T ?s)] =>
        let acc := constr:(fun s0 : Kernel => umem s0) in kpeel acc T s
    | |- context [locks (?T ?s)] =>
        let acc := constr:(fun s0 : Kernel => locks s0) in kpeel acc T s
    | |- context [cpus (?T ?s)] =>
        let acc := constr:(fun s0 : Kernel => cpus s0) in kpeel acc T s
    | |- context [mailboxes (?T ?s)] =>
        let acc := constr:(fun s0 : Kernel => mailboxes s0) in kpeel acc T s
    end.

(** The same by reduction, for a field of the kernel under setters that
    may write it. *)
Ltac kfield :=
  cbn [cpus locks trace tasks sched_queue lists mailboxes procs threads
       next_pid pid_hash init_process process_cache thread_cache free_pages
       page_refs vmstate umem
       set_cpus set_locks set_trace set_tasks set_sched_queue set_lists
       set_mailboxes set_procs set_threads set_next_pid set_pid_hash
       set_init_process set_process_cache set_thread_cache set_free_pages
       set_page_refs set_vmstate set_umem
       upd_cpu upd_lock upd_task upd_list upd_mailbox upd_proc upd_thread
       irq_blip lock_taken after_spin_lock after_spin_unlock
       sibling_remove list_remove].

Ltac ksimpl :=
  repeat first [ progress kframe | progress autorewrite with kst ].

(** ** Running a computation *)

(** [mrun] runs the primitive steps at the head of a computation. *)
Ltac mrun :=
  cbv [bind get modify ret my_cpu emit panic null_dereference irq_save
       irq_restore cpu_irq_enable assert when];
  cbn [obind negb].

(** ** Spinlocks *)

Lemma spin_holding_run lock me s :
  spin_holding lock me s =
    Return (c_bool (holding (the_lock lock s) me))
      (upd_cpu me irq_restore_cpu (upd_cpu me irq_save_cpu s)).
Proof. unfold spin_holding. mrun. kframe. exact eq_refl. Qed.


Ltac krec :=
  cbn [cpu_task isr_nesting irq_save_count irq_flags irq_enabled fp_chain
       irq_save_cpu irq_restore_cpu irq_enable_cpu
       set_cpu_task set_isr_nesting set_irq_save_count set_irq_flags
       set_irq_enabled set_fp_chain
       locked lock_cpu lock_name pcs set_locked set_lock_cpu set_lock_name
       set_pcs
       flags priority state sleep_result sleep_timer task_cpu task_process
       task_kstack set_flags set_priority set_state set_sleep_result
       set_sleep_timer set_task_cpu set_task_process set_task_kstack
       thread vm parent children zombie exit_code files cwd ruid euid rgid
       egid cmask set_thread set_vm set_parent set_children set_zombie
       set_exit_code set_files set_cwd set_ruid set_euid set_rgid set_egid
       set_cmask
       thread_process pid kstack tf set_thread_process set_pid set_kstack
       set_tf
       r0 r1 r2 tf_sp psr pc tf_other set_r0 set_r1 set_r2 set_tf_sp set_psr
       set_pc set_tf_other
       buf buf_end read_ptr write_ptr msg_size capacity size mbox_type
       set_buf set_buf_end set_read_ptr set_write_ptr set_msg_size
       set_capacity set_size set_mbox_type].

Ltac kne :=
  first
    [ rewrite the_task_upd_task_ne by done
    | rewrite the_cpu_upd_cpu_ne by done
    | rewrite the_lock_upd_lock_ne by done
    | rewrite the_list_upd_list_ne by done
    | rewrite the_proc_upd_proc_ne by done
    | rewrite the_thread_upd_thread_ne by done
    | rewrite the_mailbox_upd_mailbox_ne by done ].

Ltac ksimpl ::=
  repeat first
    [ progress kframe | progress autorewrite with kst | progress krec
    | kne ].

Lemma holding_lock_taken lock me s :
  holding (the_lock lock (lock_taken lock me s)) me = true.
Proof.
  unfold lock_taken. ksimpl. unfold holding. krec.
  by rewrite bool_decide_eq_true_2.
Qed.

Lemma the_lock_lock_taken_ne lock lock' me s :
  lock <> lock' -> the_lock lock' (lock_taken lock me s) = the_lock lock' s.
Proof.
  intros Hne. unfold lock_taken. by rewrite !the_lock_upd_lock_ne by done.
Qed.

Lemma holding_after_spin_lock lock me s :
  holding (the_lock lock (after_spin_lock lock me s)) me = true.
Proof. apply holding_lock_taken. Qed.

Lemma the_lock_after_spin_lock_ne lock lock' me s :
  lock <> lock' ->
  the_lock lock' (after_spin_lock lock me s) = the_lock lock' s.
Proof.
  intros Hne. unfold after_spin_lock.
  rewrite the_lock_lock_taken_ne by done. by kframe.
Qed.

Lemma locked_after_spin_unlock lock me s :
  locked (the_lock lock (after_spin_unlock lock me s)) = 0 /\
  lock_cpu (the_lock lock (after_spin_unlock lock me s)) = None.
Proof. unfold after_spin_unlock. ksimpl. done. Qed.

Lemma the_lock_after_spin_unlock_ne lock lock' me s :
  lock <> lock' ->
  the_lock lock' (after_spin_unlock lock me s) = the_lock lock' s.
Proof.
  intros Hne. unfold after_spin_unlock. kframe.
  rewrite !the_lock_upd_lock_ne by done. by kframe.
Qed.

Lemma cpu_after_irq_blip me s :
  cpu_task (the_cpu me (irq_blip me s)) = cpu_task (the_cpu me s) /\
  isr_nesting (the_cpu me (irq_blip me s)) = isr_nesting (the_cpu me s) /\
  fp_chain (the_cpu me (irq_blip me s)) = fp_chain (the_cpu me s).
Proof. unfold irq_blip. ksimpl. done. Qed.

Lemma the_cpu_irq_blip_ne me c s : me <> c -> the_cpu c (irq_blip me s) = the_cpu c s.
Proof. intros. unfold irq_blip. by rewrite !the_cpu_upd_cpu_ne. Qed.

Lemma spin_holding_blip lock me s :
  spin_holding lock me s =
    Return (c_bool (holding (the_lock lock s) me)) (irq_blip me s).
Proof. apply spin_holding_run. Qed.

Lemma assert_holding_run lock me s :
  holding (the_lock lock s) me = true ->
  assert_holding lock me s = Return tt (irq_blip me s).
Proof.
  intros Hh. unfold assert_holding. mrun. rewrite spin_holding_blip. mrun.
  ksimpl. by rewrite Hh.
Qed.

Lemma task_current_run me s :
  task_current me s = Return (cpu_task (the_cpu me s)) (irq_blip me s).
Proof. unfold task_current. mrun. ksimpl. exact eq_refl. Qed.

Lemma spin_lock_run lock me s :
  holding (the_lock lock s) me = false ->
  locked (the_lock lock s) = 0 ->
  spin_lock lock me s = Return tt (after_spin_lock lock me s).
Proof.
  intros Hh Hl. unfold spin_lock. mrun. rewrite spin_holding_blip. mrun.
  ksimpl. rewrite Hh. mrun. unfold spin_acquire. ksimpl. rewrite Hl.
  cbn [Z.eqb]. mrun. exact eq_refl.
Qed.

Lemma spin_lock_spin lock me s :
  holding (the_lock lock s) me = false ->
  locked (the_lock lock s) <> 0 ->
  exists s' k, spin_lock lock me s = Spin lock s' k /\
    locks s' = locks s /\
    forall s'', k s'' = Return tt (lock_taken lock me s'').
Proof.
  intros Hh Hl. unfold spin_lock. mrun. rewrite spin_holding_blip. mrun.
  ksimpl. rewrite Hh. mrun. unfold spin_acquire. ksimpl.
  apply Z.eqb_neq in Hl. rewrite Hl. cbn [obind].
  eexists _, _. split; [exact eq_refl|]. split; [reflexivity|].
  intros s''. reflexivity.
Qed.

Lemma print_pcs_loop_seq (f : nat -> Z) (a n : nat) :
  exists k : nat,
    (k <= n)%nat /\
    print_pcs_loop (map f (seq a n)) = map (fun i => EvPrintPc (f i)) (seq a k) /\
    (forall i, (a <= i < a + k)%nat -> f i <> 0) /\
    (k = n \/ f (a + k)%nat = 0).
Proof.
  revert a. induction n as [|n IH]; intros a.
  { exists 0%nat. split; [lia|]. split; [done|]. split; [lia|]. by left. }
  cbn [seq map print_pcs_loop].
  destruct (f a =? 0) eqn:E.
  - apply Z.eqb_eq in E. exists 0%nat. split; [lia|]. split; [done|].
    split; [lia|]. right. by rewrite Nat.add_0_r.
  - apply Z.eqb_neq in E. destruct (IH (S a)) as (k & Hk & Hp & Hnz & Hend).
    exists (S k). split; [lia|]. split; [cbn [seq map]; by rewrite Hp|].
    split.
    + intros i Hi. destruct (decide (i = a)) as [->|Hne]; [done|].
      apply Hnz. lia.
    + destruct Hend as [->|Hz]; [by left|right].
      by replace (a + S k)%nat with (S a + k)%nat by lia.
Qed.

Lemma printed_pcs_loop (l : SpinLock) :
  printed_pcs l (print_pcs_loop (map (pcs_at l) (seq 0 NCALLERPCS))).
Proof.
  destruct (print_pcs_loop_seq (pcs_at l) 0 NCALLERPCS)
    as (k & Hk & Hp & Hnz & Hend).
  exists k. split; [done|]. split; [done|].
  split; [intros i Hi; apply Hnz; lia|]. done.
Qed.

(** C9.  spin_lock panics exactly when the calling CPU holds the lock.  If
    it does, spin_lock prints the saved caller PCs of the lock (up to the
    first empty slot), panics, and leaves every lock as it was: the lock is
    not acquired a second time and the CPU does not wait for it.  If it does
    not, spin_lock does not end in a panic: it returns with the lock held by
    the CPU, or it waits for the lock, leaving every lock as it is, and
    returns with the lock held by the CPU when the wait ends. *)
Theorem spin_lock_panics_iff_holding (lock : LockRef) (me : cpu_id)
    (s : Kernel) :
  if holding (the_lock lock s) me
  then exists s' evs,
      spin_lock lock me s = Panic "CPU is already holding the lock" s' /\
      trace s' = trace s ++ evs /\
      printed_pcs (the_lock lock s) evs /\
      locks s' = locks s
  else
    (forall msg s', spin_lock lock me s <> Panic msg s') /\
    ((exists s',
        spin_lock lock me s = Return tt s' /\
        holding (the_lock lock s') me = true) \/
     (exists s' k,
        spin_lock lock me s = Spin lock s' k /\
        locks s' = locks s /\
        forall s'', exists s3,
          k s'' = Return tt s3 /\ holding (the_lock lock s3) me = true)).
Proof.
  destruct (holding (the_lock lock s) me) eqn:E.
  - unfold spin_lock. mrun. rewrite spin_holding_run. mrun. ksimpl.
    rewrite E. unfold spin_print_caller_pcs. mrun.
    eexists _, _. split; [exact eq_refl|].
    ksimpl. split; [reflexivity|]. split; [apply printed_pcs_loop|].
    reflexivity.
  - destruct (decide (locked (the_lock lock s) = 0)) as [Hl|Hl].
    + rewrite spin_lock_run by done. split; [discriminate|].
      left. eexists. split; [reflexivity|]. apply holding_after_spin_lock.
    + destruct (spin_lock_spin lock me s E Hl) as (s' & k & -> & Hlocks & Hk).
      split; [discriminate|].
      right. exists s', k. split; [done|]. split; [done|].
      intros s''. eexists. split; [apply Hk|]. apply holding_lock_taken.
Qed.


Lemma spin_unlock_run lock me s :
  holding (the_lock lock s) me = true ->
  spin_unlock lock me s = Return tt (after_spin_unlock lock me s).
Proof.
  intros Hh. unfold spin_unlock. mrun. rewrite spin_holding_blip. mrun.
  ksimpl. rewrite Hh. exact eq_refl.
Qed.

(** ** The scheduler *)

Lemma wrap_int_small z : INT_MIN <= z <= INT_MAX -> wrap_int z = z.
Proof.
  unfold wrap_int, INT_MIN, INT_MAX. intros Hz.
  rewrite Z.mod_small by lia. lia.
Qed.

Lemma task_priority_cmp_pos t1 t2 :
  0 <= priority t1 <= INT_MAX -> 0 <= priority t2 <= INT_MAX ->
  (0 <? task_priority_cmp t1 t2) = (priority t1 <? priority t2).
Proof.
  intros H1 H2. unfold task_priority_cmp.
  rewrite wrap_int_small by (unfold INT_MIN, INT_MAX in *; lia).
  destruct (priority t1 <? priority t2) eqn:E.
  - apply Z.ltb_lt in E. apply Z.ltb_lt. lia.
  - apply Z.ltb_ge in E. apply Z.ltb_ge. lia.
Qed.

Lemma sched_enqueue_run th me s :
  holding (the_lock SchedLock s) me = true ->
  sched_enqueue th me s = Return tt (enqueued th me s).
Proof.
  intros Hh. unfold sched_enqueue. mrun. rewrite assert_holding_run by done.
  mrun. ksimpl. exact eq_refl.
Qed.

Lemma runqueue_add_back_eq p t s :
  0 <= p < Z.of_nat (length (sched_queue s)) ->
  runqueue (Z.to_nat p) (runqueue_add_back p t s) =
    runqueue (Z.to_nat p) s ++ [t].
Proof.
  intros Hp. unfold runqueue, runqueue_add_back, set_sched_queue.
  cbn [sched_queue]. destruct (0 <=? p) eqn:E; [|lia].
  rewrite list_lookup_alter_eq.
  destruct (sched_queue s !! Z.to_nat p) eqn:El; [done|].
  apply lookup_ge_None in El. lia.
Qed.

Lemma runqueue_add_back_ne p t i s :
  i <> Z.to_nat p \/ p < 0 ->
  runqueue i (runqueue_add_back p t s) = runqueue i s.
Proof.
  intros Hp. unfold runqueue, runqueue_add_back, set_sched_queue.
  cbn [sched_queue]. destruct (0 <=? p) eqn:E; [|done].
  destruct Hp as [Hp|Hp]; [|lia]. by rewrite list_lookup_alter_ne.
Qed.

Lemma sched_yield_run me s :
  holding (the_lock SchedLock s) me = true ->
  sched_yield me s =
    Switch (irq_blip me s) (fun me' s' =>
      Return tt
        (upd_cpu me' (set_irq_flags (irq_flags (the_cpu me (irq_blip me s))))
           s')).
Proof.
  intros Hh. unfold sched_yield. mrun. rewrite assert_holding_run by done.
  mrun. exact eq_refl.
Qed.

Lemma sched_may_yield_run candidate me s :
  holding (the_lock SchedLock s) me = true ->
  sched_may_yield candidate me s =
    match cpu_task (the_cpu me s) with
    | Some my_task =>
        if 0 <? task_priority_cmp (the_task candidate s) (the_task my_task s)
        then
          if 0 <? isr_nesting (the_cpu me s) then
            Return tt
              (upd_task my_task
                 (fun t => set_flags (Z.lor (flags t) TASK_FLAGS_RESCHEDULE) t)
                 (irq_blip me s))
          else
            Switch (irq_blip me (enqueued my_task me (irq_blip me s)))
              (fun me' s' =>
                 Return tt
                   (upd_cpu me'
                      (set_irq_flags
                         (irq_flags
                            (the_cpu me
                               (irq_blip me
                                  (enqueued my_task me (irq_blip me s))))))
                      s'))
        else Return tt (irq_blip me s)
    | None => Return tt (irq_blip me s)
    end.
Proof.
  intros Hh. unfold sched_may_yield. mrun.
  rewrite assert_holding_run by done. mrun.
  destruct (cpu_after_irq_blip me s) as (Ht & Hn & _).
  rewrite Ht, Hn. destruct (cpu_task (the_cpu me s)) as [my_task|];
    [|reflexivity].
  unfold irq_blip at 1 2. kframe. fold (irq_blip me s).
  destruct (0 <? task_priority_cmp _ _); [|reflexivity].
  destruct (0 <? isr_nesting (the_cpu me s)); [reflexivity|].
  mrun. rewrite sched_enqueue_run by (by kframe). mrun.
  rewrite sched_yield_run; [reflexivity|].
  unfold enqueued, runqueue_add_back. by kframe.
Qed.

(** C5, amended.  With the scheduler lock held and a task running on the
    CPU: if the candidate has a strictly higher priority (a smaller value)
    and the CPU is in an ISR, the reschedule flag is set on the running task
    and nothing else changes in the scheduler; if it has a strictly higher
    priority and the CPU is not in an ISR, the running task is made ready at
    the back of its run queue and the CPU switches to the scheduler, the
    call returning as soon as the task is switched back in; if the candidate
    has no higher priority, no task, run queue or wait list changes. *)
Theorem sched_may_yield_cases (candidate : tid) (me : cpu_id) (s : Kernel)
    (my_task : tid) :
  holding (the_lock SchedLock s) me = true ->
  cpu_task (the_cpu me s) = Some my_task ->
  0 <= priority (the_task candidate s) <= INT_MAX ->
  valid_priority s my_task ->
  let o := sched_may_yield candidate me s in
  let p := priority (the_task my_task s) in
  if priority (the_task candidate s) <? p then
    if 0 <? isr_nesting (the_cpu me s) then
      exists s', o = Return tt s' /\
        the_task my_task s' =
          set_flags (Z.lor (flags (the_task my_task s)) TASK_FLAGS_RESCHEDULE)
            (the_task my_task s) /\
        flags (the_task my_task s') =
          Z.lor (flags (the_task my_task s)) TASK_FLAGS_RESCHEDULE /\
        (forall t, t <> my_task -> the_task t s' = the_task t s) /\
        sched_queue s' = sched_queue s /\ lists s' = lists s
    else
      exists s' k, o = Switch s' k /\
        state (the_task my_task s') = TASK_STATE_READY /\
        runqueue (Z.to_nat p) s' = runqueue (Z.to_nat p) s ++ [my_task] /\
        (forall i, i <> Z.to_nat p -> runqueue i s' = runqueue i s) /\
        lists s' = lists s /\
        (forall me' s'', exists s3, k me' s'' = Return tt s3)
  else
    exists s', o = Return tt s' /\
      tasks s' = tasks s /\ sched_queue s' = sched_queue s /\
      lists s' = lists s.
Proof.
  intros Hh Hc Hcand [Hmy Hmax] o p. subst o.
  rewrite sched_may_yield_run, Hc by done.
  rewrite task_priority_cmp_pos by (unfold INT_MAX in *; lia). fold p.
  destruct (priority (the_task candidate s) <? p).
  - destruct (0 <? isr_nesting (the_cpu me s)).
    + eexists. split; [reflexivity|]. ksimpl. split; [reflexivity|].
      split; [reflexivity|].
      split; [|split; reflexivity].
      intros t Ht. rewrite the_task_upd_task_ne by done. by kframe.
    + eexists _, _. split; [reflexivity|]. unfold enqueued. kframe.
      fold p. split; [by ksimpl|].
      split.
      { rewrite runqueue_add_back_eq; [by kframe|]. by kframe. }
      split.
      { intros i Hi. kframe. rewrite runqueue_add_back_ne by (by left).
        by kframe. }
      split; [reflexivity|]. intros me' s''. by eexists.
  - eexists. split; [reflexivity|]. by kframe.
Qed.

(** *** Task lists *)

Lemma the_list_list_remove q t s :
  the_list q (list_remove t s) = unlink t (the_list q s).
Proof.
  unfold the_list, list_remove, set_lists. cbn [lists]. kframe.
  rewrite !lookup_total_alt, lookup_fmap.
  destruct (lists s !! q); reflexivity.
Qed.

Lemma runqueue_list_remove i t s :
  runqueue i (list_remove t s) = unlink t (runqueue i s).
Proof.
  unfold runqueue, list_remove, set_lists, set_sched_queue.
  cbn [sched_queue]. rewrite list_lookup_fmap.
  destruct (sched_queue s !! i); reflexivity.
Qed.

Lemma length_sched_queue_list_remove t s :
  length (sched_queue (list_remove t s)) = length (sched_queue s).
Proof.
  unfold list_remove, set_lists, set_sched_queue. cbn [sched_queue].
  apply length_map.
Qed.

Lemma unlink_app t l1 l2 : unlink t (l1 ++ l2) = unlink t l1 ++ unlink t l2.
Proof. apply filter_app. Qed.

Lemma unlink_not_in t l : t ∉ l -> unlink t l = l.
Proof.
  intros Hn. unfold unlink. induction l as [|x l IH]; [done|].
  apply not_elem_of_cons in Hn as [Hx Hl].
  rewrite filter_cons_True by done. by rewrite IH.
Qed.

Lemma unlink_middle t l1 l2 :
  NoDup (l1 ++ t :: l2) -> unlink t (l1 ++ t :: l2) = l1 ++ l2.
Proof.
  intros Hnd. apply NoDup_app in Hnd as (_ & Hl1 & Hnd).
  apply NoDup_cons in Hnd as [Hl2 _].
  rewrite unlink_app. unfold unlink at 2.
  rewrite filter_cons_False by (intros Hx; by apply Hx).
  fold (unlink t l2). rewrite !unlink_not_in; [done..|].
  intros Hin. apply (Hl1 t Hin). left.
Qed.

(** *** The scan of sched_wakeup_one *)

Lemma highest_loop_some (s : Kernel) (l : list tid) (h0 : tid) :
  prio_ok s h0 -> (forall u, u ∈ l -> prio_ok s u) ->
  exists h, highest_loop l (Some h0) s = Some h /\
    ((h = h0 /\
      forall u, u ∈ l -> priority (the_task h0 s) <= priority (the_task u s))
     \/
     (exists l1 l2, l = l1 ++ h :: l2 /\
        priority (the_task h s) < priority (the_task h0 s) /\
        (forall u, u ∈ l1 ->
           priority (the_task h s) < priority (the_task u s)) /\
        (forall u, u ∈ l2 ->
           priority (the_task h s) <= priority (the_task u s)))).
Proof.
  revert h0. induction l as [|t l IH]; intros h0 Hh0 Hl.
  - exists h0. split; [done|]. left. split; [done|]. intros u Hu.
    by apply elem_of_nil in Hu.
  - cbn [highest_loop].
    assert (Ht : prio_ok s t) by (apply Hl; left).
    assert (Hl' : forall u, u ∈ l -> prio_ok s u)
      by (intros u Hu; apply Hl; by right).
    rewrite task_priority_cmp_pos by done.
    destruct (priority (the_task t s) <? priority (the_task h0 s)) eqn:E.
    + apply Z.ltb_lt in E.
      destruct (IH t Ht Hl') as (h & Hh & [[-> Hmin]|(l1 & l2 & -> & Hlt & H1 & H2)]).
      * exists t. split; [done|]. right. exists [], l.
        split; [done|]. split; [done|]. split; [|done].
        intros u Hu. by apply elem_of_nil in Hu.
      * exists h. split; [done|]. right. exists (t :: l1), l2.
        split; [done|]. split; [lia|]. split; [|done].
        intros u Hu. apply elem_of_cons in Hu as [->|Hu]; [done|by apply H1].
    + apply Z.ltb_ge in E.
      destruct (IH h0 Hh0 Hl') as (h & Hh & [[-> Hmin]|(l1 & l2 & -> & Hlt & H1 & H2)]).
      * exists h0. split; [done|]. left. split; [done|].
        intros u Hu. apply elem_of_cons in Hu as [->|Hu]; [done|by apply Hmin].
      * exists h. split; [done|]. right. exists (t :: l1), l2.
        split; [done|]. split; [done|]. split; [|done].
        intros u Hu. apply elem_of_cons in Hu as [->|Hu]; [lia|by apply H1].
Qed.

Lemma highest_loop_none (s : Kernel) (t : tid) (l : list tid) :
  (forall u, u ∈ t :: l -> prio_ok s u) ->
  exists h l1 l2, highest_loop (t :: l) None s = Some h /\
    t :: l = l1 ++ h :: l2 /\
    (forall u, u ∈ l1 -> priority (the_task h s) < priority (the_task u s)) /\
    (forall u, u ∈ l2 -> priority (the_task h s) <= priority (the_task u s)).
Proof.
  intros Hl. cbn [highest_loop].
  destruct (highest_loop_some s l t) as (h & Hh & [[-> Hmin]|(l1 & l2 & -> & Hlt & H1 & H2)]).
  - apply Hl. left.
  - intros u Hu. apply Hl. by right.
  - exists t, [], l. split; [done|]. split; [done|]. split; [|done].
    intros u Hu. by apply elem_of_nil in Hu.
  - exists h, (t :: l1), l2. split; [done|]. split; [done|]. split; [|done].
    intros u Hu. apply elem_of_cons in Hu as [->|Hu]; [done|by apply H1].
Qed.

Lemma highest_loop_ext (s1 s2 : Kernel) l h :
  (forall t, the_task t s1 = the_task t s2) ->
  highest_loop l h s1 = highest_loop l h s2.
Proof.
  intros Hext. revert h. induction l as [|t l IH]; intros h; [done|].
  cbn [highest_loop]. destruct h as [h|]; [|apply IH].
  rewrite !Hext. destruct (0 <? _); apply IH.
Qed.

Lemma sched_wakeup_one_run queue result me s :
  holding (the_lock SchedLock s) me = true ->
  sched_wakeup_one queue result me s =
    match highest_loop (the_list queue s) None s with
    | Some highest => sched_may_yield highest me
                        (woken highest result me (irq_blip me s))
    | None => Return tt (irq_blip me s)
    end.
Proof.
  intros Hh. unfold sched_wakeup_one. mrun. rewrite spin_holding_blip.
  mrun. ksimpl. rewrite Hh. mrun. kframe.
  rewrite (highest_loop_ext (irq_blip me s) s) by (intros t; by kframe).
  destruct (highest_loop (the_list queue s) None s) as [h|]; [|reflexivity].
  mrun. rewrite sched_enqueue_run by (by kframe). mrun. reflexivity.
Qed.

Lemma task_priority_cmp_self t : task_priority_cmp t t = 0.
Proof. unfold task_priority_cmp. by rewrite Z.sub_diag. Qed.

Lemma task_priority_cmp_ne t1 t2 :
  (0 <? task_priority_cmp t1 t2) = true -> priority t1 <> priority t2.
Proof.
  unfold task_priority_cmp. intros Hc Heq. rewrite Heq, Z.sub_diag in Hc.
  discriminate.
Qed.

(** The scheduler part of the state after the wake-up of a task. *)
Lemma woken_spec task result me s :
  0 <= priority (the_task task s) < Z.of_nat (length (sched_queue s)) ->
  let p := priority (the_task task s) in
  the_task task (woken task result me s) =
    set_state TASK_STATE_READY (set_sleep_result result (the_task task s)) /\
  (forall t, t <> task -> the_task t (woken task result me s) = the_task t s) /\
  (forall q, the_list q (woken task result me s) = unlink task (the_list q s)) /\
  runqueue (Z.to_nat p) (woken task result me s) =
    unlink task (runqueue (Z.to_nat p) s) ++ [task] /\
  (forall i, i <> Z.to_nat p ->
     runqueue i (woken task result me s) = unlink task (runqueue i s)).
Proof.
  intros Hp p. unfold woken, enqueued. ksimpl. fold p.
  split; [done|]. split.
  { intros t Ht. by ksimpl. }
  split.
  { intros q. kframe. apply the_list_list_remove. }
  split.
  { rewrite runqueue_add_back_eq.
    - kframe. by rewrite runqueue_list_remove.
    - kframe. by rewrite length_sched_queue_list_remove. }
  intros i Hi. rewrite runqueue_add_back_ne by (by left). kframe.
  apply runqueue_list_remove.
Qed.

(** The state in which sched_wakeup_one stops, at its return or at the
    switch out of the caller. *)
Lemma sched_wakeup_one_final (queue : ListRef) (result : Z) (me : cpu_id)
    (s : Kernel) :
  holding (the_lock SchedLock s) me = true ->
  NoDup (the_list queue s) ->
  (forall t, t ∈ the_list queue s -> valid_priority s t) ->
  let o := sched_wakeup_one queue result me s in
  completes o /\
  match the_list queue s with
  | [] =>
      tasks (final o) = tasks s /\ lists (final o) = lists s /\
      sched_queue (final o) = sched_queue s
  | _ :: _ =>
      exists l1 h l2,
        the_list queue s = l1 ++ h :: l2 /\
        (forall u, u ∈ l1 ->
           priority (the_task h s) < priority (the_task u s)) /\
        (forall u, u ∈ l2 ->
           priority (the_task h s) <= priority (the_task u s)) /\
        the_list queue (final o) = l1 ++ l2 /\
        the_task h (final o) =
          set_state TASK_STATE_READY
            (set_sleep_result result (the_task h s)) /\
        runqueue (Z.to_nat (priority (the_task h s))) (final o) =
          unlink h (runqueue (Z.to_nat (priority (the_task h s))) s) ++ [h]
  end.
Proof.
  intros Hh Hnd Hprio o. subst o. rewrite sched_wakeup_one_run by done.
  destruct (the_list queue s) as [|t0 l0] eqn:El.
  { cbn [highest_loop final completes]. split; [done|]. by kframe. }
  destruct (highest_loop_none s t0 l0) as (h & l1 & l2 & Hhl & Hsplit & H1 & H2).
  { intros u Hu. destruct (Hprio u Hu) as [Hr Hm]. unfold prio_ok. lia. }
  rewrite Hhl. rewrite Hsplit in Hnd.
  assert (Hhin : h ∈ t0 :: l0).
  { rewrite Hsplit. apply elem_of_app. right. left. }
  destruct (Hprio h Hhin) as [Hhp _].
  set (s0 := irq_blip me s).
  destruct (woken_spec h result me s0) as (Wh & Wo & Wl & Wq & _).
  { subst s0. by kframe. }
  set (S1 := woken h result me s0) in *.
  assert (Hth : the_task h s0 = the_task h s) by (subst s0; by kframe).
  assert (Hq0 : forall i, runqueue i s0 = runqueue i s)
    by (intros i; subst s0; by kframe).
  assert (Hl0 : the_list queue s0 = l1 ++ h :: l2).
  { subst s0. kframe. by rewrite El. }
  rewrite Hth in Wh, Wq. rewrite Hq0 in Wq.
  rewrite sched_may_yield_run by (subst S1 s0; by kframe).
  assert (Hdone : forall X : Kernel,
    the_list queue X = the_list queue S1 ->
    the_task h X = the_task h S1 ->
    runqueue (Z.to_nat (priority (the_task h s))) X =
      runqueue (Z.to_nat (priority (the_task h s))) S1 ->
    exists l1' h' l2',
      t0 :: l0 = l1' ++ h' :: l2' /\
      (forall u, u ∈ l1' ->
         priority (the_task h' s) < priority (the_task u s)) /\
      (forall u, u ∈ l2' ->
         priority (the_task h' s) <= priority (the_task u s)) /\
      the_list queue X = l1' ++ l2' /\
      the_task h' X =
        set_state TASK_STATE_READY
          (set_sleep_result result (the_task h' s)) /\
      runqueue (Z.to_nat (priority (the_task h' s))) X =
        unlink h' (runqueue (Z.to_nat (priority (the_task h' s))) s) ++ [h']).
  { intros X HX1 HX2 HX3. exists l1, h, l2.
    split; [done|]. split; [done|]. split; [done|].
    rewrite HX1, HX2, HX3, Wl, Hl0, Wh, Wq.
    by rewrite unlink_middle. }
  destruct (cpu_task (the_cpu me S1)) as [my_task|] eqn:Ec.
  2: { cbn [final completes]. split; [done|]. apply Hdone; by kframe. }
  destruct (0 <? task_priority_cmp (the_task h S1) (the_task my_task S1))
    eqn:Ecmp.
  2: { cbn [final completes]. split; [done|]. apply Hdone; by kframe. }
  assert (Hne : my_task <> h).
  { intros ->. by rewrite task_priority_cmp_self in Ecmp. }
  apply task_priority_cmp_ne in Ecmp.
  destruct (0 <? isr_nesting (the_cpu me S1)).
  - cbn [final completes]. split; [done|].
    apply Hdone; [by kframe|by ksimpl|by kframe].
  - cbn [final completes]. split; [intros me' s'; by eexists _, _|].
    apply Hdone; [by kframe| |].
    + unfold enqueued. by ksimpl.
    + unfold enqueued. kframe. rewrite runqueue_add_back_ne; [by kframe|].
      rewrite Wh in Ecmp. cbn [priority set_state set_sleep_result] in Ecmp.
      destruct (Z.lt_ge_cases (priority (the_task my_task S1)) 0) as [Hneg|Hpos];
        [by right|left]. lia.
Qed.

(** C6.  With the scheduler lock held, sched_wakeup_one on an empty wait
    list returns and changes no task, wait list or run queue.  On a list
    that is not empty it unlinks exactly one sleeper, the first in list
    order (the earliest enqueued) among those of the smallest priority
    value, records the result in its sleep-result slot and makes it ready at
    the back of the run queue of its priority; the call returns, at once or
    when the caller is switched back in after yielding to the woken task. *)
Theorem sched_wakeup_one_spec (queue : ListRef) (result : Z) (me : cpu_id)
    (s : Kernel) :
  holding (the_lock SchedLock s) me = true ->
  NoDup (the_list queue s) ->
  (forall t, t ∈ the_list queue s -> valid_priority s t) ->
  let o := sched_wakeup_one queue result me s in
  completes o /\
  match the_list queue s with
  | [] =>
      tasks (final o) = tasks s /\ lists (final o) = lists s /\
      sched_queue (final o) = sched_queue s
  | _ :: _ =>
      exists l1 h l2,
        the_list queue s = l1 ++ h :: l2 /\
        (forall u, u ∈ l1 ->
           priority (the_task h s) < priority (the_task u s)) /\
        (forall u, u ∈ l2 ->
           priority (the_task h s) <= priority (the_task u s)) /\
        the_list queue (final o) = l1 ++ l2 /\
        sleep_result (the_task h (final o)) = result /\
        state (the_task h (final o)) = TASK_STATE_READY /\
        priority (the_task h (final o)) = priority (the_task h s) /\
        flags (the_task h (final o)) = flags (the_task h s) /\
        sleep_timer (the_task h (final o)) = sleep_timer (the_task h s) /\
        task_cpu (the_task h (final o)) = task_cpu (the_task h s) /\
        task_process (the_task h (final o)) = task_process (the_task h s) /\
        task_kstack (the_task h (final o)) = task_kstack (the_task h s) /\
        runqueue (Z.to_nat (priority (the_task h s))) (final o) =
          unlink h (runqueue (Z.to_nat (priority (the_task h s))) s) ++ [h]
  end.
Proof.
  intros Hh Hnd Hprio o.
  destruct (sched_wakeup_one_final queue result me s Hh Hnd Hprio)
    as [Hc Hfin].
  fold o in Hc, Hfin. split; [exact Hc|].
  destruct (the_list queue s) as [|t0 l0]; [exact Hfin|].
  destruct Hfin as (l1 & h & l2 & Hsplit & H1 & H2 & Hl & Ht & Hq).
  exists l1, h, l2. rewrite Ht. krec.
  split; [done|]. split; [done|]. split; [done|]. split; [done|].
  do 8 (split; [done|]). exact Hq.
Qed.

(** ** Processes *)

Lemma process_current_run me s :
  process_current me s =
    Return (match cpu_task (the_cpu me s) with
            | Some t => thread_process (the_thread t s)
            | None => None
            end) (irq_blip me s).
Proof.
  unfold process_current. mrun. rewrite task_current_run. mrun. by kframe.
Qed.

(** C10.  With any option bit set other than WNOHANG and WUNTRACED,
    process_wait returns -EINVAL at once: no process is changed, unlinked or
    freed, user memory is not written and no lock is touched. *)
Theorem process_wait_bad_options (fuel : nat) (p_id : Z)
    (stat_loc : option Z) (options : Z) (me : cpu_id) (s : Kernel) :
  Z.land options (Z.lnot (Z.lor WNOHANG WUNTRACED)) <> 0 ->
  exists s',
    process_wait fuel p_id stat_loc options me s = Return (- EINVAL) s' /\
    procs s' = procs s /\ umem s' = umem s /\
    process_cache s' = process_cache s /\ locks s' = locks s /\
    tasks s' = tasks s /\ lists s' = lists s /\
    sched_queue s' = sched_queue s.
Proof.
  intros Hopt. unfold process_wait. mrun. rewrite process_current_run. mrun.
  unfold c_true. apply Z.eqb_neq in Hopt. rewrite Hopt. cbn [negb].
  eexists. split; [reflexivity|]. by kframe.
Qed.

Lemma land_lnot_lor_l a b : Z.land a (Z.lnot (Z.lor a b)) = 0.
Proof.
  apply Z.bits_inj'. intros n Hn.
  rewrite Z.land_spec, Z.lnot_spec, Z.lor_spec, Z.bits_0 by done.
  by destruct (Z.testbit a n), (Z.testbit b n).
Qed.

Lemma scan_children_ext (s1 s2 : Kernel) p_id l found :
  (forall p, the_proc p s1 = the_proc p s2) ->
  (forall t, the_thread t s1 = the_thread t s2) ->
  scan_children s1 p_id l found = scan_children s2 p_id l found.
Proof.
  intros Hp Ht. revert found. induction l as [|p l IH]; intros found; [done|].
  cbn [scan_children]. rewrite !Hp.
  destruct (thread (the_proc p s2)) as [th|]; rewrite ?Ht, ?IH; done.
Qed.

(** A pass over children none of which is a zombie with the PID asked for:
    nothing is reaped, and the PID is found when a child has it. *)
Lemma scan_children_alive (s : Kernel) (p_id : Z) (l : list proc_ref)
    (found : Z) :
  0 < p_id ->
  (forall c, c ∈ l ->
     exists th, thread (the_proc c s) = Some th /\
       (pid (the_thread th s) = p_id -> zombie (the_proc c s) = 0)) ->
  (scan_children s p_id l found = Scanned found /\
   forall c th, c ∈ l -> thread (the_proc c s) = Some th ->
     pid (the_thread th s) <> p_id) \/
  (scan_children s p_id l found = Scanned p_id /\
   exists c th, c ∈ l /\ thread (the_proc c s) = Some th /\
     pid (the_thread th s) = p_id).
Proof.
  intros Hpos. revert found. induction l as [|c l IH]; intros found Hall.
  { left. split; [done|]. intros c th Hc. by apply elem_of_nil in Hc. }
  cbn [scan_children]. apply Z.ltb_lt in Hpos as Hpos'. rewrite Hpos'.
  destruct (Hall c) as (th & Hth & Hz); [left|]. rewrite Hth.
  assert (Hall' : forall c0, c0 ∈ l ->
     exists th0, thread (the_proc c0 s) = Some th0 /\
       (pid (the_thread th0 s) = p_id -> zombie (the_proc c0 s) = 0))
    by (intros c0 Hc0; apply Hall; by right).
  destruct (pid (the_thread th s) =? p_id) eqn:E; cbn [negb].
  - apply Z.eqb_eq in E. rewrite (Hz E). cbn [c_true Z.eqb negb].
    rewrite E. right.
    destruct (IH p_id Hall') as [[Hs _]|[Hs _]]; (split; [done|]);
      exists c, th; (split; [left|done]).
  - apply Z.eqb_neq in E.
    destruct (IH found Hall') as [[Hs Hn]|[Hs (c' & th' & Hc' & Ht' & Hp')]].
    + left. split; [done|]. intros c0 th0 Hc0 Ht0.
      apply elem_of_cons in Hc0 as [->|Hc0]; [|by eapply Hn].
      rewrite Hth in Ht0. by injection Ht0 as <-.
    + right. split; [done|]. exists c', th'. split; [by right|done].
Qed.

Lemma process_wait_run fuel p_id stat_loc options me s :
  Z.land options (Z.lnot (Z.lor WNOHANG WUNTRACED)) = 0 ->
  holding (the_lock ProcessLock s) me = false ->
  locked (the_lock ProcessLock s) = 0 ->
  process_wait fuel p_id stat_loc options me s =
    match cpu_task (the_cpu me s) with
    | Some t =>
        match thread_process (the_thread t s) with
        | Some current =>
            process_wait_loop fuel current p_id stat_loc options me
              (after_spin_lock ProcessLock me (irq_blip me s))
        | None =>
            Panic "NULL dereference"
              (after_spin_lock ProcessLock me (irq_blip me s))
        end
    | None =>
        Panic "NULL dereference"
          (after_spin_lock ProcessLock me (irq_blip me s))
    end.
Proof.
  intros Hopt Hh Hl. unfold process_wait. mrun.
  rewrite process_current_run. mrun. rewrite Hopt. cbn [c_true Z.eqb negb].
  mrun. rewrite spin_lock_run by (by kframe). mrun.
  destruct (cpu_task (the_cpu me s)) as [t|]; [|reflexivity].
  destruct (thread_process (the_thread t s)); reflexivity.
Qed.

(** Polling on a process table where no child is a zombie whose thread
    reads the PID asked for: the calling process has a child with this PID,
    every child whose thread has this PID is alive, and the process lock is
    free.  process_wait with the option WNOHANG and a status pointer returns
    0 without writing to user memory, and leaves every process as it is. *)
Theorem process_wait_nohang (fuel : nat) (me : cpu_id) (s : Kernel)
    (t : tid) (current child : proc_ref) (th : tid) (stat_loc : Z) :
  WNOHANG <> 0 ->
  cpu_task (the_cpu me s) = Some t ->
  thread_process (the_thread t s) = Some current ->
  holding (the_lock ProcessLock s) me = false ->
  locked (the_lock ProcessLock s) = 0 ->
  child ∈ children (the_proc current s) ->
  thread (the_proc child s) = Some th ->
  0 < pid (the_thread th s) ->
  (forall c, c ∈ children (the_proc current s) ->
     exists th', thread (the_proc c s) = Some th' /\
       (pid (the_thread th' s) = pid (the_thread th s) ->
        zombie (the_proc c s) = 0)) ->
  exists s',
    process_wait (S fuel) (pid (the_thread th s)) (Some stat_loc) WNOHANG
      me s = Return 0 s' /\
    umem s' = umem s /\ procs s' = procs s /\
    process_cache s' = process_cache s.
Proof.
  intros Hw Hc Hp Hh Hl Hchild Hth Hpid Hall.
  rewrite process_wait_run, Hc, Hp by (done || apply land_lnot_lor_l).
  cbn [process_wait_loop]. mrun.
  set (s1 := after_spin_lock ProcessLock me (irq_blip me s)).
  assert (Hs1 : forall p, the_proc p s1 = the_proc p s)
    by (intros p; subst s1; by kframe).
  rewrite Hs1.
  rewrite (scan_children_ext s1 s) by (done || (intros x; subst s1; by kframe)).
  destruct (scan_children_alive s (pid (the_thread th s))
              (children (the_proc current s)) 0 Hpid Hall)
    as [[_ Hn]|[-> _]].
  { exfalso. by apply (Hn child th). }
  assert (Hnz : (pid (the_thread th s) =? 0) = false) by (apply Z.eqb_neq; lia).
  unfold c_true. rewrite Hnz, Z.land_diag. apply Z.eqb_neq in Hw.
  rewrite Hw. cbn [negb]. mrun.
  rewrite spin_unlock_run by (subst s1; apply holding_after_spin_lock).
  mrun. eexists. split; [reflexivity|]. subst s1. by kframe.
Qed.

(** *** Wake-ups that do not preempt the caller *)

Lemma sched_frame_refl me s : sched_frame me s s.
Proof. unfold sched_frame. by do 8 (split; [done|]). Qed.

Lemma sched_frame_trans me s1 s2 s3 :
  sched_frame me s1 s2 -> sched_frame me s2 s3 -> sched_frame me s1 s3.
Proof.
  unfold sched_frame.
  intros (A1 & A2 & A3 & A4 & A5 & A6 & A7 & A8 & A9)
         (B1 & B2 & B3 & B4 & B5 & B6 & B7 & B8 & B9).
  split; [congruence|]. split; [congruence|]. split; [congruence|].
  split; [congruence|]. split; [congruence|]. split; [congruence|].
  split; [intros t; by rewrite B7|].
  split; [intros q t Ht; by apply A8, B8|].
  intros q. etrans; [apply B9|apply A9].
Qed.

Lemma elem_of_unlink t x l : x ∈ unlink t l -> x ∈ l.
Proof. unfold unlink. intros Hx. by apply list_elem_of_filter in Hx as [_ ?]. Qed.

Lemma length_unlink t l : (length (unlink t l) <= length l)%nat.
Proof. apply length_filter. Qed.

Lemma length_unlink_head t l : (length (unlink t (t :: l)) <= length l)%nat.
Proof.
  unfold unlink. rewrite filter_cons_False by (intros Hx; by apply Hx).
  apply length_filter.
Qed.

Lemma sched_frame_woken task result me s :
  sched_frame me s (irq_blip me (woken task result me s)).
Proof.
  unfold sched_frame, woken, enqueued. kframe.
  split; [done|]. split; [done|]. split; [done|]. split; [done|].
  split; [done|]. split.
  { unfold irq_blip. ksimpl. unfold irq_blip. by ksimpl. }
  split.
  { intros t. destruct (decide (t = task)) as [->|Hne]; by ksimpl. }
  split.
  { intros q t. kframe. rewrite the_list_list_remove. apply elem_of_unlink. }
  intros q. kframe. rewrite the_list_list_remove. apply length_unlink.
Qed.

Lemma no_preempt_frame me s s' my_task task :
  sched_frame me s s' -> no_preempt s my_task task ->
  no_preempt s' my_task task.
Proof.
  intros (_ & _ & _ & _ & _ & _ & Hp & _) Hn.
  unfold no_preempt, task_priority_cmp in *. by rewrite !Hp.
Qed.

Lemma sched_wakeup_all_loop_quiet (fuel : nat) (q : ListRef) (result : Z)
    (me : cpu_id) (my_task : tid) (s : Kernel) :
  holding (the_lock SchedLock s) me = true ->
  cpu_task (the_cpu me s) = Some my_task ->
  (forall t, t ∈ the_list q s -> no_preempt s my_task t) ->
  (length (the_list q s) < fuel)%nat ->
  exists s',
    sched_wakeup_all_loop fuel q result me s = Return tt s' /\
    sched_frame me s s' /\ locks s' = locks s.
Proof.
  revert s. induction fuel as [|fuel IH]; intros s Hh Hc Hq Hf; [lia|].
  cbn [sched_wakeup_all_loop]. mrun.
  destruct (the_list q s) as [|t l] eqn:El.
  { eexists. split; [reflexivity|]. split; [apply sched_frame_refl|done]. }
  mrun. rewrite sched_enqueue_run by (by kframe). mrun.
  fold (woken t result me s).
  pose proof (sched_frame_woken t result me s) as Hfr.
  rewrite sched_may_yield_run by (by kframe).
  assert (Hc' : cpu_task (the_cpu me (woken t result me s)) = Some my_task).
  { unfold woken, enqueued. kframe. unfold irq_blip. by ksimpl. }
  rewrite Hc'.
  assert (Hnp : no_preempt (woken t result me s) my_task t).
  { assert (Hn0 : no_preempt s my_task t) by (apply Hq; left).
    unfold no_preempt, task_priority_cmp in *.
    destruct Hfr as (_ & _ & _ & _ & _ & _ & Hp & _).
    specialize (Hp t) as Hpt. specialize (Hp my_task) as Hpm.
    revert Hpt Hpm. kframe. intros -> ->. done. }
  unfold no_preempt in Hnp. rewrite Hnp. cbn [obind].
  destruct (IH (irq_blip me (woken t result me s))) as (s' & Hrun & Hfr' & Hl').
  - unfold woken, enqueued. by kframe.
  - revert Hc'. unfold irq_blip. by ksimpl.
  - intros x Hx. apply (no_preempt_frame me s); [done|].
    apply Hq. rewrite <- El.
    destruct Hfr as (_ & _ & _ & _ & _ & _ & _ & Hin & _).
    by apply Hin.
  - revert Hf. kframe. unfold woken, enqueued. kframe.
    rewrite the_list_list_remove, El. cbn [length].
    pose proof (length_unlink_head t l). lia.
  - exists s'. split; [done|]. split.
    + by apply (sched_frame_trans me s
                  (irq_blip me (woken t result me s)) s').
    + rewrite Hl'. unfold woken, enqueued. by kframe.
Qed.

Lemma holding_free l me : locked l = 0 -> holding l me = false.
Proof. unfold holding. by intros ->. Qed.

Lemma cpu_task_irq_blip me s :
  cpu_task (the_cpu me (irq_blip me s)) = cpu_task (the_cpu me s).
Proof. apply cpu_after_irq_blip. Qed.

Lemma cpu_task_after_spin_lock l me s :
  cpu_task (the_cpu me (after_spin_lock l me s)) = cpu_task (the_cpu me s).
Proof.
  unfold after_spin_lock, lock_taken. kframe. rewrite cpu_task_irq_blip.
  by ksimpl.
Qed.

Lemma cpu_task_after_spin_unlock l me s :
  cpu_task (the_cpu me (after_spin_unlock l me s)) = cpu_task (the_cpu me s).
Proof.
  unfold after_spin_unlock. ksimpl. apply cpu_task_irq_blip.
Qed.

Lemma sched_frame_after_spin_lock l me s :
  sched_frame me s (after_spin_lock l me s).
Proof.
  unfold sched_frame. rewrite cpu_task_after_spin_lock.
  do 8 (split; [intros; by kframe|]). intros q. by kframe.
Qed.

Lemma sched_frame_after_spin_unlock l me s :
  sched_frame me s (after_spin_unlock l me s).
Proof.
  unfold sched_frame. rewrite cpu_task_after_spin_unlock.
  do 8 (split; [intros; by kframe|]). intros q. by kframe.
Qed.

Lemma sched_frame_irq_blip me s : sched_frame me s (irq_blip me s).
Proof.
  unfold sched_frame. rewrite cpu_task_irq_blip.
  do 8 (split; [intros; by kframe|]). intros q. by kframe.
Qed.

Lemma wchan_wakeup_all_quiet (fuel : nat) (chan : proc_ref) (me : cpu_id)
    (my_task : tid) (s : Kernel) :
  locked (the_lock SchedLock s) = 0 ->
  cpu_task (the_cpu me s) = Some my_task ->
  (forall t, t ∈ the_list (WaitQueue chan) s -> no_preempt s my_task t) ->
  (length (the_list (WaitQueue chan) s) < fuel)%nat ->
  exists s',
    wchan_wakeup_all fuel chan me s = Return tt s' /\
    sched_frame me s s' /\
    (forall l, l <> SchedLock -> the_lock l s' = the_lock l s) /\
    locked (the_lock SchedLock s') = 0.
Proof.
  intros Hl Hc Hq Hf. unfold wchan_wakeup_all, sched_lock, sched_unlock.
  mrun. rewrite spin_lock_run by (done || by apply holding_free). mrun.
  set (sa := after_spin_lock SchedLock me s).
  pose proof (sched_frame_after_spin_lock SchedLock me s) as Hfa. fold sa in Hfa.
  unfold sched_wakeup_all. mrun. rewrite spin_holding_blip. mrun.
  subst sa. rewrite holding_after_spin_lock. mrun. ksimpl. mrun.
  set (sa := irq_blip me (after_spin_lock SchedLock me s)).
  assert (Hfa' : sched_frame me s sa).
  { eapply sched_frame_trans; [exact Hfa|apply sched_frame_irq_blip]. }
  destruct (sched_wakeup_all_loop_quiet fuel (WaitQueue chan) 0 me my_task sa)
    as (sb & Hrun & Hfb & Hlb).
  - subst sa. kframe. apply holding_after_spin_lock.
  - destruct Hfa' as (_ & _ & _ & _ & _ & -> & _). done.
  - intros t Ht. apply (no_preempt_frame me s); [done|]. apply Hq.
    destruct Hfa' as (_ & _ & _ & _ & _ & _ & _ & Hin & _). by apply Hin.
  - subst sa. by kframe.
  - rewrite Hrun. mrun.
    assert (Hlk : forall l, the_lock l sb = the_lock l sa)
      by (intros l; unfold the_lock; by rewrite Hlb).
    rewrite spin_unlock_run.
    2: { rewrite Hlk. subst sa. kframe. apply holding_after_spin_lock. }
    eexists. split; [reflexivity|]. split.
    { eapply sched_frame_trans; [exact Hfa'|].
      eapply sched_frame_trans; [exact Hfb|].
      apply sched_frame_after_spin_unlock. }
    split.
    + intros l Hne. rewrite the_lock_after_spin_unlock_ne by done.
      rewrite Hlk. subst sa. kframe.
      by rewrite the_lock_after_spin_lock_ne.
    + apply locked_after_spin_unlock.
Qed.

(** *** The exit of a process *)

Lemma close_files_run fs me s :
  exists evs, close_files fs me s = Return tt (set_trace (fun t => t ++ evs) s).
Proof.
  revert s. induction fs as [|[f|] fs IH]; intros s; cbn [close_files].
  - exists []. unfold ret. f_equal. unfold set_trace.
    rewrite app_nil_r. by destruct s.
  - mrun. destruct (IH (set_trace (fun t => t ++ [EvFileClose f]) s))
      as (evs & ->).
    exists (EvFileClose f :: evs). f_equal. unfold set_trace. cbn [trace].
    by rewrite <- app_assoc.
  - apply IH.
Qed.

Lemma the_proc_sibling_remove p x s :
  the_proc x (sibling_remove p s) =
    set_children (unlink p (children (the_proc x s))) (the_proc x s).
Proof.
  unfold the_proc, sibling_remove, set_procs. cbn [procs].
  rewrite !lookup_total_alt, lookup_fmap.
  destruct (procs s !! x); reflexivity.
Qed.

Lemma reparented_refl c s : reparented c s s.
Proof.
  unfold reparented. split; [done|]. split; [by left|]. split; done.
Qed.

Lemma reparented_trans c s1 s2 s3 :
  reparented c s1 s2 -> reparented c s2 s3 -> reparented c s1 s3.
Proof.
  intros (A1 & A2 & A3 & A4) (B1 & B2 & B3 & B4).
  assert (Hsub : forall x, x ∈ children (the_proc c s2) ->
                           x ∈ children (the_proc c s1)).
  { intros x Hx. by destruct (A2 c x Hx). }
  split; [|split; [|split]].
  - intros x. destruct (A1 x) as (E1 & E2 & E3).
    destruct (B1 x) as (F1 & F2 & F3). by rewrite F1, F2, F3.
  - intros q x Hx. destruct (B2 q x Hx) as [Hx'|Hx'].
    + by apply A2.
    + right. by apply Hsub.
  - intros q x Hx Hn. apply B3; [by apply A3|]. intros Hx'. by apply Hn, Hsub.
  - intros x Hn. rewrite B4; [by apply A4|]. intros Hx'. by apply Hn, Hsub.
Qed.

Lemma the_proc_reparent_step child init q s :
  let S := reparent_step child init s in
  thread (the_proc q S) = thread (the_proc q s) /\
  zombie (the_proc q S) = zombie (the_proc q s) /\
  exit_code (the_proc q S) = exit_code (the_proc q s) /\
  children (the_proc q S) =
    unlink child (children (the_proc q s)) ++
    (if decide (q = init) then [child] else []) /\
  parent (the_proc q S) =
    if decide (q = child) then Some init else parent (the_proc q s).
Proof.
  unfold reparent_step.
  destruct (decide (q = init)) as [Hi|Hi];
    destruct (decide (q = child)) as [Hc|Hc]; subst;
    ksimpl; rewrite ?the_proc_sibling_remove; krec;
    rewrite ?app_nil_r; done.
Qed.

Lemma length_unlink_lt t l : t ∈ l -> (length (unlink t l) < length l)%nat.
Proof.
  intros Ht. induction l as [|x l IH]; [by apply elem_of_nil in Ht|].
  unfold unlink. destruct (decide (x = t)) as [->|Hne].
  - rewrite filter_cons_False by (intros Hx; by apply Hx). cbn [length].
    pose proof (length_filter (fun x => x <> t) l). lia.
  - rewrite filter_cons_True by done. cbn [length].
    apply elem_of_cons in Ht as [->|Ht]; [done|].
    specialize (IH Ht). unfold unlink in IH. lia.
Qed.

Lemma elem_of_unlink_ne t x l : x ∈ l -> x <> t -> x ∈ unlink t l.
Proof. intros Hx Hne. unfold unlink. by apply list_elem_of_filter. Qed.

Lemma reparented_step c init child s :
  child ∈ children (the_proc c s) ->
  reparented c s (reparent_step child init s).
Proof.
  intros Hchild. split; [|split; [|split]].
  - intros x.
    destruct (the_proc_reparent_step child init x s) as (? & ? & ? & _).
    done.
  - intros q x.
    destruct (the_proc_reparent_step child init q s) as (_ & _ & _ & -> & _).
    intros Hx. apply elem_of_app in Hx as [Hx|Hx].
    + left. by apply elem_of_unlink in Hx.
    + right. destruct (decide (q = init)); [|by apply elem_of_nil in Hx].
      by apply list_elem_of_singleton in Hx as ->.
  - intros q x Hx Hn.
    destruct (the_proc_reparent_step child init q s) as (_ & _ & _ & -> & _).
    apply elem_of_app. left. apply elem_of_unlink_ne; [done|].
    by intros ->.
  - intros x Hn.
    destruct (the_proc_reparent_step child init x s) as (_ & _ & _ & _ & ->).
    destruct (decide (x = child)) as [->|]; done.
Qed.

Lemma reparent_loop_spec (fuel : nat) (c init : proc_ref) (hz : Z)
    (me : cpu_id) (s : Kernel) :
  c <> init ->
  (length (children (the_proc c s)) < fuel)%nat ->
  exists hz' P,
    reparent_loop fuel c init hz me s = Return hz' (set_procs (fun _ => P) s) /\
    reparented c s (set_procs (fun _ => P) s).
Proof.
  intros Hci. revert s hz.
  induction fuel as [|fuel IH]; intros s hz Hf; [lia|].
  cbn [reparent_loop]. mrun.
  destruct (children (the_proc c s)) as [|child l] eqn:El.
  { exists hz, (procs s). unfold ret.
    assert (Hs : set_procs (fun _ => procs s) s = s) by (by destruct s).
    rewrite Hs. split; [done|apply reparented_refl]. }
  mrun. fold (reparent_step child init s).
  assert (Hchild : child ∈ children (the_proc c s)) by (rewrite El; left).
  pose proof (reparented_step c init child s Hchild) as Hstep.
  destruct (IH (reparent_step child init s)
              (if c_true (zombie (the_proc child (reparent_step child init s)))
               then 1 else hz)) as (hz' & P & Hrun & Hrep).
  { destruct (the_proc_reparent_step child init c s) as (_ & _ & _ & -> & _).
    destruct (decide (c = init)); [done|]. rewrite app_nil_r.
    pose proof (length_unlink_lt child _ Hchild) as Hlt. rewrite El in *.
    cbn [length] in *. lia. }
  exists hz', P. split.
  - rewrite Hrun. reflexivity.
  - eapply reparented_trans; [exact Hstep|exact Hrep].
Qed.

Lemma task_frame_refl me s : task_frame me s s.
Proof. unfold task_frame. by do 5 (split; [done|]). Qed.

Lemma task_frame_trans me s1 s2 s3 :
  task_frame me s1 s2 -> task_frame me s2 s3 -> task_frame me s1 s3.
Proof.
  intros (A1 & A2 & A3 & A4 & A5 & A6) (B1 & B2 & B3 & B4 & B5 & B6).
  split; [congruence|]. split; [congruence|]. split; [congruence|].
  split; [intros t; by rewrite B4|].
  split; [intros q t Ht; by apply A5, B5|].
  intros q. etrans; [apply B6|apply A6].
Qed.

Lemma sched_frame_task_frame me s s' : sched_frame me s s' -> task_frame me s s'.
Proof.
  intros (_ & A2 & _ & A4 & _ & A6 & A7 & A8 & A9). by repeat split.
Qed.

(** A step that leaves the CPUs, tasks, wait lists, threads and the init
    process alone. *)
Lemma task_frame_intro me s s' :
  cpus s' = cpus s -> tasks s' = tasks s -> lists s' = lists s ->
  threads s' = threads s -> init_process s' = init_process s ->
  task_frame me s s'.
Proof.
  intros Hc Ht Hl Hth Hi. unfold task_frame, the_cpu, the_task, the_list.
  rewrite Hc, Ht, Hl. by do 5 (split; [done|]).
Qed.

Lemma no_preempt_task_frame me s s' my_task task :
  task_frame me s s' -> no_preempt s my_task task ->
  no_preempt s' my_task task.
Proof.
  intros (_ & _ & _ & Hp & _) Hn.
  unfold no_preempt, task_priority_cmp in *. by rewrite !Hp.
Qed.

Ltac tframe :=
  first
    [ apply task_frame_refl
    | apply sched_frame_task_frame, sched_frame_after_spin_lock
    | apply sched_frame_task_frame, sched_frame_after_spin_unlock
    | apply sched_frame_task_frame, sched_frame_irq_blip
    | apply task_frame_intro; reflexivity ].

Lemma task_exit_run me s t :
  cpu_task (the_cpu me s) = Some t ->
  locked (the_lock SchedLock s) = 0 ->
  exists s1 k,
    task_exit me s = Switch s1 k /\
    procs s1 = procs s /\ threads s1 = threads s /\
    state (the_task t s1) = TASK_STATE_DESTROYED /\
    forall me' s', exists s'', k me' s' = Panic "should not return" s''.
Proof.
  intros Hc Hl. unfold task_exit, sched_lock, task_cleanup. mrun.
  rewrite task_current_run. mrun. rewrite Hc.
  rewrite spin_lock_run by (kframe; (done || by apply holding_free)).
  mrun. rewrite sched_yield_run.
  2: { kframe. apply holding_after_spin_lock. }
  cbn [obind]. eexists _, _. split; [reflexivity|].
  split; [by kframe|]. split; [by kframe|]. split; [by ksimpl|].
  intros me' s'. by eexists.
Qed.

Lemma task_frame_set_trace me f s : task_frame me s (set_trace f s).
Proof. by apply task_frame_intro. Qed.
Lemma task_frame_set_vmstate me f s : task_frame me s (set_vmstate f s).
Proof. by apply task_frame_intro. Qed.
Lemma task_frame_set_pid_hash me f s : task_frame me s (set_pid_hash f s).
Proof. by apply task_frame_intro. Qed.
Lemma task_frame_set_procs me f s : task_frame me s (set_procs f s).
Proof. by apply task_frame_intro. Qed.
Lemma task_frame_upd_proc me p f s : task_frame me s (upd_proc p f s).
Proof. by apply task_frame_intro. Qed.
Lemma task_frame_set_umem me f s : task_frame me s (set_umem f s).
Proof. by apply task_frame_intro. Qed.
Lemma task_frame_set_process_cache me f s :
  task_frame me s (set_process_cache f s).
Proof. by apply task_frame_intro. Qed.

Ltac tframe1 :=
  lazymatch goal with
  | |- task_frame _ _ (after_spin_lock _ _ _) =>
      apply sched_frame_task_frame, sched_frame_after_spin_lock
  | |- task_frame _ _ (after_spin_unlock _ _ _) =>
      apply sched_frame_task_frame, sched_frame_after_spin_unlock
  | |- task_frame _ _ (irq_blip _ _) =>
      apply sched_frame_task_frame, sched_frame_irq_blip
  | |- task_frame _ _ (set_trace _ _) => apply task_frame_set_trace
  | |- task_frame _ _ (set_vmstate _ _) => apply task_frame_set_vmstate
  | |- task_frame _ _ (set_pid_hash _ _) => apply task_frame_set_pid_hash
  | |- task_frame _ _ (set_procs _ _) => apply task_frame_set_procs
  | |- task_frame _ _ (upd_proc _ _ _) => apply task_frame_upd_proc
  | |- task_frame _ _ (set_umem _ _) => apply task_frame_set_umem
  | |- task_frame _ _ (set_process_cache _ _) =>
      apply task_frame_set_process_cache
  end.

Ltac tframes :=
  repeat
    lazymatch goal with
    | |- task_frame _ ?s ?s => exact (task_frame_refl _ _)
    | |- task_frame _ _ (_ _) => eapply task_frame_trans; [|tframe1]
    end.

Ltac klock :=
  repeat first
    [ progress kframe
    | rewrite the_lock_after_spin_unlock_ne by done
    | rewrite the_lock_after_spin_lock_ne by done
    | rewrite the_lock_lock_taken_ne by done ].

Lemma process_destroy_spec (fuel : nat) (status : Z) (me : cpu_id)
    (s : Kernel) (tc : tid) (c p init : proc_ref) :
  cpu_task (the_cpu me s) = Some tc ->
  thread_process (the_thread tc s) = Some c ->
  thread (the_proc c s) = Some tc ->
  parent (the_proc c s) = Some p ->
  init_process s = Some init ->
  c <> init ->
  c ∉ children (the_proc c s) ->
  locked (the_lock PidHashLock s) = 0 ->
  locked (the_lock ProcessLock s) = 0 ->
  locked (the_lock SchedLock s) = 0 ->
  (length (children (the_proc c s)) < fuel)%nat ->
  (forall chan, chan = init \/ chan = p ->
     (length (the_list (WaitQueue chan) s) < fuel)%nat /\
     forall t, t ∈ the_list (WaitQueue chan) s -> no_preempt s tc t) ->
  exists s1 k,
    process_destroy fuel status me s = Switch s1 k /\
    (forall me' s', exists s'', k me' s' = Panic "should not return" s'') /\
    threads s1 = threads s /\
    state (the_task tc s1) = TASK_STATE_DESTROYED /\
    zombie (the_proc c s1) = 1 /\ exit_code (the_proc c s1) = status /\
    thread (the_proc c s1) = Some tc /\
    (forall x, x <> c ->
       thread (the_proc x s1) = thread (the_proc x s) /\
       zombie (the_proc x s1) = zombie (the_proc x s) /\
       exit_code (the_proc x s1) = exit_code (the_proc x s)) /\
    (forall q x, x ∈ children (the_proc q s1) ->
       x ∈ children (the_proc q s) \/ x ∈ children (the_proc c s)) /\
    (forall q x, x ∈ children (the_proc q s) ->
       x ∉ children (the_proc c s) -> x ∈ children (the_proc q s1)).
Proof.
  intros Hc Hp Hth Hpar Hinit Hci Hself Lpid Lproc Lsched Hfuel Hq.
  unfold process_destroy. mrun. rewrite process_current_run. mrun.
  rewrite Hc, Hp.
  rewrite spin_lock_run by (kframe; (done || by apply holding_free)).
  mrun. ksimpl. rewrite Hth.
  rewrite spin_unlock_run by (kframe; apply holding_after_spin_lock).
  mrun. unfold vm_destroy. mrun.
  match goal with
  | |- context [close_files ?fs me ?st] =>
      destruct (close_files_run fs me st) as (evs & ->)
  end.
  mrun. kframe. rewrite Hinit.
  match goal with
  | |- context [spin_lock ProcessLock me ?st] =>
      assert (F7 : task_frame me s st) by tframes;
      assert (L7 : forall l, l <> PidHashLock -> the_lock l st = the_lock l s)
        by (intros l Hl; by klock);
      assert (P7 : procs st = procs s) by (by kframe);
      revert F7 L7 P7; generalize st; intros s7 F7 L7 P7
  end.
  rewrite spin_lock_run
    by (rewrite L7 by done; (done || by apply holding_free)).
  mrun.
  assert (F8 : task_frame me s (after_spin_lock ProcessLock me s7)).
  { eapply task_frame_trans; [exact F7|]. tframe1. }
  assert (P8 : procs (after_spin_lock ProcessLock me s7) = procs s)
    by (by kframe).
  assert (L8 : the_lock SchedLock (after_spin_lock ProcessLock me s7)
               = the_lock SchedLock s).
  { rewrite the_lock_after_spin_lock_ne by done. by apply L7. }
  pose proof (holding_after_spin_lock ProcessLock me s7) as H8.
  revert F8 P8 L8 H8. generalize (after_spin_lock ProcessLock me s7).
  clear s7 F7 L7 P7. intros s8 F8 P8 L8 H8.
  assert (Q8 : forall x, the_proc x s8 = the_proc x s)
    by (intros x; unfold the_proc; by rewrite P8).
  destruct (reparent_loop_spec fuel c init 0 me s8 Hci) as (hz & P & -> & Hrep).
  { by rewrite Q8. }
  mrun. set (s9 := set_procs (fun _ => P) s8) in *.
  assert (F9 : task_frame me s s9).
  { eapply task_frame_trans; [exact F8|]. subst s9. tframe1. }
  assert (Hrep' : reparented c s s9).
  { destruct Hrep as (R1 & R2 & R3 & R4).
    split; [|split; [|split]].
    - intros x. rewrite <- Q8. apply R1.
    - intros q x. rewrite <- !Q8. apply R2.
    - intros q x. rewrite <- !Q8. apply R3.
    - intros x. rewrite <- !Q8. apply R4. }
  clear Hrep.
  assert (Hquiet : forall chan sx, chan = init \/ chan = p ->
    task_frame me s sx -> locked (the_lock SchedLock sx) = 0 ->
    exists sy, wchan_wakeup_all fuel chan me sx = Return tt sy /\
      sched_frame me sx sy /\
      (forall l, l <> SchedLock -> the_lock l sy = the_lock l sx) /\
      locked (the_lock SchedLock sy) = 0).
  { intros chan sx Hchan Fx Lx. destruct (Hq chan Hchan) as [Hlen Hnp].
    apply (wchan_wakeup_all_quiet fuel chan me tc sx); [done| | |].
    - destruct Fx as (_ & _ & -> & _). done.
    - intros t Ht. apply (no_preempt_task_frame me s); [done|].
      apply Hnp. destruct Fx as (_ & _ & _ & _ & Hin & _). by apply Hin.
    - destruct Fx as (_ & _ & _ & _ & _ & Hle). specialize (Hle (WaitQueue chan)).
      lia. }
  assert (Hs10 : exists s10,
    (if c_true hz then wchan_wakeup_all fuel init
     else fun (_ : cpu_id) (s3 : Kernel) => Return tt s3) me s9
      = Return tt s10 /\
    sched_frame me s9 s10 /\
    (forall l, l <> SchedLock -> the_lock l s10 = the_lock l s9) /\
    locked (the_lock SchedLock s10) = 0).
  { destruct (c_true hz).
    - apply Hquiet; [by left|done|]. subst s9. kframe. by rewrite L8.
    - exists s9. split; [done|]. split; [apply sched_frame_refl|].
      split; [done|]. subst s9. kframe. by rewrite L8. }
  destruct Hs10 as (s10 & -> & F10 & L10 & LS10). mrun. ksimpl.
  assert (P10 : forall x, the_proc x s10 = the_proc x s9).
  { intros x. unfold the_proc. destruct F10 as (-> & _). done. }
  assert (Hpar10 : parent (the_proc c s10) = Some p).
  { rewrite P10. destruct Hrep' as (_ & _ & _ & R4). by rewrite R4. }
  rewrite Hpar10.
  set (s12 := upd_proc c (set_exit_code status) (upd_proc c (set_zombie 1) s10)).
  assert (F12 : task_frame me s s12).
  { eapply task_frame_trans; [exact F9|].
    eapply task_frame_trans; [apply sched_frame_task_frame; exact F10|].
    subst s12. tframes. }
  destruct (Hquiet p s12) as (s14 & -> & F14 & L14 & LS14);
    [by right|done|subst s12; by kframe|].
  mrun.
  assert (L14p : the_lock ProcessLock s14 = the_lock ProcessLock s8).
  { rewrite L14 by done. subst s12. kframe. rewrite L10 by done.
    subst s9. by kframe. }
  rewrite spin_unlock_run
    by (by rewrite L14p).
  mrun. set (s15 := after_spin_unlock ProcessLock me s14).
  assert (F15 : task_frame me s s15).
  { eapply task_frame_trans; [exact F12|].
    eapply task_frame_trans; [apply sched_frame_task_frame; exact F14|].
    subst s15. tframe1. }
  destruct (task_exit_run me s15 tc) as (s1 & k & Hrun & P1 & T1 & D1 & Hk).
  { destruct F15 as (_ & _ & -> & _). done. }
  { subst s15. by rewrite the_lock_after_spin_unlock_ne. }
  exists s1, k. split; [exact Hrun|]. split; [exact Hk|].
  split. { rewrite T1. by destruct F15 as (-> & _). }
  split; [exact D1|].
  assert (Q1 : forall x, the_proc x s1 = the_proc x s12).
  { intros x. unfold the_proc. rewrite P1. subst s15. kframe.
    destruct F14 as (-> & _). done. }
  destruct Hrep' as (R1 & R2 & R3 & R4).
  rewrite !Q1. subst s12. ksimpl.
  split; [done|]. split; [done|].
  split. { rewrite P10. destruct (R1 c) as (-> & _). done. }
  split.
  { intros x Hx. rewrite Q1. ksimpl. rewrite P10. apply R1. }
  split.
  - intros q x. rewrite Q1.
    destruct (decide (q = c)) as [->|Hqc]; ksimpl; rewrite P10; apply R2.
  - intros q x Hx Hn. rewrite Q1.
    destruct (decide (q = c)) as [->|Hqc]; ksimpl; rewrite P10; by apply R3.
Qed.

(** *** Reaping a zombie *)

Lemma scan_children_reap (s : Kernel) (p_id : Z) (l : list proc_ref)
    (c : proc_ref) (tc : tid) (found : Z) :
  0 < p_id ->
  c ∈ l ->
  thread (the_proc c s) = Some tc ->
  pid (the_thread tc s) = p_id ->
  zombie (the_proc c s) = 1 ->
  (forall x, x ∈ l ->
     exists tx, thread (the_proc x s) = Some tx /\
       (pid (the_thread tx s) = p_id -> x = c)) ->
  scan_children s p_id l found = Reaped c p_id.
Proof.
  intros Hpos Hc Hth Hpid Hz. revert found.
  induction l as [|x l IH]; intros found Hall; [by apply elem_of_nil in Hc|].
  cbn [scan_children]. apply Z.ltb_lt in Hpos as Hpos'. rewrite Hpos'.
  destruct (Hall x) as (tx & Htx & Hx); [left|]. rewrite Htx.
  destruct (pid (the_thread tx s) =? p_id) eqn:E; cbn [negb].
  - apply Z.eqb_eq in E. specialize (Hx E) as ->.
    rewrite Hz. cbn [c_true Z.eqb negb]. by rewrite E.
  - apply Z.eqb_neq in E. apply elem_of_cons in Hc as [->|Hc].
    + rewrite Hth in Htx. injection Htx as <-. done.
    + apply IH; [done|]. intros y Hy. apply Hall. by right.
Qed.

Lemma process_wait_loop_reap (n : nat) (current : proc_ref) (p_id : Z)
    (a : Z) (options : Z) (me : cpu_id) (s : Kernel) (c : proc_ref)
    (found : Z) :
  scan_children s p_id (children (the_proc current s)) 0 = Reaped c found ->
  holding (the_lock ProcessLock s) me = true ->
  process_wait_loop (S n) current p_id (Some a) options me s =
    Return found
      (set_process_cache (fun l => c :: l)
         (set_umem (insert a (exit_code (the_proc c s)))
            (after_spin_unlock ProcessLock me (sibling_remove c s)))).
Proof.
  intros Hscan Hh. cbn [process_wait_loop]. mrun. rewrite Hscan. mrun.
  rewrite spin_unlock_run by (by kframe). mrun.
  unfold process_free, kmem_free_process. mrun. kframe.
  rewrite the_proc_sibling_remove. by krec.
Qed.

Lemma process_wait_loop_no_child (n : nat) (current : proc_ref) (p_id : Z)
    (stat_loc : option Z) (options : Z) (me : cpu_id) (s : Kernel) :
  scan_children s p_id (children (the_proc current s)) 0 = Scanned 0 ->
  holding (the_lock ProcessLock s) me = true ->
  process_wait_loop (S n) current p_id stat_loc options me s =
    Return (- ECHILD) (after_spin_unlock ProcessLock me s).
Proof.
  intros Hscan Hh. cbn [process_wait_loop]. mrun. rewrite Hscan.
  cbn [c_true Z.eqb negb]. mrun. by rewrite spin_unlock_run.
Qed.

(** Exit and wait while the thread of the child is still its own.  A
    process exits through process_destroy with a status while its parent is
    not waiting; it is not the init process.  The call never returns: the
    task is destroyed and the CPU switches to the scheduler.  When the
    parent then calls process_wait with the PID of the child, a status
    pointer and no option, on the process table and the threads as the exit
    left them, the call returns that PID, stores the status through the
    pointer and frees the child.  A further process_wait for the same PID
    returns -ECHILD and writes nothing. *)
Theorem process_exit_then_wait (fuel : nat) (status : Z) (me : cpu_id)
    (s : Kernel) (tc : tid) (c p init : proc_ref) :
  cpu_task (the_cpu me s) = Some tc ->
  thread_process (the_thread tc s) = Some c ->
  thread (the_proc c s) = Some tc ->
  parent (the_proc c s) = Some p ->
  c ∈ children (the_proc p s) ->
  0 < pid (the_thread tc s) ->
  (forall x, x ∈ children (the_proc p s) \/ x ∈ children (the_proc c s) ->
     exists tx, thread (the_proc x s) = Some tx /\
       (pid (the_thread tx s) = pid (the_thread tc s) -> x = c)) ->
  init_process s = Some init ->
  c <> init ->
  c ∉ children (the_proc c s) ->
  locked (the_lock PidHashLock s) = 0 ->
  locked (the_lock ProcessLock s) = 0 ->
  locked (the_lock SchedLock s) = 0 ->
  (length (children (the_proc c s)) < fuel)%nat ->
  (forall chan, chan = init \/ chan = p ->
     (length (the_list (WaitQueue chan) s) < fuel)%nat /\
     forall t, t ∈ the_list (WaitQueue chan) s -> no_preempt s tc t) ->
  let c_pid := pid (the_thread tc s) in
  exists s1 k,
    process_destroy fuel status me s = Switch s1 k /\
    (forall me' s', exists s'', k me' s' = Panic "should not return" s'') /\
    forall (n : nat) (me2 : cpu_id) (s2 : Kernel) (tp : tid) (stat_loc : Z),
      procs s2 = procs s1 -> threads s2 = threads s1 ->
      cpu_task (the_cpu me2 s2) = Some tp ->
      thread_process (the_thread tp s2) = Some p ->
      locked (the_lock ProcessLock s2) = 0 ->
      exists s3,
        process_wait (S n) c_pid (Some stat_loc) 0 me2 s2 = Return c_pid s3 /\
        umem s3 = <[stat_loc := status]> (umem s2) /\
        process_cache s3 = c :: process_cache s2 /\
        forall (n' : nat) (me4 : cpu_id) (s4 : Kernel) (tp4 : tid)
               (stat_loc' : option Z),
          procs s4 = procs s3 -> threads s4 = threads s3 ->
          cpu_task (the_cpu me4 s4) = Some tp4 ->
          thread_process (the_thread tp4 s4) = Some p ->
          locked (the_lock ProcessLock s4) = 0 ->
          exists s5,
            process_wait (S n') c_pid stat_loc' 0 me4 s4
              = Return (- ECHILD) s5 /\
            umem s5 = umem s4.
Proof.
  intros Hc Hp Hth Hpar Hin Hpid Htree Hinit Hci Hself Lpid Lproc Lsched
    Hfuel Hq c_pid.
  destruct (process_destroy_spec fuel status me s tc c p init)
    as (s1 & k & Hrun & Hk & T1 & _ & Z1 & E1 & Th1 & O1 & In1 & Keep1);
    try done.
  exists s1, k. split; [exact Hrun|]. split; [exact Hk|].
  intros n me2 s2 tp a P2 T2 Hc2 Hp2 L2.
  assert (Q2 : forall x, the_proc x s2 = the_proc x s1)
    by (intros x; unfold the_proc; by rewrite P2).
  assert (R2 : forall t, the_thread t s2 = the_thread t s)
    by (intros t; unfold the_thread; by rewrite T2, T1).
  assert (Htree2 : forall x, x ∈ children (the_proc p s2) ->
     exists tx, thread (the_proc x s2) = Some tx /\
       (pid (the_thread tx s2) = c_pid -> x = c)).
  { intros x Hx. rewrite Q2 in Hx. destruct (In1 p x Hx) as [Hx'|Hx'].
    - destruct (Htree x (or_introl Hx')) as (tx & Htx & Hu). exists tx.
      rewrite Q2, R2. split; [|done].
      destruct (decide (x = c)) as [->|Hne]; [by rewrite Th1, <- Hth|].
      by destruct (O1 x Hne) as (-> & _).
    - destruct (Htree x (or_intror Hx')) as (tx & Htx & Hu). exists tx.
      rewrite Q2, R2. split; [|done].
      destruct (decide (x = c)) as [->|Hne]; [by rewrite Th1, <- Hth|].
      by destruct (O1 x Hne) as (-> & _). }
  rewrite process_wait_run, Hc2, Hp2
    by (done || by apply holding_free).
  set (s2' := after_spin_lock ProcessLock me2 (irq_blip me2 s2)).
  assert (Q2' : forall x, the_proc x s2' = the_proc x s2)
    by (intros x; subst s2'; by kframe).
  assert (R2' : forall t, the_thread t s2' = the_thread t s2)
    by (intros t; subst s2'; by kframe).
  rewrite (process_wait_loop_reap n p c_pid a 0 me2 s2' c c_pid).
  2: { rewrite (scan_children_ext s2' s2) by done. rewrite Q2'.
       apply (scan_children_reap s2 c_pid _ c tc); try done.
       - rewrite Q2. by apply Keep1.
       - by rewrite Q2.
       - by rewrite R2.
       - by rewrite Q2. }
  2: { subst s2'. apply holding_after_spin_lock. }
  eexists. split; [reflexivity|].
  split.
  { cbn [umem set_process_cache set_umem]. rewrite Q2', Q2, E1.
    subst s2'. by kfield. }
  split. { subst s2'. by kfield. }
  intros n' me4 s4 tp4 a' P4 T4 Hc4 Hp4 L4.
  assert (Q4 : forall x, the_proc x s4 =
     set_children (unlink c (children (the_proc x s2))) (the_proc x s2)).
  { intros x. unfold the_proc at 1. rewrite P4.
    change (the_proc x (sibling_remove c s2') =
      set_children (unlink c (children (the_proc x s2))) (the_proc x s2)).
    rewrite the_proc_sibling_remove. by rewrite Q2'. }
  assert (R4 : forall t, the_thread t s4 = the_thread t s2).
  { intros t. unfold the_thread at 1. rewrite T4. subst s2'. by kfield. }
  rewrite process_wait_run, Hc4, Hp4 by (done || by apply holding_free).
  set (s4' := after_spin_lock ProcessLock me4 (irq_blip me4 s4)).
  assert (Q4' : forall x, the_proc x s4' = the_proc x s4)
    by (intros x; subst s4'; by kframe).
  assert (R4' : forall t, the_thread t s4' = the_thread t s4)
    by (intros t; subst s4'; by kframe).
  rewrite process_wait_loop_no_child.
  - eexists. split; [reflexivity|]. subst s4'. by kfield.
  - rewrite (scan_children_ext s4' s4) by done. rewrite Q4'.
    destruct (scan_children_alive s4 c_pid (children (the_proc p s4)) 0 Hpid)
      as [[Hs _]|[_ (x & tx & Hx & Htx & Hpx)]]; [|done|].
    + intros x Hx. rewrite Q4 in Hx. cbn [children set_children] in Hx.
      pose proof (elem_of_unlink _ _ _ Hx) as Hx'.
      destruct (Htree2 x Hx') as (tx & Htx & Hu). exists tx.
      rewrite Q4. cbn [thread set_children]. split; [done|].
      rewrite R4. intros Hp'. specialize (Hu Hp') as ->.
      unfold unlink in Hx. apply list_elem_of_filter in Hx as [Hne _]. done.
    + exfalso. rewrite Q4 in Hx, Htx. cbn [children thread set_children] in *.
      pose proof (elem_of_unlink _ _ _ Hx) as Hx'.
      destruct (Htree2 x Hx') as (tx' & Htx' & Hu).
      rewrite Htx in Htx'. injection Htx' as <-. rewrite R4 in Hpx.
      specialize (Hu Hpx) as ->.
      unfold unlink in Hx. apply list_elem_of_filter in Hx as [Hne _]. done.
  - subst s4'. apply holding_after_spin_lock.
Qed.

(** ** fork *)

Lemma isr_nesting_after_spin_lock l me s :
  isr_nesting (the_cpu me (after_spin_lock l me s))
    = isr_nesting (the_cpu me s).
Proof.
  unfold after_spin_lock, lock_taken. kframe.
  destruct (cpu_after_irq_blip me (upd_cpu me irq_save_cpu s)) as (_ & -> & _).
  by ksimpl.
Qed.

Lemma isr_nesting_after_spin_unlock l me s :
  isr_nesting (the_cpu me (after_spin_unlock l me s))
    = isr_nesting (the_cpu me s).
Proof.
  unfold after_spin_unlock. ksimpl.
  by destruct (cpu_after_irq_blip me s) as (_ & -> & _).
Qed.

Lemma process_alloc_spec me s p th pg pc tc fp :
  process_cache s = p :: pc -> thread_cache s = th :: tc ->
  free_pages s = pg :: fp ->
  locked (the_lock PidHashLock s) = 0 ->
  0 <= next_pid s < INT_MAX ->
  exists sa, process_alloc me s = Return (Some p) sa /\ allocated p th me s sa.
Proof.
  intros Hpc Htc Hfp Hl Hn.
  unfold process_alloc, kmem_alloc_process, kmem_alloc_thread, page_alloc_one,
    page_ref_count_add, task_create.
  mrun. rewrite Hpc. mrun. kfield. rewrite Htc. mrun. kfield. rewrite Hfp.
  mrun. cbn [c_true Z.eqb negb].
  rewrite spin_lock_run by (kframe; (done || by apply holding_free)).
  mrun. kframe.
  assert (Hw : wrap_int (next_pid s + 1) = next_pid s + 1)
    by (apply wrap_int_small; unfold INT_MIN, INT_MAX in *; lia).
  rewrite Hw.
  assert (Hpos : (next_pid s + 1 <? 0) = false) by (apply Z.ltb_ge; lia).
  rewrite Hpos. mrun.
  rewrite spin_unlock_run by (kframe; apply holding_after_spin_lock).
  mrun. eexists. split; [reflexivity|].
  unfold allocated.
  split. { intros x Hx. by ksimpl. }
  split. { by ksimpl. }
  split. { intros x Hx. by ksimpl. }
  split. { by ksimpl. }
  split. { by ksimpl. }
  split. { intros x Hx. by ksimpl. }
  split. { by ksimpl. }
  split. { by ksimpl. }
  split. { intros l Hne. by klock. }
  split.
  { kframe. rewrite cpu_task_after_spin_unlock. kframe.
    rewrite cpu_task_after_spin_lock. by kframe. }
  split.
  { kframe. rewrite isr_nesting_after_spin_unlock. kframe.
    rewrite isr_nesting_after_spin_lock. by kframe. }
  split. { by kframe. }
  rewrite Hpc, Htc, Hfp. cbn [tail].
  split; [|split]; kfield; by kframe.
Qed.

Lemma dup_files_run fs me s :
  exists evs, dup_files fs me s = Return tt (set_trace (fun t => t ++ evs) s).
Proof.
  revert s. induction fs as [|[f|] fs IH]; intros s; cbn [dup_files].
  - exists []. unfold ret. f_equal. unfold set_trace.
    rewrite app_nil_r. by destruct s.
  - mrun. destruct (IH (set_trace (fun t => t ++ [EvFileDup f]) s))
      as (evs & ->).
    exists (EvFileDup f :: evs). f_equal. unfold set_trace. cbn [trace].
    by rewrite <- app_assoc.
  - apply IH.
Qed.

Lemma task_resume_spec task me s t :
  locked (the_lock SchedLock s) = 0 ->
  state (the_task task s) = TASK_STATE_SUSPENDED ->
  cpu_task (the_cpu me s) = Some t ->
  exists s1,
    threads s1 = threads s /\ procs s1 = procs s /\
    (task_resume task me s = Return 0 s1 \/
     exists k, task_resume task me s = Switch s1 k /\
       forall me' s', holding (the_lock SchedLock s') me' = true ->
         exists s'', k me' s' = Return 0 s'' /\
           threads s'' = threads s' /\ procs s'' = procs s').
Proof.
  intros Hl Hst Hc. unfold task_resume, sched_lock, sched_unlock. mrun.
  rewrite spin_lock_run by (done || by apply holding_free).
  mrun. kframe. rewrite Hst. rewrite bool_decide_eq_true_2 by done.
  cbn [negb]. mrun.
  rewrite sched_enqueue_run by apply holding_after_spin_lock.
  mrun. rewrite sched_may_yield_run
    by (unfold enqueued, runqueue_add_back; kframe; apply holding_after_spin_lock).
  assert (Hc' : cpu_task (the_cpu me
            (enqueued task me (after_spin_lock SchedLock me s))) = Some t).
  { unfold enqueued, runqueue_add_back. kframe.
    rewrite cpu_task_irq_blip, cpu_task_after_spin_lock. done. }
  rewrite Hc'.
  destruct (0 <? task_priority_cmp _ _);
    [destruct (0 <? isr_nesting _)|].
  - mrun. rewrite spin_unlock_run
      by (unfold enqueued, runqueue_add_back; kframe;
          apply holding_after_spin_lock).
    mrun. eexists. split; [|split; [|left; reflexivity]].
    + unfold enqueued, runqueue_add_back. by kframe.
    + unfold enqueued, runqueue_add_back. by kframe.
  - cbn [obind]. eexists. split; [|split; [|right; eexists; split; [reflexivity|]]].
    + unfold enqueued, runqueue_add_back. by kframe.
    + unfold enqueued, runqueue_add_back. by kframe.
    + intros me' s' Hh. mrun. rewrite spin_unlock_run by (by kframe).
      mrun. eexists. split; [reflexivity|]. split; by kframe.
  - mrun. rewrite spin_unlock_run
      by (unfold enqueued, runqueue_add_back; kframe;
          apply holding_after_spin_lock).
    mrun. eexists. split; [|split; [|left; reflexivity]].
    + unfold enqueued, runqueue_add_back. by kframe.
    + unfold enqueued, runqueue_add_back. by kframe.
Qed.

Lemma process_copy_prefix (me : cpu_id) (s : Kernel) (t : tid)
    (current child : proc_ref) (pth cth : tid) (pg : page_ref)
    (pc : list proc_ref) (tc : list tid) (fp : list page_ref)
    (v : vm_ref) (vs : VmState) :
  cpu_task (the_cpu me s) = Some t ->
  thread_process (the_thread t s) = Some current ->
  thread (the_proc current s) = Some pth ->
  process_cache s = child :: pc ->
  thread_cache s = cth :: tc ->
  free_pages s = pg :: fp ->
  child <> current -> cth <> pth -> cth <> t ->
  locked (the_lock PidHashLock s) = 0 ->
  locked (the_lock ProcessLock s) = 0 ->
  locked (the_lock SchedLock s) = 0 ->
  0 <= next_pid s < INT_MAX ->
  vm_space_clone (vm (the_proc current s)) (vmstate s) = (Some v, vs) ->
  exists s3,
    process_copy me s =
      bind (task_resume cth)
        (fun _ => bind get (fun s' => ret (pid (the_thread cth s')))) me s3 /\
    thread (the_proc child s3) = Some cth /\
    parent (the_proc child s3) = Some current /\
    thread (the_proc current s3) = Some pth /\
    tf (the_thread pth s3) = tf (the_thread pth s) /\
    tf (the_thread cth s3) = set_r0 0 (tf (the_thread pth s)) /\
    pid (the_thread cth s3) = next_pid s + 1 /\
    locked (the_lock SchedLock s3) = 0 /\
    state (the_task cth s3) = TASK_STATE_SUSPENDED /\
    cpu_task (the_cpu me s3) = Some t.
Proof.
  intros Hc Hp Hth Hpc Htc Hfp Hcc Hct Hctt Lpid Lproc Lsched Hn Hclone.
  unfold process_copy. mrun. rewrite process_current_run. mrun.
  rewrite Hc, Hp.
  destruct (process_alloc_spec me (irq_blip me s) child cth pg pc tc fp)
    as (sa & -> & Ha); [by kframe..|].
  destruct Ha as (A1 & A2 & A3 & A4 & A5 & A6 & A7 & A8 & A9 & A10 & A11
                  & A12 & _).
  mrun. unfold vm_clone. rewrite A1, A12 by done. kframe.
  rewrite Hclone. cbn [fst snd]. mrun. ksimpl. rewrite A2, A1 by done.
  kframe. rewrite Hth.
  match goal with
  | |- context [dup_files ?fs me ?st] =>
      destruct (dup_files_run fs me st) as (evs & ->)
  end.
  mrun.
  assert (L : forall l, l <> PidHashLock -> the_lock l sa = the_lock l s).
  { intros l Hl. rewrite A9 by done. by kframe. }
  rewrite spin_lock_run
    by (kframe; rewrite L by done; (done || by apply holding_free)).
  mrun.
  rewrite spin_unlock_run by (kframe; apply holding_after_spin_lock).
  mrun. eexists. split; [reflexivity|].
  split. { ksimpl. done. }
  split. { ksimpl. done. }
  split. { ksimpl. rewrite A1 by done. kframe. done. }
  split. { ksimpl. rewrite A3 by done. by kframe. }
  split. { ksimpl. rewrite A3 by done. by kframe. }
  split. { ksimpl. rewrite A5. by kframe. }
  split.
  { klock. by rewrite L. }
  split. { by ksimpl. }
  kframe. rewrite cpu_task_after_spin_unlock. kframe.
  rewrite cpu_task_after_spin_lock. kframe. rewrite A10.
  by rewrite cpu_task_irq_blip.
Qed.

(** C3.  A process forks with a free process, thread and page in the
    caches, the locks of process.c and of the scheduler free, a PID left and
    an address space that can be cloned.  process_copy succeeds: at the point
    where it returns to the parent, or where the parent is switched out
    because the child preempts it, r0 is 0 in the trap frame of the child
    and every other register of it has the value it has in the trap frame
    of the parent, the trap frame of the parent is as it was, and the PID of
    the child is positive.  The value returned to the parent,
    at once or when it runs again with the PID of the child unchanged, is
    this PID. *)
Theorem process_copy_spec (me : cpu_id) (s : Kernel) (t : tid)
    (current child : proc_ref) (pth cth : tid) (pg : page_ref)
    (rest : list proc_ref) (tc : list tid) (fp : list page_ref)
    (v : vm_ref) (vs : VmState) :
  cpu_task (the_cpu me s) = Some t ->
  thread_process (the_thread t s) = Some current ->
  thread (the_proc current s) = Some pth ->
  process_cache s = child :: rest ->
  thread_cache s = cth :: tc ->
  free_pages s = pg :: fp ->
  child <> current -> cth <> pth -> cth <> t ->
  locked (the_lock PidHashLock s) = 0 ->
  locked (the_lock ProcessLock s) = 0 ->
  locked (the_lock SchedLock s) = 0 ->
  0 <= next_pid s < INT_MAX ->
  vm_space_clone (vm (the_proc current s)) (vmstate s) = (Some v, vs) ->
  let child_pid := next_pid s + 1 in
  exists s1,
    thread (the_proc child s1) = Some cth /\
    parent (the_proc child s1) = Some current /\
    thread (the_proc current s1) = Some pth /\
    tf (the_thread pth s1) = tf (the_thread pth s) /\
    r0 (tf (the_thread cth s1)) = 0 /\
    r1 (tf (the_thread cth s1)) = r1 (tf (the_thread pth s)) /\
    r2 (tf (the_thread cth s1)) = r2 (tf (the_thread pth s)) /\
    tf_sp (tf (the_thread cth s1)) = tf_sp (tf (the_thread pth s)) /\
    psr (tf (the_thread cth s1)) = psr (tf (the_thread pth s)) /\
    pc (tf (the_thread cth s1)) = pc (tf (the_thread pth s)) /\
    tf_other (tf (the_thread cth s1)) = tf_other (tf (the_thread pth s)) /\
    pid (the_thread cth s1) = child_pid /\
    0 < child_pid /\
    (process_copy me s = Return child_pid s1 \/
     exists k, process_copy me s = Switch s1 k /\
       forall me' s',
         holding (the_lock SchedLock s') me' = true ->
         pid (the_thread cth s') = child_pid ->
         exists s'', k me' s' = Return child_pid s'' /\
           threads s'' = threads s' /\ procs s'' = procs s').
Proof.
  intros Hc Hp Hth Hpc Htc Hfp Hcc Hct Hctt Lpid Lproc Lsched Hn Hclone
    child_pid.
  destruct (process_copy_prefix me s t current child pth cth pg rest tc fp v vs)
    as (s3 & -> & G1 & G2 & G3 & G4 & G5 & G6 & G7 & G8 & G9);
    try done.
  destruct (task_resume_spec cth me s3 t G7 G8 G9)
    as (s1 & T1 & P1 & Hrun).
  assert (Q1 : forall x, the_proc x s1 = the_proc x s3)
    by (intros x; unfold the_proc; by rewrite P1).
  assert (R1 : forall x, the_thread x s1 = the_thread x s3)
    by (intros x; unfold the_thread; by rewrite T1).
  exists s1. rewrite !Q1, !R1, G4.
  do 4 (split; [done|]). rewrite G5. krec.
  do 8 (split; [done|]). split; [subst child_pid; lia|].
  unfold bind. destruct Hrun as [->|(k & -> & Hk)].
  - left. mrun. by rewrite R1, G6.
  - right. eexists. split; [reflexivity|].
    intros me' s' Hh Hpid. destruct (Hk me' s' Hh) as (s'' & -> & T2 & P2).
    mrun. exists s''. split; [|done].
    f_equal. unfold the_thread in *. by rewrite T2.
Qed.

(** ** process_create *)

(** When process_alloc fails, process_create returns -ENOMEM and nothing is
    stored. *)
Lemma process_create_alloc_fails binary pstore me s s1 :
  process_alloc me s = Return None s1 ->
  process_create binary pstore me s = Return (- ENOMEM, None) s1.
Proof. intros Ha. unfold process_create, bind. by rewrite Ha. Qed.

(** process_setup_vm returns 0, or -ENOMEM when no address space can be
    created. *)
Lemma process_setup_vm_run proc me s :
  process_setup_vm proc me s =
    Return (match fst (vm_space_create (vmstate s)) with
            | Some _ => 0
            | None => - ENOMEM
            end)
      (upd_proc proc (set_vm (fst (vm_space_create (vmstate s))))
         (set_vmstate (fun _ => snd (vm_space_create (vmstate s))) s)).
Proof.
  unfold process_setup_vm, vm_create. mrun.
  by destruct (fst (vm_space_create (vmstate s))).
Qed.

(** When process_setup_vm returns a negative value, process_create frees
    the process and returns 1: the value of the comparison, which the
    assignment in the condition stores in r. *)
Lemma process_create_setup_vm_fails binary pstore me s proc s1 v s2 :
  process_alloc me s = Return (Some proc) s1 ->
  process_setup_vm proc me s1 = Return v s2 ->
  v < 0 ->
  process_create binary pstore me s =
    Return (1, None) (set_process_cache (fun l => proc :: l) s2).
Proof.
  intros Ha Hv Hneg. unfold process_create, bind. rewrite Ha. cbn [obind].
  rewrite Hv. cbn [obind]. apply Z.ltb_lt in Hneg. rewrite Hneg.
  reflexivity.
Qed.

(** When process_load_binary returns a negative value, process_create
    destroys the address space, frees the process and returns this value. *)
Lemma process_create_load_binary_fails binary pstore me s proc s1 v s2 r s3 :
  process_alloc me s = Return (Some proc) s1 ->
  process_setup_vm proc me s1 = Return v s2 ->
  0 <= v ->
  process_load_binary proc binary me s2 = Return r s3 ->
  r < 0 ->
  process_create binary pstore me s =
    Return (r, None)
      (set_process_cache (fun l => proc :: l)
         (set_vmstate (vm_space_destroy (vm (the_proc proc s3))) s3)).
Proof.
  intros Ha Hv Hpos Hr Hneg. unfold process_create, bind. rewrite Ha.
  cbn [obind]. rewrite Hv. cbn [obind]. apply Z.ltb_ge in Hpos. rewrite Hpos.
  cbn [c_bool c_true Z.eqb negb obind]. rewrite Hr. cbn [obind].
  apply Z.ltb_lt in Hneg. rewrite Hneg. reflexivity.
Qed.

(** ** The mailbox *)

Lemma wakeup_one_locked_spec queue result me s :
  locked (the_lock SchedLock s) = 0 ->
  exists s1,
    mailboxes s1 = mailboxes s /\
    (forall l, l <> SchedLock -> the_lock l s1 = the_lock l s) /\
    ((_k_sched_wakeup_one queue result me s = Return tt s1 /\
      locked (the_lock SchedLock s1) = 0) \/
     exists k, _k_sched_wakeup_one queue result me s = Switch s1 k /\
       forall me' s', holding (the_lock SchedLock s') me' = true ->
         exists s'', k me' s' = Return tt s'' /\
           mailboxes s'' = mailboxes s' /\
           forall l, l <> SchedLock -> the_lock l s'' = the_lock l s').
Proof.
  intros Hl. unfold _k_sched_wakeup_one, sched_lock, sched_unlock. mrun.
  rewrite spin_lock_run by (done || by apply holding_free).
  mrun. rewrite sched_wakeup_one_run by apply holding_after_spin_lock.
  assert (Hret : forall sx,
    holding (the_lock SchedLock sx) me = true ->
    mailboxes sx = mailboxes s ->
    (forall l, l <> SchedLock -> the_lock l sx = the_lock l s) ->
    exists s1,
      mailboxes s1 = mailboxes s /\
      (forall l, l <> SchedLock -> the_lock l s1 = the_lock l s) /\
      ((obind (Return tt sx) (fun _ : unit => spin_unlock SchedLock) me
          = Return tt s1 /\ locked (the_lock SchedLock s1) = 0) \/
       exists k,
         obind (Return tt sx) (fun _ : unit => spin_unlock SchedLock) me
           = Switch s1 k /\
         forall me' s', holding (the_lock SchedLock s') me' = true ->
           exists s'', k me' s' = Return tt s'' /\
             mailboxes s'' = mailboxes s' /\
             forall l, l <> SchedLock -> the_lock l s'' = the_lock l s')).
  { intros sx Hh Hm Hlk. cbn [obind]. rewrite spin_unlock_run by done.
    eexists. split; [|split; [|left; split; [reflexivity|]]].
    - by kframe.
    - intros l Hne. rewrite the_lock_after_spin_unlock_ne by done.
      by apply Hlk.
    - apply locked_after_spin_unlock. }
  assert (Hlk0 : forall l, l <> SchedLock ->
    the_lock l (after_spin_lock SchedLock me s) = the_lock l s)
    by (intros l Hne; by rewrite the_lock_after_spin_lock_ne).
  destruct (highest_loop _ None _) as [h|].
  - rewrite sched_may_yield_run by (kframe; apply holding_after_spin_lock).
    destruct (cpu_task _) as [my_task|].
    + destruct (0 <? task_priority_cmp _ _);
        [destruct (0 <? isr_nesting _)|].
      * apply Hret.
        -- kframe. apply holding_after_spin_lock.
        -- by kframe.
        -- intros l Hne. kframe. by apply Hlk0.
      * cbn [obind]. eexists.
        split; [|split; [|right; eexists; split; [reflexivity|]]].
        -- by kframe.
        -- intros l Hne. kframe. by apply Hlk0.
        -- intros me' s' Hh. cbn [obind].
           rewrite spin_unlock_run by (by kframe).
           eexists. split; [reflexivity|]. split; [by kframe|].
           intros l Hne. rewrite the_lock_after_spin_unlock_ne by done.
           by kframe.
      * apply Hret.
        -- kframe. apply holding_after_spin_lock.
        -- by kframe.
        -- intros l Hne. kframe. by apply Hlk0.
    + apply Hret.
      * kframe. apply holding_after_spin_lock.
      * by kframe.
      * intros l Hne. kframe. by apply Hlk0.
  - apply Hret.
    + kframe. apply holding_after_spin_lock.
    + by kframe.
    + intros l Hne. kframe. by apply Hlk0.
Qed.

Lemma ring_read_write (cursor n : Z) (src ring : list Byte.byte) :
  0 <= cursor -> 0 <= n ->
  cursor + n <= Z.of_nat (length ring) ->
  n <= Z.of_nat (length src) ->
  ring_read cursor n (ring_write cursor src n ring) = take (Z.to_nat n) src.
Proof.
  intros Hc Hn Hfit Hsrc. unfold ring_read, ring_write.
  set (k := take (Z.to_nat n) src).
  assert (Hk : length k = Z.to_nat n)
    by (subst k; apply length_take_le; lia).
  apply list_eq. intros i.
  destruct (decide (i < Z.to_nat n)%nat) as [Hi|Hi].
  - rewrite lookup_take_lt by done. rewrite lookup_drop.
    rewrite list_lookup_inserts by lia. f_equal. lia.
  - rewrite lookup_take_ge by lia. symmetry. apply lookup_ge_None. lia.
Qed.

Lemma mailbox_ok_empty (mb : KMailBox) :
  mailbox_ok mb -> size mb = 0 ->
  read_ptr mb = write_ptr mb /\ 0 <= write_ptr mb /\
  write_ptr mb + msg_size mb <= Z.of_nat (length (buf mb)).
Proof.
  intros (Hn & Hcap & He & Hlen & Hsz & r & Hr & Hrp & Hwp) H0.
  rewrite H0, Z.add_0_r, Z.mod_small in Hwp by done.
  rewrite Hrp, Hwp. split; [done|]. split; [nia|nia].
Qed.

Lemma mailbox_ok_init (mailbox : mbox_ref) (msg_sz : Z)
    (start : list Byte.byte) (buf_size : Z) (me : cpu_id) (s : Kernel) :
  0 < msg_sz <= buf_size ->
  buf_size <= Z.of_nat (length start) ->
  mailbox_ok
    (the_mailbox mailbox
       (final (k_mailbox_init_common mailbox msg_sz start buf_size me s))) /\
  size (the_mailbox mailbox
       (final (k_mailbox_init_common mailbox msg_sz start buf_size me s))) = 0.
Proof.
  intros Hn Hlen. unfold k_mailbox_init_common. mrun. cbn [final].
  rewrite the_mailbox_upd_mailbox. unfold mailbox_ok, ROUND_DOWN. krec.
  cbn [buf buf_end read_ptr write_ptr msg_size capacity size].
  assert (Hq : 0 < buf_size / msg_sz) by (apply Z.div_str_pos; lia).
  pose proof (Z.div_mod buf_size msg_sz ltac:(lia)) as Hdm.
  pose proof (Z.mod_pos_bound buf_size msg_sz ltac:(lia)) as Hmb.
  split; [|done].
  split; [lia|]. split; [done|]. split; [lia|]. split; [lia|].
  split; [lia|]. exists 0. rewrite Z.add_0_r, Z.mod_0_l by lia.
  split; [lia|]. split; lia.
Qed.

(** The mailbox after a message went into the empty ring. *)
Lemma try_send_locked_empty (mailbox : mbox_ref) (message : list Byte.byte)
    (me : cpu_id) (s : Kernel) (r : Z) (s1 : Kernel) :
  let mb := the_mailbox mailbox s in
  holding (the_lock (MailBoxLock mailbox) s) me = true ->
  locked (the_lock SchedLock s) = 0 ->
  size mb = 0 -> 0 < capacity mb ->
  k_mailbox_try_send_locked mailbox message me s = Return r s1 ->
  r = 0 /\
  the_mailbox mailbox s1 =
    set_size 1
      (set_buf (ring_write (write_ptr mb) message (msg_size mb) (buf mb))
         (set_write_ptr
            (if buf_end mb <=? write_ptr mb + msg_size mb
             then 0 else write_ptr mb + msg_size mb) mb)) /\
  (forall l, l <> SchedLock -> the_lock l s1 = the_lock l s) /\
  locked (the_lock SchedLock s1) = 0.
Proof.
  intros mb Hh Hl Hsz Hcap.
  unfold k_mailbox_try_send_locked. mrun.
  rewrite assert_holding_run by done. mrun. kframe. fold mb.
  rewrite Hsz.
  assert (Hc : (0 =? capacity mb) = false) by (apply Z.eqb_neq; lia).
  rewrite Hc. cbn [Z.eqb]. mrun.
  match goal with
  | |- context [_k_sched_wakeup_one _ 0 me ?st] =>
      assert (M1 : the_mailbox mailbox st =
                set_size 1
                  (set_buf (ring_write (write_ptr mb) message (msg_size mb)
                              (buf mb))
                     (set_write_ptr
                        (if buf_end mb <=? write_ptr mb + msg_size mb
                         then 0 else write_ptr mb + msg_size mb) mb)));
      [|assert (M2 : forall l, the_lock l st = the_lock l s)
          by (intros l; by kframe);
        revert M1 M2; generalize st; intros sm M1 M2]
  end.
  { ksimpl. fold mb.
    destruct (buf_end mb <=? write_ptr mb + msg_size mb); krec;
      rewrite Hsz; reflexivity. }
  intros Hsend.
  destruct (wakeup_one_locked_spec (Receivers mailbox) 0 me sm)
    as (s1' & B1 & B2 & [[Hrun B3]|(k & Hrun & _)]);
    [by rewrite M2|..];
    rewrite Hrun in Hsend; cbn [obind] in Hsend; [|discriminate].
  injection Hsend as <- <-.
  split; [done|]. split; [unfold the_mailbox in *; by rewrite B1|].
  split; [|done]. intros l Hne. by rewrite B2, M2.
Qed.

(** The last message leaves the ring. *)
Lemma try_receive_locked_last (mailbox : mbox_ref) (me : cpu_id)
    (s : Kernel) :
  let mb := the_mailbox mailbox s in
  let bytes := ring_read (read_ptr mb) (msg_size mb) (buf mb) in
  holding (the_lock (MailBoxLock mailbox) s) me = true ->
  locked (the_lock SchedLock s) = 0 ->
  size mb = 1 ->
  exists s2,
    size (the_mailbox mailbox s2) = 0 /\
    (forall l, l <> SchedLock -> the_lock l s2 = the_lock l s) /\
    (k_mailbox_try_receive_locked mailbox me s = Return (0, Some bytes) s2 \/
     exists k,
       k_mailbox_try_receive_locked mailbox me s = Switch s2 k /\
       forall me' s', holding (the_lock SchedLock s') me' = true ->
         exists s'', k me' s' = Return (0, Some bytes) s'' /\
           mailboxes s'' = mailboxes s' /\
           forall l, l <> SchedLock -> the_lock l s'' = the_lock l s').
Proof.
  intros mb bytes Hh Hl Hsz.
  unfold k_mailbox_try_receive_locked. mrun.
  rewrite assert_holding_run by done.
  mrun. kframe. fold mb. rewrite Hsz.
  change (1 =? 0) with false. cbv iota. fold bytes. mrun.
  match goal with
  | |- context [upd_mailbox mailbox ?f ?st] =>
      assert (R1 : size (the_mailbox mailbox (upd_mailbox mailbox f st)) = 0);
      [|assert (R2 : forall l, the_lock l (upd_mailbox mailbox f st)
                               = the_lock l s)
          by (intros l; by kframe);
        revert R1 R2; generalize (upd_mailbox mailbox f st); intros sr R1 R2]
  end.
  { ksimpl. fold mb.
    repeat match goal with
           | |- context [if ?c then _ else _] => destruct c
           end; krec; by rewrite Hsz. }
  destruct (1 =? capacity mb).
  - destruct (wakeup_one_locked_spec (Senders mailbox) 0 me sr)
      as (s2 & C1 & C2 & [[-> C3]|(k & -> & Hk)]); [by rewrite R2|..].
    + exists s2. split; [unfold the_mailbox in *; by rewrite C1|].
      split; [intros l Hne; by rewrite C2, R2|]. left. reflexivity.
    + exists s2. split; [unfold the_mailbox in *; by rewrite C1|].
      split; [intros l Hne; by rewrite C2, R2|].
      right. cbn [obind]. eexists. split; [reflexivity|].
      intros me' s' Hh'. destruct (Hk me' s' Hh') as (s'' & -> & D1 & D2).
      exists s''. by split.
  - exists sr. split; [done|]. split; [intros l _; apply R2|].
    left. reflexivity.
Qed.

(** * Further properties of the mailbox, the scheduler and the processes *)

Lemma obind_Return_inv {A B} (o : Outcome A) (f : A -> M B) (me : cpu_id)
    (b : B) (s1 : Kernel) :
  obind o f me = Return b s1 ->
  exists a s', o = Return a s' /\ f a me s' = Return b s1.
Proof. destruct o; cbn [obind]; intros Ho; try discriminate. eauto. Qed.

(** C7.  A mailbox with a well-formed ring is empty, its lock and the lock
    of the scheduler are free, and the message has msg_size bytes at least.
    When k_mailbox_try_send returns 0 and k_mailbox_try_receive is called
    next, the receive ends with the result 0 and the first msg_size bytes of
    the message, byte for byte, and the mailbox holds no message again: at
    once, or, when the wake-up of a sender switches the caller out, as soon
    as the caller runs again holding the locks it held. *)
Theorem mailbox_send_receive (mailbox : mbox_ref)
    (message : list Byte.byte) (me : cpu_id) (s s1 : Kernel) :
  let mb := the_mailbox mailbox s in
  mbox_type mb = K_MAILBOX_TYPE ->
  locked (the_lock (MailBoxLock mailbox) s) = 0 ->
  locked (the_lock SchedLock s) = 0 ->
  mailbox_ok mb ->
  size mb = 0 ->
  msg_size mb <= Z.of_nat (length message) ->
  k_mailbox_try_send (Some mailbox) message me s = Return 0 s1 ->
  let bytes := take (Z.to_nat (msg_size mb)) message in
  exists s2,
    size (the_mailbox mailbox s2) = 0 /\
    (k_mailbox_try_receive (Some mailbox) me s1
       = Return (0, Some bytes) s2 \/
     exists k,
       k_mailbox_try_receive (Some mailbox) me s1 = Switch s2 k /\
       forall me' s',
         holding (the_lock SchedLock s') me' = true ->
         holding (the_lock (MailBoxLock mailbox) s') me' = true ->
         exists s'', k me' s' = Return (0, Some bytes) s'' /\
           mailboxes s'' = mailboxes s').
Proof.
  intros mb Hty Hlm Hls Hok Hsz Hmsg Hsend bytes.
  destruct (mailbox_ok_empty mb Hok Hsz) as (Hrw & Hw0 & Hfit).
  destruct Hok as (Hn & Hcap & He & Hlen & _ & _).
  revert Hsend. unfold k_mailbox_try_send. mrun. fold mb.
  rewrite Hty, Z.eqb_refl. cbn [negb]. mrun.
  rewrite spin_lock_run by (done || by apply holding_free).
  mrun. intros Hsend.
  apply obind_Return_inv in Hsend as (r & sb & Hsl & Hsend).
  apply try_send_locked_empty in Hsl as (-> & Mb & Lb & Sb);
    [|apply holding_after_spin_lock
     |by rewrite the_lock_after_spin_lock_ne
     |by kframe|by kframe].
  revert Mb Lb. kframe. fold mb. intros Mb Lb.
  rewrite spin_unlock_run in Hsend
    by (rewrite Lb by done; apply holding_after_spin_lock).
  cbn [obind] in Hsend. injection Hsend as <-.
  unfold k_mailbox_try_receive. mrun. kframe. rewrite Mb. krec.
  rewrite Hty, Z.eqb_refl. cbn [negb]. mrun.
  rewrite spin_lock_run
    by (first [apply holding_free|idtac]; apply locked_after_spin_unlock).
  mrun.
  set (sc := after_spin_lock (MailBoxLock mailbox) me
               (after_spin_unlock (MailBoxLock mailbox) me sb)).
  assert (Mc : the_mailbox mailbox sc = the_mailbox mailbox sb)
    by (subst sc; by kframe).
  destruct (try_receive_locked_last mailbox me sc)
    as (s2 & E1 & E2 & Hrecv).
  { subst sc. apply holding_after_spin_lock. }
  { subst sc. rewrite the_lock_after_spin_lock_ne by done.
    by rewrite the_lock_after_spin_unlock_ne. }
  { by rewrite Mc, Mb. }
  assert (Hbytes : ring_read (read_ptr (the_mailbox mailbox sc))
                     (msg_size (the_mailbox mailbox sc))
                     (buf (the_mailbox mailbox sc)) = bytes).
  { rewrite Mc, Mb. krec. rewrite Hrw. apply ring_read_write; lia. }
  rewrite Hbytes in Hrecv.
  assert (Hh2 : holding (the_lock (MailBoxLock mailbox) s2) me = true).
  { rewrite E2 by done. subst sc. apply holding_after_spin_lock. }
  destruct Hrecv as [->|(k & -> & Hk)].
  - mrun. rewrite spin_unlock_run by done. mrun.
    eexists. split; [|left; reflexivity]. by kframe.
  - cbn [obind]. exists s2. split; [done|]. right.
    eexists. split; [reflexivity|].
    intros me' s' Hs' Hm'.
    destruct (Hk me' s' Hs') as (s'' & -> & F1 & F2).
    mrun. rewrite spin_unlock_run by (by rewrite F2).
    mrun. eexists. split; [reflexivity|]. by kframe.
Qed.

(** ** The mailbox is a queue *)

Lemma ring_read_write_other (c1 c2 n : Z) (src ring : list Byte.byte) :
  0 <= c1 -> 0 <= c2 -> 0 <= n ->
  c1 + n <= c2 \/ c2 + n <= c1 ->
  ring_read c1 n (ring_write c2 src n ring) = ring_read c1 n ring.
Proof.
  intros H1 H2 Hn Hdis. unfold ring_read, ring_write.
  set (k := take (Z.to_nat n) src).
  assert (Hk : (length k <= Z.to_nat n)%nat)
    by (subst k; rewrite length_take; lia).
  apply list_eq. intros i.
  destruct (decide (i < Z.to_nat n)%nat) as [Hi|Hi].
  - rewrite !lookup_take_lt by done. rewrite !lookup_drop.
    destruct Hdis as [Hd|Hd].
    + apply list_lookup_inserts_lt. lia.
    + apply list_lookup_inserts_ge. lia.
  - by rewrite !lookup_take_ge by lia.
Qed.

Lemma slot_index (r i cap n : Z) :
  0 < n -> 0 < cap ->
  (r * n + i * n) mod (cap * n) = ((r + i) mod cap) * n.
Proof.
  intros Hn Hc. rewrite <- Z.mul_add_distr_r.
  rewrite Z.mul_mod_distr_r by lia. done.
Qed.

Lemma mailbox_ok_sent (message : list Byte.byte) (mb : KMailBox) :
  mailbox_ok mb -> size mb < capacity mb -> capacity mb < 2 ^ 32 ->
  mailbox_ok (mb_sent message mb) /\
  size (mb_sent message mb) = size mb + 1 /\
  read_ptr (mb_sent message mb) = read_ptr mb /\
  msg_size (mb_sent message mb) = msg_size mb /\
  buf_end (mb_sent message mb) = buf_end mb /\
  capacity (mb_sent message mb) = capacity mb /\
  mbox_type (mb_sent message mb) = mbox_type mb /\
  buf (mb_sent message mb) =
    ring_write (write_ptr mb) message (msg_size mb) (buf mb).
Proof.
  intros (Hn & Hcap & He & Hlen & Hsz & r & Hr & Hrp & Hwp) Hfull Hmax.
  unfold mb_sent. cbv zeta.
  assert (Hsize : wrap_size (size mb + 1) = size mb + 1)
    by (unfold wrap_size; apply Z.mod_small; lia).
  set (q := (r + size mb) mod capacity mb) in *.
  assert (Hq : 0 <= q < capacity mb) by (subst q; apply Z.mod_pos_bound; lia).
  assert (Hq1 : (r + (size mb + 1)) mod capacity mb =
                if q + 1 =? capacity mb then 0 else q + 1).
  { replace (r + (size mb + 1)) with ((r + size mb) + 1) by lia.
    rewrite Z.add_mod by lia. fold q.
    destruct (decide (capacity mb = 1)) as [H1|H1].
    - rewrite H1 in *. assert (q = 0) as -> by lia. reflexivity.
    - rewrite (Z.mod_small 1) by lia.
      destruct (q + 1 =? capacity mb) eqn:E.
      + apply Z.eqb_eq in E. rewrite E. apply Z.mod_same. lia.
      + apply Z.eqb_neq in E. apply Z.mod_small. lia. }
  unfold mailbox_ok. krec.
  destruct (buf_end mb <=? write_ptr mb + msg_size mb) eqn:Ew; krec;
    rewrite Hsize; unfold ring_write; rewrite length_inserts.
  - apply Z.leb_le in Ew.
    assert (q + 1 = capacity mb) as Hw by nia.
    apply Z.eqb_eq in Hw as Hw'. rewrite Hw' in Hq1.
    split; [|done].
    do 4 (split; [done|]). split; [lia|].
    exists r. rewrite Hq1. split; [done|]. split; [done|lia].
  - apply Z.leb_gt in Ew.
    assert (q + 1 <> capacity mb) as Hw by nia.
    apply Z.eqb_neq in Hw as Hw'. rewrite Hw' in Hq1.
    split; [|done].
    do 4 (split; [done|]). split; [lia|].
    exists r. rewrite Hq1. split; [done|]. split; [done|lia].
Qed.

Lemma mod_shift_ne (a d c : Z) :
  0 < d < c -> (a + d) mod c <> a mod c.
Proof.
  intros Hd. rewrite Z.add_mod by lia.
  pose proof (Z.mod_pos_bound a c ltac:(lia)) as Ha.
  rewrite (Z.mod_small d) by lia.
  destruct (decide (a mod c + d < c)) as [Hlt|Hge].
  - rewrite Z.mod_small by lia. lia.
  - replace (a mod c + d) with ((a mod c + d - c) + 1 * c) by lia.
    rewrite Z.mod_add by lia. rewrite Z.mod_small by lia. lia.
Qed.

Lemma contents_sent (message : list Byte.byte) (mb : KMailBox) :
  mailbox_ok mb -> size mb < capacity mb -> capacity mb < 2 ^ 32 ->
  msg_size mb <= Z.of_nat (length message) ->
  contents (mb_sent message mb) =
    contents mb ++ [take (Z.to_nat (msg_size mb)) message].
Proof.
  intros Hok Hfull Hmax Hmsg.
  destruct (mailbox_ok_sent message mb Hok Hfull Hmax)
    as (_ & Hs & Hrp' & Hn' & He' & _ & _ & Hb').
  destruct Hok as (Hn & Hcap & He & Hlen & Hsz & r & Hr & Hrp & Hwp).
  unfold contents. rewrite Hs.
  replace (Z.to_nat (size mb + 1)) with (S (Z.to_nat (size mb))) by lia.
  rewrite seq_S, map_app. cbn [map Nat.add].
  set (q := (r + size mb) mod capacity mb) in *.
  assert (Hq : 0 <= q < capacity mb) by (subst q; apply Z.mod_pos_bound; lia).
  f_equal.
  - apply map_ext_in. intros i Hi. apply in_seq in Hi.
    unfold slot_at. rewrite Hrp', Hn', He', Hb', Hrp, He, Hwp.
    rewrite slot_index by done.
    set (c1 := (r + Z.of_nat i) mod capacity mb).
    assert (Hc1 : 0 <= c1 < capacity mb)
      by (subst c1; apply Z.mod_pos_bound; lia).
    assert (Hne : q <> c1).
    { subst q c1.
      replace (r + size mb)
        with ((r + Z.of_nat i) + (size mb - Z.of_nat i)) by lia.
      apply mod_shift_ne. lia. }
    apply ring_read_write_other; nia.
  - f_equal. unfold slot_at. rewrite Hrp', Hn', He', Hb', Hrp, He, Hwp.
    rewrite Z2Nat.id by lia. rewrite slot_index by done. fold q.
    apply ring_read_write; nia.
Qed.

Lemma mailbox_ok_received (mb : KMailBox) :
  mailbox_ok mb -> 0 < size mb -> capacity mb < 2 ^ 32 ->
  mailbox_ok (mb_received mb) /\
  size (mb_received mb) = size mb - 1 /\
  read_ptr (mb_received mb) = (read_ptr mb + msg_size mb) mod buf_end mb /\
  msg_size (mb_received mb) = msg_size mb /\
  buf_end (mb_received mb) = buf_end mb /\
  capacity (mb_received mb) = capacity mb /\
  mbox_type (mb_received mb) = mbox_type mb /\
  buf (mb_received mb) = buf mb.
Proof.
  intros (Hn & Hcap & He & Hlen & Hsz & r & Hr & Hrp & Hwp) Hpos Hmax.
  unfold mb_received. cbv zeta.
  assert (Hsize : wrap_size (size mb - 1) = size mb - 1)
    by (unfold wrap_size; apply Z.mod_small; lia).
  assert (Hr1 : (read_ptr mb + msg_size mb) mod buf_end mb =
                ((r + 1) mod capacity mb) * msg_size mb).
  { rewrite Hrp, He. rewrite <- (slot_index r 1) by done. f_equal. lia. }
  assert (Hr1' : (r + 1) mod capacity mb =
                 if r + 1 =? capacity mb then 0 else r + 1).
  { destruct (r + 1 =? capacity mb) eqn:E.
    - apply Z.eqb_eq in E. rewrite E. apply Z.mod_same. lia.
    - apply Z.eqb_neq in E. apply Z.mod_small. lia. }
  assert (Hw1 : (((r + 1) mod capacity mb) + (size mb - 1)) mod capacity mb
                = (r + size mb) mod capacity mb).
  { rewrite Z.add_mod_idemp_l by lia. f_equal. lia. }
  rewrite Hr1. unfold mailbox_ok. krec.
  destruct (buf_end mb <=? read_ptr mb + msg_size mb) eqn:Ew; krec;
    rewrite Hsize.
  - apply Z.leb_le in Ew.
    assert (r + 1 = capacity mb) as Hw by nia.
    apply Z.eqb_eq in Hw as Hw'. rewrite Hw' in Hr1'.
    split; [|rewrite Hr1'; done].
    do 4 (split; [done|]). split; [lia|].
    exists 0. split; [lia|]. split; [done|].
    rewrite Hwp, <- Hw1, Hr1'. done.
  - apply Z.leb_gt in Ew.
    assert (r + 1 <> capacity mb) as Hw by nia.
    apply Z.eqb_neq in Hw as Hw'. rewrite Hw' in Hr1'.
    split; [|rewrite Hr1', Hrp; repeat split; try done; lia].
    do 4 (split; [done|]). split; [lia|].
    exists (r + 1). split; [lia|]. split; [rewrite Hrp; lia|].
    rewrite Hwp, <- Hw1, Hr1'. done.
Qed.

Lemma contents_received (mb : KMailBox) :
  mailbox_ok mb -> 0 < size mb -> capacity mb < 2 ^ 32 ->
  contents mb =
    ring_read (read_ptr mb) (msg_size mb) (buf mb)
      :: contents (mb_received mb).
Proof.
  intros Hok Hpos Hmax.
  destruct (mailbox_ok_received mb Hok Hpos Hmax)
    as (_ & Hs & Hrp' & Hn' & He' & _ & _ & Hb').
  destruct Hok as (Hn & Hcap & He & Hlen & Hsz & r & Hr & Hrp & Hwp).
  unfold contents. rewrite Hs.
  replace (Z.to_nat (size mb)) with (S (Z.to_nat (size mb - 1))) by lia.
  cbn [seq map]. f_equal.
  - unfold slot_at. f_equal. rewrite Z.mul_0_l, Z.add_0_r.
    apply Z.mod_small. nia.
  - rewrite <- seq_shift, map_map. apply map_ext. intros i.
    unfold slot_at. rewrite Hrp', Hn', He', Hb'. f_equal.
    rewrite Z.add_mod_idemp_l by lia. f_equal. lia.
Qed.

(** The end of the two mailbox functions: an optional wake-up, then the
    result. *)
Lemma ends_after_wakeup {A} (b : bool) (queue : ListRef) (a : A)
    (me : cpu_id) (s : Kernel) :
  locked (the_lock SchedLock s) = 0 ->
  ends
    (obind ((if b then _k_sched_wakeup_one queue 0 else ret tt) me s)
       (fun _ => ret a) me)
    a
    (fun s1 => mailboxes s1 = mailboxes s /\
               forall l, l <> SchedLock -> the_lock l s1 = the_lock l s)
    (fun me' s' => holding (the_lock SchedLock s') me' = true)
    (fun s' s'' => mailboxes s'' = mailboxes s' /\
                   forall l, l <> SchedLock -> the_lock l s'' = the_lock l s').
Proof.
  intros Hl. destruct b; [|cbn; done].
  destruct (wakeup_one_locked_spec queue 0 me s Hl)
    as (s1 & B1 & B2 & [[-> B3]|(k & -> & Hk)]); cbn [obind ends ret].
  - done.
  - split; [done|]. intros me' s' Hh.
    destruct (Hk me' s' Hh) as (s'' & -> & C1 & C2). by exists s''.
Qed.

Lemma ends_impl {A} (o : Outcome A) (a : A) (Q Q' : Kernel -> Prop) R F :
  (forall s, Q s -> Q' s) -> ends o a Q R F -> ends o a Q' R F.
Proof.
  intros HQ. destruct o; cbn [ends]; try done.
  - intros [-> Hq]. auto.
  - intros [Hq Hk]. auto.
Qed.

Lemma try_send_locked_spec (mailbox : mbox_ref) (message : list Byte.byte)
    (me : cpu_id) (s : Kernel) :
  let mb := the_mailbox mailbox s in
  holding (the_lock (MailBoxLock mailbox) s) me = true ->
  locked (the_lock SchedLock s) = 0 ->
  size mb <> capacity mb ->
  ends (k_mailbox_try_send_locked mailbox message me s) 0
    (fun s1 =>
       the_mailbox mailbox s1 = mb_sent message mb /\
       (forall m, m <> mailbox -> the_mailbox m s1 = the_mailbox m s) /\
       forall l, l <> SchedLock -> the_lock l s1 = the_lock l s)
    (fun me' s' => holding (the_lock SchedLock s') me' = true)
    (fun s' s'' => mailboxes s'' = mailboxes s' /\
                   forall l, l <> SchedLock -> the_lock l s'' = the_lock l s').
Proof.
  intros mb Hh Hl Hfull.
  unfold k_mailbox_try_send_locked. mrun.
  rewrite assert_holding_run by done. mrun. kframe. fold mb.
  apply Z.eqb_neq in Hfull. rewrite Hfull. mrun.
  match goal with
  | |- context [upd_mailbox mailbox ?f ?st] =>
      assert (M1 : the_mailbox mailbox (upd_mailbox mailbox f st)
                   = mb_sent message mb);
      [|assert (M2 : forall l, the_lock l (upd_mailbox mailbox f st)
                               = the_lock l s)
          by (intros l; by kframe);
        assert (M3 : forall m, m <> mailbox ->
                  the_mailbox m (upd_mailbox mailbox f st) = the_mailbox m s)
          by (intros m Hm; ksimpl; done);
        revert M1 M2 M3; generalize (upd_mailbox mailbox f st);
        intros sm M1 M2 M3]
  end.
  { ksimpl. fold mb. reflexivity. }
  eapply ends_impl; [|apply ends_after_wakeup; by rewrite M2].
  intros s1 [E1 E2]. cbv beta.
  split; [unfold the_mailbox in *; by rewrite E1|].
  split; [intros m Hm; unfold the_mailbox in *; rewrite E1; by apply M3|].
  intros l Hne. by rewrite E2, M2.
Qed.

Lemma try_receive_locked_spec (mailbox : mbox_ref) (me : cpu_id)
    (s : Kernel) :
  let mb := the_mailbox mailbox s in
  holding (the_lock (MailBoxLock mailbox) s) me = true ->
  locked (the_lock SchedLock s) = 0 ->
  size mb <> 0 ->
  ends (k_mailbox_try_receive_locked mailbox me s)
    (0, Some (ring_read (read_ptr mb) (msg_size mb) (buf mb)))
    (fun s1 =>
       the_mailbox mailbox s1 = mb_received mb /\
       (forall m, m <> mailbox -> the_mailbox m s1 = the_mailbox m s) /\
       forall l, l <> SchedLock -> the_lock l s1 = the_lock l s)
    (fun me' s' => holding (the_lock SchedLock s') me' = true)
    (fun s' s'' => mailboxes s'' = mailboxes s' /\
                   forall l, l <> SchedLock -> the_lock l s'' = the_lock l s').
Proof.
  intros mb Hh Hl Hempty.
  unfold k_mailbox_try_receive_locked. mrun.
  rewrite assert_holding_run by done. mrun. kframe. fold mb.
  apply Z.eqb_neq in Hempty. rewrite Hempty. mrun.
  match goal with
  | |- context [upd_mailbox mailbox ?f ?st] =>
      assert (M1 : the_mailbox mailbox (upd_mailbox mailbox f st)
                   = mb_received mb);
      [|assert (M2 : forall l, the_lock l (upd_mailbox mailbox f st)
                               = the_lock l s)
          by (intros l; by kframe);
        assert (M3 : forall m, m <> mailbox ->
                  the_mailbox m (upd_mailbox mailbox f st) = the_mailbox m s)
          by (intros m Hm; ksimpl; done);
        revert M1 M2 M3; generalize (upd_mailbox mailbox f st);
        intros sm M1 M2 M3]
  end.
  { ksimpl. fold mb. reflexivity. }
  eapply ends_impl; [|apply ends_after_wakeup; by rewrite M2].
  intros s1 [E1 E2]. cbv beta.
  split; [unfold the_mailbox in *; by rewrite E1|].
  split; [intros m Hm; unfold the_mailbox in *; rewrite E1; by apply M3|].
  intros l Hne. by rewrite E2, M2.
Qed.

Lemma ends_obind {A B} (o : Outcome A) (a : A) (f : A -> M B) (b : B)
    (me : cpu_id) (Q Q' : Kernel -> Prop)
    (R R' : cpu_id -> Kernel -> Prop) (F F' : Kernel -> Kernel -> Prop) :
  ends o a Q R F ->
  (forall s1, Q s1 -> exists s2, f a me s1 = Return b s2 /\ Q' s2) ->
  (forall s1, Q s1 -> Q' s1) ->
  (forall me' s', R' me' s' -> R me' s') ->
  (forall me' s' s'', R' me' s' -> F s' s'' ->
     exists s3, f a me' s'' = Return b s3 /\ F' s' s3) ->
  ends (obind o f me) b Q' R' F'.
Proof.
  intros Ho Hret Hsw HR Hres. destruct o; cbn [ends obind] in *; try done.
  - destruct Ho as [-> Hq]. destruct (Hret _ Hq) as (s2 & -> & Hq').
    cbn [ends]. done.
  - destruct Ho as [Hq Hk]. split; [by apply Hsw|].
    intros me' s' Hr'. destruct (Hk me' s' (HR _ _ Hr')) as (s'' & -> & Hf).
    cbn [obind]. by apply (Hres me' s' s'').
Qed.

(** X2.  k_mailbox_try_send on a mailbox that is not full, with a
    well-formed ring, its lock and the scheduler lock free: the call ends
    with the result 0 and the first msg_size bytes of the message are the
    newest message of the mailbox, behind the ones it held; the ring is well
    formed again and the other mailboxes are as they were. *)
Theorem mailbox_send_enqueues (mailbox : mbox_ref)
    (message : list Byte.byte) (me : cpu_id) (s : Kernel) :
  let mb := the_mailbox mailbox s in
  mbox_type mb = K_MAILBOX_TYPE ->
  locked (the_lock (MailBoxLock mailbox) s) = 0 ->
  locked (the_lock SchedLock s) = 0 ->
  mailbox_ok mb ->
  size mb < capacity mb -> capacity mb < 2 ^ 32 ->
  msg_size mb <= Z.of_nat (length message) ->
  ends (k_mailbox_try_send (Some mailbox) message me s) 0
    (fun s1 =>
       mailbox_ok (the_mailbox mailbox s1) /\
       contents (the_mailbox mailbox s1) =
         contents mb ++ [take (Z.to_nat (msg_size mb)) message] /\
       forall m, m <> mailbox -> the_mailbox m s1 = the_mailbox m s)
    (fun me' s' =>
       holding (the_lock SchedLock s') me' = true /\
       holding (the_lock (MailBoxLock mailbox) s') me' = true)
    (fun s' s'' => mailboxes s'' = mailboxes s').
Proof.
  intros mb Hty Hlm Hls Hok Hfull Hmax Hmsg.
  unfold k_mailbox_try_send. mrun. fold mb.
  rewrite Hty, Z.eqb_refl. cbn [negb]. mrun.
  rewrite spin_lock_run by (done || by apply holding_free).
  mrun.
  set (sa := after_spin_lock (MailBoxLock mailbox) me s).
  assert (Ma : forall m, the_mailbox m sa = the_mailbox m s)
    by (intros m; subst sa; by kframe).
  eapply ends_obind.
  - apply (try_send_locked_spec mailbox message me sa).
    + subst sa. apply holding_after_spin_lock.
    + subst sa. by rewrite the_lock_after_spin_lock_ne.
    + rewrite Ma. fold mb. lia.
  - cbv beta. intros s1 (E1 & E2 & E3). mrun.
    rewrite spin_unlock_run
      by (rewrite E3 by done; subst sa; apply holding_after_spin_lock).
    mrun. eexists. split; [reflexivity|]. kframe.
    rewrite E1, Ma. fold mb.
    split; [by apply mailbox_ok_sent|].
    split; [by apply contents_sent|].
    intros m Hm. kframe. by rewrite E2, Ma.
  - cbv beta. intros s1 (E1 & E2 & E3). rewrite E1, Ma. fold mb.
    split; [by apply mailbox_ok_sent|].
    split; [by apply contents_sent|].
    intros m Hm. by rewrite E2, Ma.
  - cbv beta. intros me' s' [Hs _]. exact Hs.
  - cbv beta. intros me' s' s'' [Hs Hm] [F1 F2]. mrun.
    rewrite spin_unlock_run by (by rewrite F2).
    mrun. eexists. split; [reflexivity|]. by kframe.
Qed.

(** X3.  k_mailbox_try_receive on a mailbox that holds a message, with a
    well-formed ring, its lock and the scheduler lock free: the call ends
    with the result 0 and the oldest message of the mailbox, which holds the
    remaining messages in their order afterwards; the ring is well formed
    again and the other mailboxes are as they were. *)
Theorem mailbox_receive_dequeues (mailbox : mbox_ref) (me : cpu_id)
    (s : Kernel) :
  let mb := the_mailbox mailbox s in
  mbox_type mb = K_MAILBOX_TYPE ->
  locked (the_lock (MailBoxLock mailbox) s) = 0 ->
  locked (the_lock SchedLock s) = 0 ->
  mailbox_ok mb ->
  0 < size mb -> capacity mb < 2 ^ 32 ->
  exists oldest rest,
    contents mb = oldest :: rest /\
    ends (k_mailbox_try_receive (Some mailbox) me s) (0, Some oldest)
      (fun s1 =>
         mailbox_ok (the_mailbox mailbox s1) /\
         contents (the_mailbox mailbox s1) = rest /\
         forall m, m <> mailbox -> the_mailbox m s1 = the_mailbox m s)
      (fun me' s' =>
         holding (the_lock SchedLock s') me' = true /\
         holding (the_lock (MailBoxLock mailbox) s') me' = true)
      (fun s' s'' => mailboxes s'' = mailboxes s').
Proof.
  intros mb Hty Hlm Hls Hok Hpos Hmax.
  exists (ring_read (read_ptr mb) (msg_size mb) (buf mb)),
         (contents (mb_received mb)).
  split; [by apply contents_received|].
  unfold k_mailbox_try_receive. mrun. fold mb.
  rewrite Hty, Z.eqb_refl. cbn [negb]. mrun.
  rewrite spin_lock_run by (done || by apply holding_free).
  mrun.
  set (sa := after_spin_lock (MailBoxLock mailbox) me s).
  assert (Ma : forall m, the_mailbox m sa = the_mailbox m s)
    by (intros m; subst sa; by kframe).
  eapply ends_obind.
  - pose proof (try_receive_locked_spec mailbox me sa) as Hspec.
    cbv zeta in Hspec. rewrite Ma in Hspec. apply Hspec.
    + subst sa. apply holding_after_spin_lock.
    + subst sa. by rewrite the_lock_after_spin_lock_ne.
    + fold mb. lia.
  - cbv beta. intros s1 (E1 & E2 & E3). mrun.
    rewrite spin_unlock_run
      by (rewrite E3 by done; subst sa; apply holding_after_spin_lock).
    mrun. eexists. split; [reflexivity|]. kframe. rewrite E1. fold mb.
    split; [by apply mailbox_ok_received|]. split; [done|].
    intros m Hm. kframe. by rewrite E2, Ma.
  - cbv beta. intros s1 (E1 & E2 & E3). rewrite E1. fold mb.
    split; [by apply mailbox_ok_received|]. split; [done|].
    intros m Hm. by rewrite E2, Ma.
  - cbv beta. intros me' s' [Hs _]. exact Hs.
  - cbv beta. intros me' s' s'' [Hs Hm] [F1 F2]. mrun.
    rewrite spin_unlock_run by (by rewrite F2).
    mrun. eexists. split; [reflexivity|]. by kframe.
Qed.

(** X4.  With the lock of the mailbox free: k_mailbox_try_send on a full
    mailbox and k_mailbox_try_receive on an empty one return -EAGAIN at
    once; no mailbox is changed, no byte is handed out, and the lock is free
    again. *)
Theorem mailbox_would_block (mailbox : mbox_ref)
    (message : list Byte.byte) (me : cpu_id) (s : Kernel) :
  let mb := the_mailbox mailbox s in
  mbox_type mb = K_MAILBOX_TYPE ->
  locked (the_lock (MailBoxLock mailbox) s) = 0 ->
  (size mb = capacity mb ->
   exists s1,
     k_mailbox_try_send (Some mailbox) message me s = Return (- EAGAIN) s1 /\
     mailboxes s1 = mailboxes s /\ lists s1 = lists s /\
     locked (the_lock (MailBoxLock mailbox) s1) = 0) /\
  (size mb = 0 ->
   exists s1,
     k_mailbox_try_receive (Some mailbox) me s
       = Return (- EAGAIN, None) s1 /\
     mailboxes s1 = mailboxes s /\ lists s1 = lists s /\
     locked (the_lock (MailBoxLock mailbox) s1) = 0).
Proof.
  intros mb Hty Hlm. split; intros Hsz.
  - unfold k_mailbox_try_send. mrun. fold mb.
    rewrite Hty, Z.eqb_refl. cbn [negb]. mrun.
    rewrite spin_lock_run by (done || by apply holding_free).
    mrun. unfold k_mailbox_try_send_locked. mrun.
    rewrite assert_holding_run by apply holding_after_spin_lock.
    mrun. kframe. fold mb. rewrite Hsz, Z.eqb_refl. mrun.
    rewrite spin_unlock_run by (kframe; apply holding_after_spin_lock).
    mrun. eexists. split; [reflexivity|].
    split; [by kframe|]. split; [by kframe|].
    apply locked_after_spin_unlock.
  - unfold k_mailbox_try_receive. mrun. fold mb.
    rewrite Hty, Z.eqb_refl. cbn [negb]. mrun.
    rewrite spin_lock_run by (done || by apply holding_free).
    mrun. unfold k_mailbox_try_receive_locked. mrun.
    rewrite assert_holding_run by apply holding_after_spin_lock.
    mrun. kframe. fold mb. rewrite Hsz. cbn [Z.eqb]. mrun.
    rewrite spin_unlock_run by (kframe; apply holding_after_spin_lock).
    mrun. eexists. split; [reflexivity|].
    split; [by kframe|]. split; [by kframe|].
    apply locked_after_spin_unlock.
Qed.

(** X5.  k_mailbox_init_common with a message size that is positive and
    not above the buffer size, on a buffer of that size at least: the ring
    is well formed, it has buf_size / msg_size slots, and the mailbox holds
    no message. *)
Theorem mailbox_init_empty (mailbox : mbox_ref) (msg_sz : Z)
    (start : list Byte.byte) (buf_size : Z) (me : cpu_id) (s : Kernel) :
  0 < msg_sz <= buf_size ->
  buf_size <= Z.of_nat (length start) ->
  exists s1,
    k_mailbox_init_common mailbox msg_sz start buf_size me s = Return tt s1 /\
    mailbox_ok (the_mailbox mailbox s1) /\
    capacity (the_mailbox mailbox s1) = buf_size / msg_sz /\
    msg_size (the_mailbox mailbox s1) = msg_sz /\
    contents (the_mailbox mailbox s1) = [] /\
    forall m, m <> mailbox -> the_mailbox m s1 = the_mailbox m s.
Proof.
  intros Hn Hlen.
  destruct (mailbox_ok_init mailbox msg_sz start buf_size me s Hn Hlen)
    as [Hok Hsz].
  revert Hok Hsz. unfold k_mailbox_init_common. mrun. cbn [final].
  intros Hok Hsz. eexists. split; [reflexivity|]. split; [exact Hok|].
  unfold contents. rewrite Hsz. rewrite the_mailbox_upd_mailbox. krec.
  do 3 (split; [done|]). intros m Hm. by ksimpl.
Qed.

(** ** Spinlocks *)

(** X6.  spin_unlock by the CPU that holds the lock returns with the lock
    free (not locked, no owner, the first saved PC cleared) and every other
    lock as it was.  By a CPU that does not hold it, spin_unlock prints the
    saved caller PCs, from slot 0 up to the first empty slot, and panics,
    and no lock is changed: the lock is not taken away from its holder. *)
Theorem spin_unlock_cases (lock : LockRef) (me : cpu_id) (s : Kernel) :
  if holding (the_lock lock s) me
  then exists s',
      spin_unlock lock me s = Return tt s' /\
      locked (the_lock lock s') = 0 /\
      lock_cpu (the_lock lock s') = None /\
      pcs_at (the_lock lock s') 0 = 0 /\
      (forall c, holding (the_lock lock s') c = false) /\
      forall l, l <> lock -> the_lock l s' = the_lock l s
  else exists s' evs,
      spin_unlock lock me s = Panic "CPU cannot release the lock" s' /\
      trace s' = trace s ++ evs /\
      printed_pcs (the_lock lock s) evs /\
      locks s' = locks s.
Proof.
  destruct (holding (the_lock lock s) me) eqn:E.
  - rewrite spin_unlock_run by done. eexists. split; [reflexivity|].
    destruct (locked_after_spin_unlock lock me s) as [Hl Hc].
    split; [done|]. split; [done|].
    split.
    { unfold after_spin_unlock. ksimpl. unfold pcs_at. krec.
      destruct (pcs _) as [|p ps]; reflexivity. }
    split; [intros c; unfold holding; by rewrite Hl|].
    intros l Hne. by rewrite the_lock_after_spin_unlock_ne.
  - unfold spin_unlock. mrun. rewrite spin_holding_run. mrun. ksimpl.
    rewrite E. mrun. unfold spin_print_caller_pcs. mrun.
    eexists _, _. split; [exact eq_refl|]. ksimpl.
    split; [reflexivity|]. split; [apply printed_pcs_loop|]. reflexivity.
Qed.

Lemma save_pcs_loop_length (n : nat) (fp : list Z) :
  length (save_pcs_loop n fp) = n.
Proof.
  revert fp. induction n as [|n IH]; intros fp; [done|].
  destruct fp as [|ra fp]; cbn [save_pcs_loop].
  - by rewrite length_replicate.
  - cbn [length]. by rewrite IH.
Qed.

Lemma save_pcs_loop_lookup (n : nat) (fp : list Z) (i : nat) :
  (i < n)%nat -> save_pcs_loop n fp !! i = Some (default 0 (fp !! i)).
Proof.
  revert fp i. induction n as [|n IH]; intros fp i Hi; [lia|].
  destruct fp as [|ra fp]; cbn [save_pcs_loop].
  - rewrite lookup_replicate_2 by done. reflexivity.
  - destruct i as [|i]; [reflexivity|]. cbn. apply IH. lia.
Qed.

(** X7.  spin_lock on a free lock returns with the lock held by the calling
    CPU and by no other CPU, every other lock as it was, and the backtrace
    of the caller saved in the lock: NCALLERPCS slots, slot i holding the
    i-th return address of the chain of frame pointers, or 0 where the
    chain has ended. *)
Theorem spin_lock_acquires (lock : LockRef) (me : cpu_id) (s : Kernel) :
  locked (the_lock lock s) = 0 ->
  exists s',
    spin_lock lock me s = Return tt s' /\
    locked (the_lock lock s') = 1 /\
    lock_cpu (the_lock lock s') = Some me /\
    (forall c, holding (the_lock lock s') c = bool_decide (c = me)) /\
    length (pcs (the_lock lock s')) = NCALLERPCS /\
    (forall i, (i < NCALLERPCS)%nat ->
       pcs_at (the_lock lock s') i =
         default 0 (fp_chain (the_cpu me s) !! i)) /\
    forall l, l <> lock -> the_lock l s' = the_lock l s.
Proof.
  intros Hl. rewrite spin_lock_run by (done || by apply holding_free).
  eexists. split; [reflexivity|].
  assert (Hlk : the_lock lock (after_spin_lock lock me s) =
    set_pcs (save_pcs_loop NCALLERPCS (fp_chain (the_cpu me s)))
      (set_lock_cpu (Some me) (set_locked 1 (the_lock lock s)))).
  { unfold after_spin_lock, lock_taken. ksimpl.
    destruct (cpu_after_irq_blip me (upd_cpu me irq_save_cpu s))
      as (_ & _ & ->). by ksimpl. }
  rewrite Hlk. krec.
  split; [done|]. split; [done|].
  split.
  { intros c. unfold holding. krec. cbn [c_true Z.eqb negb andb].
    apply bool_decide_ext. split; [by intros [= ->]|by intros ->]. }
  split; [apply save_pcs_loop_length|].
  split.
  { intros i Hi. unfold pcs_at. krec.
    by rewrite save_pcs_loop_lookup. }
  intros l Hne. by rewrite the_lock_after_spin_lock_ne.
Qed.

(** X8.  While a CPU holds a lock, spin_lock by another CPU neither returns
    nor panics: it waits on the lock word, with no lock changed and the
    holder still the holder, and takes the lock for itself when it finds
    the lock word free. *)
Theorem spin_lock_waits (lock : LockRef) (me c : cpu_id) (s : Kernel) :
  holding (the_lock lock s) me = true ->
  c <> me ->
  exists s' k,
    spin_lock lock c s = Spin lock s' k /\
    locks s' = locks s /\
    holding (the_lock lock s') me = true /\
    forall s'', locked (the_lock lock s'') = 0 ->
      exists s3,
        k s'' = Return tt s3 /\
        holding (the_lock lock s3) c = true /\
        forall l, l <> lock -> the_lock l s3 = the_lock l s''.
Proof.
  intros Hh Hne. unfold holding in Hh.
  apply andb_true_iff in Hh as [Hlocked Hcpu].
  apply bool_decide_eq_true in Hcpu.
  destruct (spin_lock_spin lock c s) as (s' & k & -> & Hlocks & Hk).
  { unfold holding. rewrite Hcpu. rewrite bool_decide_eq_false_2; [|congruence].
    by rewrite andb_false_r. }
  { intros H0. unfold c_true in Hlocked. rewrite H0 in Hlocked. done. }
  exists s', k. split; [done|]. split; [done|].
  split.
  { unfold the_lock. rewrite Hlocks. fold (the_lock lock s).
    unfold holding. rewrite Hlocked, Hcpu. by rewrite bool_decide_eq_true_2. }
  intros s'' _. rewrite Hk. eexists. split; [reflexivity|].
  split; [apply holding_lock_taken|].
  intros l Hl. by rewrite the_lock_lock_taken_ne.
Qed.

(** ** The run queues *)

Lemma sched_dequeue_loop_spec (n i : nat) (s : Kernel) :
  match sched_dequeue_loop n i s with
  | Some t =>
      exists j rest, (i <= j < i + n)%nat /\ runqueue j s = t :: rest /\
        forall j', (i <= j' < j)%nat -> runqueue j' s = []
  | None => forall j, (i <= j < i + n)%nat -> runqueue j s = []
  end.
Proof.
  revert i. induction n as [|n IH]; intros i; cbn [sched_dequeue_loop].
  { intros j Hj. lia. }
  destruct (runqueue i s) as [|t rest] eqn:E.
  - specialize (IH (S i)).
    destruct (sched_dequeue_loop n (S i) s) as [t|].
    + destruct IH as (j & rest & Hj & Hq & Hbelow).
      exists j, rest. split; [lia|]. split; [done|].
      intros j' Hj'. destruct (decide (j' = i)) as [->|Hne]; [done|].
      apply Hbelow. lia.
    + intros j Hj. destruct (decide (j = i)) as [->|Hne]; [done|].
      apply IH. lia.
  - exists i, rest. split; [lia|]. split; [done|]. intros j' Hj'. lia.
Qed.

(** X9.  sched_dequeue, with the scheduler lock held, returns NULL exactly
    when every run queue is empty, and changes no queue then.  Otherwise it
    returns the head of the first run queue that is not empty and unlinks
    it; no task is changed.  When every queued task is on the queue of its
    priority, no queued task has a smaller priority value than the one
    returned: the task of the highest priority runs next, the one that
    waited longest among equals. *)
Theorem sched_dequeue_spec (me : cpu_id) (s : Kernel) :
  holding (the_lock SchedLock s) me = true ->
  exists r s',
    sched_dequeue me s = Return r s' /\
    tasks s' = tasks s /\ locks s' = locks s /\
    match r with
    | None =>
        (forall j, (j < TASK_MAX_PRIORITIES)%nat -> runqueue j s = []) /\
        sched_queue s' = sched_queue s /\ lists s' = lists s
    | Some t =>
        exists j rest,
          (j < TASK_MAX_PRIORITIES)%nat /\
          runqueue j s = t :: rest /\
          (forall j', (j' < j)%nat -> runqueue j' s = []) /\
          (forall i, runqueue i s' = unlink t (runqueue i s)) /\
          (runqueues_ok s ->
           forall i u, (i < TASK_MAX_PRIORITIES)%nat -> u ∈ runqueue i s ->
             priority (the_task t s) <= priority (the_task u s))
    end.
Proof.
  intros Hh. unfold sched_dequeue. mrun.
  rewrite assert_holding_run by done. mrun.
  assert (Hext : sched_dequeue_loop TASK_MAX_PRIORITIES 0 (irq_blip me s)
                 = sched_dequeue_loop TASK_MAX_PRIORITIES 0 s).
  { generalize 0%nat. induction TASK_MAX_PRIORITIES as [|n IH]; intros i;
      cbn [sched_dequeue_loop]; [done|].
    kframe. by rewrite IH. }
  rewrite Hext.
  pose proof (sched_dequeue_loop_spec TASK_MAX_PRIORITIES 0 s) as Hspec.
  destruct (sched_dequeue_loop TASK_MAX_PRIORITIES 0 s) as [t|]; mrun.
  - destruct Hspec as (j & rest & Hj & Hq & Hbelow).
    eexists _, _. split; [reflexivity|].
    split; [unfold list_remove; by kframe|].
    split; [unfold list_remove; by kframe|].
    exists j, rest. split; [lia|]. split; [done|].
    split; [intros j' Hj'; apply Hbelow; lia|].
    split.
    { intros i. rewrite runqueue_list_remove. by kframe. }
    intros Hok i u Hi Hu.
    rewrite (Hok j t) by (rewrite Hq; left).
    rewrite (Hok i u Hu).
    destruct (decide (i < j)%nat) as [Hlt|Hge]; [|lia].
    rewrite Hbelow in Hu by lia. by apply elem_of_nil in Hu.
  - eexists _, _. split; [reflexivity|].
    split; [by kframe|]. split; [unfold irq_blip; by kframe|].
    split; [intros j Hj; apply Hspec; lia|]. split; by kframe.
Qed.

(** X10.  sched_enqueue of a task whose priority indexes the array of run
    queues, with the scheduler lock held: the task is made ready and linked
    at the back of the run queue of its priority; the other run queues and
    the other tasks are as they were, and when every queued task was on the
    queue of its priority, this is so afterwards. *)
Theorem sched_enqueue_spec (th : tid) (me : cpu_id) (s : Kernel) :
  holding (the_lock SchedLock s) me = true ->
  0 <= priority (the_task th s) < Z.of_nat (length (sched_queue s)) ->
  let p := Z.to_nat (priority (the_task th s)) in
  exists s',
    sched_enqueue th me s = Return tt s' /\
    the_task th s' = set_state TASK_STATE_READY (the_task th s) /\
    state (the_task th s') = TASK_STATE_READY /\
    (forall t, t <> th -> the_task t s' = the_task t s) /\
    runqueue p s' = runqueue p s ++ [th] /\
    (forall i, i <> p -> runqueue i s' = runqueue i s) /\
    lists s' = lists s /\
    (runqueues_ok s -> runqueues_ok s').
Proof.
  intros Hh Hp p. rewrite sched_enqueue_run by done.
  eexists. split; [reflexivity|]. unfold enqueued.
  assert (Ht : the_task th
      (runqueue_add_back (priority (the_task th s)) th
         (upd_task th (set_state TASK_STATE_READY) (irq_blip me s)))
      = set_state TASK_STATE_READY (the_task th s))
    by (unfold runqueue_add_back; by ksimpl).
  assert (Hq : runqueue p
      (runqueue_add_back (priority (the_task th s)) th
         (upd_task th (set_state TASK_STATE_READY) (irq_blip me s)))
      = runqueue p s ++ [th]).
  { subst p. rewrite runqueue_add_back_eq by (by kframe). by kframe. }
  assert (Hq' : forall i, i <> p -> runqueue i
      (runqueue_add_back (priority (the_task th s)) th
         (upd_task th (set_state TASK_STATE_READY) (irq_blip me s)))
      = runqueue i s).
  { intros i Hi. rewrite runqueue_add_back_ne by (by left). by kframe. }
  assert (Ho : forall t, t <> th -> the_task t
      (runqueue_add_back (priority (the_task th s)) th
         (upd_task th (set_state TASK_STATE_READY) (irq_blip me s)))
      = the_task t s)
    by (intros t Hne; unfold runqueue_add_back; by ksimpl).
  split; [done|]. split; [by rewrite Ht|].
  split; [done|]. split; [done|]. split; [done|].
  split; [unfold runqueue_add_back; by kframe|].
  intros Hok i t Hin.
  assert (Hprio : forall u, priority (the_task u
      (runqueue_add_back (priority (the_task th s)) th
         (upd_task th (set_state TASK_STATE_READY) (irq_blip me s))))
      = priority (the_task u s)).
  { intros u. destruct (decide (u = th)) as [->|Hne].
    - by rewrite Ht.
    - by rewrite Ho. }
  rewrite Hprio. destruct (decide (i = p)) as [->|Hne].
  - rewrite Hq in Hin. apply elem_of_app in Hin as [Hin|Hin].
    + by apply Hok.
    + apply list_elem_of_singleton in Hin as ->. subst p. lia.
  - rewrite Hq' in Hin by done. by apply Hok.
Qed.

(** ** Interrupt service routines and the scheduler *)

Lemma sched_isr_exit_run (me : cpu_id) (s : Kernel) :
  locked (the_lock SchedLock s) = 0 ->
  let s0 := after_spin_lock SchedLock me s in
  let n := wrap_int (isr_nesting (the_cpu me s) - 1) in
  let s1 := upd_cpu me (set_isr_nesting n) s0 in
  sched_isr_exit me s =
    if isr_nesting (the_cpu me s) <=? 0 then Panic "isr_nesting <= 0" s0
    else
      obind
        ((if n =? 0 then
            match cpu_task (the_cpu me s) with
            | Some my_task =>
                if c_true (Z.land (flags (the_task my_task s))
                             TASK_FLAGS_RESCHEDULE)
                then
                  bind (modify (upd_task my_task (fun t =>
                          set_flags (Z.land (flags t)
                                       (Z.lnot TASK_FLAGS_RESCHEDULE)) t)))
                    (fun _ => bind (sched_enqueue my_task)
                                (fun _ => sched_yield))
                else ret tt
            | None => ret tt
            end
          else ret tt) me s1)
        (fun _ => sched_unlock) me.
Proof.
  intros Hl s0 n s1. unfold sched_isr_exit, sched_lock. mrun.
  rewrite spin_lock_run by (done || by apply holding_free).
  mrun. fold s0.
  assert (Hn : isr_nesting (the_cpu me s0) = isr_nesting (the_cpu me s))
    by apply isr_nesting_after_spin_lock.
  assert (Hc : cpu_task (the_cpu me s0) = cpu_task (the_cpu me s))
    by apply cpu_task_after_spin_lock.
  assert (Ht : forall t, the_task t s0 = the_task t s)
    by (intros t; subst s0; by kframe).
  rewrite Hn, Hc. destruct (isr_nesting (the_cpu me s) <=? 0); [done|].
  mrun. fold n. fold s1.
  destruct (n =? 0); [|done].
  destruct (cpu_task (the_cpu me s)) as [t|]; [|done].
  by rewrite Ht.
Qed.

(** X11.  An ISR that enters with sched_isr_enter and leaves with
    sched_isr_exit, the scheduler lock being free and no reschedule pending
    for the interrupted task when the ISR is the outermost one: both calls
    return, the nesting count is one more inside the ISR and back at its
    value afterwards, and no task, run queue or wait list has changed; the
    scheduler lock is free again. *)
Theorem isr_enter_exit (me : cpu_id) (s : Kernel) :
  let n := isr_nesting (the_cpu me s) in
  locked (the_lock SchedLock s) = 0 ->
  0 <= n < INT_MAX ->
  (n = 0 -> forall t, cpu_task (the_cpu me s) = Some t ->
     Z.land (flags (the_task t s)) TASK_FLAGS_RESCHEDULE = 0) ->
  exists s1 s2,
    sched_isr_enter me s = Return tt s1 /\
    isr_nesting (the_cpu me s1) = n + 1 /\
    sched_isr_exit me s1 = Return tt s2 /\
    isr_nesting (the_cpu me s2) = n /\
    cpu_task (the_cpu me s2) = cpu_task (the_cpu me s) /\
    tasks s2 = tasks s /\ sched_queue s2 = sched_queue s /\
    lists s2 = lists s /\
    locked (the_lock SchedLock s2) = 0.
Proof.
  intros n Hl Hn Hflag. unfold sched_isr_enter. fold n.
  assert (Hw : wrap_int (n + 1) = n + 1)
    by (apply wrap_int_small; unfold INT_MIN, INT_MAX in *; lia).
  set (s1 := upd_cpu me
               (fun c => set_isr_nesting (wrap_int (isr_nesting c + 1)) c) s).
  assert (N1 : isr_nesting (the_cpu me s1) = n + 1)
    by (subst s1; ksimpl; fold n; by rewrite Hw).
  assert (C1 : cpu_task (the_cpu me s1) = cpu_task (the_cpu me s))
    by (subst s1; by ksimpl).
  assert (T1 : forall t, the_task t s1 = the_task t s)
    by (intros t; subst s1; by kframe).
  exists s1. eexists. split; [reflexivity|]. split; [done|].
  rewrite sched_isr_exit_run by (subst s1; by kframe).
  rewrite N1, C1.
  assert (Hpos : (n + 1 <=? 0) = false) by (apply Z.leb_gt; lia).
  rewrite Hpos.
  assert (Hw' : wrap_int (n + 1 - 1) = n)
    by (rewrite wrap_int_small; unfold INT_MIN, INT_MAX in *; lia).
  rewrite Hw'.
  assert (Hinner :
    (if n =? 0 then
       match cpu_task (the_cpu me s) with
       | Some my_task =>
           if c_true (Z.land (flags (the_task my_task s1))
                        TASK_FLAGS_RESCHEDULE)
           then
             bind (modify (upd_task my_task (fun t =>
                     set_flags (Z.land (flags t)
                                  (Z.lnot TASK_FLAGS_RESCHEDULE)) t)))
               (fun _ => bind (sched_enqueue my_task) (fun _ => sched_yield))
           else ret tt
       | None => ret tt
       end
     else ret tt) = ret tt).
  { destruct (n =? 0) eqn:E; [|done]. apply Z.eqb_eq in E.
    destruct (cpu_task (the_cpu me s)) as [t|] eqn:Et; [|done].
    by rewrite T1, (Hflag E t). }
  rewrite Hinner. unfold sched_unlock. mrun.
  rewrite spin_unlock_run by (kframe; apply holding_after_spin_lock).
  split; [reflexivity|].
  split.
  { rewrite isr_nesting_after_spin_unlock. by ksimpl. }
  split.
  { rewrite cpu_task_after_spin_unlock. ksimpl.
    by rewrite cpu_task_after_spin_lock. }
  split; [subst s1; by kframe|]. split; [subst s1; by kframe|].
  split; [subst s1; by kframe|]. apply locked_after_spin_unlock.
Qed.

(** X12.  sched_isr_exit of the outermost ISR, the scheduler lock being
    free, when a reschedule is pending for the interrupted task: the flag
    is cleared, the task is made ready at the back of the run queue of its
    priority, and the CPU switches to the scheduler with the scheduler lock
    held and the nesting count 0.  When the task runs again, holding the
    scheduler lock, the call returns and the lock is free. *)
Theorem sched_isr_exit_reschedules (me : cpu_id) (s : Kernel) (t : tid) :
  locked (the_lock SchedLock s) = 0 ->
  isr_nesting (the_cpu me s) = 1 ->
  cpu_task (the_cpu me s) = Some t ->
  Z.land (flags (the_task t s)) TASK_FLAGS_RESCHEDULE <> 0 ->
  0 <= priority (the_task t s) < Z.of_nat (length (sched_queue s)) ->
  let p := Z.to_nat (priority (the_task t s)) in
  exists s1 k,
    sched_isr_exit me s = Switch s1 k /\
    isr_nesting (the_cpu me s1) = 0 /\
    holding (the_lock SchedLock s1) me = true /\
    the_task t s1 =
      set_state TASK_STATE_READY
        (set_flags (Z.land (flags (the_task t s))
                      (Z.lnot TASK_FLAGS_RESCHEDULE)) (the_task t s)) /\
    Z.land (flags (the_task t s1)) TASK_FLAGS_RESCHEDULE = 0 /\
    state (the_task t s1) = TASK_STATE_READY /\
    runqueue p s1 = runqueue p s ++ [t] /\
    (forall i, i <> p -> runqueue i s1 = runqueue i s) /\
    forall me' s', holding (the_lock SchedLock s') me' = true ->
      exists s'', k me' s' = Return tt s'' /\
        locked (the_lock SchedLock s'') = 0 /\
        tasks s'' = tasks s' /\ sched_queue s'' = sched_queue s'.
Proof.
  intros Hl Hn Hc Hflag Hp p. subst p.
  rewrite sched_isr_exit_run by done. rewrite Hn, Hc.
  change (1 <=? 0) with false. cbv iota.
  change (wrap_int (1 - 1)) with 0. change (0 =? 0) with true. cbv iota.
  unfold c_true. apply Z.eqb_neq in Hflag. rewrite Hflag. cbn [negb].
  mrun.
  rewrite sched_enqueue_run by (kframe; apply holding_after_spin_lock).
  mrun.
  rewrite sched_yield_run
    by (unfold enqueued, runqueue_add_back; kframe;
        apply holding_after_spin_lock).
  cbn [obind].
  eexists _, _. split; [reflexivity|].
  set (f := fun t0 : Task =>
              set_flags (Z.land (flags t0) (Z.lnot TASK_FLAGS_RESCHEDULE)) t0).
  set (sa := upd_task t f
               (upd_cpu me (set_isr_nesting 0)
                  (after_spin_lock SchedLock me s))).
  assert (Ta : the_task t sa = f (the_task t s)) by (subst sa; by ksimpl).
  assert (Pa : priority (the_task t sa) = priority (the_task t s))
    by (by rewrite Ta).
  assert (Qa : forall i, runqueue i sa = runqueue i s)
    by (intros i; subst sa; by kframe).
  assert (La : length (sched_queue sa) = length (sched_queue s))
    by (subst sa; by kframe).
  assert (Ha : holding (the_lock SchedLock sa) me = true)
    by (subst sa; kframe; apply holding_after_spin_lock).
  assert (E1 : the_task t (enqueued t me sa) =
               set_state TASK_STATE_READY (the_task t sa))
    by (unfold enqueued, runqueue_add_back; by ksimpl).
  assert (E3 : runqueue (Z.to_nat (priority (the_task t sa)))
                 (enqueued t me sa)
               = runqueue (Z.to_nat (priority (the_task t sa))) sa ++ [t]).
  { unfold enqueued. rewrite runqueue_add_back_eq by (kframe; lia).
    by kframe. }
  assert (E4 : forall i, i <> Z.to_nat (priority (the_task t sa)) ->
                 runqueue i (enqueued t me sa) = runqueue i sa).
  { intros i Hi. unfold enqueued. rewrite runqueue_add_back_ne by (by left).
    by kframe. }
  split.
  { destruct (cpu_after_irq_blip me (enqueued t me sa)) as (_ & -> & _).
    unfold enqueued, runqueue_add_back. kframe.
    destruct (cpu_after_irq_blip me sa) as (_ & -> & _).
    subst sa. by ksimpl. }
  split.
  { unfold enqueued, runqueue_add_back. by kframe. }
  assert (Tfin : the_task t (irq_blip me (enqueued t me sa)) =
                 set_state TASK_STATE_READY (f (the_task t s))).
  { kframe. by rewrite E1, Ta. }
  rewrite Tfin. split; [done|].
  split.
  { subst f. krec. rewrite <- Z.land_assoc.
    rewrite (Z.land_comm (Z.lnot _)), Z.land_lnot_diag. apply Z.land_0_r. }
  split; [reflexivity|].
  split.
  { kframe. rewrite Pa in E3. by rewrite E3, Qa. }
  split.
  { intros i Hi. kframe. rewrite Pa in E4. by rewrite E4, Qa. }
  intros me' s' Hh. unfold sched_unlock.
  rewrite spin_unlock_run by (by kframe).
  eexists. split; [reflexivity|]. split; [apply locked_after_spin_unlock|].
  split; by kframe.
Qed.

(** ** Sleeping and waking *)

Lemma the_task_woken (task : tid) (result : Z) (me : cpu_id) (s : Kernel)
    (t : tid) :
  the_task t (woken task result me s) =
    if decide (t = task)
    then set_state TASK_STATE_READY (set_sleep_result result (the_task t s))
    else the_task t s.
Proof.
  unfold woken, enqueued, runqueue_add_back, list_remove.
  destruct (decide (t = task)) as [->|Hne]; by ksimpl.
Qed.

Lemma sched_wakeup_all_loop_wakes (fuel : nat) (q : ListRef) (result : Z)
    (me : cpu_id) (my_task : tid) (s : Kernel) :
  holding (the_lock SchedLock s) me = true ->
  cpu_task (the_cpu me s) = Some my_task ->
  (forall t, t ∈ the_list q s -> no_preempt s my_task t) ->
  (length (the_list q s) < fuel)%nat ->
  exists s',
    sched_wakeup_all_loop fuel q result me s = Return tt s' /\
    the_list q s' = [] /\
    (forall t, t ∈ the_list q s ->
       the_task t s' =
         set_state TASK_STATE_READY
           (set_sleep_result result (the_task t s))) /\
    (forall t, t ∉ the_list q s -> the_task t s' = the_task t s) /\
    (forall q' t, t ∈ the_list q' s' -> t ∈ the_list q' s) /\
    locks s' = locks s.
Proof.
  revert s. induction fuel as [|fuel IH]; intros s Hh Hc Hq Hf; [lia|].
  cbn [sched_wakeup_all_loop]. mrun.
  destruct (the_list q s) as [|t l] eqn:El.
  { eexists. split; [reflexivity|]. split; [done|].
    split; [intros t Ht; by apply elem_of_nil in Ht|]. done. }
  mrun. rewrite sched_enqueue_run by (by kframe). mrun.
  fold (woken t result me s).
  pose proof (sched_frame_woken t result me s) as Hfr.
  rewrite sched_may_yield_run by (by kframe).
  assert (Hc' : cpu_task (the_cpu me (woken t result me s)) = Some my_task).
  { unfold woken, enqueued. kframe. unfold irq_blip. by ksimpl. }
  rewrite Hc'.
  assert (Hnp : no_preempt (woken t result me s) my_task t).
  { assert (Hn0 : no_preempt s my_task t) by (apply Hq; left).
    unfold no_preempt, task_priority_cmp in *.
    destruct Hfr as (_ & _ & _ & _ & _ & _ & Hp & _).
    specialize (Hp t) as Hpt. specialize (Hp my_task) as Hpm.
    revert Hpt Hpm. kframe. intros -> ->. done. }
  unfold no_preempt in Hnp. rewrite Hnp. cbn [obind].
  set (s1 := irq_blip me (woken t result me s)) in *.
  assert (L1 : the_list q s1 = unlink t l).
  { subst s1. kframe. unfold woken, enqueued. kframe.
    rewrite the_list_list_remove, El. unfold unlink.
    by rewrite filter_cons_False by (intros Hx; by apply Hx). }
  assert (T1 : forall u, the_task u s1 = the_task u (woken t result me s))
    by (intros u; subst s1; by kframe).
  destruct (IH s1) as (s' & Hrun & Hempty & Hin & Hout & Hsub & Hl').
  - subst s1. unfold woken, enqueued. by kframe.
  - subst s1. revert Hc'. unfold irq_blip. by ksimpl.
  - intros x Hx. apply (no_preempt_frame me s); [done|].
    apply Hq. rewrite <- El.
    destruct Hfr as (_ & _ & _ & _ & _ & _ & _ & Hin' & _).
    by apply Hin'.
  - rewrite L1. cbn [length] in Hf. pose proof (length_unlink t l). lia.
  - exists s'. split; [done|]. split; [done|].
    split; [|split; [|split]].
    + intros u Hu. destruct (decide (u = t)) as [->|Hne].
      * rewrite Hout.
        -- rewrite T1, the_task_woken. by rewrite decide_True.
        -- rewrite L1. unfold unlink. intros Hx.
           apply list_elem_of_filter in Hx as [Hx _]. by apply Hx.
      * rewrite Hin.
        -- rewrite T1, the_task_woken. by rewrite decide_False.
        -- rewrite L1. apply elem_of_unlink_ne; [|done].
           by apply elem_of_cons in Hu as [->|Hu].
    + intros u Hu. apply not_elem_of_cons in Hu as [Hne Hu].
      rewrite Hout.
      * rewrite T1, the_task_woken. by rewrite decide_False.
      * rewrite L1. intros Hx. apply Hu. by apply elem_of_unlink in Hx.
    + intros q' u Hu. apply Hsub in Hu.
      destruct Hfr as (_ & _ & _ & _ & _ & _ & _ & Hin' & _). by apply Hin'.
    + rewrite Hl'. subst s1. unfold woken, enqueued, runqueue_add_back,
        list_remove, irq_blip. by kframe.
Qed.

(** X13.  sched_wakeup_all, with the scheduler lock held, on a list none of
    whose sleepers has a higher priority than the running task: the call
    returns with the list empty; every task that was on the list is ready
    and has the result in its sleep-result slot; every other task is as it
    was, no wait list has gained a task and no lock has changed. *)
Theorem sched_wakeup_all_wakes (fuel : nat) (q : ListRef) (result : Z)
    (me : cpu_id) (my_task : tid) (s : Kernel) :
  holding (the_lock SchedLock s) me = true ->
  cpu_task (the_cpu me s) = Some my_task ->
  (forall t, t ∈ the_list q s -> no_preempt s my_task t) ->
  (length (the_list q s) < fuel)%nat ->
  exists s',
    sched_wakeup_all fuel q result me s = Return tt s' /\
    the_list q s' = [] /\
    (forall t, t ∈ the_list q s ->
       sleep_result (the_task t s') = result /\
       state (the_task t s') = TASK_STATE_READY /\
       priority (the_task t s') = priority (the_task t s)) /\
    (forall t, t ∉ the_list q s -> the_task t s' = the_task t s) /\
    (forall q' t, t ∈ the_list q' s' -> t ∈ the_list q' s) /\
    locks s' = locks s.
Proof.
  intros Hh Hc Hq Hf. unfold sched_wakeup_all. mrun.
  rewrite spin_holding_blip. mrun. ksimpl. rewrite Hh. mrun.
  destruct (sched_wakeup_all_loop_wakes fuel q result me my_task
              (irq_blip me s))
    as (s' & -> & Hempty & Hin & Hout & Hsub & Hl).
  - by kframe.
  - by rewrite cpu_task_irq_blip.
  - intros t. kframe. intros Ht.
    apply (no_preempt_frame me s); [apply sched_frame_irq_blip|by apply Hq].
  - by kframe.
  - exists s'. split; [done|]. split; [done|].
    split; [|split; [|split]].
    + intros t Ht. rewrite Hin by (by kframe). kframe. by krec.
    + intros t Ht. rewrite Hout by (by kframe). by kframe.
    + intros q' t Ht. apply Hsub in Ht. revert Ht. by kframe.
    + rewrite Hl. unfold irq_blip. by kframe.
Qed.

Lemma runqueue_add_back_incl (p : Z) (t u : tid) (i : nat) (s : Kernel) :
  u ∈ runqueue i s -> u ∈ runqueue i (runqueue_add_back p t s).
Proof.
  intros Hu. destruct (decide (i = Z.to_nat p /\ 0 <= p)) as [[-> Hp]|Hne].
  - unfold runqueue, runqueue_add_back, set_sched_queue in *.
    cbn [sched_queue]. apply Z.leb_le in Hp. rewrite Hp.
    rewrite list_lookup_alter_eq.
    destruct (sched_queue s !! Z.to_nat p); cbn in *; [|done].
    apply elem_of_app. by left.
  - rewrite runqueue_add_back_ne; [done|].
    destruct (decide (i = Z.to_nat p)); [right; lia|by left].
Qed.

(** sched_may_yield leaves the wait lists, the locks and every task but
    the running one alone, and takes no task off a run queue. *)
Lemma sched_may_yield_ends (candidate : tid) (me : cpu_id) (s : Kernel) :
  holding (the_lock SchedLock s) me = true ->
  ends (sched_may_yield candidate me s) tt
    (fun s1 =>
       lists s1 = lists s /\ locks s1 = locks s /\
       (forall t, cpu_task (the_cpu me s) <> Some t ->
          the_task t s1 = the_task t s) /\
       forall i t, t ∈ runqueue i s -> t ∈ runqueue i s1)
    (fun _ _ => True)
    (fun s' s'' => tasks s'' = tasks s' /\ lists s'' = lists s' /\
                   locks s'' = locks s' /\ sched_queue s'' = sched_queue s').
Proof.
  intros Hh. rewrite sched_may_yield_run by done.
  assert (Hblip : lists (irq_blip me s) = lists s /\
                  locks (irq_blip me s) = locks s /\
                  (forall t, cpu_task (the_cpu me s) <> Some t ->
                     the_task t (irq_blip me s) = the_task t s) /\
                  forall i t, t ∈ runqueue i s -> t ∈ runqueue i (irq_blip me s)).
  { unfold irq_blip. split; [by kframe|]. split; [by kframe|].
    split; intros; by kframe. }
  destruct (cpu_task (the_cpu me s)) as [my_task|] eqn:Ec;
    [|cbn [ends]; done].
  destruct (0 <? task_priority_cmp _ _);
    [destruct (0 <? isr_nesting _)|]; cbn [ends].
  - split; [done|]. unfold irq_blip.
    split; [by kframe|]. split; [by kframe|].
    split.
    + intros t Ht. rewrite the_task_upd_task_ne by congruence. by kframe.
    + intros i t Ht. by kframe.
  - split.
    + unfold irq_blip, enqueued, runqueue_add_back.
      split; [by kframe|]. split; [by kframe|].
      split.
      * intros t Ht. kframe.
        rewrite the_task_upd_task_ne by congruence. by kframe.
      * intros i t Ht. kframe.
        fold (runqueue_add_back
                (priority (the_task my_task
                   (upd_cpu me irq_restore_cpu (upd_cpu me irq_save_cpu s))))
                my_task
                (upd_task my_task (set_state TASK_STATE_READY)
                   (upd_cpu me irq_restore_cpu
                      (upd_cpu me irq_save_cpu
                         (upd_cpu me irq_restore_cpu
                            (upd_cpu me irq_save_cpu s)))))).
        apply runqueue_add_back_incl. by kframe.
    + intros me' s' _. eexists. split; [reflexivity|].
      split; [by kframe|]. split; [by kframe|]. split; by kframe.
  - done.
Qed.

(** X14.  task_sleep_callback, the handler of the sleep timer, on a task
    that is sleeping: the task gets -ETIMEDOUT as the result of its sleep,
    leaves the wait list it was on and is ready at the back of the run queue
    of its priority. *)
Theorem task_sleep_callback_wakes (task : tid) (me : cpu_id) (s : Kernel) :
  locked (the_lock SchedLock s) = 0 ->
  state (the_task task s) = TASK_STATE_SLEEPING ->
  cpu_task (the_cpu me s) <> Some task ->
  0 <= priority (the_task task s) < Z.of_nat (length (sched_queue s)) ->
  ends (task_sleep_callback task me s) tt
    (fun s1 =>
       sleep_result (the_task task s1) = - ETIMEDOUT /\
       state (the_task task s1) = TASK_STATE_READY /\
       (forall q, task ∉ the_list q s1) /\
       task ∈ runqueue (Z.to_nat (priority (the_task task s))) s1)
    (fun me' s' => holding (the_lock SchedLock s') me' = true)
    (fun s' s'' =>
       tasks s'' = tasks s' /\ lists s'' = lists s' /\
       sched_queue s'' = sched_queue s' /\
       locked (the_lock SchedLock s'') = 0).
Proof.
  intros Hl Hst Hc Hp. unfold task_sleep_callback, sched_lock, sched_unlock.
  mrun. rewrite spin_lock_run by (done || by apply holding_free).
  mrun. kframe. rewrite Hst. rewrite bool_decide_eq_true_2 by done.
  mrun. rewrite sched_enqueue_run
    by (unfold list_remove; kframe; apply holding_after_spin_lock).
  mrun.
  assert (A1 : holding (the_lock SchedLock
            (enqueued task me
               (list_remove task
                  (upd_task task (set_sleep_result (- ETIMEDOUT))
                     (after_spin_lock SchedLock me s))))) me = true).
  { unfold enqueued, runqueue_add_back, list_remove. kframe.
    apply holding_after_spin_lock. }
  assert (A2 : cpu_task (the_cpu me
            (enqueued task me
               (list_remove task
                  (upd_task task (set_sleep_result (- ETIMEDOUT))
                     (after_spin_lock SchedLock me s))))) <> Some task).
  { unfold enqueued, runqueue_add_back, list_remove. kframe.
    rewrite cpu_task_irq_blip. kframe.
    by rewrite cpu_task_after_spin_lock. }
  assert (A3 : the_task task
            (enqueued task me
               (list_remove task
                  (upd_task task (set_sleep_result (- ETIMEDOUT))
                     (after_spin_lock SchedLock me s)))) =
          set_state TASK_STATE_READY
            (set_sleep_result (- ETIMEDOUT) (the_task task s))).
  { unfold enqueued, runqueue_add_back, list_remove. by ksimpl. }
  assert (A4 : forall q, task ∉ the_list q
            (enqueued task me
               (list_remove task
                  (upd_task task (set_sleep_result (- ETIMEDOUT))
                     (after_spin_lock SchedLock me s))))).
  { intros q. unfold enqueued, runqueue_add_back. kframe.
    rewrite the_list_list_remove. unfold unlink.
    rewrite list_elem_of_filter. tauto. }
  assert (A5 : task ∈ runqueue (Z.to_nat (priority (the_task task s)))
            (enqueued task me
               (list_remove task
                  (upd_task task (set_sleep_result (- ETIMEDOUT))
                     (after_spin_lock SchedLock me s))))).
  { unfold enqueued.
    replace (priority (the_task task (list_remove task
               (upd_task task (set_sleep_result (- ETIMEDOUT))
                  (after_spin_lock SchedLock me s)))))
      with (priority (the_task task s))
      by (unfold list_remove; by ksimpl).
    rewrite runqueue_add_back_eq.
    - apply elem_of_app. right. by apply list_elem_of_singleton.
    - kframe. rewrite length_sched_queue_list_remove. by kframe. }
  revert A1 A2 A3 A4 A5.
  generalize (enqueued task me
               (list_remove task
                  (upd_task task (set_sleep_result (- ETIMEDOUT))
                     (after_spin_lock SchedLock me s)))).
  intros s0 A1 A2 A3 A4 A5.
  eapply ends_obind.
  - by apply sched_may_yield_ends.
  - cbv beta. intros s1 (E1 & E2 & E3 & E4). mrun.
    rewrite spin_unlock_run by (unfold the_lock; by rewrite E2).
    mrun. eexists. split; [reflexivity|]. kframe.
    rewrite E3 by done. rewrite A3.
    split; [done|]. split; [done|]. split.
    + intros q. kframe. unfold the_list. rewrite E1. apply A4.
    + kframe. by apply E4.
  - cbv beta. intros s1 (E1 & E2 & E3 & E4).
    rewrite E3 by done. rewrite A3.
    split; [done|]. split; [done|]. split.
    + intros q. unfold the_list. rewrite E1. apply A4.
    + by apply E4.
  - cbv beta. intros me' s' Hs. exact I.
  - cbv beta. intros me' s' s'' Hs (F1 & F2 & F3 & F4). mrun.
    rewrite spin_unlock_run by (unfold the_lock; by rewrite F3).
    mrun. eexists. split; [reflexivity|].
    split; [by kframe|]. split; [by kframe|]. split; [by kframe|].
    apply locked_after_spin_unlock.
Qed.

(** X15.  task_sleep_callback on a task that is not sleeping any more: the
    call returns at once and no task, wait list or run queue has changed;
    the scheduler lock is free again. *)
Theorem task_sleep_callback_stale (task : tid) (me : cpu_id) (s : Kernel) :
  locked (the_lock SchedLock s) = 0 ->
  state (the_task task s) <> TASK_STATE_SLEEPING ->
  exists s1,
    task_sleep_callback task me s = Return tt s1 /\
    tasks s1 = tasks s /\ lists s1 = lists s /\
    sched_queue s1 = sched_queue s /\
    locked (the_lock SchedLock s1) = 0 /\
    forall l, l <> SchedLock -> the_lock l s1 = the_lock l s.
Proof.
  intros Hl Hst. unfold task_sleep_callback, sched_lock, sched_unlock.
  mrun. rewrite spin_lock_run by (done || by apply holding_free).
  mrun. kframe. rewrite bool_decide_eq_false_2 by done.
  mrun. rewrite spin_unlock_run by apply holding_after_spin_lock.
  mrun. eexists. split; [reflexivity|].
  split; [by kframe|]. split; [by kframe|]. split; [by kframe|].
  split; [apply locked_after_spin_unlock|].
  intros l Hne. rewrite the_lock_after_spin_unlock_ne by done.
  by rewrite the_lock_after_spin_lock_ne.
Qed.

(** X16.  task_resume on a task that is not suspended returns -EINVAL: no
    task, wait list or run queue has changed and the scheduler lock is free
    again. *)
Theorem task_resume_not_suspended (task : tid) (me : cpu_id) (s : Kernel) :
  locked (the_lock SchedLock s) = 0 ->
  state (the_task task s) <> TASK_STATE_SUSPENDED ->
  exists s1,
    task_resume task me s = Return (- EINVAL) s1 /\
    tasks s1 = tasks s /\ lists s1 = lists s /\
    sched_queue s1 = sched_queue s /\
    locked (the_lock SchedLock s1) = 0 /\
    forall l, l <> SchedLock -> the_lock l s1 = the_lock l s.
Proof.
  intros Hl Hst. unfold task_resume, sched_lock, sched_unlock.
  mrun. rewrite spin_lock_run by (done || by apply holding_free).
  mrun. kframe. rewrite bool_decide_eq_false_2 by done.
  mrun. rewrite spin_unlock_run by apply holding_after_spin_lock.
  mrun. eexists. split; [reflexivity|].
  split; [by kframe|]. split; [by kframe|]. split; [by kframe|].
  split; [apply locked_after_spin_unlock|].
  intros l Hne. rewrite the_lock_after_spin_unlock_ne by done.
  by rewrite the_lock_after_spin_lock_ne.
Qed.

(** X17.  task_resume on a suspended task that no CPU runs: the call ends
    with 0 and the task is ready, with its priority, on the run queue of
    this priority; no task has left a run queue and the wait lists are as
    they were. *)
Theorem task_resume_enqueues (task : tid) (me : cpu_id) (s : Kernel) :
  locked (the_lock SchedLock s) = 0 ->
  state (the_task task s) = TASK_STATE_SUSPENDED ->
  cpu_task (the_cpu me s) <> Some task ->
  0 <= priority (the_task task s) < Z.of_nat (length (sched_queue s)) ->
  ends (task_resume task me s) 0
    (fun s1 =>
       state (the_task task s1) = TASK_STATE_READY /\
       priority (the_task task s1) = priority (the_task task s) /\
       task ∈ runqueue (Z.to_nat (priority (the_task task s))) s1 /\
       (forall i t, t ∈ runqueue i s -> t ∈ runqueue i s1) /\
       lists s1 = lists s)
    (fun me' s' => holding (the_lock SchedLock s') me' = true)
    (fun s' s'' =>
       tasks s'' = tasks s' /\ lists s'' = lists s' /\
       sched_queue s'' = sched_queue s' /\
       locked (the_lock SchedLock s'') = 0).
Proof.
  intros Hl Hst Hc Hp. unfold task_resume, sched_lock, sched_unlock.
  mrun. rewrite spin_lock_run by (done || by apply holding_free).
  mrun. kframe. rewrite Hst. rewrite bool_decide_eq_true_2 by done.
  cbn [negb]. mrun.
  rewrite sched_enqueue_run by apply holding_after_spin_lock.
  mrun.
  assert (A1 : holding (the_lock SchedLock
            (enqueued task me (after_spin_lock SchedLock me s))) me = true).
  { unfold enqueued, runqueue_add_back. kframe.
    apply holding_after_spin_lock. }
  assert (A2 : cpu_task (the_cpu me
            (enqueued task me (after_spin_lock SchedLock me s)))
          <> Some task).
  { unfold enqueued, runqueue_add_back. kframe.
    by rewrite cpu_task_irq_blip, cpu_task_after_spin_lock. }
  assert (A3 : the_task task
            (enqueued task me (after_spin_lock SchedLock me s)) =
          set_state TASK_STATE_READY (the_task task s)).
  { unfold enqueued, runqueue_add_back. by ksimpl. }
  assert (A4 : lists (enqueued task me (after_spin_lock SchedLock me s)) =
               lists s).
  { unfold enqueued, runqueue_add_back. by kframe. }
  assert (A5 : task ∈ runqueue (Z.to_nat (priority (the_task task s)))
            (enqueued task me (after_spin_lock SchedLock me s))).
  { unfold enqueued.
    replace (priority (the_task task (after_spin_lock SchedLock me s)))
      with (priority (the_task task s)) by (by kframe).
    rewrite runqueue_add_back_eq.
    - apply elem_of_app. right. by apply list_elem_of_singleton.
    - by kframe. }
  assert (A6 : forall i t, t ∈ runqueue i s ->
            t ∈ runqueue i
              (enqueued task me (after_spin_lock SchedLock me s))).
  { intros i t Ht. unfold enqueued. apply runqueue_add_back_incl.
    by kframe. }
  revert A1 A2 A3 A4 A5 A6.
  generalize (enqueued task me (after_spin_lock SchedLock me s)).
  intros s0 A1 A2 A3 A4 A5 A6.
  eapply ends_obind.
  - by apply sched_may_yield_ends.
  - cbv beta. intros s1 (E1 & E2 & E3 & E4). mrun.
    rewrite spin_unlock_run by (unfold the_lock; by rewrite E2).
    mrun. eexists. split; [reflexivity|]. kframe.
    rewrite E3 by done. rewrite A3.
    split; [done|]. split; [done|]. split; [|split].
    + kframe. by apply E4.
    + intros i t Ht. kframe. by apply E4, A6.
    + kframe. by rewrite E1.
  - cbv beta. intros s1 (E1 & E2 & E3 & E4).
    rewrite E3 by done. rewrite A3.
    split; [done|]. split; [done|]. split; [|split].
    + by apply E4.
    + intros i t Ht. by apply E4, A6.
    + by rewrite E1.
  - cbv beta. intros me' s' Hs. exact I.
  - cbv beta. intros me' s' s'' Hs (F1 & F2 & F3 & F4). mrun.
    rewrite spin_unlock_run by (unfold the_lock; by rewrite F3).
    mrun. eexists. split; [reflexivity|].
    split; [by kframe|]. split; [by kframe|]. split; [by kframe|].
    apply locked_after_spin_unlock.
Qed.

(** sched_sleep up to the switch out of the task, and from the switch back
    into it. *)
Lemma sched_sleep_switch (q : ListRef) (timeout : Z) (l : LockRef)
    (me : cpu_id) (s : Kernel) (t : tid) :
  l <> SchedLock ->
  holding (the_lock l s) me = true ->
  locked (the_lock SchedLock s) = 0 ->
  cpu_task (the_cpu me s) = Some t ->
  exists s1 k,
    sched_sleep (Some q) timeout (Some l) me s = Switch s1 k /\
    state (the_task t s1) = TASK_STATE_SLEEPING /\
    the_list q s1 = the_list q s ++ [t] /\
    (forall q', q' <> q -> the_list q' s1 = the_list q' s) /\
    sched_queue s1 = sched_queue s /\
    locked (the_lock l s1) = 0 /\
    holding (the_lock SchedLock s1) me = true /\
    (timeout <> 0 ->
       remain (sleep_timer (the_task t s1)) = timeout /\
       trace s1 = trace s ++ [EvTimerStart t]) /\
    (timeout = 0 -> trace s1 = trace s) /\
    forall me' s',
      holding (the_lock SchedLock s') me' = true ->
      locked (the_lock l s') = 0 ->
      exists s'',
        k me' s' = Return (sleep_result (the_task t s')) s'' /\
        holding (the_lock l s'') me' = true /\
        locked (the_lock SchedLock s'') = 0 /\
        tasks s'' = tasks s' /\ lists s'' = lists s' /\
        sched_queue s'' = sched_queue s' /\
        trace s'' = trace s' ++
          (if timeout =? 0 then [] else [EvTimerStop t]).
Proof.
  intros Hne Hh Hl Hc. unfold sched_sleep, sched_lock, sched_unlock.
  mrun. rewrite task_current_run. mrun.
  rewrite spin_lock_run by (kframe; done || by apply holding_free).
  mrun. rewrite spin_unlock_run
    by (rewrite the_lock_after_spin_lock_ne by done; by kframe).
  mrun. rewrite assert_holding_run.
  2:{ rewrite the_lock_after_spin_unlock_ne by done.
      apply holding_after_spin_lock. }
  mrun. rewrite Hc.
  assert (Hs : holding (the_lock SchedLock
            (irq_blip me (after_spin_unlock l me
               (after_spin_lock SchedLock me (irq_blip me s))))) me = true).
  { kframe. rewrite the_lock_after_spin_unlock_ne by done.
    apply holding_after_spin_lock. }
  assert (Hu : locked (the_lock l
            (irq_blip me (after_spin_unlock l me
               (after_spin_lock SchedLock me (irq_blip me s))))) = 0).
  { kframe. apply locked_after_spin_unlock. }
  assert (Hf : tasks (irq_blip me (after_spin_unlock l me
               (after_spin_lock SchedLock me (irq_blip me s)))) = tasks s /\
               lists (irq_blip me (after_spin_unlock l me
               (after_spin_lock SchedLock me (irq_blip me s)))) = lists s /\
               sched_queue (irq_blip me (after_spin_unlock l me
               (after_spin_lock SchedLock me (irq_blip me s)))) =
                 sched_queue s /\
               trace (irq_blip me (after_spin_unlock l me
               (after_spin_lock SchedLock me (irq_blip me s)))) = trace s).
  { split; [by kframe|]. split; [by kframe|]. split; by kframe. }
  revert Hs Hu Hf.
  generalize (irq_blip me (after_spin_unlock l me
               (after_spin_lock SchedLock me (irq_blip me s)))).
  intros s0 Hs Hu (F1 & F2 & F3 & F4).
  assert (Hres : forall me' s',
    holding (the_lock SchedLock s') me' = true ->
    locked (the_lock l s') = 0 ->
    exists s'',
      obind (obind (spin_unlock SchedLock me' s')
               (fun _ => spin_lock l) me')
        (fun _ _ s4 => Return (sleep_result (the_task t s4)) s4) me' =
        Return (sleep_result (the_task t s')) s'' /\
      holding (the_lock l s'') me' = true /\
      locked (the_lock SchedLock s'') = 0 /\
      tasks s'' = tasks s' /\ lists s'' = lists s' /\
      sched_queue s'' = sched_queue s' /\ trace s'' = trace s').
  { intros me' s' Hs' Hl'.
    rewrite spin_unlock_run by done. mrun.
    rewrite spin_lock_run.
    2:{ apply holding_free. rewrite the_lock_after_spin_unlock_ne by done.
        by kframe. }
    2:{ rewrite the_lock_after_spin_unlock_ne by done. by kframe. }
    mrun. eexists. split; [f_equal; by kframe|].
    split; [apply holding_after_spin_lock|].
    split.
    { rewrite the_lock_after_spin_lock_ne by done.
      apply locked_after_spin_unlock. }
    split; [by kframe|]. split; [by kframe|]. split; by kframe. }
  destruct (timeout =? 0) eqn:Et; cbn [negb]; mrun.
  - apply Z.eqb_eq in Et.
    rewrite sched_yield_run by (unfold list_add_back; by kframe).
    mrun. eexists. eexists. split; [reflexivity|].
    unfold list_add_back.
    split; [by ksimpl|].
    split; [kframe; rewrite the_list_upd_list; kframe; unfold the_list;
            by rewrite F2|].
    split.
    { intros q' Hq. kframe. rewrite the_list_upd_list_ne by done. kframe.
      unfold the_list. by rewrite F2. }
    split; [by kframe|]. split; [by kframe|]. split; [by kframe|].
    split; [done|]. split; [intros _; by kframe|].
    intros me' s' Hs' Hl'.
    match goal with |- context [spin_unlock SchedLock me' ?st] =>
      destruct (Hres me' st) as (s'' & -> & R1 & R2 & R3 & R4 & R5 & R6);
        [by kframe..|]
    end.
    exists s''. rewrite R3, R4, R5, R6. kframe. kfield.
    rewrite app_nil_r. done.
  - apply Z.eqb_neq in Et.
    rewrite sched_yield_run by (unfold list_add_back; by kframe).
    mrun. eexists. eexists. split; [reflexivity|].
    unfold list_add_back.
    split; [by ksimpl|].
    split; [kframe; rewrite the_list_upd_list; kframe; unfold the_list;
            by rewrite F2|].
    split.
    { intros q' Hq. kframe. rewrite the_list_upd_list_ne by done. kframe.
      unfold the_list. by rewrite F2. }
    split; [by kframe|]. split; [by kframe|]. split; [by kframe|].
    split; [intros _; split; [by ksimpl|kframe; kfield; by rewrite F4]|].
    split; [done|].
    intros me' s' Hs' Hl'.
    match goal with |- context [spin_unlock SchedLock me' ?st] =>
      destruct (Hres me' st) as (s'' & -> & R1 & R2 & R3 & R4 & R5 & R6);
        [by kframe..|]
    end.
    exists s''. rewrite R3, R4, R5, R6. kframe. kfield. done.
Qed.

(** X18.  sched_sleep with a wait list and a lock that the caller holds: the
    call does not return before the task is switched out.  At the switch
    the task is sleeping at the back of the wait list, the lock of the
    caller is free, the scheduler lock is held and, with a timeout, the
    sleep timer holds it and has been started.  When the task runs again
    the call returns the result that the waker left in the task, with the
    lock of the caller taken again and the scheduler lock free. *)
Theorem sched_sleep_spec (q : ListRef) (timeout : Z) (l : LockRef)
    (me : cpu_id) (s : Kernel) (t : tid) :
  l <> SchedLock ->
  holding (the_lock l s) me = true ->
  locked (the_lock SchedLock s) = 0 ->
  cpu_task (the_cpu me s) = Some t ->
  exists s1 k,
    sched_sleep (Some q) timeout (Some l) me s = Switch s1 k /\
    state (the_task t s1) = TASK_STATE_SLEEPING /\
    the_list q s1 = the_list q s ++ [t] /\
    (forall q', q' <> q -> the_list q' s1 = the_list q' s) /\
    sched_queue s1 = sched_queue s /\
    locked (the_lock l s1) = 0 /\
    holding (the_lock SchedLock s1) me = true /\
    (timeout <> 0 ->
       remain (sleep_timer (the_task t s1)) = timeout /\
       trace s1 = trace s ++ [EvTimerStart t]) /\
    (timeout = 0 -> trace s1 = trace s) /\
    forall me' s',
      holding (the_lock SchedLock s') me' = true ->
      locked (the_lock l s') = 0 ->
      exists s'',
        k me' s' = Return (sleep_result (the_task t s')) s'' /\
        holding (the_lock l s'') me' = true /\
        locked (the_lock SchedLock s'') = 0 /\
        tasks s'' = tasks s' /\ lists s'' = lists s' /\
        sched_queue s'' = sched_queue s' /\
        trace s'' = trace s' ++
          (if timeout =? 0 then [] else [EvTimerStop t]).
Proof. apply sched_sleep_switch. Qed.

(** ** The end of a task *)

(** The scheduler loop after the switch out of a destroyed task. *)
Lemma sched_start_return_destroyed (t : tid) (me : cpu_id) (s1 : Kernel)
    (kstack_page : page_ref) :
  holding (the_lock SchedLock s1) me = true ->
  state (the_task t s1) = TASK_STATE_DESTROYED ->
  task_kstack (the_task t s1) = Some kstack_page ->
  exists s2,
    sched_start_return t me s1 = Return tt s2 /\
    cpu_task (the_cpu me s2) = None /\
    state (the_task t s2) = TASK_STATE_NONE /\
    task_cpu (the_task t s2) = None /\
    free_pages s2 = kstack_page :: free_pages s1 /\
    thread_cache s2 = t :: thread_cache s1 /\
    ref_count (page_refs s2) kstack_page =
      wrap_int (ref_count (page_refs s1) kstack_page - 1) /\
    holding (the_lock SchedLock s2) me = true /\
    (forall u, u <> t -> the_task u s2 = the_task u s1) /\
    sched_queue s2 = sched_queue s1 /\ lists s2 = lists s1.
Proof.
  intros A1 A2 A3.
  unfold sched_start_return, sched_lock, sched_unlock, page_ref_count_add,
    page_free_one, kmem_free_thread. mrun. ksimpl.
  rewrite A2, A3. rewrite bool_decide_eq_true_2 by done.
  assert (Hrun : forall sx,
    holding (the_lock SchedLock sx) me = true ->
    exists s2,
      obind (spin_unlock SchedLock me
               (upd_task t (set_state TASK_STATE_NONE) sx))
        (fun _ me1 s2 =>
           spin_lock SchedLock me1
             (set_thread_cache (fun l => t :: l)
                (set_free_pages (fun l => kstack_page :: l)
                   (set_page_refs
                      (fun m => <[kstack_page :=
                         wrap_int (ref_count m kstack_page + -1)]> m) s2)))) me =
        Return tt s2 /\
      cpu_task (the_cpu me s2) = cpu_task (the_cpu me sx) /\
      the_task t s2 = set_state TASK_STATE_NONE (the_task t sx) /\
      free_pages s2 = kstack_page :: free_pages sx /\
      thread_cache s2 = t :: thread_cache sx /\
      ref_count (page_refs s2) kstack_page =
        wrap_int (ref_count (page_refs sx) kstack_page - 1) /\
      holding (the_lock SchedLock s2) me = true /\
      (forall u, u <> t -> the_task u s2 = the_task u sx) /\
      sched_queue s2 = sched_queue sx /\ lists s2 = lists sx).
  { intros sx Hx. rewrite spin_unlock_run by (by kframe). mrun.
    rewrite spin_lock_run.
    2:{ apply holding_free. kframe. apply locked_after_spin_unlock. }
    2:{ kframe. apply locked_after_spin_unlock. }
    eexists. split; [reflexivity|].
    split.
    { rewrite cpu_task_after_spin_lock. kframe.
      rewrite cpu_task_after_spin_unlock. by kframe. }
    split; [by ksimpl|].
    split; [by kframe|]. split; [by kframe|].
    split.
    { kframe. kfield. unfold ref_count at 1.
      rewrite lookup_insert_eq. done. }
    split; [apply holding_after_spin_lock|].
    split; [intros u Hu; by ksimpl|]. split; by kframe. }
  destruct (task_process (the_task t s1)); mrun.
  - match goal with |- context [spin_unlock SchedLock me (upd_task t _ ?sx)] =>
      destruct (Hrun sx) as (s2 & -> & R1 & R2 & R3 & R4 & R5 & R6 & R7 & R8 & R9);
        [by kframe|]
    end.
    exists s2. split; [done|].
    rewrite R1, R2, R3, R4, R5, R8, R9. ksimpl.
    do 6 (split; [done|]). split; [done|].
    split; [|done]. intros u Hu. rewrite R7 by done. by ksimpl.
  - match goal with |- context [spin_unlock SchedLock me (upd_task t _ ?sx)] =>
      destruct (Hrun sx) as (s2 & -> & R1 & R2 & R3 & R4 & R5 & R6 & R7 & R8 & R9);
        [by kframe|]
    end.
    exists s2. split; [done|].
    rewrite R1, R2, R3, R4, R5, R8, R9. ksimpl.
    do 6 (split; [done|]). split; [done|].
    split; [|done]. intros u Hu. rewrite R7 by done. by ksimpl.
Qed.

(** X19.  task_exit, with the scheduler lock free, never returns: the task
    is switched out in the destroyed state with its sleep timer destroyed
    and the scheduler lock held, and a switch back into it panics.  The
    scheduler loop, which continues from the switch, then takes the task off
    the CPU, marks it unused, gives its kernel stack page back to the page
    allocator with one reference less and its descriptor back to the cache,
    and holds the scheduler lock again. *)
Theorem task_exit_reclaimed (me : cpu_id) (s : Kernel) (t : tid)
    (kstack_page : page_ref) :
  locked (the_lock SchedLock s) = 0 ->
  cpu_task (the_cpu me s) = Some t ->
  task_kstack (the_task t s) = Some kstack_page ->
  exists s1 k s2,
    task_exit me s = Switch s1 k /\
    state (the_task t s1) = TASK_STATE_DESTROYED /\
    holding (the_lock SchedLock s1) me = true /\
    trace s1 = trace s ++ [EvTimerDestroy t] /\
    (forall me' s', exists s'', k me' s' = Panic "should not return" s'') /\
    sched_start_return t me s1 = Return tt s2 /\
    cpu_task (the_cpu me s2) = None /\
    state (the_task t s2) = TASK_STATE_NONE /\
    task_cpu (the_task t s2) = None /\
    free_pages s2 = kstack_page :: free_pages s /\
    thread_cache s2 = t :: thread_cache s /\
    ref_count (page_refs s2) kstack_page =
      wrap_int (ref_count (page_refs s) kstack_page - 1) /\
    holding (the_lock SchedLock s2) me = true /\
    (forall u, u <> t -> the_task u s2 = the_task u s) /\
    sched_queue s2 = sched_queue s /\ lists s2 = lists s.
Proof.
  intros Hl Hc Hk. unfold task_exit, task_cleanup, sched_lock. mrun.
  rewrite task_current_run. mrun. rewrite Hc.
  rewrite spin_lock_run by (kframe; done || by apply holding_free).
  mrun. rewrite sched_yield_run by (kframe; apply holding_after_spin_lock).
  mrun.
  destruct (sched_start_return_destroyed t me
    (irq_blip me
       (upd_task t (set_state TASK_STATE_DESTROYED)
          (set_trace (fun t0 => t0 ++ [EvTimerDestroy t])
             (after_spin_lock SchedLock me (irq_blip me s)))))
    kstack_page)
    as (s2 & R0 & R1 & R2 & R3 & R4 & R5 & R6 & R7 & R8 & R9 & R10).
  { kframe. apply holding_after_spin_lock. }
  { by ksimpl. }
  { by ksimpl. }
  eexists _, _, s2. split; [reflexivity|].
  split; [by ksimpl|].
  split; [kframe; apply holding_after_spin_lock|].
  split; [kframe; kfield; by kframe|].
  split; [intros me' s'; eexists; reflexivity|].
  split; [exact R0|].
  split; [done|]. split; [done|]. split; [done|].
  split; [rewrite R4; by kframe|].
  split; [rewrite R5; by kframe|].
  split; [rewrite R6; by kframe|].
  split; [done|].
  split; [intros u Hu; rewrite R8 by done; by ksimpl|].
  split; [rewrite R9; by kframe|]. rewrite R10. by kframe.
Qed.

(** ** The scheduler loop *)

Lemma sched_dequeue_run (me : cpu_id) (s : Kernel) :
  holding (the_lock SchedLock s) me = true ->
  sched_dequeue me s =
    match sched_dequeue_loop TASK_MAX_PRIORITIES 0 s with
    | Some t => Return (Some t) (list_remove t (irq_blip me s))
    | None => Return None (irq_blip me s)
    end.
Proof.
  intros Hh. unfold sched_dequeue. mrun.
  rewrite assert_holding_run by done. mrun.
  assert (Hext : sched_dequeue_loop TASK_MAX_PRIORITIES 0 (irq_blip me s)
                 = sched_dequeue_loop TASK_MAX_PRIORITIES 0 s).
  { generalize 0%nat. induction TASK_MAX_PRIORITIES as [|n IH]; intros i;
      cbn [sched_dequeue_loop]; [done|].
    kframe. by rewrite IH. }
  rewrite Hext.
  by destruct (sched_dequeue_loop TASK_MAX_PRIORITIES 0 s).
Qed.

(** X20.  One pass of the loop of sched_start up to the context switch, with
    the scheduler lock held and every queued task ready.  With a task
    queued, the head of the first run queue that is not empty is unlinked,
    set running and made the task of the CPU, with the scheduler lock still
    held; no other task changes.  With every run queue empty, the CPU
    waits for an interrupt and takes the lock again; no task or queue
    changes. *)
Theorem sched_start_dispatch_spec (me : cpu_id) (s : Kernel) :
  holding (the_lock SchedLock s) me = true ->
  Forall (Forall (fun t => state (the_task t s) = TASK_STATE_READY))
    (sched_queue s) ->
  exists r s',
    sched_start_dispatch me s = Return r s' /\
    holding (the_lock SchedLock s') me = true /\
    match r with
    | Some n =>
        exists j rest,
          (j < TASK_MAX_PRIORITIES)%nat /\
          runqueue j s = n :: rest /\
          (forall j', (j' < j)%nat -> runqueue j' s = []) /\
          state (the_task n s') = TASK_STATE_RUNNING /\
          task_cpu (the_task n s') = Some me /\
          cpu_task (the_cpu me s') = Some n /\
          (forall i, runqueue i s' = unlink n (runqueue i s)) /\
          (forall q, the_list q s' = unlink n (the_list q s)) /\
          (forall u, u <> n -> the_task u s' = the_task u s)
    | None =>
        (forall j, (j < TASK_MAX_PRIORITIES)%nat -> runqueue j s = []) /\
        trace s' = trace s ++ [EvWaitForInterrupt] /\
        tasks s' = tasks s /\ sched_queue s' = sched_queue s /\
        lists s' = lists s /\
        cpu_task (the_cpu me s') = cpu_task (the_cpu me s)
    end.
Proof.
  intros Hh Hall.
  assert (Hready : forall i t, t ∈ runqueue i s ->
            state (the_task t s) = TASK_STATE_READY).
  { intros i t. unfold runqueue.
    destruct (sched_queue s !! i) as [l|] eqn:El; cbn [default].
    - intros Ht. rewrite Forall_lookup in Hall. specialize (Hall i l El).
      rewrite Forall_forall in Hall. by apply Hall.
    - intros Ht. by apply elem_of_nil in Ht. }
  unfold sched_start_dispatch, sched_lock, sched_unlock.
  mrun. rewrite sched_dequeue_run by done.
  pose proof (sched_dequeue_loop_spec TASK_MAX_PRIORITIES 0 s) as Hspec.
  destruct (sched_dequeue_loop TASK_MAX_PRIORITIES 0 s) as [n|]; mrun.
  - destruct Hspec as (j & rest & Hj & Hq & Hbelow).
    assert (Hn : state (the_task n s) = TASK_STATE_READY).
    { apply (Hready j). rewrite Hq. left. }
    assert (Hn' : state (the_task n (list_remove n (irq_blip me s))) =
                  TASK_STATE_READY)
      by (unfold list_remove; kframe; done).
    rewrite Hn'. rewrite bool_decide_eq_true_2 by done. mrun.
    assert (Hfin : forall sx,
      holding (the_lock SchedLock sx) me = true ->
      (forall i, runqueue i sx = runqueue i (list_remove n (irq_blip me s))) ->
      (forall q, the_list q sx = the_list q (list_remove n (irq_blip me s))) ->
      (forall u, the_task u sx = the_task u s) ->
      let s' := upd_cpu me (set_cpu_task (Some n))
                  (upd_task n (set_task_cpu (Some me))
                     (upd_task n (set_state TASK_STATE_RUNNING) sx)) in
      holding (the_lock SchedLock s') me = true /\
      exists j rest,
        (j < TASK_MAX_PRIORITIES)%nat /\
        runqueue j s = n :: rest /\
        (forall j', (j' < j)%nat -> runqueue j' s = []) /\
        state (the_task n s') = TASK_STATE_RUNNING /\
        task_cpu (the_task n s') = Some me /\
        cpu_task (the_cpu me s') = Some n /\
        (forall i, runqueue i s' = unlink n (runqueue i s)) /\
        (forall q, the_list q s' = unlink n (the_list q s)) /\
        (forall u, u <> n -> the_task u s' = the_task u s)).
    { intros sx Hx Hrq Hls Hts s'. subst s'. split; [by kframe|].
      exists j, rest. split; [lia|]. split; [done|].
      split; [intros j' Hj'; apply Hbelow; lia|].
      split; [by ksimpl|]. split; [by ksimpl|]. split; [by ksimpl|].
      split.
      { intros i. kframe. rewrite Hrq, runqueue_list_remove. by kframe. }
      split.
      { intros q. kframe. rewrite Hls, the_list_list_remove. by kframe. }
      intros u Hu. ksimpl. apply Hts. }
    destruct (task_process _); mrun; eexists _, _;
      (split; [reflexivity|]); apply Hfin.
    all: try (unfold list_remove; by kframe).
    all: try (intros; unfold list_remove; by kframe).
  - rewrite spin_unlock_run by (by kframe). mrun.
    rewrite spin_lock_run.
    2:{ apply holding_free. kframe. apply locked_after_spin_unlock. }
    2:{ kframe. apply locked_after_spin_unlock. }
    mrun. eexists _, _. split; [reflexivity|].
    split; [apply holding_after_spin_lock|].
    split; [intros j Hj; apply Hspec; lia|].
    split; [kframe; kfield; by kframe|].
    split; [by kframe|]. split; [by kframe|]. split; [by kframe|].
    rewrite cpu_task_after_spin_lock. ksimpl.
    rewrite cpu_task_after_spin_unlock. by rewrite cpu_task_irq_blip.
Qed.

(** X21.  task_yield by a running task whose priority indexes a run queue,
    with the scheduler lock free: the task is switched out ready, as the
    last of the run queue of its priority, with the scheduler lock held;
    the other run queues, the other tasks and the wait lists are as they
    were.  When the task runs again the call returns and has released the
    scheduler lock. *)
Theorem task_yield_spec (me : cpu_id) (s : Kernel) (c : tid) :
  locked (the_lock SchedLock s) = 0 ->
  cpu_task (the_cpu me s) = Some c ->
  0 <= priority (the_task c s) < Z.of_nat (length (sched_queue s)) ->
  let p := Z.to_nat (priority (the_task c s)) in
  exists s1 k,
    task_yield me s = Switch s1 k /\
    the_task c s1 = set_state TASK_STATE_READY (the_task c s) /\
    state (the_task c s1) = TASK_STATE_READY /\
    runqueue p s1 = runqueue p s ++ [c] /\
    (forall i, i <> p -> runqueue i s1 = runqueue i s) /\
    (forall u, u <> c -> the_task u s1 = the_task u s) /\
    lists s1 = lists s /\
    holding (the_lock SchedLock s1) me = true /\
    forall me' s',
      holding (the_lock SchedLock s') me' = true ->
      exists s'',
        k me' s' = Return tt s'' /\
        locked (the_lock SchedLock s'') = 0 /\
        tasks s'' = tasks s' /\ sched_queue s'' = sched_queue s' /\
        lists s'' = lists s'.
Proof.
  intros Hl Hc Hp p. subst p. unfold task_yield, sched_lock, sched_unlock.
  mrun.
  rewrite task_current_run. mrun. rewrite Hc.
  rewrite spin_lock_run by (kframe; done || by apply holding_free).
  mrun. rewrite sched_enqueue_run by apply holding_after_spin_lock.
  mrun. rewrite sched_yield_run
    by (unfold enqueued, runqueue_add_back; kframe;
        apply holding_after_spin_lock).
  mrun. eexists _, _. split; [reflexivity|].
  unfold enqueued.
  replace (priority (the_task c (after_spin_lock SchedLock me (irq_blip me s))))
    with (priority (the_task c s)) by (by kframe).
  split; [unfold runqueue_add_back; by ksimpl|].
  split; [unfold runqueue_add_back; by ksimpl|].
  split.
  { kframe. rewrite runqueue_add_back_eq by (by kframe). by kframe. }
  split.
  { intros i Hi. kframe. rewrite runqueue_add_back_ne by (by left).
    by kframe. }
  split; [intros u Hu; unfold runqueue_add_back; by ksimpl|].
  split; [unfold runqueue_add_back; by kframe|].
  split; [unfold runqueue_add_back; kframe; apply holding_after_spin_lock|].
  intros me' s' Hs'. rewrite spin_unlock_run by (by kframe).
  eexists. split; [reflexivity|].
  split; [apply locked_after_spin_unlock|].
  split; [by kframe|]. split; by kframe.
Qed.

(** ** Waiting for children *)

Lemma scan_children_group (s : Kernel) (p_id : Z) (l : list proc_ref)
    (found : Z) :
  p_id = 0 \/ p_id < -1 ->
  scan_children s p_id l found = Scanned found.
Proof.
  intros Hp. destruct l as [|p l]; [done|]. cbn [scan_children].
  destruct (0 <? p_id) eqn:E1; [apply Z.ltb_lt in E1; lia|].
  destruct (p_id =? 0) eqn:E2; [done|].
  destruct (p_id <? -1) eqn:E3; [done|].
  apply Z.eqb_neq in E2. apply Z.ltb_ge in E3. lia.
Qed.

(** X22.  process_wait for a process group (a PID of 0, or below -1), with
    valid options and the process lock free, returns -ECHILD whatever
    children the caller has, zombies included: no process is changed or
    freed, user memory is not written and the process lock is free again. *)
Theorem process_wait_group (fuel : nat) (p_id : Z) (stat_loc : option Z)
    (options : Z) (me : cpu_id) (s : Kernel) (t : tid) (current : proc_ref) :
  p_id = 0 \/ p_id < -1 ->
  Z.land options (Z.lnot (Z.lor WNOHANG WUNTRACED)) = 0 ->
  cpu_task (the_cpu me s) = Some t ->
  thread_process (the_thread t s) = Some current ->
  locked (the_lock ProcessLock s) = 0 ->
  exists s',
    process_wait (S fuel) p_id stat_loc options me s =
      Return (- ECHILD) s' /\
    procs s' = procs s /\ umem s' = umem s /\
    process_cache s' = process_cache s /\
    locked (the_lock ProcessLock s') = 0.
Proof.
  intros Hp Hopt Hc Ht Hl.
  rewrite process_wait_run, Hc, Ht by (done || by apply holding_free).
  rewrite process_wait_loop_no_child.
  - eexists. split; [reflexivity|].
    split; [by kframe|]. split; [by kframe|]. split; [by kframe|].
    apply locked_after_spin_unlock.
  - by apply scan_children_group.
  - apply holding_after_spin_lock.
Qed.

Lemma scan_children_any (s : Kernel) (l1 l2 : list proc_ref) (c : proc_ref)
    (tc : tid) (found : Z) :
  (forall x, x ∈ l1 ->
     exists tx, thread (the_proc x s) = Some tx /\ zombie (the_proc x s) = 0) ->
  thread (the_proc c s) = Some tc ->
  zombie (the_proc c s) <> 0 ->
  scan_children s (-1) (l1 ++ c :: l2) found =
    Reaped c (pid (the_thread tc s)).
Proof.
  intros Hall Hth Hz. revert found.
  induction l1 as [|x l1 IH]; intros found; cbn [app scan_children].
  - change (0 <? -1) with false. change (-1 =? 0) with false.
    change (-1 <? -1) with false. cbv iota. rewrite Hth.
    unfold c_true. apply Z.eqb_neq in Hz. by rewrite Hz.
  - change (0 <? -1) with false. change (-1 =? 0) with false.
    change (-1 <? -1) with false. cbv iota.
    destruct (Hall x) as (tx & -> & Hx); [left|].
    rewrite Hx. cbn [c_true Z.eqb negb]. apply IH.
    intros y Hy. apply Hall. by right.
Qed.

(** X23.  process_wait for any child (PID -1) with a status pointer, when a
    child of the caller is a zombie: the call returns the PID of the first
    zombie in the list of children, stores its exit code through the
    pointer, unlinks it from the children and frees its descriptor; the
    process lock is free again. *)
Theorem process_wait_any (fuel : nat) (a : Z) (options : Z) (me : cpu_id)
    (s : Kernel) (t : tid) (current : proc_ref) (l1 l2 : list proc_ref)
    (c : proc_ref) (tc : tid) :
  Z.land options (Z.lnot (Z.lor WNOHANG WUNTRACED)) = 0 ->
  cpu_task (the_cpu me s) = Some t ->
  thread_process (the_thread t s) = Some current ->
  locked (the_lock ProcessLock s) = 0 ->
  children (the_proc current s) = l1 ++ c :: l2 ->
  Forall (fun x => (exists tx, thread (the_proc x s) = Some tx) /\
                   zombie (the_proc x s) = 0) l1 ->
  thread (the_proc c s) = Some tc ->
  zombie (the_proc c s) <> 0 ->
  exists s',
    process_wait (S fuel) (-1) (Some a) options me s =
      Return (pid (the_thread tc s)) s' /\
    umem s' = <[a := exit_code (the_proc c s)]> (umem s) /\
    process_cache s' = c :: process_cache s /\
    children (the_proc current s') = unlink c (l1 ++ c :: l2) /\
    (forall x, exit_code (the_proc x s') = exit_code (the_proc x s) /\
               zombie (the_proc x s') = zombie (the_proc x s)) /\
    locked (the_lock ProcessLock s') = 0.
Proof.
  intros Hopt Hc Ht Hl Hch Hall Hth Hz.
  rewrite process_wait_run, Hc, Ht by (done || by apply holding_free).
  assert (A : let s0 := after_spin_lock ProcessLock me (irq_blip me s) in
    holding (the_lock ProcessLock s0) me = true /\
    (forall x, the_proc x s0 = the_proc x s) /\
    (forall x, the_thread x s0 = the_thread x s) /\
    umem s0 = umem s /\ process_cache s0 = process_cache s).
  { cbv zeta. split; [apply holding_after_spin_lock|].
    split; [intros x; by kframe|]. split; [intros x; by kframe|].
    split; by kframe. }
  cbv zeta in A. revert A.
  generalize (after_spin_lock ProcessLock me (irq_blip me s)).
  intros s0 (A1 & A2 & A3 & A4 & A5).
  rewrite (process_wait_loop_reap fuel current (-1) a options me s0 c
             (pid (the_thread tc s))).
  - eexists. split; [reflexivity|].
    split.
    { kframe. kfield. by rewrite A2, A4. }
    split; [kframe; kfield; kframe; by rewrite A5|].
    split.
    { kframe. rewrite the_proc_sibling_remove. krec.
      by rewrite A2, Hch. }
    split.
    { intros x. kframe. rewrite the_proc_sibling_remove. krec.
      by rewrite A2. }
    kframe. apply locked_after_spin_unlock.
  - rewrite (scan_children_ext s0 s) by done.
    rewrite A2, Hch.
    rewrite (scan_children_any s l1 l2 c tc); [done| |done..].
    intros x Hx. rewrite Forall_forall in Hall.
    destruct (Hall x Hx) as [[tx Htx] Hzx]. by exists tx.
  - done.
Qed.

(** ** Orphans *)

Lemma filter_not_in_unlink (k : proc_ref) (rest l : list proc_ref) :
  filter (fun x => x ∉ rest) (unlink k l) =
    filter (fun x => x ∉ k :: rest) l.
Proof.
  unfold unlink. rewrite list_filter_filter. apply list_filter_iff.
  intros x. rewrite not_elem_of_cons. tauto.
Qed.

Lemma filter_not_in_nil (l : list proc_ref) :
  filter (fun x => x ∉ ([] : list proc_ref)) l = l.
Proof.
  induction l as [|x l IH]; [done|].
  rewrite filter_cons_True by apply not_elem_of_nil. by rewrite IH.
Qed.

Lemma reparent_loop_adopts (fuel : nat) (c init : proc_ref) (hz : Z)
    (me : cpu_id) (s : Kernel) (kids : list proc_ref) :
  c <> init ->
  children (the_proc c s) = kids ->
  NoDup kids ->
  (length kids < fuel)%nat ->
  exists s',
    reparent_loop fuel c init hz me s =
      Return (if existsb (fun x => c_true (zombie (the_proc x s))) kids
              then 1 else hz) s' /\
    children (the_proc c s') = [] /\
    children (the_proc init s') =
      filter (fun x => x ∉ kids) (children (the_proc init s)) ++ kids /\
    (forall x, parent (the_proc x s') =
       if bool_decide (x ∈ kids) then Some init else parent (the_proc x s)) /\
    (forall q, q <> init -> q <> c ->
       children (the_proc q s') =
         filter (fun x => x ∉ kids) (children (the_proc q s))) /\
    (forall x, zombie (the_proc x s') = zombie (the_proc x s) /\
               exit_code (the_proc x s') = exit_code (the_proc x s) /\
               thread (the_proc x s') = thread (the_proc x s)) /\
    threads s' = threads s /\ tasks s' = tasks s /\ locks s' = locks s /\
    lists s' = lists s.
Proof.
  intros Hci. revert s hz kids.
  induction fuel as [|fuel IH]; intros s hz kids Hk Hnd Hf; [lia|].
  cbn [reparent_loop]. mrun. rewrite Hk.
  destruct kids as [|k rest].
  { eexists. split; [reflexivity|]. split; [done|]. split.
    { by rewrite app_nil_r, filter_not_in_nil. }
    split; [intros x; rewrite bool_decide_eq_false_2; [done|];
            apply not_elem_of_nil|].
    split.
    { intros q _ _. by rewrite filter_not_in_nil. }
    done. }
  mrun. fold (reparent_step k init s).
  apply NoDup_cons in Hnd as [Hkr Hnd].
  pose proof (the_proc_reparent_step k init) as Hstep. cbv zeta in Hstep.
  destruct (IH (reparent_step k init s)
              (if c_true (zombie (the_proc k (reparent_step k init s)))
               then 1 else hz) rest)
    as (s' & Hrun & R1 & R2 & R3 & R4 & R5 & R6 & R7 & R8 & R9).
  { destruct (Hstep c s) as (_ & _ & _ & -> & _). rewrite Hk.
    destruct (decide (c = init)); [done|]. rewrite app_nil_r.
    unfold unlink. rewrite filter_cons_False by (intros Hx; by apply Hx).
    by apply unlink_not_in. }
  { done. }
  { cbn [length] in Hf. lia. }
  exists s'. split.
  { rewrite Hrun. f_equal. cbn [existsb].
    destruct (Hstep k s) as (_ & -> & _).
    assert (Hex : existsb (fun x => c_true (zombie (the_proc x
                     (reparent_step k init s)))) rest =
                  existsb (fun x => c_true (zombie (the_proc x s))) rest).
    { clear. induction rest as [|x rest IH]; [done|]. cbn [existsb].
      destruct (the_proc_reparent_step k init x s) as (_ & -> & _).
      by rewrite IH. }
    rewrite Hex.
    destruct (c_true (zombie (the_proc k s)));
      destruct (existsb (fun x => c_true (zombie (the_proc x s))) rest);
      reflexivity. }
  split; [done|]. split.
  { rewrite R2. destruct (Hstep init s) as (_ & _ & _ & -> & _).
    rewrite decide_True by done.
    rewrite filter_app, filter_not_in_unlink.
    rewrite filter_cons_True by done. rewrite filter_nil.
    by rewrite <- app_assoc. }
  split.
  { intros x. rewrite R3. destruct (Hstep x s) as (_ & _ & _ & _ & ->).
    destruct (decide (x = k)) as [->|Hne].
    - rewrite (bool_decide_eq_true_2 (k ∈ k :: rest)) by left.
      by destruct (bool_decide (k ∈ rest)).
    - destruct (decide (x ∈ rest)) as [Hin|Hnin].
      + rewrite !bool_decide_eq_true_2; [done|by right|done].
      + rewrite !bool_decide_eq_false_2; [done| |done].
        rewrite not_elem_of_cons. done. }
  split.
  { intros q Hqi Hqc. rewrite R4 by done.
    destruct (Hstep q s) as (_ & _ & _ & -> & _).
    rewrite decide_False by done. rewrite app_nil_r.
    apply filter_not_in_unlink. }
  split.
  { intros x. destruct (R5 x) as (-> & -> & ->).
    destruct (Hstep x s) as (-> & -> & -> & _). done. }
  rewrite R6, R7, R8, R9. unfold reparent_step, sibling_remove.
  split; [by kframe|]. split; [by kframe|]. split; by kframe.
Qed.

(** X24.  process_destroy by a process that is not the init process and has
    a parent: the call never returns, and at the switch out of the exiting
    task the process is a zombie without children; its children are the
    last children of the init process, in the order they had, and have the
    init process as their parent; no other process has changed its
    parent. *)
Theorem process_destroy_orphans (fuel : nat) (status : Z) (me : cpu_id)
    (s : Kernel) (tc : tid) (c p init : proc_ref) :
  cpu_task (the_cpu me s) = Some tc ->
  thread_process (the_thread tc s) = Some c ->
  thread (the_proc c s) = Some tc ->
  parent (the_proc c s) = Some p ->
  init_process s = Some init ->
  c <> init ->
  c ∉ children (the_proc c s) ->
  NoDup (children (the_proc c s)) ->
  locked (the_lock PidHashLock s) = 0 ->
  locked (the_lock ProcessLock s) = 0 ->
  locked (the_lock SchedLock s) = 0 ->
  (length (children (the_proc c s)) < fuel)%nat ->
  (forall chan, chan = init \/ chan = p ->
     (length (the_list (WaitQueue chan) s) < fuel)%nat /\
     forall t, t ∈ the_list (WaitQueue chan) s -> no_preempt s tc t) ->
  let kids := children (the_proc c s) in
  exists s1 k,
    process_destroy fuel status me s = Switch s1 k /\
    zombie (the_proc c s1) = 1 /\
    children (the_proc c s1) = [] /\
    children (the_proc init s1) =
      filter (fun x => x ∉ kids) (children (the_proc init s)) ++ kids /\
    (forall x, x ∈ kids -> parent (the_proc x s1) = Some init) /\
    (forall x, x ∉ kids -> parent (the_proc x s1) = parent (the_proc x s)).
Proof.
  intros Hc Hp Hth Hpar Hinit Hci Hself Hnd Lpid Lproc Lsched Hfuel Hq kids.
  subst kids.
  unfold process_destroy. mrun. rewrite process_current_run. mrun.
  rewrite Hc, Hp.
  rewrite spin_lock_run by (kframe; (done || by apply holding_free)).
  mrun. ksimpl. rewrite Hth.
  rewrite spin_unlock_run by (kframe; apply holding_after_spin_lock).
  mrun. unfold vm_destroy. mrun.
  match goal with
  | |- context [close_files ?fs me ?st] =>
      destruct (close_files_run fs me st) as (evs & ->)
  end.
  mrun. kframe. rewrite Hinit.
  match goal with
  | |- context [spin_lock ProcessLock me ?st] =>
      assert (F7 : task_frame me s st) by tframes;
      assert (L7 : forall l, l <> PidHashLock -> the_lock l st = the_lock l s)
        by (intros l Hl; by klock);
      assert (P7 : procs st = procs s) by (by kframe);
      revert F7 L7 P7; generalize st; intros s7 F7 L7 P7
  end.
  rewrite spin_lock_run
    by (rewrite L7 by done; (done || by apply holding_free)).
  mrun.
  assert (F8 : task_frame me s (after_spin_lock ProcessLock me s7)).
  { eapply task_frame_trans; [exact F7|]. tframe1. }
  assert (P8 : procs (after_spin_lock ProcessLock me s7) = procs s)
    by (by kframe).
  assert (L8 : the_lock SchedLock (after_spin_lock ProcessLock me s7)
               = the_lock SchedLock s).
  { rewrite the_lock_after_spin_lock_ne by done. by apply L7. }
  pose proof (holding_after_spin_lock ProcessLock me s7) as H8.
  revert F8 P8 L8 H8. generalize (after_spin_lock ProcessLock me s7).
  clear s7 F7 L7 P7. intros s8 F8 P8 L8 H8.
  assert (Q8 : forall x, the_proc x s8 = the_proc x s)
    by (intros x; unfold the_proc; by rewrite P8).
  destruct (reparent_loop_adopts fuel c init 0 me s8
              (children (the_proc c s)) Hci)
    as (s9' & Hrun9 & A1 & A2 & A3 & _); [by rewrite Q8|done|done|].
  destruct (reparent_loop_spec fuel c init 0 me s8 Hci) as (hz & P & E9 & Hrep).
  { by rewrite Q8. }
  rewrite E9 in Hrun9. injection Hrun9 as _ <-. rewrite E9. clear E9.
  rewrite (Q8 init) in A2.
  assert (A3' : forall x, parent (the_proc x (set_procs (fun _ => P) s8)) =
            if bool_decide (x ∈ children (the_proc c s))
            then Some init else parent (the_proc x s)).
  { intros x. rewrite A3. by rewrite Q8. }
  clear A3.
  mrun. set (s9 := set_procs (fun _ => P) s8) in *.
  assert (F9 : task_frame me s s9).
  { eapply task_frame_trans; [exact F8|]. subst s9. tframe1. }
  assert (Hrep' : reparented c s s9).
  { destruct Hrep as (R1 & R2 & R3 & R4).
    split; [|split; [|split]].
    - intros x. rewrite <- Q8. apply R1.
    - intros q x. rewrite <- !Q8. apply R2.
    - intros q x. rewrite <- !Q8. apply R3.
    - intros x. rewrite <- !Q8. apply R4. }
  clear Hrep.
  assert (Hquiet : forall chan sx, chan = init \/ chan = p ->
    task_frame me s sx -> locked (the_lock SchedLock sx) = 0 ->
    exists sy, wchan_wakeup_all fuel chan me sx = Return tt sy /\
      sched_frame me sx sy /\
      (forall l, l <> SchedLock -> the_lock l sy = the_lock l sx) /\
      locked (the_lock SchedLock sy) = 0).
  { intros chan sx Hchan Fx Lx. destruct (Hq chan Hchan) as [Hlen Hnp].
    apply (wchan_wakeup_all_quiet fuel chan me tc sx); [done| | |].
    - destruct Fx as (_ & _ & -> & _). done.
    - intros t Ht. apply (no_preempt_task_frame me s); [done|].
      apply Hnp. destruct Fx as (_ & _ & _ & _ & Hin & _). by apply Hin.
    - destruct Fx as (_ & _ & _ & _ & _ & Hle). specialize (Hle (WaitQueue chan)).
      lia. }
  assert (Hs10 : exists s10,
    (if c_true hz then wchan_wakeup_all fuel init
     else fun (_ : cpu_id) (s3 : Kernel) => Return tt s3) me s9
      = Return tt s10 /\
    sched_frame me s9 s10 /\
    (forall l, l <> SchedLock -> the_lock l s10 = the_lock l s9) /\
    locked (the_lock SchedLock s10) = 0).
  { destruct (c_true hz).
    - apply Hquiet; [by left|done|]. subst s9. kframe. by rewrite L8.
    - exists s9. split; [done|]. split; [apply sched_frame_refl|].
      split; [done|]. subst s9. kframe. by rewrite L8. }
  destruct Hs10 as (s10 & -> & F10 & L10 & LS10). mrun. ksimpl.
  assert (P10 : forall x, the_proc x s10 = the_proc x s9).
  { intros x. unfold the_proc. destruct F10 as (-> & _). done. }
  assert (Hpar10 : parent (the_proc c s10) = Some p).
  { rewrite P10. destruct Hrep' as (_ & _ & _ & R4). by rewrite R4. }
  rewrite Hpar10.
  set (s12 := upd_proc c (set_exit_code status) (upd_proc c (set_zombie 1) s10)).
  assert (F12 : task_frame me s s12).
  { eapply task_frame_trans; [exact F9|].
    eapply task_frame_trans; [apply sched_frame_task_frame; exact F10|].
    subst s12. tframes. }
  destruct (Hquiet p s12) as (s14 & -> & F14 & L14 & LS14);
    [by right|done|subst s12; by kframe|].
  mrun.
  assert (L14p : the_lock ProcessLock s14 = the_lock ProcessLock s8).
  { rewrite L14 by done. subst s12. kframe. rewrite L10 by done.
    subst s9. by kframe. }
  rewrite spin_unlock_run
    by (by rewrite L14p).
  mrun. set (s15 := after_spin_unlock ProcessLock me s14).
  assert (F15 : task_frame me s s15).
  { eapply task_frame_trans; [exact F12|].
    eapply task_frame_trans; [apply sched_frame_task_frame; exact F14|].
    subst s15. tframe1. }
  destruct (task_exit_run me s15 tc) as (s1 & k & Hrun & P1 & T1 & D1 & Hk).
  { destruct F15 as (_ & _ & -> & _). done. }
  { subst s15. by rewrite the_lock_after_spin_unlock_ne. }
  exists s1, k. split; [exact Hrun|].
  assert (Q1 : forall x, the_proc x s1 = the_proc x s12).
  { intros x. unfold the_proc. rewrite P1. subst s15. kframe.
    destruct F14 as (-> & _). done. }
  rewrite !Q1. subst s12.
  split; [by ksimpl|].
  split; [ksimpl; by rewrite P10|].
  split.
  { rewrite the_proc_upd_proc_ne by done.
    rewrite the_proc_upd_proc_ne by done. by rewrite P10. }
  split.
  - intros x Hx. rewrite Q1.
    destruct (decide (x = c)) as [->|Hxc]; ksimpl; rewrite P10, A3';
      by rewrite bool_decide_eq_true_2.
  - intros x Hx. rewrite Q1.
    destruct (decide (x = c)) as [->|Hxc]; ksimpl; rewrite P10, A3';
      by rewrite bool_decide_eq_false_2.
Qed.

(** ** Allocation failures *)

(** X25.  process_alloc with an empty process cache, an empty thread cache
    or no free page returns NULL and gives back what it took: the two caches
    and the free pages are as before, no PID is used, the PID table, the
    locks and the tasks are unchanged. *)
Theorem process_alloc_unwinds (me : cpu_id) (s : Kernel) :
  process_cache s = [] \/ thread_cache s = [] \/ free_pages s = [] ->
  exists s',
    process_alloc me s = Return None s' /\
    process_cache s' = process_cache s /\
    thread_cache s' = thread_cache s /\
    free_pages s' = free_pages s /\
    page_refs s' = page_refs s /\
    next_pid s' = next_pid s /\ pid_hash s' = pid_hash s /\
    locks s' = locks s /\ tasks s' = tasks s.
Proof.
  intros Hempty. unfold process_alloc, kmem_alloc_process. mrun.
  destruct (process_cache s) as [|p pc] eqn:Ep.
  { cbn [obind]. eexists. split; [reflexivity|]. rewrite ?Ep. done. }
  cbn [obind]. unfold kmem_alloc_thread. kfield.
  destruct (thread_cache s) as [|th tc] eqn:Et.
  { cbn [obind]. unfold kmem_free_process. mrun. eexists.
    split; [reflexivity|]. kfield. rewrite ?Ep, ?Et. done. }
  cbn [obind]. unfold page_alloc_one, kmem_free_thread, kmem_free_process.
  kfield.
  destruct (free_pages s) as [|pg fp] eqn:Ef.
  { cbn [obind]. mrun. eexists. split; [reflexivity|]. kfield.
    rewrite ?Ep, ?Et, ?Ef. done. }
  by destruct Hempty as [?|[?|?]].
Qed.

(** ** The PID table *)

Lemma pid_lookup_run (p : Z) (me : cpu_id) (s : Kernel) :
  locked (the_lock PidHashLock s) = 0 ->
  pid_lookup p me s =
    Return
      (match filter (fun t => pid (the_thread t s) = p) (pid_hash s) with
       | t :: _ => thread_process (the_thread t s)
       | [] => None
       end)
      (after_spin_unlock PidHashLock me (after_spin_lock PidHashLock me s)).
Proof.
  intros Hl. unfold pid_lookup. mrun.
  rewrite spin_lock_run by (done || by apply holding_free).
  mrun. kframe.
  assert (Hf : filter (fun t => pid (the_thread t
                  (after_spin_lock PidHashLock me s)) = p) (pid_hash s) =
               filter (fun t => pid (the_thread t s) = p) (pid_hash s)).
  { apply list_filter_iff. intros t. by kframe. }
  rewrite Hf.
  destruct (filter _ (pid_hash s)) as [|t l]; mrun;
    rewrite spin_unlock_run by apply holding_after_spin_lock; mrun;
    [done|]. by kframe.
Qed.

Lemma process_alloc_registers (me : cpu_id) (s : Kernel) (p : proc_ref)
    (th : tid) (pg : page_ref) pc tc fp :
  process_cache s = p :: pc -> thread_cache s = th :: tc ->
  free_pages s = pg :: fp ->
  locked (the_lock PidHashLock s) = 0 ->
  0 <= next_pid s < INT_MAX ->
  exists sa,
    process_alloc me s = Return (Some p) sa /\
    pid_hash sa = th :: pid_hash s /\
    next_pid sa = next_pid s + 1 /\
    pid (the_thread th sa) = next_pid s + 1 /\
    thread_process (the_thread th sa) = Some p /\
    (forall x, x <> th -> the_thread x sa = the_thread x s) /\
    locked (the_lock PidHashLock sa) = 0.
Proof.
  intros Hpc Htc Hfp Hl Hn.
  unfold process_alloc, kmem_alloc_process, kmem_alloc_thread, page_alloc_one,
    page_ref_count_add, task_create.
  mrun. rewrite Hpc. mrun. kfield. rewrite Htc. mrun. kfield. rewrite Hfp.
  mrun. cbn [c_true Z.eqb negb].
  rewrite spin_lock_run by (kframe; (done || by apply holding_free)).
  mrun. kframe.
  assert (Hw : wrap_int (next_pid s + 1) = next_pid s + 1)
    by (apply wrap_int_small; unfold INT_MIN, INT_MAX in *; lia).
  rewrite Hw.
  assert (Hpos : (next_pid s + 1 <? 0) = false) by (apply Z.ltb_ge; lia).
  rewrite Hpos. mrun.
  rewrite spin_unlock_run by (kframe; apply holding_after_spin_lock).
  mrun. eexists. split; [reflexivity|].
  split; [kframe; kfield; by kframe|].
  split; [kframe; kfield; by kframe|].
  split; [by ksimpl|]. split; [by ksimpl|].
  split; [intros x Hx; by ksimpl|].
  kframe. apply locked_after_spin_unlock.
Qed.

(** X26.  A process that process_alloc has just created is found by
    pid_lookup under its PID, the successor of the last PID given; the
    lookup changes no process, thread or entry of the PID table and leaves
    the lock of the table free. *)
Theorem process_alloc_lookup (me : cpu_id) (s : Kernel) (p : proc_ref)
    (th : tid) (pg : page_ref) (pc : list proc_ref) (tc : list tid)
    (fp : list page_ref) :
  process_cache s = p :: pc -> thread_cache s = th :: tc ->
  free_pages s = pg :: fp ->
  locked (the_lock PidHashLock s) = 0 ->
  0 <= next_pid s < INT_MAX ->
  exists sa sb,
    process_alloc me s = Return (Some p) sa /\
    pid_lookup (next_pid s + 1) me sa = Return (Some p) sb /\
    procs sb = procs sa /\ threads sb = threads sa /\
    pid_hash sb = pid_hash sa /\
    locked (the_lock PidHashLock sb) = 0.
Proof.
  intros Hpc Htc Hfp Hl Hn.
  destruct (process_alloc_registers me s p th pg pc tc fp)
    as (sa & Hrun & A1 & A2 & A3 & A4 & A5 & A6); [done..|].
  exists sa. eexists. split; [exact Hrun|].
  rewrite pid_lookup_run by done. rewrite A1.
  rewrite filter_cons_True by done. rewrite A4.
  split; [reflexivity|].
  split; [by kframe|]. split; [by kframe|]. split; [by kframe|].
  apply locked_after_spin_unlock.
Qed.

(** X27.  pid_lookup of a PID that no thread of the PID table has returns
    NULL. *)
Theorem pid_lookup_absent (p : Z) (me : cpu_id) (s : Kernel) :
  locked (the_lock PidHashLock s) = 0 ->
  Forall (fun t => pid (the_thread t s) <> p) (pid_hash s) ->
  exists s',
    pid_lookup p me s = Return None s' /\
    procs s' = procs s /\ threads s' = threads s /\
    pid_hash s' = pid_hash s /\
    locked (the_lock PidHashLock s') = 0.
Proof.
  intros Hl Hall. rewrite pid_lookup_run by done.
  assert (Hf : filter (fun t => pid (the_thread t s) = p) (pid_hash s) = []).
  { induction Hall as [|t l Ht Hall IH]; [done|].
    by rewrite filter_cons_False. }
  rewrite Hf. eexists. split; [reflexivity|].
  split; [by kframe|]. split; [by kframe|]. split; [by kframe|].
  apply locked_after_spin_unlock.
Qed.

(** ** Loading a binary *)

Lemma load_segments_rejects (proc : proc_ref) (elf : Elf32_Ehdr)
    (skipped : list Elf32_Phdr) (ph : Elf32_Phdr) (rest : list Elf32_Phdr)
    (me : cpu_id) (s : Kernel) :
  Forall (fun h => p_type h <> PT_LOAD) skipped ->
  p_type ph = PT_LOAD ->
  p_memsz ph < p_filesz ph ->
  load_segments proc elf (skipped ++ ph :: rest) me s =
    Return (Some (- EINVAL)) s.
Proof.
  intros Hskip Hty Hsz.
  induction Hskip as [|h l Hh Hl IH]; cbn [app load_segments].
  - rewrite Hty, Z.eqb_refl. cbn [negb].
    apply Z.ltb_lt in Hsz. by rewrite Hsz.
  - apply Z.eqb_neq in Hh. rewrite Hh. cbn [negb]. exact IH.
Qed.

(** X28.  process_load_binary rejects an image whose first four bytes are
    not the ELF magic, and an image whose first loadable segment has more
    bytes in the file than in memory: it returns -EINVAL and has not changed
    the kernel state; no memory has been asked for. *)
Theorem process_load_binary_rejects (proc : proc_ref) (binary : Elf32_Ehdr)
    (skipped : list Elf32_Phdr) (ph : Elf32_Phdr) (rest : list Elf32_Phdr)
    (me : cpu_id) (s : Kernel) :
  take 4 (ident binary) <> ELFMAG \/
  (phdrs binary = skipped ++ ph :: rest /\
   Forall (fun h => p_type h <> PT_LOAD) skipped /\
   p_type ph = PT_LOAD /\ p_memsz ph < p_filesz ph) ->
  process_load_binary proc binary me s = Return (- EINVAL) s.
Proof.
  intros Hbad. unfold process_load_binary.
  destruct (decide (take 4 (ident binary) = ELFMAG)) as [Hm|Hm].
  - destruct Hbad as [Hbad|(Hph & Hskip & Hty & Hsz)]; [done|].
    rewrite bool_decide_eq_true_2 by done. cbn [negb]. mrun.
    rewrite Hph. by rewrite load_segments_rejects.
  - by rewrite bool_decide_eq_false_2.
Qed.

Lemma load_segments_loads (proc : proc_ref) (elf : Elf32_Ehdr)
    (phs : list Elf32_Phdr) (me : cpu_id) (s : Kernel) :
  (forall v va n prot st, fst (vm_space_alloc v va n prot st) = va) ->
  (forall v va src n st, 0 <= fst (vm_space_copy_out v va src n st)) ->
  Forall (fun h => p_type h = PT_LOAD ->
            p_filesz h <= p_memsz h /\ 0 <= p_vaddr h <= INT_MAX) phs ->
  exists st,
    load_segments proc elf phs me s =
      Return None (set_vmstate (fun _ => st) s).
Proof.
  intros Halloc Hcopy Hall. revert s.
  induction Hall as [|h l Hh Hl IH]; intros s; cbn [load_segments].
  - exists (vmstate s). unfold ret. f_equal. by destruct s.
  - destruct (p_type h =? PT_LOAD) eqn:Et; cbn [negb].
    + apply Z.eqb_eq in Et. destruct (Hh Et) as (Hsz & Hva).
      assert (E1 : (p_memsz h <? p_filesz h) = false) by (apply Z.ltb_ge; lia).
      rewrite E1. unfold vm_alloc, vm_copy_out. mrun.
      rewrite Halloc.
      rewrite wrap_int_small by (unfold INT_MIN, INT_MAX in *; lia).
      assert (E2 : (p_vaddr h <? 0) = false) by (apply Z.ltb_ge; lia).
      rewrite E2.
      rewrite Z.eqb_refl. cbn [negb obind].
      match goal with |- context [fst ?r <? 0] =>
        assert (E3 : (fst r <? 0) = false)
          by (apply Z.ltb_ge; apply Hcopy);
        rewrite E3
      end.
      match goal with |- context [load_segments proc elf l me ?sx] =>
        destruct (IH sx) as (st & ->)
      end.
      exists st. f_equal.
    + apply IH.
Qed.

(** X29.  process_load_binary of a well-formed image whose segments and
    user stack lie at addresses that are not negative as an int, on a
    virtual-memory subsystem that grants every region at the address asked
    for and copies without error: the call returns 0 and the trap frame of the thread of
    the process starts the program at its entry point, in user mode, with
    the stack pointer at the top of the user stack and no arguments. *)
Theorem process_load_binary_loads (proc : proc_ref) (binary : Elf32_Ehdr)
    (me : cpu_id) (s : Kernel) (th : tid) :
  (forall v va n prot st, fst (vm_space_alloc v va n prot st) = va) ->
  (forall v va src n st, 0 <= fst (vm_space_copy_out v va src n st)) ->
  take 4 (ident binary) = ELFMAG ->
  Forall (fun h => p_type h = PT_LOAD ->
            p_filesz h <= p_memsz h /\ 0 <= p_vaddr h <= INT_MAX)
    (phdrs binary) ->
  0 <= VIRT_USTACK_TOP - USTACK_SIZE <= INT_MAX ->
  thread (the_proc proc s) = Some th ->
  exists s',
    process_load_binary proc binary me s = Return 0 s' /\
    r0 (tf (the_thread th s')) = 0 /\
    r1 (tf (the_thread th s')) = 0 /\
    r2 (tf (the_thread th s')) = 0 /\
    tf_sp (tf (the_thread th s')) = VIRT_USTACK_TOP /\
    psr (tf (the_thread th s')) = Z.lor PSR_M_USR PSR_F /\
    pc (tf (the_thread th s')) = entry binary /\
    (forall x, x <> th -> the_thread x s' = the_thread x s) /\
    procs s' = procs s /\ tasks s' = tasks s.
Proof.
  intros Halloc Hcopy Hm Hall Hstack Hth. unfold process_load_binary.
  rewrite bool_decide_eq_true_2 by done. cbn [negb]. mrun.
  destruct (load_segments_loads proc binary (phdrs binary) me s)
    as (st & ->); [done..|].
  mrun. unfold vm_alloc. mrun. rewrite Halloc.
  rewrite wrap_int_small by (unfold INT_MIN, INT_MAX in *; lia).
  assert (E : (VIRT_USTACK_TOP - USTACK_SIZE <? 0) = false)
    by (apply Z.ltb_ge; lia).
  rewrite E. cbn [c_bool c_true Z.eqb negb]. kframe. rewrite Hth. mrun.
  eexists. split; [reflexivity|].
  do 6 (split; [by ksimpl|]).
  split; [intros x Hx; by ksimpl|]. split; by kframe.
Qed.

(** ** Sleeping and waking, together *)

(** X30.  A task goes to sleep on a wait list with sched_sleep, giving up a
    lock; a CPU that holds the scheduler lock later finds it on the list and
    calls sched_wakeup_all with a result.  Then the task is ready, the list
    is empty, and when the task is switched back in with this result still
    in place, its call of sched_sleep returns the result, with the lock of
    the caller held again and the scheduler lock free. *)
Theorem sleep_wakeup_all_round_trip (q : ListRef) (timeout : Z)
    (l : LockRef) (me : cpu_id) (s : Kernel) (t : tid) :
  l <> SchedLock ->
  holding (the_lock l s) me = true ->
  locked (the_lock SchedLock s) = 0 ->
  cpu_task (the_cpu me s) = Some t ->
  exists s1 k,
    sched_sleep (Some q) timeout (Some l) me s = Switch s1 k /\
    t ∈ the_list q s1 /\
    state (the_task t s1) = TASK_STATE_SLEEPING /\
    forall (fuel : nat) (result : Z) (me2 : cpu_id) (my_task : tid)
           (s2 : Kernel),
      t ∈ the_list q s2 ->
      holding (the_lock SchedLock s2) me2 = true ->
      cpu_task (the_cpu me2 s2) = Some my_task ->
      (forall u, u ∈ the_list q s2 -> no_preempt s2 my_task u) ->
      (length (the_list q s2) < fuel)%nat ->
      exists s3,
        sched_wakeup_all fuel q result me2 s2 = Return tt s3 /\
        the_list q s3 = [] /\
        state (the_task t s3) = TASK_STATE_READY /\
        sleep_result (the_task t s3) = result /\
        forall (me' : cpu_id) (s4 : Kernel),
          sleep_result (the_task t s4) = sleep_result (the_task t s3) ->
          holding (the_lock SchedLock s4) me' = true ->
          locked (the_lock l s4) = 0 ->
          exists s5,
            k me' s4 = Return result s5 /\
            holding (the_lock l s5) me' = true /\
            locked (the_lock SchedLock s5) = 0.
Proof.
  intros Hne Hh Hl Hc.
  destruct (sched_sleep_switch q timeout l me s t Hne Hh Hl Hc)
    as (s1 & k & Hrun & S1 & S2 & _ & _ & _ & _ & _ & _ & Hk).
  exists s1, k. split; [exact Hrun|].
  split; [rewrite S2; apply elem_of_app; right; by apply list_elem_of_singleton|].
  split; [exact S1|].
  intros fuel result me2 my_task s2 Hin Hh2 Hc2 Hnp Hf.
  unfold sched_wakeup_all. mrun.
  rewrite spin_holding_blip. mrun. ksimpl. rewrite Hh2. mrun.
  destruct (sched_wakeup_all_loop_wakes fuel q result me2 my_task
              (irq_blip me2 s2))
    as (s3 & -> & Hempty & Hwoken & _).
  - by kframe.
  - by rewrite cpu_task_irq_blip.
  - intros u. kframe. intros Hu.
    apply (no_preempt_frame me2 s2); [apply sched_frame_irq_blip|by apply Hnp].
  - by kframe.
  - exists s3. split; [done|]. split; [done|].
    rewrite Hwoken by (by kframe). krec.
    split; [done|]. split; [done|].
    intros me' s4 Hres Hh4 Hl4.
    destruct (Hk me' s4 Hh4 Hl4) as (s5 & E & R1 & R2 & _).
    exists s5. rewrite E, Hres. done.
Qed.

(** ** Sleeping, and being woken with the others *)






End Properties.

(** * The theorems at work on concrete states *)

#[local] Existing Instance sample_platform.

Lemma sched_may_yield_cases_witness :
  exists s',
    sched_may_yield (H := sample_platform) 2%nat 0%nat (two_tasks 0)
      = Return tt s' /\
    tasks s' = tasks (two_tasks 0) /\
    sched_queue s' = sched_queue (two_tasks 0) /\
    lists s' = lists (two_tasks 0).
Proof.
  apply (sched_may_yield_cases (H := sample_platform) 2%nat 0%nat
           (two_tasks 0) 1%nat).
  - reflexivity.
  - reflexivity.
  - vm_compute. split; discriminate.
  - vm_compute. repeat split; discriminate.
Defined.

(** The flag is not set when the candidate has no higher priority: task 1,
    of priority 2, runs outside any ISR and the candidate has priority 5. *)
Lemma may_yield_claim_counterexample :
  ~ may_yield_claim (H := sample_platform).
Proof.
  intros Hclaim.
  specialize (Hclaim 2%nat 0%nat (two_tasks 0) 1%nat eq_refl eq_refl).
  vm_compute in Hclaim. congruence.
Qed.

Lemma sched_wakeup_one_spec_witness :
  let o := sched_wakeup_one (H := sample_platform) (ListAt 9) 7 0%nat
             three_sleepers in
  completes o /\
  exists l1 h l2,
    [3; 4; 5]%nat = l1 ++ h :: l2 /\
    (forall u, u ∈ l1 ->
       priority (the_task h three_sleepers)
         < priority (the_task u three_sleepers)) /\
    (forall u, u ∈ l2 ->
       priority (the_task h three_sleepers)
         <= priority (the_task u three_sleepers)) /\
    the_list (ListAt 9) (final o) = l1 ++ l2 /\
    sleep_result (the_task h (final o)) = 7 /\
    state (the_task h (final o)) = TASK_STATE_READY /\
    priority (the_task h (final o)) = priority (the_task h three_sleepers) /\
    flags (the_task h (final o)) = flags (the_task h three_sleepers) /\
    sleep_timer (the_task h (final o)) =
      sleep_timer (the_task h three_sleepers) /\
    task_cpu (the_task h (final o)) = task_cpu (the_task h three_sleepers) /\
    task_process (the_task h (final o)) =
      task_process (the_task h three_sleepers) /\
    task_kstack (the_task h (final o)) =
      task_kstack (the_task h three_sleepers) /\
    runqueue (Z.to_nat (priority (the_task h three_sleepers))) (final o) =
      unlink h
        (runqueue (Z.to_nat (priority (the_task h three_sleepers)))
           three_sleepers) ++ [h].
Proof.
  apply (sched_wakeup_one_spec (H := sample_platform) (ListAt 9) 7 0%nat
           three_sleepers).
  - reflexivity.
  - apply (bool_decide_unpack _). vm_compute. exact I.
  - intros t Ht. vm_compute in Ht.
    repeat (apply elem_of_cons in Ht as [->|Ht]);
      [vm_compute; repeat split; discriminate..|].
    by apply elem_of_nil in Ht.
Defined.

Lemma process_wait_bad_options_witness :
  exists s',
    process_wait (H := sample_platform) 1 5 (Some 4096) 4 0%nat (booted 0)
      = Return (- 22) s' /\
    procs s' = procs (booted 0) /\ umem s' = umem (booted 0) /\
    process_cache s' = process_cache (booted 0) /\
    locks s' = locks (booted 0) /\ tasks s' = tasks (booted 0) /\
    lists s' = lists (booted 0) /\
    sched_queue s' = sched_queue (booted 0).
Proof.
  apply (process_wait_bad_options (H := sample_platform) 1%nat 5
           (Some 4096) 4 0%nat (booted 0)).
  vm_compute. discriminate.
Defined.

(** The child 101 of the sample family exits with the status 42; its
    parent then waits for the PID 2 twice. *)
Lemma process_exit_then_wait_witness :
  let s := family 201 in
  let c_pid := pid (the_thread 201%nat s) in
  exists s1 k,
    process_destroy (H := sample_platform) 5 42 0%nat s = Switch s1 k /\
    (forall me' s', exists s'', k me' s' = Panic "should not return" s'') /\
    forall (n : nat) (me2 : cpu_id) (s2 : Kernel) (tp : tid) (stat_loc : Z),
      procs s2 = procs s1 -> threads s2 = threads s1 ->
      cpu_task (the_cpu me2 s2) = Some tp ->
      thread_process (the_thread tp s2) = Some 100%nat ->
      locked (the_lock ProcessLock s2) = 0 ->
      exists s3,
        process_wait (S n) c_pid (Some stat_loc) 0 me2 s2 = Return c_pid s3 /\
        umem s3 = <[stat_loc := 42]> (umem s2) /\
        process_cache s3 = 101%nat :: process_cache s2 /\
        forall (n' : nat) (me4 : cpu_id) (s4 : Kernel) (tp4 : tid)
               (stat_loc' : option Z),
          procs s4 = procs s3 -> threads s4 = threads s3 ->
          cpu_task (the_cpu me4 s4) = Some tp4 ->
          thread_process (the_thread tp4 s4) = Some 100%nat ->
          locked (the_lock ProcessLock s4) = 0 ->
          exists s5,
            process_wait (S n') c_pid stat_loc' 0 me4 s4
              = Return (- ECHILD) s5 /\
            umem s5 = umem s4.
Proof.
  apply (process_exit_then_wait (H := sample_platform) 5 42 0%nat
           (family 201) 201%nat 101%nat 100%nat 100%nat).
  - reflexivity.
  - reflexivity.
  - reflexivity.
  - reflexivity.
  - apply (bool_decide_unpack _). vm_compute. exact I.
  - reflexivity.
  - intros x Hx. exists 201%nat.
    assert (x = 101%nat) as ->.
    { destruct Hx as [Hx|Hx]; vm_compute in Hx.
      - apply elem_of_cons in Hx as [->|Hx]; [done|by apply elem_of_nil in Hx].
      - by apply elem_of_nil in Hx. }
    split; reflexivity.
  - reflexivity.
  - discriminate.
  - apply (bool_decide_unpack _). vm_compute. exact I.
  - reflexivity.
  - reflexivity.
  - reflexivity.
  - vm_compute. lia.
  - intros chan Hchan. assert (chan = 100%nat) as -> by (by destruct Hchan).
    split; [vm_compute; lia|].
    intros t Ht. vm_compute in Ht. by apply elem_of_nil in Ht.
Defined.

(** The parent of the sample family polls for the PID 2 while the child
    runs. *)
Lemma process_wait_nohang_witness :
  exists s',
    process_wait (H := sample_platform) 1
      (pid (the_thread 201%nat (family 200))) (Some 4096) WNOHANG
      0%nat (family 200) = Return 0 s' /\
    umem s' = umem (family 200) /\ procs s' = procs (family 200) /\
    process_cache s' = process_cache (family 200).
Proof.
  apply (process_wait_nohang (H := sample_platform) 0 0%nat (family 200)
           200%nat 100%nat 101%nat 201%nat 4096).
  - discriminate.
  - reflexivity.
  - reflexivity.
  - reflexivity.
  - reflexivity.
  - apply (bool_decide_unpack _). vm_compute. exact I.
  - reflexivity.
  - reflexivity.
  - intros c Hc. exists 201%nat.
    assert (c = 101%nat) as ->.
    { vm_compute in Hc.
      apply elem_of_cons in Hc as [->|Hc]; [done|by apply elem_of_nil in Hc]. }
    split; reflexivity.
Defined.

(** The parent of the sample family forks: the child is the process 102,
    with the thread 202 and the PID 3. *)
Lemma process_copy_spec_witness :
  let s := family 200 in
  let child_pid := next_pid s + 1 in
  exists s1,
    thread (the_proc 102%nat s1) = Some 202%nat /\
    parent (the_proc 102%nat s1) = Some 100%nat /\
    thread (the_proc 100%nat s1) = Some 200%nat /\
    tf (the_thread 200%nat s1) = tf (the_thread 200%nat s) /\
    r0 (tf (the_thread 202%nat s1)) = 0 /\
    r1 (tf (the_thread 202%nat s1)) = r1 (tf (the_thread 200%nat s)) /\
    r2 (tf (the_thread 202%nat s1)) = r2 (tf (the_thread 200%nat s)) /\
    tf_sp (tf (the_thread 202%nat s1)) = tf_sp (tf (the_thread 200%nat s)) /\
    psr (tf (the_thread 202%nat s1)) = psr (tf (the_thread 200%nat s)) /\
    pc (tf (the_thread 202%nat s1)) = pc (tf (the_thread 200%nat s)) /\
    tf_other (tf (the_thread 202%nat s1)) =
      tf_other (tf (the_thread 200%nat s)) /\
    pid (the_thread 202%nat s1) = child_pid /\
    0 < child_pid /\
    (process_copy 0%nat s = Return child_pid s1 \/
     exists k, process_copy 0%nat s = Switch s1 k /\
       forall me' s',
         holding (the_lock SchedLock s') me' = true ->
         pid (the_thread 202%nat s') = child_pid ->
         exists s'', k me' s' = Return child_pid s'' /\
           threads s'' = threads s' /\ procs s'' = procs s').
Proof.
  apply (process_copy_spec (H := sample_platform) 0%nat (family 200)
           200%nat 100%nat 102%nat 200%nat 202%nat 300%nat [] []
           [301; 302]%nat 0%nat 0%nat).
  - reflexivity.
  - reflexivity.
  - reflexivity.
  - reflexivity.
  - reflexivity.
  - reflexivity.
  - discriminate.
  - discriminate.
  - discriminate.
  - reflexivity.
  - reflexivity.
  - reflexivity.
  - vm_compute. split; [discriminate|reflexivity].
  - reflexivity.
Defined.

(** C1, where the code departs from it.  After boot, with free objects in
    every cache and no memory left for an address space, process_alloc
    succeeds and process_setup_vm returns -ENOMEM, that is -12.  process_create
    frees the process and returns 1, not -12, and stores nothing. *)
Theorem process_create_returns_one :
  process_setup_vm 100%nat 0%nat
      (final (process_alloc 0%nat (booted 0))) =
    Return (- ENOMEM)
      (final (process_setup_vm 100%nat 0%nat
                (final (process_alloc 0%nat (booted 0))))) /\
  exists s',
    process_create sample_elf true 0%nat (booted 0) = Return (1, None) s' /\
    process_cache s' = process_cache (booted 0).
Proof.
  split; [vm_compute; reflexivity|].
  eexists. split.
  - apply (process_create_setup_vm_fails (H := sample_platform) sample_elf
             true 0%nat (booted 0) 100%nat
             (final (process_alloc 0%nat (booted 0))) (- ENOMEM)
             (final (process_setup_vm 100%nat 0%nat
                       (final (process_alloc 0%nat (booted 0)))))).
    + vm_compute. reflexivity.
    + vm_compute. reflexivity.
    + reflexivity.
  - vm_compute. reflexivity.
Qed.

(** ** The thread of a zombie is reused *)

Lemma switch_final {A} (o : Outcome A) :
  match o with Switch _ _ => True | _ => False end ->
  exists k, o = Switch (final o) k.
Proof. destruct o; try done. intros _. by eexists. Qed.

Lemma household_history_holds : household_history.
Proof.
  split; [reflexivity|].
  split.
  { unfold exited.
    apply (switch_final (process_destroy 5 42 0%nat household)).
    vm_compute. exact I. }
  do 3 (split; [vm_compute; reflexivity|]).
  vm_compute. reflexivity.
Qed.

(** C2, where the code departs from it.  The child of PID 2 exits with the
    status 42 and is a zombie child of its parent; the scheduler frees its
    thread object, and the fork that the parent does next takes this object
    for the new child, of PID 3.  process_wait reads the PID of a child
    through its thread: the parent that now waits for the PID 2 with a
    status pointer gets -ECHILD and no status, though the zombie is still
    its child. *)
Theorem process_wait_misses_zombie :
  household_history /\
  children (the_proc 100%nat forked) = [101; 102]%nat /\
  zombie (the_proc 101%nat forked) = 1 /\
  exit_code (the_proc 101%nat forked) = 42 /\
  thread (the_proc 101%nat forked) = Some 201%nat /\
  thread (the_proc 102%nat forked) = Some 201%nat /\
  pid (the_thread 201%nat forked) = 3 /\
  exists s',
    process_wait 1 2 (Some 4096) 0 0%nat forked = Return (- ECHILD) s' /\
    umem s' !! 4096 = None /\
    children (the_proc 100%nat s') = [101; 102]%nat.
Proof.
  split; [exact household_history_holds|].
  do 6 (split; [vm_compute; reflexivity|]).
  eexists. split; [vm_compute; reflexivity|].
  split; [vm_compute; reflexivity|].
  vm_compute. reflexivity.
Qed.

(** C8, where the code departs from it.  In the same history the new child,
    of PID 3, is alive, and the parent polls for it with WNOHANG and a status
    pointer.  The zombie in front of it in the list of children reads the
    same PID through the thread object it has lost: process_wait reaps the
    zombie, returns 3 and stores the status 42 of the zombie through the
    pointer, where it should return 0 and store nothing. *)
Theorem process_wait_nohang_reaps_other :
  household_history /\
  children (the_proc 100%nat forked) = [101; 102]%nat /\
  thread (the_proc 102%nat forked) = Some 201%nat /\
  pid (the_thread 201%nat forked) = 3 /\
  zombie (the_proc 102%nat forked) = 0 /\
  umem forked !! 4096 = None /\
  exists s',
    process_wait 1 3 (Some 4096) WNOHANG 0%nat forked = Return 3 s' /\
    umem s' !! 4096 = Some 42 /\
    children (the_proc 100%nat s') = [102%nat] /\
    zombie (the_proc 102%nat s') = 0.
Proof.
  split; [exact household_history_holds|].
  do 5 (split; [vm_compute; reflexivity|]).
  eexists. split; [vm_compute; reflexivity|].
  do 2 (split; [vm_compute; reflexivity|]).
  vm_compute. reflexivity.
Qed.

(** * The further theorems at work on concrete states *)

(** Five bytes are offered to the empty sample mailbox, whose messages have
    four bytes. *)
Lemma mailbox_send_receive_witness :
  let s1 := final (k_mailbox_try_send (Some 7%nat) five_bytes 0%nat
                     (with_box empty_box)) in
  exists s2,
    size (the_mailbox 7%nat s2) = 0 /\
    (k_mailbox_try_receive (Some 7%nat) 0%nat s1
       = Return (0, Some [Byte.x01; Byte.x02; Byte.x03; Byte.x04]) s2 \/
     exists k,
       k_mailbox_try_receive (Some 7%nat) 0%nat s1 = Switch s2 k /\
       forall me' s',
         holding (the_lock SchedLock s') me' = true ->
         holding (the_lock (MailBoxLock 7%nat) s') me' = true ->
         exists s'',
           k me' s' = Return (0, Some [Byte.x01; Byte.x02; Byte.x03; Byte.x04])
                        s'' /\
           mailboxes s'' = mailboxes s').
Proof.
  apply (mailbox_send_receive (H := sample_platform) 7%nat five_bytes 0%nat
           (with_box empty_box)).
  - reflexivity.
  - reflexivity.
  - reflexivity.
  - vm_compute. repeat split; try discriminate.
    exists 0. repeat split; discriminate.
  - reflexivity.
  - vm_compute. discriminate.
  - vm_compute. reflexivity.
Defined.

(** Five bytes are sent to the sample mailbox that holds one message. *)
Lemma mailbox_send_enqueues_witness :
  let s := with_box one_message_box in
  ends (k_mailbox_try_send (Some 7%nat) five_bytes 0%nat s) 0
    (fun s1 =>
       mailbox_ok (the_mailbox 7%nat s1) /\
       contents (the_mailbox 7%nat s1) =
         contents (the_mailbox 7%nat s)
           ++ [take (Z.to_nat (msg_size (the_mailbox 7%nat s))) five_bytes] /\
       forall m, m <> 7%nat -> the_mailbox m s1 = the_mailbox m s)
    (fun me' s' =>
       holding (the_lock SchedLock s') me' = true /\
       holding (the_lock (MailBoxLock 7%nat) s') me' = true)
    (fun s' s'' => mailboxes s'' = mailboxes s').
Proof.
  apply (mailbox_send_enqueues (H := sample_platform) 7%nat five_bytes 0%nat
           (with_box one_message_box)).
  - reflexivity.
  - reflexivity.
  - reflexivity.
  - vm_compute. repeat split; try discriminate.
    exists 0. repeat split; discriminate.
  - reflexivity.
  - reflexivity.
  - vm_compute. discriminate.
Defined.

(** The full sample mailbox gives its two messages, the oldest first. *)
Lemma mailbox_receive_dequeues_witness :
  let s := with_box full_box in
  exists oldest rest,
    contents (the_mailbox 7%nat s) = oldest :: rest /\
    ends (k_mailbox_try_receive (Some 7%nat) 0%nat s) (0, Some oldest)
      (fun s1 =>
         mailbox_ok (the_mailbox 7%nat s1) /\
         contents (the_mailbox 7%nat s1) = rest /\
         forall m, m <> 7%nat -> the_mailbox m s1 = the_mailbox m s)
      (fun me' s' =>
         holding (the_lock SchedLock s') me' = true /\
         holding (the_lock (MailBoxLock 7%nat) s') me' = true)
      (fun s' s'' => mailboxes s'' = mailboxes s').
Proof.
  apply (mailbox_receive_dequeues (H := sample_platform) 7%nat 0%nat
           (with_box full_box)).
  - reflexivity.
  - reflexivity.
  - reflexivity.
  - vm_compute. repeat split; try discriminate.
    exists 1. repeat split; discriminate.
  - reflexivity.
  - reflexivity.
Defined.

(** The full sample mailbox takes no message, the empty one gives none. *)
Lemma mailbox_would_block_witness :
  (exists s1,
     k_mailbox_try_send (Some 7%nat) five_bytes 0%nat (with_box full_box)
       = Return (- EAGAIN) s1 /\
     mailboxes s1 = mailboxes (with_box full_box) /\
     lists s1 = lists (with_box full_box) /\
     locked (the_lock (MailBoxLock 7%nat) s1) = 0) /\
  (exists s1,
     k_mailbox_try_receive (Some 7%nat) 0%nat (with_box empty_box)
       = Return (- EAGAIN, None) s1 /\
     mailboxes s1 = mailboxes (with_box empty_box) /\
     lists s1 = lists (with_box empty_box) /\
     locked (the_lock (MailBoxLock 7%nat) s1) = 0).
Proof.
  split.
  - apply (mailbox_would_block (H := sample_platform) 7%nat five_bytes 0%nat
             (with_box full_box)); reflexivity.
  - apply (mailbox_would_block (H := sample_platform) 7%nat five_bytes 0%nat
             (with_box empty_box)); reflexivity.
Defined.

(** A ring of two messages of four bytes is set up in nine bytes. *)
Lemma mailbox_init_empty_witness :
  exists s1,
    k_mailbox_init_common 7%nat 4 (replicate 9 Byte.x00) 9 0%nat (booted 0)
      = Return tt s1 /\
    mailbox_ok (the_mailbox 7%nat s1) /\
    capacity (the_mailbox 7%nat s1) = 9 / 4 /\
    msg_size (the_mailbox 7%nat s1) = 4 /\
    contents (the_mailbox 7%nat s1) = [] /\
    forall m, m <> 7%nat -> the_mailbox m s1 = the_mailbox m (booted 0).
Proof.
  apply (mailbox_init_empty (H := sample_platform) 7%nat 4
           (replicate 9 Byte.x00) 9 0%nat (booted 0)).
  - split; [reflexivity|discriminate].
  - vm_compute. discriminate.
Defined.

(** CPU 0 takes the free scheduler lock two calls deep. *)
Lemma spin_lock_acquires_witness :
  exists s',
    spin_lock SchedLock 0%nat two_frames = Return tt s' /\
    locked (the_lock SchedLock s') = 1 /\
    lock_cpu (the_lock SchedLock s') = Some 0%nat /\
    (forall c, holding (the_lock SchedLock s') c = bool_decide (c = 0%nat)) /\
    length (pcs (the_lock SchedLock s')) = NCALLERPCS /\
    (forall i, (i < NCALLERPCS)%nat ->
       pcs_at (the_lock SchedLock s') i =
         default 0 (fp_chain (the_cpu 0%nat two_frames) !! i)) /\
    forall l, l <> SchedLock -> the_lock l s' = the_lock l two_frames.
Proof.
  apply (spin_lock_acquires (H := sample_platform) SchedLock 0%nat
           two_frames).
  reflexivity.
Defined.

(** CPU 1 asks for the scheduler lock that CPU 0 holds. *)
Lemma spin_lock_waits_witness :
  exists s' k,
    spin_lock SchedLock 1%nat (two_tasks 0) = Spin SchedLock s' k /\
    locks s' = locks (two_tasks 0) /\
    holding (the_lock SchedLock s') 0%nat = true /\
    forall s'', locked (the_lock SchedLock s'') = 0 ->
      exists s3,
        k s'' = Return tt s3 /\
        holding (the_lock SchedLock s3) 1%nat = true /\
        forall l, l <> SchedLock -> the_lock l s3 = the_lock l s''.
Proof.
  apply (spin_lock_waits (H := sample_platform) SchedLock 0%nat 1%nat
           (two_tasks 0)).
  - reflexivity.
  - discriminate.
Defined.

(** The scheduler takes the only ready task. *)
Lemma sched_dequeue_spec_witness :
  exists r s',
    sched_dequeue 0%nat one_ready = Return r s' /\
    tasks s' = tasks one_ready /\ locks s' = locks one_ready /\
    match r with
    | None =>
        (forall j, (j < TASK_MAX_PRIORITIES)%nat -> runqueue j one_ready = [])
        /\ sched_queue s' = sched_queue one_ready /\
        lists s' = lists one_ready
    | Some t =>
        exists j rest,
          (j < TASK_MAX_PRIORITIES)%nat /\
          runqueue j one_ready = t :: rest /\
          (forall j', (j' < j)%nat -> runqueue j' one_ready = []) /\
          (forall i, runqueue i s' = unlink t (runqueue i one_ready)) /\
          (runqueues_ok one_ready ->
           forall i u, (i < TASK_MAX_PRIORITIES)%nat ->
             u ∈ runqueue i one_ready ->
             priority (the_task t one_ready)
               <= priority (the_task u one_ready))
    end.
Proof.
  apply (sched_dequeue_spec (H := sample_platform) 0%nat one_ready).
  reflexivity.
Defined.

(** Task 2, of priority 5, is made ready. *)
Lemma sched_enqueue_spec_witness :
  let s := two_tasks 0 in
  let p := Z.to_nat (priority (the_task 2%nat s)) in
  exists s',
    sched_enqueue 2%nat 0%nat s = Return tt s' /\
    the_task 2%nat s' = set_state TASK_STATE_READY (the_task 2%nat s) /\
    state (the_task 2%nat s') = TASK_STATE_READY /\
    (forall t, t <> 2%nat -> the_task t s' = the_task t s) /\
    runqueue p s' = runqueue p s ++ [2%nat] /\
    (forall i, i <> p -> runqueue i s' = runqueue i s) /\
    lists s' = lists s /\
    (runqueues_ok s -> runqueues_ok s').
Proof.
  apply (sched_enqueue_spec (H := sample_platform) 2%nat 0%nat (two_tasks 0)).
  - reflexivity.
  - vm_compute. split; [discriminate|reflexivity].
Defined.

(** An interrupt arrives while task 1 runs on CPU 0. *)
Lemma isr_enter_exit_witness :
  let s := two_frames in
  let n := isr_nesting (the_cpu 0%nat s) in
  exists s1 s2,
    sched_isr_enter 0%nat s = Return tt s1 /\
    isr_nesting (the_cpu 0%nat s1) = n + 1 /\
    sched_isr_exit 0%nat s1 = Return tt s2 /\
    isr_nesting (the_cpu 0%nat s2) = n /\
    cpu_task (the_cpu 0%nat s2) = cpu_task (the_cpu 0%nat s) /\
    tasks s2 = tasks s /\ sched_queue s2 = sched_queue s /\
    lists s2 = lists s /\
    locked (the_lock SchedLock s2) = 0.
Proof.
  apply (isr_enter_exit (H := sample_platform) 0%nat two_frames).
  - reflexivity.
  - vm_compute. split; [discriminate|reflexivity].
  - intros _ t Ht. vm_compute in Ht. injection Ht as <-. reflexivity.
Defined.

(** The ISR that interrupted task 1 ends with a reschedule pending. *)
Lemma sched_isr_exit_reschedules_witness :
  let s := in_isr_flagged in
  let p := Z.to_nat (priority (the_task 1%nat s)) in
  exists s1 k,
    sched_isr_exit 0%nat s = Switch s1 k /\
    isr_nesting (the_cpu 0%nat s1) = 0 /\
    holding (the_lock SchedLock s1) 0%nat = true /\
    the_task 1%nat s1 =
      set_state TASK_STATE_READY
        (set_flags (Z.land (flags (the_task 1%nat s))
                      (Z.lnot TASK_FLAGS_RESCHEDULE)) (the_task 1%nat s)) /\
    Z.land (flags (the_task 1%nat s1)) TASK_FLAGS_RESCHEDULE = 0 /\
    state (the_task 1%nat s1) = TASK_STATE_READY /\
    runqueue p s1 = runqueue p s ++ [1%nat] /\
    (forall i, i <> p -> runqueue i s1 = runqueue i s) /\
    forall me' s', holding (the_lock SchedLock s') me' = true ->
      exists s'', k me' s' = Return tt s'' /\
        locked (the_lock SchedLock s'') = 0 /\
        tasks s'' = tasks s' /\ sched_queue s'' = sched_queue s'.
Proof.
  apply (sched_isr_exit_reschedules (H := sample_platform) 0%nat
           in_isr_flagged 1%nat).
  - reflexivity.
  - reflexivity.
  - reflexivity.
  - vm_compute. discriminate.
  - vm_compute. split; [discriminate|reflexivity].
Defined.

(** The three sleepers of the sample state are woken with the result 7. *)
Lemma sched_wakeup_all_wakes_witness :
  let s := three_sleepers in
  exists s',
    sched_wakeup_all 4 (ListAt 9) 7 0%nat s = Return tt s' /\
    the_list (ListAt 9) s' = [] /\
    (forall t, t ∈ the_list (ListAt 9) s ->
       sleep_result (the_task t s') = 7 /\
       state (the_task t s') = TASK_STATE_READY /\
       priority (the_task t s') = priority (the_task t s)) /\
    (forall t, t ∉ the_list (ListAt 9) s -> the_task t s' = the_task t s) /\
    (forall q' t, t ∈ the_list q' s' -> t ∈ the_list q' s) /\
    locks s' = locks s.
Proof.
  apply (sched_wakeup_all_wakes (H := sample_platform) 4 (ListAt 9) 7 0%nat
           1%nat three_sleepers).
  - reflexivity.
  - reflexivity.
  - intros t Ht. vm_compute in Ht.
    repeat (apply elem_of_cons in Ht as [->|Ht]); [reflexivity..|].
    by apply elem_of_nil in Ht.
  - vm_compute. lia.
Defined.

(** The sleep timer of task 3 of the sample state fires. *)
Lemma task_sleep_callback_wakes_witness :
  let s := sleepers_unlocked in
  ends (task_sleep_callback 3%nat 0%nat s) tt
    (fun s1 =>
       sleep_result (the_task 3%nat s1) = - ETIMEDOUT /\
       state (the_task 3%nat s1) = TASK_STATE_READY /\
       (forall q, 3%nat ∉ the_list q s1) /\
       3%nat ∈ runqueue (Z.to_nat (priority (the_task 3%nat s))) s1)
    (fun me' s' => holding (the_lock SchedLock s') me' = true)
    (fun s' s'' =>
       tasks s'' = tasks s' /\ lists s'' = lists s' /\
       sched_queue s'' = sched_queue s' /\
       locked (the_lock SchedLock s'') = 0).
Proof.
  apply (task_sleep_callback_wakes (H := sample_platform) 3%nat 0%nat
           sleepers_unlocked).
  - reflexivity.
  - reflexivity.
  - vm_compute. discriminate.
  - vm_compute. split; [discriminate|reflexivity].
Defined.

(** A timer left over for the running task of the sample state. *)
Lemma task_sleep_callback_stale_witness :
  let s := sleepers_unlocked in
  exists s1,
    task_sleep_callback 1%nat 0%nat s = Return tt s1 /\
    tasks s1 = tasks s /\ lists s1 = lists s /\
    sched_queue s1 = sched_queue s /\
    locked (the_lock SchedLock s1) = 0 /\
    forall l, l <> SchedLock -> the_lock l s1 = the_lock l s.
Proof.
  apply (task_sleep_callback_stale (H := sample_platform) 1%nat 0%nat
           sleepers_unlocked).
  - reflexivity.
  - vm_compute. discriminate.
Defined.

(** Task 3 of the sample state sleeps: it cannot be resumed. *)
Lemma task_resume_not_suspended_witness :
  let s := sleepers_unlocked in
  exists s1,
    task_resume 3%nat 0%nat s = Return (- EINVAL) s1 /\
    tasks s1 = tasks s /\ lists s1 = lists s /\
    sched_queue s1 = sched_queue s /\
    locked (the_lock SchedLock s1) = 0 /\
    forall l, l <> SchedLock -> the_lock l s1 = the_lock l s.
Proof.
  apply (task_resume_not_suspended (H := sample_platform) 3%nat 0%nat
           sleepers_unlocked).
  - reflexivity.
  - vm_compute. discriminate.
Defined.

(** Task 6 of the sample state is resumed. *)
Lemma task_resume_enqueues_witness :
  let s := one_suspended in
  ends (task_resume 6%nat 0%nat s) 0
    (fun s1 =>
       state (the_task 6%nat s1) = TASK_STATE_READY /\
       priority (the_task 6%nat s1) = priority (the_task 6%nat s) /\
       6%nat ∈ runqueue (Z.to_nat (priority (the_task 6%nat s))) s1 /\
       (forall i t, t ∈ runqueue i s -> t ∈ runqueue i s1) /\
       lists s1 = lists s)
    (fun me' s' => holding (the_lock SchedLock s') me' = true)
    (fun s' s'' =>
       tasks s'' = tasks s' /\ lists s'' = lists s' /\
       sched_queue s'' = sched_queue s' /\
       locked (the_lock SchedLock s'') = 0).
Proof.
  apply (task_resume_enqueues (H := sample_platform) 6%nat 0%nat
           one_suspended).
  - reflexivity.
  - reflexivity.
  - vm_compute. discriminate.
  - vm_compute. split; [discriminate|reflexivity].
Defined.

(** Task 1 of the sample state goes to sleep for 50 ticks at most. *)
Lemma sched_sleep_spec_witness :
  let s := about_to_sleep in
  let t := 1%nat in
  let l := LockAt 4 in
  exists s1 k,
    sched_sleep (Some (ListAt 9)) 50 (Some l) 0%nat s = Switch s1 k /\
    state (the_task t s1) = TASK_STATE_SLEEPING /\
    the_list (ListAt 9) s1 = the_list (ListAt 9) s ++ [t] /\
    (forall q', q' <> ListAt 9 -> the_list q' s1 = the_list q' s) /\
    sched_queue s1 = sched_queue s /\
    locked (the_lock l s1) = 0 /\
    holding (the_lock SchedLock s1) 0%nat = true /\
    (50 <> 0 ->
       remain (sleep_timer (the_task t s1)) = 50 /\
       trace s1 = trace s ++ [EvTimerStart t]) /\
    (50 = 0 -> trace s1 = trace s) /\
    forall me' s',
      holding (the_lock SchedLock s') me' = true ->
      locked (the_lock l s') = 0 ->
      exists s'',
        k me' s' = Return (sleep_result (the_task t s')) s'' /\
        holding (the_lock l s'') me' = true /\
        locked (the_lock SchedLock s'') = 0 /\
        tasks s'' = tasks s' /\ lists s'' = lists s' /\
        sched_queue s'' = sched_queue s' /\
        trace s'' = trace s' ++ (if 50 =? 0 then [] else [EvTimerStop t]).
Proof.
  apply (sched_sleep_spec (H := sample_platform) (ListAt 9) 50 (LockAt 4)
           0%nat about_to_sleep 1%nat).
  - discriminate.
  - reflexivity.
  - reflexivity.
  - reflexivity.
Defined.

(** Task 1 of the sample state exits and the scheduler reclaims it. *)
Lemma task_exit_reclaimed_witness :
  let s := with_stack in
  let t := 1%nat in
  exists s1 k s2,
    task_exit 0%nat s = Switch s1 k /\
    state (the_task t s1) = TASK_STATE_DESTROYED /\
    holding (the_lock SchedLock s1) 0%nat = true /\
    trace s1 = trace s ++ [EvTimerDestroy t] /\
    (forall me' s', exists s'', k me' s' = Panic "should not return" s'') /\
    sched_start_return t 0%nat s1 = Return tt s2 /\
    cpu_task (the_cpu 0%nat s2) = None /\
    state (the_task t s2) = TASK_STATE_NONE /\
    task_cpu (the_task t s2) = None /\
    free_pages s2 = 310%nat :: free_pages s /\
    thread_cache s2 = t :: thread_cache s /\
    ref_count (page_refs s2) 310%nat =
      wrap_int (ref_count (page_refs s) 310%nat - 1) /\
    holding (the_lock SchedLock s2) 0%nat = true /\
    (forall u, u <> t -> the_task u s2 = the_task u s) /\
    sched_queue s2 = sched_queue s /\ lists s2 = lists s.
Proof.
  apply (task_exit_reclaimed (H := sample_platform) 0%nat with_stack 1%nat
           310%nat).
  - reflexivity.
  - reflexivity.
  - reflexivity.
Defined.

(** The scheduler of CPU 0 picks task 2 of the sample state. *)
Lemma sched_start_dispatch_spec_witness :
  let s := one_ready in
  exists r s',
    sched_start_dispatch 0%nat s = Return r s' /\
    holding (the_lock SchedLock s') 0%nat = true /\
    match r with
    | Some n =>
        exists j rest,
          (j < TASK_MAX_PRIORITIES)%nat /\
          runqueue j s = n :: rest /\
          (forall j', (j' < j)%nat -> runqueue j' s = []) /\
          state (the_task n s') = TASK_STATE_RUNNING /\
          task_cpu (the_task n s') = Some 0%nat /\
          cpu_task (the_cpu 0%nat s') = Some n /\
          (forall i, runqueue i s' = unlink n (runqueue i s)) /\
          (forall q, the_list q s' = unlink n (the_list q s)) /\
          (forall u, u <> n -> the_task u s' = the_task u s)
    | None =>
        (forall j, (j < TASK_MAX_PRIORITIES)%nat -> runqueue j s = []) /\
        trace s' = trace s ++ [EvWaitForInterrupt] /\
        tasks s' = tasks s /\ sched_queue s' = sched_queue s /\
        lists s' = lists s /\
        cpu_task (the_cpu 0%nat s') = cpu_task (the_cpu 0%nat s)
    end.
Proof.
  apply (sched_start_dispatch_spec (H := sample_platform) 0%nat one_ready).
  - reflexivity.
  - apply (bool_decide_unpack _). vm_compute. exact I.
Defined.

(** Task 1 of the sample state yields: it queues up behind task 4. *)
Lemma task_yield_spec_witness :
  let s := two_equals in
  let c := 1%nat in
  let p := Z.to_nat (priority (the_task c s)) in
  exists s1 k,
    task_yield 0%nat s = Switch s1 k /\
    the_task c s1 = set_state TASK_STATE_READY (the_task c s) /\
    state (the_task c s1) = TASK_STATE_READY /\
    runqueue p s1 = runqueue p s ++ [c] /\
    (forall i, i <> p -> runqueue i s1 = runqueue i s) /\
    (forall u, u <> c -> the_task u s1 = the_task u s) /\
    lists s1 = lists s /\
    holding (the_lock SchedLock s1) 0%nat = true /\
    forall me' s',
      holding (the_lock SchedLock s') me' = true ->
      exists s'',
        k me' s' = Return tt s'' /\
        locked (the_lock SchedLock s'') = 0 /\
        tasks s'' = tasks s' /\ sched_queue s'' = sched_queue s' /\
        lists s'' = lists s'.
Proof.
  apply (task_yield_spec (H := sample_platform) 0%nat two_equals 1%nat).
  - reflexivity.
  - reflexivity.
  - vm_compute. split; [discriminate|reflexivity].
Defined.

(** The init process of the sample state waits for its process group,
    though its child is a zombie. *)
Lemma process_wait_group_witness :
  let s := family_zombie in
  exists s',
    process_wait 1 0 None 0 0%nat s = Return (- ECHILD) s' /\
    procs s' = procs s /\ umem s' = umem s /\
    process_cache s' = process_cache s /\
    locked (the_lock ProcessLock s') = 0.
Proof.
  apply (process_wait_group (H := sample_platform) 0 0 None 0 0%nat
           family_zombie 200%nat 100%nat).
  - left. reflexivity.
  - reflexivity.
  - reflexivity.
  - reflexivity.
  - reflexivity.
Defined.

(** The init process of the sample state waits for any child and reaps the
    zombie. *)
Lemma process_wait_any_witness :
  let s := family_zombie in
  exists s',
    process_wait 1 (-1) (Some 4096) 0 0%nat s =
      Return (pid (the_thread 201%nat s)) s' /\
    umem s' = <[4096 := exit_code (the_proc 101%nat s)]> (umem s) /\
    process_cache s' = 101%nat :: process_cache s /\
    children (the_proc 100%nat s') = unlink 101%nat ([] ++ 101%nat :: []) /\
    (forall x, exit_code (the_proc x s') = exit_code (the_proc x s) /\
               zombie (the_proc x s') = zombie (the_proc x s)) /\
    locked (the_lock ProcessLock s') = 0.
Proof.
  apply (process_wait_any (H := sample_platform) 0 4096 0 0%nat
           family_zombie 200%nat 100%nat [] [] 101%nat 201%nat).
  - reflexivity.
  - reflexivity.
  - reflexivity.
  - reflexivity.
  - reflexivity.
  - constructor.
  - reflexivity.
  - vm_compute. discriminate.
Defined.

(** The process 101 of the sample state exits: the init process adopts its
    children 102 and 103. *)
Lemma process_destroy_orphans_witness :
  let s := clan in
  let kids := children (the_proc 101%nat s) in
  exists s1 k,
    process_destroy 5 42 0%nat s = Switch s1 k /\
    zombie (the_proc 101%nat s1) = 1 /\
    children (the_proc 101%nat s1) = [] /\
    children (the_proc 100%nat s1) =
      filter (fun x => x ∉ kids) (children (the_proc 100%nat s)) ++ kids /\
    (forall x, x ∈ kids -> parent (the_proc x s1) = Some 100%nat) /\
    (forall x, x ∉ kids -> parent (the_proc x s1) = parent (the_proc x s)).
Proof.
  apply (process_destroy_orphans (H := sample_platform) 5 42 0%nat clan
           201%nat 101%nat 100%nat 100%nat).
  - reflexivity.
  - reflexivity.
  - reflexivity.
  - reflexivity.
  - reflexivity.
  - discriminate.
  - apply (bool_decide_unpack _). vm_compute. exact I.
  - apply (bool_decide_unpack _). vm_compute. exact I.
  - reflexivity.
  - reflexivity.
  - reflexivity.
  - vm_compute. lia.
  - intros chan Hchan. assert (chan = 100%nat) as -> by (by destruct Hchan).
    split; [vm_compute; lia|].
    intros t Ht. vm_compute in Ht. by apply elem_of_nil in Ht.
Defined.

(** process_alloc without a free page for the kernel stack. *)
Lemma process_alloc_unwinds_witness :
  let s := no_pages in
  exists s',
    process_alloc 0%nat s = Return None s' /\
    process_cache s' = process_cache s /\
    thread_cache s' = thread_cache s /\
    free_pages s' = free_pages s /\
    page_refs s' = page_refs s /\
    next_pid s' = next_pid s /\ pid_hash s' = pid_hash s /\
    locks s' = locks s /\ tasks s' = tasks s.
Proof.
  apply (process_alloc_unwinds (H := sample_platform) 0%nat no_pages).
  right. right. reflexivity.
Defined.

(** The booted kernel creates its first process and looks it up. *)
Lemma process_alloc_lookup_witness :
  let s := booted 1 in
  exists sa sb,
    process_alloc 0%nat s = Return (Some 100%nat) sa /\
    pid_lookup (next_pid s + 1) 0%nat sa = Return (Some 100%nat) sb /\
    procs sb = procs sa /\ threads sb = threads sa /\
    pid_hash sb = pid_hash sa /\
    locked (the_lock PidHashLock sb) = 0.
Proof.
  apply (process_alloc_lookup (H := sample_platform) 0%nat (booted 1)
           100%nat 200%nat 300%nat [101; 102]%nat [201; 202]%nat
           [301; 302]%nat).
  - reflexivity.
  - reflexivity.
  - reflexivity.
  - reflexivity.
  - vm_compute. split; [discriminate|reflexivity].
Defined.

(** No process of the sample family has the PID 9. *)
Lemma pid_lookup_absent_witness :
  let s := set_pid_hash (fun _ => [201; 200]%nat) (family 200) in
  exists s',
    pid_lookup 9 0%nat s = Return None s' /\
    procs s' = procs s /\ threads s' = threads s /\
    pid_hash s' = pid_hash s /\
    locked (the_lock PidHashLock s') = 0.
Proof.
  apply (pid_lookup_absent (H := sample_platform) 9 0%nat
           (set_pid_hash (fun _ => [201; 200]%nat) (family 200))).
  - reflexivity.
  - apply (bool_decide_unpack _). vm_compute. exact I.
Defined.

(** The image with the oversized segment is rejected. *)
Lemma process_load_binary_rejects_witness :
  process_load_binary 101%nat oversized_elf 0%nat (family 200) =
    Return (- EINVAL) (family 200).
Proof.
  apply (process_load_binary_rejects (H := sample_platform) 101%nat
           oversized_elf [note_segment]
           {| p_type := 1; p_offset := 0; p_vaddr := 32768;
              p_filesz := 32; p_memsz := 16 |}
           [text_segment] 0%nat (family 200)).
  right. split; [reflexivity|]. split.
  - apply (bool_decide_unpack _). vm_compute. exact I.
  - split; [reflexivity|]. vm_compute. reflexivity.
Defined.

(** The well-formed image is loaded into the process 101 of the sample
    family. *)
Lemma process_load_binary_loads_witness :
  let s := family 200 in
  let th := 201%nat in
  exists s',
    process_load_binary 101%nat good_elf 0%nat s = Return 0 s' /\
    r0 (tf (the_thread th s')) = 0 /\
    r1 (tf (the_thread th s')) = 0 /\
    r2 (tf (the_thread th s')) = 0 /\
    tf_sp (tf (the_thread th s')) = VIRT_USTACK_TOP /\
    psr (tf (the_thread th s')) = Z.lor PSR_M_USR PSR_F /\
    pc (tf (the_thread th s')) = entry good_elf /\
    (forall x, x <> th -> the_thread x s' = the_thread x s) /\
    procs s' = procs s /\ tasks s' = tasks s.
Proof.
  apply (process_load_binary_loads (H := sample_platform) 101%nat good_elf
           0%nat (family 200) 201%nat).
  - intros v va n prot st. reflexivity.
  - intros v va src n st. vm_compute. discriminate.
  - reflexivity.
  - repeat constructor; intros Hty; vm_compute in Hty; try discriminate.
    all: vm_compute; discriminate.
  - vm_compute. split; discriminate.
  - reflexivity.
Defined.

(** Task 1 of the sample state sleeps on the list at address 9 and is woken
    with a result. *)
Lemma sleep_wakeup_all_round_trip_witness :
  let s := about_to_sleep in
  let t := 1%nat in
  let q := ListAt 9 in
  let l := LockAt 4 in
  exists s1 k,
    sched_sleep (Some q) 50 (Some l) 0%nat s = Switch s1 k /\
    t ∈ the_list q s1 /\
    state (the_task t s1) = TASK_STATE_SLEEPING /\
    forall (fuel : nat) (result : Z) (me2 : cpu_id) (my_task : tid)
           (s2 : Kernel),
      t ∈ the_list q s2 ->
      holding (the_lock SchedLock s2) me2 = true ->
      cpu_task (the_cpu me2 s2) = Some my_task ->
      (forall u, u ∈ the_list q s2 -> no_preempt s2 my_task u) ->
      (length (the_list q s2) < fuel)%nat ->
      exists s3,
        sched_wakeup_all fuel q result me2 s2 = Return tt s3 /\
        the_list q s3 = [] /\
        state (the_task t s3) = TASK_STATE_READY /\
        sleep_result (the_task t s3) = result /\
        forall (me' : cpu_id) (s4 : Kernel),
          sleep_result (the_task t s4) = sleep_result (the_task t s3) ->
          holding (the_lock SchedLock s4) me' = true ->
          locked (the_lock l s4) = 0 ->
          exists s5,
            k me' s4 = Return result s5 /\
            holding (the_lock l s5) me' = true /\
            locked (the_lock SchedLock s5) = 0.
Proof.
  apply (sleep_wakeup_all_round_trip (H := sample_platform) (ListAt 9) 50
           (LockAt 4) 0%nat about_to_sleep 1%nat).
  - discriminate.
  - reflexivity.
  - reflexivity.
  - reflexivity.
Defined.

